(** * Aggressive-flow monitor: window aggregator, filters, signal engine,
      cooldown and configuration store

    The repository ships the monitor twice: [src/unnamed/part_000] (the
    "MVP Enhanced Version", module [Enhanced] below) and [src/index.js]
    (the "STABLE VERSION", module [Stable] below).  Both are complete
    programs with the same class names and different bodies, so every
    class is embedded once per file, inside a module named after the class.

    Numbers.  A JavaScript Number is modelled as a rational ([Q]); the
    embedding covers finite values and exact arithmetic.  Numeric results
    are compared with [==].  [Date.now()] is an explicit argument [now].
    A division whose divisor is zero gives NaN or an infinity in the
    source; the statements below carry the hypotheses that keep every
    divisor they go through non-zero.

    Messages.  A reason or an error message is a constructor that carries
    the values the source interpolates into its text; a notification is
    the record its text is formatted from.

    Objects.  The two configuration stores are plain objects: a lookup
    finds a name of the store or, failing that, a property inherited from
    [Object.prototype] ([Cfg.slot]).  A [Map] is a finite map.

    Errors.  A setter throws an [Error] ([Cfg.Thrown]); a call on a value
    of the wrong type throws a [TypeError] ([Js.Throw]), which the [try]
    block of a stream handler catches. *)

From Stdlib Require Import QArith Qminmax Qabs Qround Lqa Lia List Bool Ascii String.
From stdpp Require Import gmap strings.
Import ListNotations.

Local Open Scope Q_scope.

(** ** JavaScript operators on numbers *)

Module Js.

(** [x < y] *)
Definition ltb (x y : Q) : bool := negb (Qle_bool y x).

(** [x > y] *)
Definition gtb (x y : Q) : bool := ltb y x.

(** [x >= y] *)
Definition geb (x y : Q) : bool := Qle_bool y x.

(** [x === 0] and friends *)
Definition eqb (x y : Q) : bool := Qeq_bool x y.

(** A nullable number used as a condition: [null] and [0] are falsy. *)
Definition truthy (o : option Q) : bool :=
  match o with
  | Some q => negb (Qeq_bool q 0)
  | None => false
  end.

(** A nullable number used in arithmetic: [null] is coerced to [0]. *)
Definition num (o : option Q) : Q :=
  match o with
  | Some q => q
  | None => 0
  end.

(** [Math.max(...xs)] and [Math.min(...xs)] on a list with head [x]. *)
Definition maxOf (x : Q) (xs : list Q) : Q := fold_left Qmax xs x.
Definition minOf (x : Q) (xs : list Q) : Q := fold_left Qmin xs x.

(** [xs.reduce((sum, x) => sum + f(x), 0)] *)
Definition sumBy {A : Type} (f : A -> Q) (xs : list A) : Q :=
  fold_left (fun acc x => acc + f x) xs 0.

(** [xs.length] as a Number *)
Definition len {A : Type} (xs : list A) : Q := inject_Z (Z.of_nat (length xs)).

(** A [TypeError] the runtime raises, by the expression that raised it:
    a call of [x.property] where [x.property] is no function, or a read
    of [x.property] where [x] is [undefined]. *)
Inductive TypeError : Type :=
  | NotAFunction (property : string)
  | UndefinedHasNoProperties (property : string).

(** How a call completes: it returns a value, or it throws. *)
Inductive Completion (A : Type) : Type :=
  | Normal (a : A)
  | Throw (e : TypeError).

Arguments Normal {A} a.
Arguments Throw {A} e.

End Js.

(** ** Inbound trade message

    The decoded [aggTrade] message of one stream: the stream's symbol, the
    trade time [T], price [p], quantity [q] and the maker flag [m]. *)

Record TradeEvent : Type := mkEvent {
  ev_symbol : string;
  ev_T : Q;
  ev_p : Q;
  ev_q : Q;
  ev_m : bool
}.

(** Trade Event invariants of the data model: positive price and quantity. *)
Definition positiveb (e : TradeEvent) : bool :=
  Js.ltb 0 (ev_p e) && Js.ltb 0 (ev_q e).

(** Timestamps that never decrease along a list. *)
Fixpoint nondecreasingb (ts : list Q) : bool :=
  match ts with
  | [] => true
  | t :: rest =>
      match rest with
      | [] => true
      | u :: _ => Qle_bool t u && nondecreasingb rest
      end
  end.

Definition forSymbol (symbol : string) (evs : list TradeEvent) : list TradeEvent :=
  List.filter (fun e => String.eqb (ev_symbol e) symbol) evs.

Definition notional (e : TradeEvent) : Q := ev_p e * ev_q e.

(** The sum the specification names: price times quantity over the events
    of [evs] whose timestamp is at least [latest - windowMs]. *)
Definition windowSum (windowMs latest : Q) (evs : list TradeEvent) : Q :=
  Js.sumBy notional
    (List.filter (fun e => Qle_bool (latest - windowMs) (ev_T e)) evs).

(** The dominant side; the enhanced file spells it ['buy'] / ['sell'], the
    stable file ['BUY'] / ['SELL']. *)
Inductive Side : Type := buy | sell.

(** The four filter objects a signal engine holds. *)
Inductive FilterName : Type :=
  | FAggression | FStopCluster | FTimeBased | FBtcVolatility.

(** ** Shapes shared by the two configuration stores

    [CONFIG.SYMBOL_CONFIGS] has the same fields in both files, and both
    setters take the same command arguments and throw [Error]s. *)

Module Cfg.

Record SymbolConfig : Type := mkSymbolConfig {
  minVolumeUSD : Q;
  minDominance : Q;
  minPriceChange : Q;
  cooldownMinutes : Q;
  enabled : bool
}.

(** The members of [validParams]. *)
Inductive Param : Type :=
  | PMinVolumeUSD | PMinDominance | PMinPriceChange | PCooldownMinutes.

(** [validParams.includes(param)] *)
Definition validParam (param : string) : option Param :=
  if String.eqb param "minVolumeUSD" then Some PMinVolumeUSD
  else if String.eqb param "minDominance" then Some PMinDominance
  else if String.eqb param "minPriceChange" then Some PMinPriceChange
  else if String.eqb param "cooldownMinutes" then Some PCooldownMinutes
  else None.

(** [config[param]] *)
Definition getField (p : Param) (c : SymbolConfig) : Q :=
  match p with
  | PMinVolumeUSD => minVolumeUSD c
  | PMinDominance => minDominance c
  | PMinPriceChange => minPriceChange c
  | PCooldownMinutes => cooldownMinutes c
  end.

(** [config[param] = v] *)
Definition setField (p : Param) (v : Q) (c : SymbolConfig) : SymbolConfig :=
  match p with
  | PMinVolumeUSD =>
      {| minVolumeUSD := v; minDominance := minDominance c;
         minPriceChange := minPriceChange c;
         cooldownMinutes := cooldownMinutes c; enabled := enabled c |}
  | PMinDominance =>
      {| minVolumeUSD := minVolumeUSD c; minDominance := v;
         minPriceChange := minPriceChange c;
         cooldownMinutes := cooldownMinutes c; enabled := enabled c |}
  | PMinPriceChange =>
      {| minVolumeUSD := minVolumeUSD c; minDominance := minDominance c;
         minPriceChange := v;
         cooldownMinutes := cooldownMinutes c; enabled := enabled c |}
  | PCooldownMinutes =>
      {| minVolumeUSD := minVolumeUSD c; minDominance := minDominance c;
         minPriceChange := minPriceChange c;
         cooldownMinutes := v; enabled := enabled c |}
  end.

Definition setEnabled (b : bool) (c : SymbolConfig) : SymbolConfig :=
  {| minVolumeUSD := minVolumeUSD c; minDominance := minDominance c;
     minPriceChange := minPriceChange c;
     cooldownMinutes := cooldownMinutes c; enabled := b |}.

(** A command argument or a stored knob. *)
Inductive JsValue : Type :=
  | VNum (q : Q)
  | VStr (s : string)
  | VBool (b : bool)
  | VArr (xs : list Q).

(** The messages of the thrown [Error]s, by the field each one names. *)
Inductive ConfigError : Type :=
  | SymbolNotFound (symbol : string)
  | InvalidParameter (param : string)
  | InvalidValue (value : JsValue)
  | MustBeNonNegative (param : string)
  | MustBeBetween50And100 (param : string)
  | FilterNotFound (filterName : string).

(** *** Property lookup on a plain object

    Both stores and every filter's configuration object are plain
    objects, so [obj[key]] finds the object's own property or, failing
    that, the property every object inherits from [Object.prototype]
    under that name.  [Object.prototype] is taken as the runtime creates
    it, with the twelve properties below, all of them objects (eleven
    functions and, under [__proto__], [Object.prototype] itself); the
    program adds to it only through the writes [Outside] stands for. *)
Definition inheritedNames : list string :=
  [ "constructor"; "__defineGetter__"; "__defineSetter__"; "hasOwnProperty";
    "__lookupGetter__"; "__lookupSetter__"; "isPrototypeOf";
    "propertyIsEnumerable"; "toString"; "valueOf"; "__proto__";
    "toLocaleString" ]%string.

Definition inheritedName (key : string) : bool :=
  existsb (String.eqb key) inheritedNames.

(** What [obj[key]] finds: the object's own property, a built-in object
    found through the prototype, or nothing ([undefined]). *)
Inductive Slot (A : Type) : Type :=
  | Own (a : A)
  | Inherited
  | Absent.

Arguments Own {A} a.
Arguments Inherited {A}.
Arguments Absent {A}.

(** [obj[key]] *)
Definition slot {A : Type} (own : gmap string A) (key : string) : Slot A :=
  match own !! key with
  | Some a => Own a
  | None => if inheritedName key then Inherited else Absent
  end.

(** The store's own entry, if that is what a lookup found. *)
Definition owned {A : Type} (s : Slot A) : option A :=
  match s with
  | Own a => Some a
  | _ => None
  end.

(** [obj[key] = v] on an object of the store, [v] a number or a boolean:
    the object gets or updates its own property, except under
    [__proto__], whose inherited setter ignores a value that is no
    object. *)
Definition assign {A : Type} (key : string) (v : A) (own : gmap string A)
    : gmap string A :=
  if String.eqb key "__proto__" then own else <[key := v]> own.

(** An assignment [builtin[property] = written], [builtin] the built-in
    object a store lookup found under the inherited name [target]. *)
Record Write : Type := mkWrite {
  target : string;
  property : string;
  written : JsValue
}.

(** How a setter completes.  [Returned]: it returns, the store updated.
    [Thrown]: it throws one of its own [Error]s.  [Outside]: the name it
    was given is found through the prototype only; the existence test
    passes, the remaining checks run as for a store entry, and the
    assignment the setter ends with lands on the built-in object, not on
    the store, which stays as it was.  The built-in object takes the
    assignment and the setter returns as after a store write, unless the
    property is read-only (then the assignment is dropped, with a
    [TypeError] in a class body).  What later lookups find through the
    prototype is not modelled: the embedding covers a run up to its
    first [Outside]. *)
Inductive Outcome (A : Type) : Type :=
  | Returned (a : A)
  | Thrown (e : ConfigError)
  | Outside (w : Write).

Arguments Returned {A} a.
Arguments Thrown {A} e.
Arguments Outside {A} w.

Record Change (A B : Type) : Type := mkChange {
  oldValue : A;
  newValue : B
}.

Arguments mkChange {A B} oldValue newValue.
Arguments oldValue {A B} c.
Arguments newValue {A B} c.

(** *** Fields of a filter's configuration object

    A filter reads its configuration object field by field.  The shipped
    configuration gives [enabled] a boolean, [blockedDays] and
    [blockedHours] an array and every other field a number;
    [setFilterParam] stores a boolean under [enabled] and a number under
    any other name, so a field that held an array can come to hold a
    number.  A reader gives [None] for a value of any other type. *)
Inductive Blocked : Type :=
  | BUndefined
  | BArray (xs : list Q)
  | BNumber (n : Q).

Definition boolField (bag : gmap string JsValue) (name : string)
    : option bool :=
  match bag !! name with
  | Some (VBool b) => Some b
  | _ => None
  end.

Definition numField (bag : gmap string JsValue) (name : string) : option Q :=
  match bag !! name with
  | Some (VNum q) => Some q
  | _ => None
  end.

(** A field that may be [undefined]. *)
Definition optNumField (bag : gmap string JsValue) (name : string)
    : option (option Q) :=
  match bag !! name with
  | None => Some None
  | Some (VNum q) => Some (Some q)
  | Some _ => None
  end.

Definition blockedField (bag : gmap string JsValue) (name : string)
    : option Blocked :=
  match bag !! name with
  | None => Some BUndefined
  | Some (VArr xs) => Some (BArray xs)
  | Some (VNum n) => Some (BNumber n)
  | Some _ => None
  end.

End Cfg.

(** * The enhanced variant ([src/unnamed/part_000]) *)

Module Enhanced.

(** ** [class SymbolState] *)

Module SymbolState.

Record Trade : Type := mkTrade {
  timestamp : Q;
  price : Q;
  buyVol : Q;
  sellVol : Q
}.

Record t : Type := mk {
  windowMs : Q;
  trades : list Trade;
  firstPrice : option Q;
  lastPrice : option Q;
  highPrice : option Q;
  lowPrice : option Q
}.

Definition new (windowSeconds : Q) : t :=
  {| windowMs := windowSeconds * 1000; trades := [];
     firstPrice := None; lastPrice := None;
     highPrice := None; lowPrice := None |}.

Definition cleanup (currentTime : Q) (st : t) : t :=
  let cutoff := currentTime - windowMs st in
  let kept := List.filter (fun tr => Js.geb (timestamp tr) cutoff) (trades st) in
  match kept with
  | tr0 :: rest =>
      {| windowMs := windowMs st; trades := kept;
         firstPrice := Some (price tr0);
         lastPrice := lastPrice st;
         highPrice := Some (Js.maxOf (price tr0) (map price rest));
         lowPrice := Some (Js.minOf (price tr0) (map price rest)) |}
  | [] =>
      {| windowMs := windowMs st; trades := kept;
         firstPrice := None;
         lastPrice := lastPrice st;
         highPrice := None; lowPrice := None |}
  end.

Definition addTrade (ts p quantity : Q) (isBuyerMaker : bool) (st : t) : t :=
  let volume := p * quantity in
  let trade :=
    {| timestamp := ts; price := p;
       buyVol := if isBuyerMaker then 0 else volume;
       sellVol := if isBuyerMaker then volume else 0 |} in
  let pushed := trades st ++ [trade] in
  let st1 :=
    match firstPrice st with
    | None =>
        {| windowMs := windowMs st; trades := pushed;
           firstPrice := Some p; lastPrice := Some p;
           highPrice := Some p; lowPrice := Some p |}
    | Some _ =>
        {| windowMs := windowMs st; trades := pushed;
           firstPrice := firstPrice st; lastPrice := Some p;
           highPrice := Some (Qmax (Js.num (highPrice st)) p);
           lowPrice := Some (Qmin (Js.num (lowPrice st)) p) |}
    end in
  cleanup ts st1.

Record Stats : Type := mkStats {
  buyVolume : Q;
  sellVolume : Q;
  totalVolume : Q;
  dominantSide : Side;
  dominance : Q;
  priceChange : Q;
  priceRange : Q;
  duration : Q;
  tradeCount : nat;
  stLastPrice : option Q;
  stHighPrice : option Q;
  stLowPrice : option Q
}.

Definition getStats (st : t) : option Stats :=
  match trades st with
  | [] => None
  | tr0 :: _ =>
      let buyVolume := Js.sumBy buyVol (trades st) in
      let sellVolume := Js.sumBy sellVol (trades st) in
      let totalVolume := buyVolume + sellVolume in
      if Js.eqb totalVolume 0 then None
      else
        let buyDominance := (buyVolume / totalVolume) * 100 in
        let sellDominance := (sellVolume / totalVolume) * 100 in
        Some
          {| buyVolume := buyVolume;
             sellVolume := sellVolume;
             totalVolume := totalVolume;
             dominantSide := if Js.gtb buyVolume sellVolume then buy else sell;
             dominance := Qmax buyDominance sellDominance;
             priceChange :=
               if Js.truthy (firstPrice st)
               then ((Js.num (lastPrice st) - Js.num (firstPrice st))
                     / Js.num (firstPrice st)) * 100
               else 0;
             priceRange :=
               if Js.truthy (highPrice st) && Js.truthy (lowPrice st)
               then Js.num (highPrice st) - Js.num (lowPrice st)
               else 0;
             duration :=
               (timestamp (List.last (trades st) tr0) - timestamp tr0) / 1000;
             tradeCount := length (trades st);
             stLastPrice := lastPrice st;
             stHighPrice := highPrice st;
             stLowPrice := lowPrice st |}
  end.

Definition reset (st : t) : t :=
  {| windowMs := windowMs st; trades := [];
     firstPrice := None; lastPrice := None;
     highPrice := None; lowPrice := None |}.

End SymbolState.

(** ** [class TradeAggregator] *)

Module TradeAggregator.

Record t : Type := mk {
  windowSeconds : Q;
  states : gmap string SymbolState.t
}.

Definition new (windowSeconds : Q) : t :=
  {| windowSeconds := windowSeconds; states := ∅ |}.

Definition addTrade (symbol : string) (ts p quantity : Q)
    (isBuyerMaker : bool) (agg : t) : t :=
  let st :=
    match states agg !! symbol with
    | Some st => st
    | None => SymbolState.new (windowSeconds agg)
    end in
  {| windowSeconds := windowSeconds agg;
     states := <[symbol := SymbolState.addTrade ts p quantity isBuyerMaker st]>
                 (states agg) |}.

Definition getStats (symbol : string) (agg : t) : option SymbolState.Stats :=
  match states agg !! symbol with
  | Some st => SymbolState.getStats st
  | None => None
  end.

Definition resetSymbol (symbol : string) (agg : t) : t :=
  match states agg !! symbol with
  | Some st =>
      {| windowSeconds := windowSeconds agg;
         states := <[symbol := SymbolState.reset st]> (states agg) |}
  | None => agg
  end.

(** The trades a stream handler forwards, in arrival order. *)
Definition feed (evs : list TradeEvent) (agg : t) : t :=
  fold_left
    (fun a e => addTrade (ev_symbol e) (ev_T e) (ev_p e) (ev_q e) (ev_m e) a)
    evs agg.

End TradeAggregator.

(** ** [class RuntimeConfig] *)

Module RuntimeConfig.

Import Cfg.

Record t : Type := mk {
  symbolConfigs : gmap string SymbolConfig;
  advancedFilters : gmap string (gmap string JsValue)
}.

(** [this.symbolConfigs[symbol] || null]: a stored configuration and a
    built-in object are both truthy. *)
Definition get (symbol : string) (rc : t) : Slot SymbolConfig :=
  slot (symbolConfigs rc) symbol.

(** [this.advancedFilters[filterName] || null] *)
Definition getFilter (filterName : string) (rc : t)
    : Slot (gmap string JsValue) :=
  slot (advancedFilters rc) filterName.

Section Setters.

(** The built-in [parseFloat]; [None] stands for [NaN]. *)
Variable parseFloat : JsValue -> option Q.

Definition set (symbol param : string) (value : JsValue) (rc : t)
    : t * Outcome (Change Q Q) :=
  match slot (symbolConfigs rc) symbol with
  | Absent => (rc, Thrown (SymbolNotFound symbol))
  | found =>
      match validParam param with
      | None => (rc, Thrown (InvalidParameter param))
      | Some p =>
          match parseFloat value with
          | None => (rc, Thrown (InvalidValue value))
          | Some numValue =>
              if String.eqb param "minVolumeUSD" && Js.ltb numValue 0
              then (rc, Thrown (MustBeNonNegative "minVolumeUSD"))
              else if String.eqb param "minDominance"
                      && (Js.ltb numValue 50 || Js.gtb numValue 100)
              then (rc, Thrown (MustBeBetween50And100 "minDominance"))
              else if String.eqb param "minPriceChange" && Js.ltb numValue 0
              then (rc, Thrown (MustBeNonNegative "minPriceChange"))
              else if String.eqb param "cooldownMinutes" && Js.ltb numValue 0
              then (rc, Thrown (MustBeNonNegative "cooldownMinutes"))
              else
                match found with
                | Own c =>
                    let oldValue := getField p c in
                    ({| symbolConfigs :=
                          <[symbol := setField p numValue c]>
                            (symbolConfigs rc);
                        advancedFilters := advancedFilters rc |},
                     Returned (mkChange oldValue numValue))
                | _ => (rc, Outside (mkWrite symbol param (VNum numValue)))
                end
          end
      end
  end.

Definition enable (symbol : string) (rc : t) : t * Outcome unit :=
  match slot (symbolConfigs rc) symbol with
  | Absent => (rc, Thrown (SymbolNotFound symbol))
  | Own c =>
      ({| symbolConfigs := <[symbol := setEnabled true c]> (symbolConfigs rc);
          advancedFilters := advancedFilters rc |},
       Returned tt)
  | Inherited => (rc, Outside (mkWrite symbol "enabled" (VBool true)))
  end.

Definition disable (symbol : string) (rc : t) : t * Outcome unit :=
  match slot (symbolConfigs rc) symbol with
  | Absent => (rc, Thrown (SymbolNotFound symbol))
  | Own c =>
      ({| symbolConfigs := <[symbol := setEnabled false c]> (symbolConfigs rc);
          advancedFilters := advancedFilters rc |},
       Returned tt)
  | Inherited => (rc, Outside (mkWrite symbol "enabled" (VBool false)))
  end.

(** [value === 'true' || value === true] *)
Definition isTrue (value : JsValue) : bool :=
  match value with
  | VStr s => String.eqb s "true"
  | VBool b => b
  | _ => false
  end.

(** [oldValue] is what [config[param]] found before the assignment. *)
Definition setFilterParam (filterName param : string) (value : JsValue)
    (rc : t) : t * Outcome (Change (Slot JsValue) JsValue) :=
  match slot (advancedFilters rc) filterName with
  | Absent => (rc, Thrown (FilterNotFound filterName))
  | found =>
      if String.eqb param "enabled" then
        let boolValue := isTrue value in
        match found with
        | Own bag =>
            ({| symbolConfigs := symbolConfigs rc;
                advancedFilters :=
                  <[filterName := <["enabled"%string := VBool boolValue]> bag]>
                    (advancedFilters rc) |},
             Returned
               (mkChange (Own (VBool (negb boolValue))) (VBool boolValue)))
        | _ => (rc, Outside (mkWrite filterName "enabled" (VBool boolValue)))
        end
      else
        match parseFloat value with
        | None => (rc, Thrown (InvalidValue value))
        | Some numValue =>
            match found with
            | Own bag =>
                let oldValue := slot bag param in
                ({| symbolConfigs := symbolConfigs rc;
                    advancedFilters :=
                      <[filterName := assign param (VNum numValue) bag]>
                        (advancedFilters rc) |},
                 Returned (mkChange oldValue (VNum numValue)))
            | _ => (rc, Outside (mkWrite filterName param (VNum numValue)))
            end
        end
  end.

End Setters.

End RuntimeConfig.

(** ** [class AggressionDecayFilter]

    Each filter reads the object [runtimeConfig.getFilter(name)] field by
    field; the fields it reads are the record [Config] of its module, and
    [ofBag] reads the record off the stored object. *)

Module AggressionDecayFilter.

Record Config : Type := mkConfig {
  enabled : bool;
  lookbackMinutes : Q;
  decayThreshold : Q;
  minCandles : Q
}.

Definition ofBag (bag : gmap string Cfg.JsValue) : option Config :=
  e ← Cfg.boolField bag "enabled";
  l ← Cfg.numField bag "lookbackMinutes";
  d ← Cfg.numField bag "decayThreshold";
  m ← Cfg.numField bag "minCandles";
  Some (mkConfig e l d m).

Record Entry : Type := mkEntry {
  timestamp : Q;
  normalizedAggression : Q
}.

(** [aggressionHistory] *)
Definition t : Type := gmap string (list Entry).

Definition new : t := ∅.

Inductive Reason : Type :=
  | FilterDisabled
  | InsufficientHistory
  | NoVolume
  | Decaying (ratio : Q)
  | StillHigh (ratio threshold : Q).

Record Result : Type := mkResult {
  allowed : bool;
  reason : Reason;
  ratio : option Q
}.

(** [priceRange > 0 ? dominantVolume / priceRange : dominantVolume] *)
Definition normalize (dominantVolume priceRange : Q) : Q :=
  if Js.gtb priceRange 0 then dominantVolume / priceRange else dominantVolume.

Definition recordAggression (config : Config) (symbol : string)
    (ts buyVolume sellVolume priceRange : Q) (h : t) : t :=
  let h1 :=
    match h !! symbol with
    | Some _ => h
    | None => <[symbol := []]> h
    end in
  let totalVolume := buyVolume + sellVolume in
  if Js.eqb totalVolume 0 then h1
  else
    let dominantVolume := Qmax buyVolume sellVolume in
    let normalizedAggression := normalize dominantVolume priceRange in
    let history :=
      match h1 !! symbol with
      | Some l => l
      | None => []
      end ++ [mkEntry ts normalizedAggression] in
    let cutoff := ts - (lookbackMinutes config * 60 * 1000) in
    <[symbol := List.filter (fun e => Js.geb (timestamp e) cutoff) history]> h1.

Definition average (history : list Entry) : Q :=
  Js.sumBy normalizedAggression history / Js.len history.

Definition shouldAllowEntry (config : Config) (symbol : string)
    (currentBuyVol currentSellVol currentPriceRange : Q) (h : t) : Result :=
  if negb (enabled config) then mkResult true FilterDisabled None
  else
    match h !! symbol with
    | None => mkResult true InsufficientHistory None
    | Some history =>
        if Js.ltb (Js.len history) (minCandles config)
        then mkResult true InsufficientHistory None
        else
          let totalVolume := currentBuyVol + currentSellVol in
          if Js.eqb totalVolume 0 then mkResult false NoVolume None
          else
            let currentDominantVol := Qmax currentBuyVol currentSellVol in
            let currentAggression :=
              normalize currentDominantVol currentPriceRange in
            let avgHistoricalAggression := average history in
            let ratio :=
              if Js.gtb avgHistoricalAggression 0
              then currentAggression / avgHistoricalAggression
              else 1 in
            let allowed := Js.ltb ratio (decayThreshold config) in
            mkResult allowed
              (if allowed then Decaying ratio
               else StillHigh ratio (decayThreshold config))
              (Some ratio)
    end.

Definition reset (symbol : string) (h : t) : t := delete symbol h.

End AggressionDecayFilter.

(** ** [class StopClusterProtection] *)

Module StopClusterProtection.

Record Config : Type := mkConfig {
  enabled : bool;
  maxStops : Q;
  timeWindowMinutes : Q;
  pauseMinutes : Q
}.

Definition ofBag (bag : gmap string Cfg.JsValue) : option Config :=
  e ← Cfg.boolField bag "enabled";
  m ← Cfg.numField bag "maxStops";
  t ← Cfg.numField bag "timeWindowMinutes";
  p ← Cfg.numField bag "pauseMinutes";
  Some (mkConfig e m t p).

Record StopEvent : Type := mkStopEvent {
  timestamp : Q;
  symbol : string
}.

Record t : Type := mk {
  stopLossEvents : list StopEvent;
  pausedUntil : Q
}.

Definition new : t := {| stopLossEvents := []; pausedUntil := 0 |}.

Inductive Reason : Type :=
  | ProtectionDisabled
  | PauseActive (remainingMinutes : Z)
  | NoStopCluster.

Record Result : Type := mkResult {
  allowed : bool;
  reason : Reason
}.

Definition recordStopLoss (config : Config) (now : Q) (sym : string) (s : t)
    : t :=
  if negb (enabled config) then s
  else
    let pushed := stopLossEvents s ++ [mkStopEvent now sym] in
    let cutoff := now - (timeWindowMinutes config * 60 * 1000) in
    let kept := List.filter (fun e => Js.geb (timestamp e) cutoff) pushed in
    if Js.geb (Js.len kept) (maxStops config)
    then {| stopLossEvents := kept;
            pausedUntil := now + (pauseMinutes config * 60 * 1000) |}
    else {| stopLossEvents := kept; pausedUntil := pausedUntil s |}.

Definition isTradingAllowed (config : Config) (now : Q) (s : t) : Result :=
  if negb (enabled config) then mkResult true ProtectionDisabled
  else if Js.ltb now (pausedUntil s)
  then mkResult false (PauseActive (Qceiling ((pausedUntil s - now) / 60000)))
  else mkResult true NoStopCluster.

End StopClusterProtection.

(** ** [class TimeBasedFilter] *)

Module TimeBasedFilter.

(** A bound that may be [undefined] is an [option]. *)
Record Config : Type := mkConfig {
  enabled : bool;
  blockedDays : Cfg.Blocked;
  blockedHours : Cfg.Blocked;
  allowedHoursStart : option Q;
  allowedHoursEnd : option Q
}.

Definition ofBag (bag : gmap string Cfg.JsValue) : option Config :=
  e ← Cfg.boolField bag "enabled";
  d ← Cfg.blockedField bag "blockedDays";
  h ← Cfg.blockedField bag "blockedHours";
  a ← Cfg.optNumField bag "allowedHoursStart";
  b ← Cfg.optNumField bag "allowedHoursEnd";
  Some (mkConfig e d h a b).

Inductive Reason : Type :=
  | FilterDisabled
  | BlockedDay (dayOfWeek : Q)
  | BlockedHour (hourUTC : Q)
  | OutsideHours (startHour endHour : Q)
  | TradingAllowed (hourUTC : Q).

Record Result : Type := mkResult {
  allowed : bool;
  reason : Reason
}.

(** [xs && xs.includes(x)]: [undefined] and the number [0] are falsy and
    end the conjunction; any other number has no [includes] to call. *)
Definition includes (xs : Cfg.Blocked) (x : Q) : Js.Completion bool :=
  match xs with
  | Cfg.BUndefined => Js.Normal false
  | Cfg.BArray l => Js.Normal (existsb (Js.eqb x) l)
  | Cfg.BNumber n =>
      if Js.eqb n 0 then Js.Normal false
      else Js.Throw (Js.NotAFunction "includes")
  end.

(** [dayOfWeek] and [hourUTC] are [getUTCDay()] and [getUTCHours()] of the
    wall clock. *)
Definition isTradingAllowed (config : Config) (dayOfWeek hourUTC : Q)
    : Js.Completion Result :=
  if negb (enabled config) then Js.Normal (mkResult true FilterDisabled)
  else
    match includes (blockedDays config) dayOfWeek with
    | Js.Throw e => Js.Throw e
    | Js.Normal true => Js.Normal (mkResult false (BlockedDay dayOfWeek))
    | Js.Normal false =>
        match includes (blockedHours config) hourUTC with
        | Js.Throw e => Js.Throw e
        | Js.Normal true => Js.Normal (mkResult false (BlockedHour hourUTC))
        | Js.Normal false =>
            match allowedHoursStart config, allowedHoursEnd config with
            | Some startHour, Some endHour =>
                if Js.ltb hourUTC startHour || Js.geb hourUTC endHour
                then Js.Normal (mkResult false (OutsideHours startHour endHour))
                else Js.Normal (mkResult true (TradingAllowed hourUTC))
            | _, _ => Js.Normal (mkResult true (TradingAllowed hourUTC))
            end
        end
    end.

End TimeBasedFilter.

(** ** [class BTCVolatilityFilter]

    One poll reads the clock three times in the same synchronous stretch
    (after the price request resolves); the three reads are the one [now].
    [response] is the price of the ticker request, [None] when the request
    is rejected.  The second component of a result lists the messages
    handed to [telegram.sendMessage], one per call. *)

Module BTCVolatilityFilter.

Record Config : Type := mkConfig {
  enabled : bool;
  checkIntervalMinutes : Q;
  timeframeMinutes : Q;
  thresholdPercent : Q;
  pauseMinutes : Q
}.

Definition ofBag (bag : gmap string Cfg.JsValue) : option Config :=
  e ← Cfg.boolField bag "enabled";
  c ← Cfg.numField bag "checkIntervalMinutes";
  f ← Cfg.numField bag "timeframeMinutes";
  t ← Cfg.numField bag "thresholdPercent";
  p ← Cfg.numField bag "pauseMinutes";
  Some (mkConfig e c f t p).

Record Sample : Type := mkSample {
  timestamp : Q;
  price : Q
}.

Inductive Direction : Type := UP | DOWN.

Record BtcAlert : Type := mkBtcAlert {
  alertTimestamp : Q;
  alertPrice : Q;
  changePercent : Q;
  absChangePercent : Q;
  direction : Direction;
  alertTimeframeMinutes : Q;
  alertPauseMinutes : Q
}.

Record t : Type := mk {
  btcPriceHistory : list Sample;
  pausedUntil : Q;
  lastBTCPrice : option Q;
  lastAlertTime : Q;
  btcAlerts : list BtcAlert
}.

Definition new : t :=
  {| btcPriceHistory := []; pausedUntil := 0; lastBTCPrice := None;
     lastAlertTime := 0; btcAlerts := [] |}.

Inductive Reason : Type :=
  | FilterDisabled
  | VolatilityPause (remainingMinutes : Z)
  | VolatilityNormal.

Record Result : Type := mkResult {
  allowed : bool;
  reason : Reason
}.

Definition generateBTCAlert (config : Config)
    (now currentPrice priceChange absChange : Q) (s : t) : t * list BtcAlert :=
  let btcAlert :=
    {| alertTimestamp := now;
       alertPrice := currentPrice;
       changePercent := priceChange;
       absChangePercent := absChange;
       direction := if Js.gtb priceChange 0 then UP else DOWN;
       alertTimeframeMinutes := timeframeMinutes config;
       alertPauseMinutes := pauseMinutes config |} in
  ({| btcPriceHistory := btcPriceHistory s;
      pausedUntil := now + (pauseMinutes config * 60 * 1000);
      lastBTCPrice := lastBTCPrice s;
      lastAlertTime := now;
      btcAlerts := btcAlerts s ++ [btcAlert] |},
   [btcAlert]).

Definition checkBTC (config : Config) (now : Q) (response : option Q) (s : t)
    : t * list BtcAlert :=
  if negb (enabled config) then (s, [])
  else
    match response with
    | None => (s, [])
    | Some currentPrice =>
        let pushed := btcPriceHistory s ++ [mkSample now currentPrice] in
        let cutoff := now - (timeframeMinutes config * 60 * 1000) in
        let kept := List.filter (fun h => Js.geb (timestamp h) cutoff) pushed in
        let s1 :=
          {| btcPriceHistory := kept;
             pausedUntil := pausedUntil s;
             lastBTCPrice := Some currentPrice;
             lastAlertTime := lastAlertTime s;
             btcAlerts := btcAlerts s |} in
        match kept with
        | oldest :: _ :: _ =>
            let oldestPrice := price oldest in
            let priceChange :=
              ((currentPrice - oldestPrice) / oldestPrice) * 100 in
            let absChange := Qabs priceChange in
            if Js.geb absChange (thresholdPercent config) then
              if Js.geb now (pausedUntil s1)
              then generateBTCAlert config now currentPrice priceChange
                     absChange s1
              else (s1, [])
            else (s1, [])
        | _ => (s1, [])
        end
    end.

Definition isTradingAllowed (config : Config) (now : Q) (s : t) : Result :=
  if negb (enabled config) then mkResult true FilterDisabled
  else if Js.ltb now (pausedUntil s)
  then mkResult false
         (VolatilityPause (Qceiling ((pausedUntil s - now) / 60000)))
  else mkResult true VolatilityNormal.

(** A poll loop: the polls of [polls] in order, each a clock reading and
    the response of its request; the messages sent are collected. *)
Fixpoint run (config : Config) (polls : list (Q * option Q)) (s : t)
    : t * list BtcAlert :=
  match polls with
  | [] => (s, [])
  | (now, response) :: rest =>
      let '(s1, sent1) := checkBTC config now response s in
      let '(s2, sent2) := run config rest s1 in
      (s2, sent1 ++ sent2)
  end.

End BTCVolatilityFilter.

(** ** [class SignalEngine]

    [World] gathers what [shouldAlert] reads: the configuration store, the
    configuration object of each filter as the filter reads it off the
    store ([reads]), the three filter objects and the wall clock.
    [consulted] lists the filter objects whose method was called, in call
    order; the [details] the source attaches for its log are the results
    of exactly those calls.  A call of [shouldAlert] either returns its
    decision ([Decides]) or is ended by the [TypeError] of a filter
    ([Throws], with the filters called up to and including that one). *)

Module SignalEngine.

Inductive Reason : Type :=
  | NoStats
  | SymbolDisabled
  | VolumeTooLow (totalVolume minVolumeUSD : Q)
  | DominanceTooLow (dominance minDominance : Q)
  | PriceChangeTooSmall (absPriceChange minPriceChange : Q)
  | BuyDominanceButPriceDown
  | SellDominanceButPriceUp
  | AggressionSays (r : AggressionDecayFilter.Reason)
  | StopClusterSays (r : StopClusterProtection.Reason)
  | TimeSays (r : TimeBasedFilter.Reason)
  | BtcSays (r : BTCVolatilityFilter.Reason)
  | AllFiltersPassed.

Record Decision : Type := mkDecision {
  allow : bool;
  reason : Reason
}.

Record Evaluation : Type := mkEvaluation {
  consulted : list FilterName;
  decision : Decision
}.

Record World : Type := mkWorld {
  runtimeConfig : RuntimeConfig.t;
  aggressionConfig : AggressionDecayFilter.Config;
  stopConfig : StopClusterProtection.Config;
  timeConfig : TimeBasedFilter.Config;
  btcConfig : BTCVolatilityFilter.Config;
  aggressionFilter : AggressionDecayFilter.t;
  stopClusterFilter : StopClusterProtection.t;
  btcFilter : BTCVolatilityFilter.t;
  now : Q;
  dayOfWeek : Q;
  hourUTC : Q
}.

(** The configuration objects of [w] are the ones the four filters read
    off [rc]: each name is the store's own and every field has its type. *)
Definition reads (rc : RuntimeConfig.t) (w : World) : Prop :=
  runtimeConfig w = rc
  /\ Cfg.owned (RuntimeConfig.getFilter "aggressionDecay" rc)
       ≫= AggressionDecayFilter.ofBag = Some (aggressionConfig w)
  /\ Cfg.owned (RuntimeConfig.getFilter "stopCluster" rc)
       ≫= StopClusterProtection.ofBag = Some (stopConfig w)
  /\ Cfg.owned (RuntimeConfig.getFilter "timeBased" rc)
       ≫= TimeBasedFilter.ofBag = Some (timeConfig w)
  /\ Cfg.owned (RuntimeConfig.getFilter "btcVolatility" rc)
       ≫= BTCVolatilityFilter.ofBag = Some (btcConfig w).

(** The world a store, three filter objects and a clock reading make;
    [None] when a configuration object is missing or a field has a type
    the readers do not cover. *)
Definition ofStore (rc : RuntimeConfig.t) (h : AggressionDecayFilter.t)
    (s : StopClusterProtection.t) (b : BTCVolatilityFilter.t)
    (now dayOfWeek hourUTC : Q) : option World :=
  ac ← Cfg.owned (RuntimeConfig.getFilter "aggressionDecay" rc)
         ≫= AggressionDecayFilter.ofBag;
  sc ← Cfg.owned (RuntimeConfig.getFilter "stopCluster" rc)
         ≫= StopClusterProtection.ofBag;
  tc ← Cfg.owned (RuntimeConfig.getFilter "timeBased" rc)
         ≫= TimeBasedFilter.ofBag;
  bc ← Cfg.owned (RuntimeConfig.getFilter "btcVolatility" rc)
         ≫= BTCVolatilityFilter.ofBag;
  Some (mkWorld rc ac sc tc bc h s b now dayOfWeek hourUTC).

Inductive Run : Type :=
  | Decides (ev : Evaluation)
  | Throws (consulted : list FilterName) (e : Js.TypeError).

Definition isBuy (s : Side) : bool :=
  match s with buy => true | sell => false end.

(** A built-in object found under an inherited name has no [enabled]:
    the symbol counts as disabled. *)
Definition shouldAlert (w : World) (symbol : string)
    (stats : option SymbolState.Stats) : Run :=
  match stats with
  | None => Decides (mkEvaluation [] (mkDecision false NoStats))
  | Some stats =>
  match RuntimeConfig.get symbol (runtimeConfig w) with
  | Cfg.Absent | Cfg.Inherited =>
      Decides (mkEvaluation [] (mkDecision false SymbolDisabled))
  | Cfg.Own config =>
  if negb (Cfg.enabled config)
  then Decides (mkEvaluation [] (mkDecision false SymbolDisabled))
  else if Js.ltb (SymbolState.totalVolume stats)
                 (Cfg.minVolumeUSD config)
  then Decides
         (mkEvaluation []
            (mkDecision false
               (VolumeTooLow (SymbolState.totalVolume stats)
                  (Cfg.minVolumeUSD config))))
  else if Js.ltb (SymbolState.dominance stats)
                 (Cfg.minDominance config)
  then Decides
         (mkEvaluation []
            (mkDecision false
               (DominanceTooLow (SymbolState.dominance stats)
                  (Cfg.minDominance config))))
  else if Js.ltb (Qabs (SymbolState.priceChange stats))
                 (Cfg.minPriceChange config)
  then Decides
         (mkEvaluation []
            (mkDecision false
               (PriceChangeTooSmall (Qabs (SymbolState.priceChange stats))
                  (Cfg.minPriceChange config))))
  else if isBuy (SymbolState.dominantSide stats)
          && Js.ltb (SymbolState.priceChange stats) 0
  then Decides (mkEvaluation [] (mkDecision false BuyDominanceButPriceDown))
  else if negb (isBuy (SymbolState.dominantSide stats))
          && Js.gtb (SymbolState.priceChange stats) 0
  then Decides (mkEvaluation [] (mkDecision false SellDominanceButPriceUp))
  else
  let aggressionCheck :=
    AggressionDecayFilter.shouldAllowEntry (aggressionConfig w) symbol
      (SymbolState.buyVolume stats) (SymbolState.sellVolume stats)
      (SymbolState.priceRange stats) (aggressionFilter w) in
  if negb (AggressionDecayFilter.allowed aggressionCheck)
  then Decides
         (mkEvaluation [FAggression]
            (mkDecision false
               (AggressionSays (AggressionDecayFilter.reason aggressionCheck))))
  else
  let stopCheck :=
    StopClusterProtection.isTradingAllowed (stopConfig w) (now w)
      (stopClusterFilter w) in
  if negb (StopClusterProtection.allowed stopCheck)
  then Decides
         (mkEvaluation [FAggression; FStopCluster]
            (mkDecision false
               (StopClusterSays (StopClusterProtection.reason stopCheck))))
  else
  match TimeBasedFilter.isTradingAllowed (timeConfig w) (dayOfWeek w)
          (hourUTC w) with
  | Js.Throw e => Throws [FAggression; FStopCluster; FTimeBased] e
  | Js.Normal timeCheck =>
  if negb (TimeBasedFilter.allowed timeCheck)
  then Decides
         (mkEvaluation [FAggression; FStopCluster; FTimeBased]
            (mkDecision false (TimeSays (TimeBasedFilter.reason timeCheck))))
  else
  let btcCheck :=
    BTCVolatilityFilter.isTradingAllowed (btcConfig w) (now w) (btcFilter w) in
  if negb (BTCVolatilityFilter.allowed btcCheck)
  then Decides
         (mkEvaluation
            [FAggression; FStopCluster; FTimeBased; FBtcVolatility]
            (mkDecision false (BtcSays (BTCVolatilityFilter.reason btcCheck))))
  else Decides
         (mkEvaluation
            [FAggression; FStopCluster; FTimeBased; FBtcVolatility]
            (mkDecision true AllFiltersPassed))
  end
  end
  end.

(** The object [interpretSignal] returns; its [type], [label], [emoji],
    [direction] and [description] are constants of each case. *)
Inductive Interpretation : Type :=
  | SHORT_SQUEEZE
  | LONG_LIQUIDATION.

Definition interpretSignal (stats : SymbolState.Stats) : Interpretation :=
  if isBuy (SymbolState.dominantSide stats) then SHORT_SQUEEZE
  else LONG_LIQUIDATION.

End SignalEngine.

(** ** [class CooldownManager] *)

Module CooldownManager.

(** [lastAlerts] *)
Definition t : Type := gmap string Q.

Definition new : t := ∅.

Definition sideName (s : Side) : string :=
  match s with buy => "buy" | sell => "sell" end.

(** The template [`${symbol}_${side}`]. *)
Definition key (symbol : string) (s : Side) : string :=
  (symbol +:+ "_" +:+ sideName s)%string.

(** A built-in object found under an inherited name has no
    [cooldownMinutes]: [cooldownMs] is [NaN], and no comparison with
    [NaN] holds. *)
Definition canAlert (rc : RuntimeConfig.t) (now : Q) (symbol : string)
    (stats : SymbolState.Stats) (cm : t) : bool :=
  match RuntimeConfig.get symbol rc with
  | Cfg.Absent => false
  | Cfg.Inherited =>
      match cm !! key symbol (SymbolState.dominantSide stats) with
      | None => true
      | Some lastAlert => Js.eqb lastAlert 0
      end
  | Cfg.Own config =>
      match cm !! key symbol (SymbolState.dominantSide stats) with
      | None => true
      | Some lastAlert =>
          if Js.eqb lastAlert 0 then true
          else
            let cooldownMs := Cfg.cooldownMinutes config * 60 * 1000 in
            let elapsed := now - lastAlert in
            Js.geb elapsed cooldownMs
      end
  end.

Definition recordAlert (now : Q) (symbol : string)
    (stats : SymbolState.Stats) (cm : t) : t :=
  <[key symbol (SymbolState.dominantSide stats) := now]> cm.

(** The seconds returned; [None] stands for [NaN], the result for a
    built-in object found under an inherited name. *)
Definition getRemainingCooldown (rc : RuntimeConfig.t) (now : Q)
    (symbol : string) (side : Side) (cm : t) : option Z :=
  match RuntimeConfig.get symbol rc with
  | Cfg.Absent => Some 0%Z
  | Cfg.Inherited =>
      match cm !! key symbol side with
      | None => Some 0%Z
      | Some lastAlert => if Js.eqb lastAlert 0 then Some 0%Z else None
      end
  | Cfg.Own config =>
      match cm !! key symbol side with
      | None => Some 0%Z
      | Some lastAlert =>
          if Js.eqb lastAlert 0 then Some 0%Z
          else
            let cooldownMs := Cfg.cooldownMinutes config * 60 * 1000 in
            let elapsed := now - lastAlert in
            let remaining := Qmax 0 (cooldownMs - elapsed) in
            Some (Qceiling (remaining / 1000))
      end
  end.

End CooldownManager.

(** ** [class AlertManager]

    [sendAlert] runs to its [setTimeout] call; the timer it sets is the
    third component of its result, and [fire] is the timer's callback.
    The aggression history is the object the alert manager shares with
    the signal engine. *)

Module AlertManager.

Record Timer : Type := mkTimer {
  timerKey : string;
  delay : Q;
  timerSymbol : string;
  timerStats : SymbolState.Stats;
  timerInterpretation : SignalEngine.Interpretation
}.

Record t : Type := mk {
  alertCount : nat;
  pendingAlerts : gset string
}.

Definition new : t := {| alertCount := 0%nat; pendingAlerts := ∅ |}.

(** [Math.ceil(now / 60000) * 60000] *)
Definition nextMinute (now : Q) : Q :=
  inject_Z (Qceiling (now / 60000)) * 60000.

Definition sendAlert (config : AggressionDecayFilter.Config) (now : Q)
    (symbol : string) (stats : SymbolState.Stats)
    (interpretation : SignalEngine.Interpretation)
    (h : AggressionDecayFilter.t) (am : t)
    : t * AggressionDecayFilter.t * list Timer :=
  let key := CooldownManager.key symbol (SymbolState.dominantSide stats) in
  if bool_decide (key ∈ pendingAlerts am) then (am, h, [])
  else
    let h1 :=
      AggressionDecayFilter.recordAggression config symbol now
        (SymbolState.buyVolume stats) (SymbolState.sellVolume stats)
        (SymbolState.priceRange stats) h in
    let delay := nextMinute now - now in
    ({| alertCount := alertCount am;
        pendingAlerts := {[ key ]} ∪ pendingAlerts am |},
     h1,
     [mkTimer key delay symbol stats interpretation]).

(** The callback of a timer; [delivered] tells whether
    [telegram.sendMessage] resolved. *)
Definition fire (delivered : bool) (timer : Timer) (am : t) : t :=
  {| alertCount := if delivered then S (alertCount am) else alertCount am;
     pendingAlerts := pendingAlerts am ∖ {[ timerKey timer ]} |}.

End AlertManager.

(** ** [class MultiWebSocketManager]

    The state gathers the objects [handleMessage] writes: the trade
    aggregator, the cooldown manager, the alert manager, the aggression
    history the alert manager shares with the signal engine, and the two
    counters of [logStats].  The [World] of a message supplies the rest of
    what the signal engine reads and the clock; the aggression history it
    carries is replaced by the shared one.  [handleMessage] and the
    methods it calls read the clock in one synchronous stretch; their
    readings are the one [now] of the [World].  The body of
    [handleMessage] is a [try] block: a [TypeError] of the signal engine
    ends it after the trade was added and counted, and the [catch] only
    logs.  [reconnectAttempts] is the one field [reconnectSymbol] and the
    [open] handler touch. *)

Module MultiWebSocketManager.

Record t : Type := mk {
  tradeAggregator : TradeAggregator.t;
  cooldownManager : CooldownManager.t;
  alertManager : AlertManager.t;
  aggressionFilter : AggressionDecayFilter.t;
  tradeCount : nat;
  lastStatsLog : Q
}.

Definition worldOf (w : SignalEngine.World) (m : t) : SignalEngine.World :=
  {| SignalEngine.runtimeConfig := SignalEngine.runtimeConfig w;
     SignalEngine.aggressionConfig := SignalEngine.aggressionConfig w;
     SignalEngine.stopConfig := SignalEngine.stopConfig w;
     SignalEngine.timeConfig := SignalEngine.timeConfig w;
     SignalEngine.btcConfig := SignalEngine.btcConfig w;
     SignalEngine.aggressionFilter := aggressionFilter m;
     SignalEngine.stopClusterFilter := SignalEngine.stopClusterFilter w;
     SignalEngine.btcFilter := SignalEngine.btcFilter w;
     SignalEngine.now := SignalEngine.now w;
     SignalEngine.dayOfWeek := SignalEngine.dayOfWeek w;
     SignalEngine.hourUTC := SignalEngine.hourUTC w |}.

(** [statsLogInterval] is [CONFIG.STATS_LOG_INTERVAL]. *)
Definition logStats (statsLogInterval : Q) (now : Q) (m : t) : t :=
  if Js.ltb (now - lastStatsLog m) (statsLogInterval * 1000) then m
  else
    {| tradeAggregator := tradeAggregator m;
       cooldownManager := cooldownManager m;
       alertManager := alertManager m;
       aggressionFilter := aggressionFilter m;
       tradeCount := 0%nat;
       lastStatsLog := now |}.

Definition handleMessage (statsLogInterval : Q) (w : SignalEngine.World)
    (trade : TradeEvent) (m : t) : t * list AlertManager.Timer :=
  let symbol := ev_symbol trade in
  let agg1 :=
    TradeAggregator.addTrade symbol (ev_T trade) (ev_p trade) (ev_q trade)
      (ev_m trade) (tradeAggregator m) in
  let m1 :=
    {| tradeAggregator := agg1;
       cooldownManager := cooldownManager m;
       alertManager := alertManager m;
       aggressionFilter := aggressionFilter m;
       tradeCount := S (tradeCount m);
       lastStatsLog := lastStatsLog m |} in
  let now := SignalEngine.now w in
  match TradeAggregator.getStats symbol agg1,
        RuntimeConfig.get symbol (SignalEngine.runtimeConfig w) with
  | Some stats, Cfg.Own config =>
      if Js.geb (SymbolState.totalVolume stats)
           (Cfg.minVolumeUSD config * (1 # 2))
      then
        match SignalEngine.shouldAlert (worldOf w m1) symbol (Some stats) with
        | SignalEngine.Throws _ _ => (m1, [])
        | SignalEngine.Decides signalCheck =>
        if SignalEngine.allow (SignalEngine.decision signalCheck)
        then
          if CooldownManager.canAlert (SignalEngine.runtimeConfig w) now
               symbol stats (cooldownManager m1)
          then
            let interpretation := SignalEngine.interpretSignal stats in
            let '(am1, h1, timers) :=
              AlertManager.sendAlert (SignalEngine.aggressionConfig w) now
                symbol stats interpretation (aggressionFilter m1)
                (alertManager m1) in
            (logStats statsLogInterval now
               {| tradeAggregator := TradeAggregator.resetSymbol symbol agg1;
                  cooldownManager :=
                    CooldownManager.recordAlert now symbol stats
                      (cooldownManager m1);
                  alertManager := am1;
                  aggressionFilter := h1;
                  tradeCount := tradeCount m1;
                  lastStatsLog := lastStatsLog m1 |},
             timers)
          else (logStats statsLogInterval now m1, [])
        else (logStats statsLogInterval now m1, [])
        end
      else (logStats statsLogInterval now m1, [])
  | _, _ => (logStats statsLogInterval now m1, [])
  end.

(** [maxReconnects] is [CONFIG.MAX_RECONNECTS]; the second component is
    the delay of the timer that reconnects, if one is set. *)
Definition reconnectSymbol (maxReconnects : Q) (symbol : string)
    (reconnectAttempts : gmap string Q) : gmap string Q * option Q :=
  let attempts := default 0 (reconnectAttempts !! symbol) in
  if Js.geb attempts maxReconnects then (reconnectAttempts, None)
  else (<[symbol := attempts + 1]> reconnectAttempts,
        Some (5000 * (attempts + 1))).

(** The [open] handler of a connection. *)
Definition onOpen (symbol : string) (reconnectAttempts : gmap string Q)
    : gmap string Q :=
  <[symbol := 0]> reconnectAttempts.

End MultiWebSocketManager.

End Enhanced.

(** * The stable variant ([src/index.js]) *)

Module Stable.

(** ** [runtimeState] and its setters *)

Module RuntimeState.

Import Cfg.

Record t : Type := mk {
  symbols : gmap string SymbolConfig;
  filters : gmap string (gmap string JsValue)
}.

(** [runtimeState.symbols[symbol] || null]: a stored configuration and a
    built-in object are both truthy. *)
Definition getSymbolConfig (symbol : string) (rs : t) : Slot SymbolConfig :=
  slot (symbols rs) symbol.

(** [runtimeState.filters[filterName] || null] *)
Definition getFilter (filterName : string) (rs : t)
    : Slot (gmap string JsValue) :=
  slot (filters rs) filterName.

Section Setters.

(** The built-in [parseFloat]; [None] stands for [NaN]. *)
Variable parseFloat : JsValue -> option Q.


Definition enableSymbol (symbol : string) (rs : t) : t * Outcome unit :=
  match slot (symbols rs) symbol with
  | Absent => (rs, Thrown (SymbolNotFound symbol))
  | Own c =>
      ({| symbols := <[symbol := setEnabled true c]> (symbols rs);
          filters := filters rs |},
       Returned tt)
  | Inherited => (rs, Outside (mkWrite symbol "enabled" (VBool true)))
  end.

Definition disableSymbol (symbol : string) (rs : t) : t * Outcome unit :=
  match slot (symbols rs) symbol with
  | Absent => (rs, Thrown (SymbolNotFound symbol))
  | Own c =>
      ({| symbols := <[symbol := setEnabled false c]> (symbols rs);
          filters := filters rs |},
       Returned tt)
  | Inherited => (rs, Outside (mkWrite symbol "enabled" (VBool false)))
  end.

(** [value === 'true' || value === true] *)
Definition isTrue (value : JsValue) : bool :=
  match value with
  | VStr s => String.eqb s "true"
  | VBool b => b
  | _ => false
  end.

Definition setFilterParam (filterName param : string) (value : JsValue)
    (rs : t) : t * Outcome unit :=
  match slot (filters rs) filterName with
  | Absent => (rs, Thrown (FilterNotFound filterName))
  | found =>
      if String.eqb param "enabled" then
        match found with
        | Own bag =>
            ({| symbols := symbols rs;
                filters :=
                  <[filterName :=
                      <["enabled"%string := VBool (isTrue value)]> bag]>
                    (filters rs) |},
             Returned tt)
        | _ =>
            (rs, Outside (mkWrite filterName "enabled" (VBool (isTrue value))))
        end
      else
        match parseFloat value with
        | None => (rs, Thrown (InvalidValue value))
        | Some numValue =>
            match found with
            | Own bag =>
                ({| symbols := symbols rs;
                    filters :=
                      <[filterName := assign param (VNum numValue) bag]>
                        (filters rs) |},
                 Returned tt)
            | _ => (rs, Outside (mkWrite filterName param (VNum numValue)))
            end
        end
  end.

End Setters.

End RuntimeState.

(** ** [class BTCVolatilityFilter]

    [response] is the price of the ticker request ([None]: rejected) and
    [delivered] tells whether [telegram.sendMessage] resolved; a rejection
    of either lands in the [catch].  The second component of a result
    lists the messages handed to [telegram.sendMessage]. *)

Module BTCVolatilityFilter.

Record Config : Type := mkConfig {
  enabled : bool;
  checkIntervalMinutes : Q;
  thresholdPercent : Q;
  pauseMinutes : Q
}.

Definition ofBag (bag : gmap string Cfg.JsValue) : option Config :=
  e ← Cfg.boolField bag "enabled";
  c ← Cfg.numField bag "checkIntervalMinutes";
  t ← Cfg.numField bag "thresholdPercent";
  p ← Cfg.numField bag "pauseMinutes";
  Some (mkConfig e c t p).

Record t : Type := mk {
  paused : bool;
  pauseUntil : Q;
  alertCount : nat;
  lastPrice : option Q;
  currentPrice : option Q
}.

Definition new : t :=
  {| paused := false; pauseUntil := 0; alertCount := 0%nat;
     lastPrice := None; currentPrice := None |}.

Record Message : Type := mkMessage {
  msgRising : bool;
  msgChangePercent : Q;
  msgPrice : Q;
  msgPauseMinutes : Q
}.

Definition checkVolatility (config : Config) (now : Q) (response : option Q)
    (delivered : bool) (s : t) : t * list Message :=
  if negb (enabled config) then (s, [])
  else
    match response with
    | None => (s, [])
    | Some cur =>
        match lastPrice s with
        | None =>
            ({| paused := paused s; pauseUntil := pauseUntil s;
                alertCount := alertCount s;
                lastPrice := Some cur; currentPrice := Some cur |},
             [])
        | Some last =>
            let changePercent := Qabs (((cur - last) / last) * 100) in
            if Js.geb changePercent (thresholdPercent config) then
              let message :=
                {| msgRising := Js.gtb cur last;
                   msgChangePercent := changePercent;
                   msgPrice := cur;
                   msgPauseMinutes := pauseMinutes config |} in
              ({| paused := true;
                  pauseUntil := now + (pauseMinutes config * 60 * 1000);
                  alertCount := S (alertCount s);
                  lastPrice := if delivered then Some cur else Some last;
                  currentPrice := Some cur |},
               [message])
            else
              ({| paused := paused s; pauseUntil := pauseUntil s;
                  alertCount := alertCount s;
                  lastPrice := Some cur; currentPrice := Some cur |},
               [])
        end
    end.

Definition isPaused (config : Config) (now : Q) (s : t) : t * bool :=
  if negb (enabled config) then (s, false)
  else if paused s && Js.geb now (pauseUntil s)
  then ({| paused := false; pauseUntil := pauseUntil s;
           alertCount := alertCount s;
           lastPrice := lastPrice s; currentPrice := currentPrice s |},
        false)
  else (s, paused s).

End BTCVolatilityFilter.

(** ** [class TimeBasedFilter] *)

Module TimeBasedFilter.

Record Config : Type := mkConfig {
  enabled : bool;
  blockedDays : Cfg.Blocked;
  blockedHours : Cfg.Blocked;
  allowedHoursStart : Q;
  allowedHoursEnd : Q
}.

Definition ofBag (bag : gmap string Cfg.JsValue) : option Config :=
  e ← Cfg.boolField bag "enabled";
  d ← Cfg.blockedField bag "blockedDays";
  h ← Cfg.blockedField bag "blockedHours";
  a ← Cfg.numField bag "allowedHoursStart";
  b ← Cfg.numField bag "allowedHoursEnd";
  Some (mkConfig e d h a b).

Inductive Reason : Type :=
  | FilterDisabled
  | BlockedDay (dayOfWeek : Q)
  | BlockedHour (hour : Q)
  | OutsideHours (startHour endHour : Q)
  | WithinHours.

Record Result : Type := mkResult {
  allowed : bool;
  reason : Reason
}.

(** [xs.includes(x)]: only an array has an [includes] to call. *)
Definition includes (xs : Cfg.Blocked) (x : Q) : Js.Completion bool :=
  match xs with
  | Cfg.BUndefined => Js.Throw (Js.UndefinedHasNoProperties "includes")
  | Cfg.BArray l => Js.Normal (existsb (Js.eqb x) l)
  | Cfg.BNumber _ => Js.Throw (Js.NotAFunction "includes")
  end.

(** [dayOfWeek] and [hour] are [getDay()] and [getHours()] of the wall
    clock. *)
Definition isTradingAllowed (config : Config) (dayOfWeek hour : Q)
    : Js.Completion Result :=
  if negb (enabled config) then Js.Normal (mkResult true FilterDisabled)
  else
    match includes (blockedDays config) dayOfWeek with
    | Js.Throw e => Js.Throw e
    | Js.Normal true => Js.Normal (mkResult false (BlockedDay dayOfWeek))
    | Js.Normal false =>
        match includes (blockedHours config) hour with
        | Js.Throw e => Js.Throw e
        | Js.Normal true => Js.Normal (mkResult false (BlockedHour hour))
        | Js.Normal false =>
            if Js.ltb hour (allowedHoursStart config)
               || Js.geb hour (allowedHoursEnd config)
            then Js.Normal
                   (mkResult false
                      (OutsideHours (allowedHoursStart config)
                         (allowedHoursEnd config)))
            else Js.Normal (mkResult true WithinHours)
        end
    end.

End TimeBasedFilter.

(** ** [class StopClusterProtection] *)

Module StopClusterProtection.

Record Config : Type := mkConfig {
  enabled : bool;
  maxStops : Q;
  timeWindowMinutes : Q;
  pauseMinutes : Q
}.

Definition ofBag (bag : gmap string Cfg.JsValue) : option Config :=
  e ← Cfg.boolField bag "enabled";
  m ← Cfg.numField bag "maxStops";
  t ← Cfg.numField bag "timeWindowMinutes";
  p ← Cfg.numField bag "pauseMinutes";
  Some (mkConfig e m t p).

Record StopEvent : Type := mkStopEvent {
  symbol : string;
  timestamp : Q
}.

Record t : Type := mk {
  stopEvents : list StopEvent;
  paused : bool;
  pauseUntil : Q
}.

Definition new : t := {| stopEvents := []; paused := false; pauseUntil := 0 |}.

Definition recordStop (config : Config) (now : Q) (sym : string) (s : t) : t :=
  if negb (enabled config) then s
  else
    let pushed := stopEvents s ++ [mkStopEvent sym now] in
    let windowMs := timeWindowMinutes config * 60 * 1000 in
    let kept :=
      List.filter (fun e => Js.ltb (now - timestamp e) windowMs) pushed in
    if Js.geb (Js.len kept) (maxStops config)
    then {| stopEvents := kept; paused := true;
            pauseUntil := now + (pauseMinutes config * 60 * 1000) |}
    else {| stopEvents := kept; paused := paused s;
            pauseUntil := pauseUntil s |}.

Definition isPaused (config : Config) (now : Q) (s : t) : t * bool :=
  if negb (enabled config) then (s, false)
  else if paused s && Js.geb now (pauseUntil s)
  then ({| stopEvents := []; paused := false; pauseUntil := pauseUntil s |},
        false)
  else (s, paused s).

End StopClusterProtection.

(** ** [class AggressionDecayFilter] *)

Module AggressionDecayFilter.

Record Config : Type := mkConfig {
  enabled : bool;
  lookbackMinutes : Q;
  decayThreshold : Q;
  minCandles : Q
}.

Definition ofBag (bag : gmap string Cfg.JsValue) : option Config :=
  e ← Cfg.boolField bag "enabled";
  l ← Cfg.numField bag "lookbackMinutes";
  d ← Cfg.numField bag "decayThreshold";
  m ← Cfg.numField bag "minCandles";
  Some (mkConfig e l d m).

Record Candle : Type := mkCandle {
  timestamp : Q;
  dominance : Q
}.

(** [candleHistory] *)
Definition t : Type := gmap string (list Candle).

Definition new : t := ∅.

Inductive Reason : Type :=
  | FilterDisabled
  | InsufficientHistory
  | AggressionDecay (ratio threshold : Q)
  | NoDecayDetected.

Record Result : Type := mkResult {
  passed : bool;
  reason : Reason
}.

Definition recordCandle (config : Config) (symbol : string) (candle : Candle)
    (h : t) : t :=
  if negb (enabled config) then h
  else
    let history :=
      match h !! symbol with
      | Some l => l
      | None => []
      end ++ [candle] in
    let maxCandles := lookbackMinutes config in
    if Js.gtb (Js.len history) maxCandles
    then <[symbol := tl history]> h
    else <[symbol := history]> h.

Definition average (history : list Candle) : Q :=
  Js.sumBy dominance history / Js.len history.

Definition checkDecay (config : Config) (symbol : string)
    (currentDominance : Q) (h : t) : Result :=
  if negb (enabled config) then mkResult true FilterDisabled
  else
    let history :=
      match h !! symbol with
      | Some l => l
      | None => []
      end in
    if Js.ltb (Js.len history) (minCandles config)
    then mkResult true InsufficientHistory
    else
      let avgPastDominance := average history in
      let ratio := currentDominance / avgPastDominance in
      if Js.ltb ratio (decayThreshold config)
      then mkResult false (AggressionDecay ratio (decayThreshold config))
      else mkResult true NoDecayDetected.

Definition reset (symbol : string) (h : t) : t := delete symbol h.

End AggressionDecayFilter.

(** ** [class TradeAggregator]

    A stored trade keeps the message's [p], [q] and [T]; [price] and [qty]
    are the numbers [parseFloat] reads from them. *)

Module TradeAggregator.

Record Item : Type := mkItem {
  price : Q;
  qty : Q;
  time : Q
}.

Record Data : Type := mkData {
  buys : list Item;
  sells : list Item;
  lastUpdate : Q
}.

Record t : Type := mk {
  windowSeconds : Q;
  trades : gmap string Data;
  totalTradeCount : nat
}.

Definition new (windowSeconds : Q) : t :=
  {| windowSeconds := windowSeconds; trades := ∅; totalTradeCount := 0%nat |}.

Definition active (cutoff : Q) (items : list Item) : list Item :=
  List.filter (fun it => Js.gtb (time it) cutoff) items.

Definition addTrade (now : Q) (symbol : string) (trade : TradeEvent) (agg : t)
    : t :=
  let data :=
    match trades agg !! symbol with
    | Some d => d
    | None => {| buys := []; sells := []; lastUpdate := now |}
    end in
  let cutoff := now - (windowSeconds agg * 1000) in
  let item := {| price := ev_p trade; qty := ev_q trade; time := ev_T trade |} in
  let data1 :=
    if ev_m trade
    then {| buys := buys data;
            sells := active cutoff (sells data ++ [item]);
            lastUpdate := now |}
    else {| buys := active cutoff (buys data ++ [item]);
            sells := sells data;
            lastUpdate := now |} in
  {| windowSeconds := windowSeconds agg;
     trades := <[symbol := data1]> (trades agg);
     totalTradeCount := S (totalTradeCount agg) |}.

Record Stats : Type := mkStats {
  symbol : string;
  totalVolumeUSD : Q;
  buyVolumeUSD : Q;
  sellVolumeUSD : Q;
  buyDominance : Q;
  sellDominance : Q;
  dominantSide : Side;
  priceChange : Q;
  tradeCount : nat;
  stWindowSeconds : Q
}.

Definition volume (it : Item) : Q := price it * qty it.

Definition getStats (now : Q) (sym : string) (agg : t) : option Stats :=
  match trades agg !! sym with
  | None => None
  | Some data =>
      let cutoff := now - (windowSeconds agg * 1000) in
      let activeBuys := active cutoff (buys data) in
      let activeSells := active cutoff (sells data) in
      match activeBuys ++ activeSells with
      | [] => None
      | it0 :: rest =>
          let buyVolume := Js.sumBy volume activeBuys in
          let sellVolume := Js.sumBy volume activeSells in
          let totalVolume := buyVolume + sellVolume in
          if Js.eqb totalVolume 0 then None
          else
            let buyDominance := (buyVolume / totalVolume) * 100 in
            let sellDominance := (sellVolume / totalVolume) * 100 in
            let maxPrice := Js.maxOf (price it0) (map price rest) in
            let minPrice := Js.minOf (price it0) (map price rest) in
            let priceChange := ((maxPrice - minPrice) / minPrice) * 100 in
            Some
              {| symbol := sym;
                 totalVolumeUSD := totalVolume;
                 buyVolumeUSD := buyVolume;
                 sellVolumeUSD := sellVolume;
                 buyDominance := buyDominance;
                 sellDominance := sellDominance;
                 dominantSide :=
                   if Js.gtb buyDominance sellDominance then buy else sell;
                 priceChange := priceChange;
                 tradeCount := (length activeBuys + length activeSells)%nat;
                 stWindowSeconds := windowSeconds agg |}
      end
  end.

Definition resetSymbol (sym : string) (agg : t) : t :=
  {| windowSeconds := windowSeconds agg;
     trades := delete sym (trades agg);
     totalTradeCount := totalTradeCount agg |}.

(** The trades a stream handler forwards, each with the wall clock read
    when it arrives. *)
Definition feed (arrivals : list (Q * TradeEvent)) (agg : t) : t :=
  fold_left (fun a ne => addTrade (fst ne) (ev_symbol (snd ne)) (snd ne) a)
    arrivals agg.

End TradeAggregator.

(** ** [class SignalEngine]

    [World] gathers what [checkSignal] reads and, for the two pause
    filters, writes: [isPaused] clears an expired pause.  The
    configuration object of each filter is the one the filter reads off
    the store ([reads]).  [consulted] lists the filter objects whose
    method was called, in call order.  A call of [checkSignal] either
    returns its decision ([Decides]) or is ended by the [TypeError] of a
    filter ([Throws], with the filters called up to and including that
    one); what the two pause filters wrote before stays written. *)

Module SignalEngine.

Inductive Reason : Type :=
  | SymbolNotFound
  | SymbolDisabled
  | BtcVolatilityPause
  | StopClusterPause
  | TimeSays (r : TimeBasedFilter.Reason)
  | VolumeTooLow
  | DominanceTooLow
  | PriceChangeTooLow
  | DecaySays (r : AggressionDecayFilter.Reason)
  | AllFiltersPassed.

Record Decision : Type := mkDecision {
  signal : bool;
  reason : Reason
}.

Record Evaluation : Type := mkEvaluation {
  consulted : list FilterName;
  decision : Decision
}.

Record World : Type := mkWorld {
  runtimeState : RuntimeState.t;
  aggressionConfig : AggressionDecayFilter.Config;
  stopConfig : StopClusterProtection.Config;
  timeConfig : TimeBasedFilter.Config;
  btcConfig : BTCVolatilityFilter.Config;
  aggressionFilter : AggressionDecayFilter.t;
  stopClusterFilter : StopClusterProtection.t;
  btcFilter : BTCVolatilityFilter.t;
  now : Q;
  dayOfWeek : Q;
  hour : Q
}.

Definition withBtc (w : World) (b : BTCVolatilityFilter.t) : World :=
  {| runtimeState := runtimeState w;
     aggressionConfig := aggressionConfig w; stopConfig := stopConfig w;
     timeConfig := timeConfig w; btcConfig := btcConfig w;
     aggressionFilter := aggressionFilter w;
     stopClusterFilter := stopClusterFilter w;
     btcFilter := b;
     now := now w; dayOfWeek := dayOfWeek w; hour := hour w |}.

Definition withStop (w : World) (s : StopClusterProtection.t) : World :=
  {| runtimeState := runtimeState w;
     aggressionConfig := aggressionConfig w; stopConfig := stopConfig w;
     timeConfig := timeConfig w; btcConfig := btcConfig w;
     aggressionFilter := aggressionFilter w;
     stopClusterFilter := s;
     btcFilter := btcFilter w;
     now := now w; dayOfWeek := dayOfWeek w; hour := hour w |}.

(** The configuration objects of [w] are the ones the four filters read
    off [rs]: each name is the store's own and every field has its type. *)
Definition reads (rs : RuntimeState.t) (w : World) : Prop :=
  runtimeState w = rs
  /\ Cfg.owned (RuntimeState.getFilter "aggressionDecay" rs)
       ≫= AggressionDecayFilter.ofBag = Some (aggressionConfig w)
  /\ Cfg.owned (RuntimeState.getFilter "stopCluster" rs)
       ≫= StopClusterProtection.ofBag = Some (stopConfig w)
  /\ Cfg.owned (RuntimeState.getFilter "timeBased" rs)
       ≫= TimeBasedFilter.ofBag = Some (timeConfig w)
  /\ Cfg.owned (RuntimeState.getFilter "btcVolatility" rs)
       ≫= BTCVolatilityFilter.ofBag = Some (btcConfig w).

(** The world a store, three filter objects and a clock reading make;
    [None] when a configuration object is missing or a field has a type
    the readers do not cover. *)
Definition ofStore (rs : RuntimeState.t) (h : AggressionDecayFilter.t)
    (s : StopClusterProtection.t) (b : BTCVolatilityFilter.t)
    (now dayOfWeek hour : Q) : option World :=
  ac ← Cfg.owned (RuntimeState.getFilter "aggressionDecay" rs)
         ≫= AggressionDecayFilter.ofBag;
  sc ← Cfg.owned (RuntimeState.getFilter "stopCluster" rs)
         ≫= StopClusterProtection.ofBag;
  tc ← Cfg.owned (RuntimeState.getFilter "timeBased" rs)
         ≫= TimeBasedFilter.ofBag;
  bc ← Cfg.owned (RuntimeState.getFilter "btcVolatility" rs)
         ≫= BTCVolatilityFilter.ofBag;
  Some (mkWorld rs ac sc tc bc h s b now dayOfWeek hour).

Inductive Run : Type :=
  | Decides (ev : Evaluation)
  | Throws (consulted : list FilterName) (e : Js.TypeError).

Definition isBuy (s : Side) : bool :=
  match s with buy => true | sell => false end.

(** A built-in object found under an inherited name is truthy and has no
    [enabled]: the symbol counts as disabled. *)
Definition checkSignal (w : World) (stats : TradeAggregator.Stats)
    : World * Run :=
  match RuntimeState.getSymbolConfig (TradeAggregator.symbol stats)
          (runtimeState w) with
  | Cfg.Absent =>
      (w, Decides (mkEvaluation [] (mkDecision false SymbolNotFound)))
  | Cfg.Inherited =>
      (w, Decides (mkEvaluation [] (mkDecision false SymbolDisabled)))
  | Cfg.Own config =>
  if negb (Cfg.enabled config)
  then (w, Decides (mkEvaluation [] (mkDecision false SymbolDisabled)))
  else
  let '(b1, btcPaused) :=
    BTCVolatilityFilter.isPaused (btcConfig w) (now w) (btcFilter w) in
  let w1 := withBtc w b1 in
  if btcPaused
  then (w1, Decides
              (mkEvaluation [FBtcVolatility]
                 (mkDecision false BtcVolatilityPause)))
  else
  let '(s1, stopPaused) :=
    StopClusterProtection.isPaused (stopConfig w) (now w)
      (stopClusterFilter w) in
  let w2 := withStop w1 s1 in
  if stopPaused
  then (w2, Decides
              (mkEvaluation [FBtcVolatility; FStopCluster]
                 (mkDecision false StopClusterPause)))
  else
  match TimeBasedFilter.isTradingAllowed (timeConfig w) (dayOfWeek w)
          (hour w) with
  | Js.Throw e => (w2, Throws [FBtcVolatility; FStopCluster; FTimeBased] e)
  | Js.Normal timeCheck =>
  if negb (TimeBasedFilter.allowed timeCheck)
  then (w2, Decides
              (mkEvaluation [FBtcVolatility; FStopCluster; FTimeBased]
                 (mkDecision false
                    (TimeSays (TimeBasedFilter.reason timeCheck)))))
  else if Js.ltb (TradeAggregator.totalVolumeUSD stats)
                 (Cfg.minVolumeUSD config)
  then (w2, Decides
              (mkEvaluation [FBtcVolatility; FStopCluster; FTimeBased]
                 (mkDecision false VolumeTooLow)))
  else
  let dominance :=
    if isBuy (TradeAggregator.dominantSide stats)
    then TradeAggregator.buyDominance stats
    else TradeAggregator.sellDominance stats in
  if Js.ltb dominance (Cfg.minDominance config)
  then (w2, Decides
              (mkEvaluation [FBtcVolatility; FStopCluster; FTimeBased]
                 (mkDecision false DominanceTooLow)))
  else if Js.ltb (TradeAggregator.priceChange stats)
                 (Cfg.minPriceChange config)
  then (w2, Decides
              (mkEvaluation [FBtcVolatility; FStopCluster; FTimeBased]
                 (mkDecision false PriceChangeTooLow)))
  else
  let decayCheck :=
    AggressionDecayFilter.checkDecay (aggressionConfig w)
      (TradeAggregator.symbol stats) dominance (aggressionFilter w) in
  if negb (AggressionDecayFilter.passed decayCheck)
  then (w2, Decides
              (mkEvaluation
                 [FBtcVolatility; FStopCluster; FTimeBased; FAggression]
                 (mkDecision false
                    (DecaySays (AggressionDecayFilter.reason decayCheck)))))
  else (w2, Decides
              (mkEvaluation
                 [FBtcVolatility; FStopCluster; FTimeBased; FAggression]
                 (mkDecision true AllFiltersPassed)))
  end
  end.

End SignalEngine.

(** ** [class CooldownManager] *)

Module CooldownManager.

(** [cooldowns]: the time each key's cooldown ends.  Both readers test
    [!cooldownUntil] first and so treat the falsy numbers [0] and [NaN]
    alike; a stored [NaN] is the entry [0]. *)
Definition t : Type := gmap string Q.

Definition new : t := ∅.

Definition sideName (s : Side) : string :=
  match s with buy => "BUY" | sell => "SELL" end.

Definition key (symbol : string) (s : Side) : string :=
  (symbol +:+ "_" +:+ sideName s)%string.

Definition isInCooldown (now : Q) (symbol : string) (side : Side) (cm : t)
    : t * bool :=
  match cm !! key symbol side with
  | None => (cm, false)
  | Some cooldownUntil =>
      if Js.eqb cooldownUntil 0 then (cm, false)
      else if Js.ltb now cooldownUntil then (cm, true)
      else (delete (key symbol side) cm, false)
  end.

(** A built-in object found under an inherited name has no
    [cooldownMinutes]: [cooldownUntil] is [NaN]. *)
Definition recordAlert (rs : RuntimeState.t) (now : Q) (symbol : string)
    (stats : TradeAggregator.Stats) (cm : t) : t :=
  match RuntimeState.getSymbolConfig symbol rs with
  | Cfg.Absent => cm
  | Cfg.Inherited =>
      <[key symbol (TradeAggregator.dominantSide stats) := 0]> cm
  | Cfg.Own config =>
      let cooldownUntil := now + (Cfg.cooldownMinutes config * 60 * 1000) in
      <[key symbol (TradeAggregator.dominantSide stats) := cooldownUntil]> cm
  end.

Definition getRemainingCooldown (now : Q) (symbol : string) (side : Side)
    (cm : t) : Z :=
  match cm !! key symbol side with
  | None => 0%Z
  | Some cooldownUntil =>
      if Js.eqb cooldownUntil 0 then 0%Z
      else
        let remaining := Qmax 0 (cooldownUntil - now) in
        Qceiling (remaining / 1000)
  end.

End CooldownManager.

(** ** [class AlertManager]

    [sendAlert] runs to its [await]: the message it hands to
    [telegram.sendMessage] is the second component of its result, named
    by the snapshot it is built from.  [settle] is the rest of
    [sendAlert], run when the request settles; [delivered] tells whether
    it resolved and [now] is the clock reading then. *)

Module AlertManager.

Record t : Type := mk {
  alertCount : nat;
  pendingAlerts : Z
}.

Definition new : t := {| alertCount := 0%nat; pendingAlerts := 0%Z |}.

Definition sendAlert (stats : TradeAggregator.Stats) (am : t)
    : t * list TradeAggregator.Stats :=
  ({| alertCount := alertCount am;
      pendingAlerts := (pendingAlerts am + 1)%Z |},
   [stats]).

Definition settle (config : AggressionDecayFilter.Config) (delivered : bool)
    (now : Q) (stats : TradeAggregator.Stats) (h : AggressionDecayFilter.t)
    (am : t) : t * AggressionDecayFilter.t :=
  if delivered
  then
    ({| alertCount := S (alertCount am);
        pendingAlerts := (pendingAlerts am - 1)%Z |},
     AggressionDecayFilter.recordCandle config (TradeAggregator.symbol stats)
       {| AggressionDecayFilter.timestamp := now;
          AggressionDecayFilter.dominance :=
            if SignalEngine.isBuy (TradeAggregator.dominantSide stats)
            then TradeAggregator.buyDominance stats
            else TradeAggregator.sellDominance stats |}
       h)
  else
    ({| alertCount := alertCount am;
        pendingAlerts := (pendingAlerts am - 1)%Z |},
     h).

End AlertManager.

(** ** [class MultiWebSocketManager]

    The state gathers the objects [handleMessage] writes besides the
    filters of the [World]: the trade aggregator, the cooldown manager,
    the alert manager and [lastMinuteCheck].  [handleMessage] and the
    methods it calls read the clock in one synchronous stretch; their
    readings are the one [now] of the [World].  The body of
    [handleMessage] is a [try] block: a [TypeError] of the signal engine
    ends it after the trade was added and the minute was marked as
    checked, and the [catch] only logs.  [reconnectAttempts] is the one
    field [reconnectSymbol] and the [open] handler touch. *)

Module MultiWebSocketManager.

Record t : Type := mk {
  tradeAggregator : TradeAggregator.t;
  cooldownManager : CooldownManager.t;
  alertManager : AlertManager.t;
  lastMinuteCheck : gmap string Z
}.

Definition handleMessage (w : SignalEngine.World) (trade : TradeEvent)
    (m : t) : SignalEngine.World * t * list TradeAggregator.Stats :=
  let symbol := ev_symbol trade in
  let now := SignalEngine.now w in
  let agg1 := TradeAggregator.addTrade now symbol trade (tradeAggregator m) in
  let currentMinute := Qfloor (now / 60000) in
  let lastChecked := default 0%Z (lastMinuteCheck m !! symbol) in
  if (lastChecked <? currentMinute)%Z
  then
    let lm1 := <[symbol := currentMinute]> (lastMinuteCheck m) in
    match TradeAggregator.getStats now symbol agg1 with
    | None =>
        (w,
         {| tradeAggregator := agg1; cooldownManager := cooldownManager m;
            alertManager := alertManager m; lastMinuteCheck := lm1 |},
         [])
    | Some stats =>
        match SignalEngine.checkSignal w stats with
        | (w1, SignalEngine.Throws _ _) =>
            (w1,
             {| tradeAggregator := agg1; cooldownManager := cooldownManager m;
                alertManager := alertManager m; lastMinuteCheck := lm1 |},
             [])
        | (w1, SignalEngine.Decides signalCheck) =>
        if SignalEngine.signal (SignalEngine.decision signalCheck)
        then
          let '(cm1, inCooldown) :=
            CooldownManager.isInCooldown now symbol
              (TradeAggregator.dominantSide stats) (cooldownManager m) in
          if negb inCooldown
          then
            let '(am1, sent) := AlertManager.sendAlert stats (alertManager m) in
            (w1,
             {| tradeAggregator := TradeAggregator.resetSymbol symbol agg1;
                cooldownManager :=
                  CooldownManager.recordAlert (SignalEngine.runtimeState w) now
                    symbol stats cm1;
                alertManager := am1; lastMinuteCheck := lm1 |},
             sent)
          else
            (w1,
             {| tradeAggregator := agg1; cooldownManager := cm1;
                alertManager := alertManager m; lastMinuteCheck := lm1 |},
             [])
        else
          (w1,
           {| tradeAggregator := agg1; cooldownManager := cooldownManager m;
              alertManager := alertManager m; lastMinuteCheck := lm1 |},
           [])
        end
    end
  else
    (w,
     {| tradeAggregator := agg1; cooldownManager := cooldownManager m;
        alertManager := alertManager m;
        lastMinuteCheck := lastMinuteCheck m |},
     []).

(** [maxReconnects] is [CONFIG.MAX_RECONNECTS]; the second component is
    the delay of the timer that reconnects, if one is set. *)
Definition reconnectSymbol (maxReconnects : Q) (symbol : string)
    (reconnectAttempts : gmap string Q) : gmap string Q * option Q :=
  let attempts := default 0 (reconnectAttempts !! symbol) in
  if Js.geb attempts maxReconnects then (reconnectAttempts, None)
  else (<[symbol := attempts + 1]> reconnectAttempts,
        Some (5000 * (attempts + 1))).

(** The [open] handler of a connection. *)
Definition onOpen (symbol : string) (reconnectAttempts : gmap string Q)
    : gmap string Q :=
  <[symbol := 0]> reconnectAttempts.

End MultiWebSocketManager.

End Stable.

(** * Vocabulary of the statements *)

(** The last element of a list, if any. *)
Definition lastOf {A : Type} (xs : list A) : option A :=
  match xs with
  | [] => None
  | x :: rest => Some (List.last rest x)
  end.

(** The state [TradeAggregator.addTrade] hands the trade to: the stored
    one, or a fresh [SymbolState]. *)
Definition stateOf (symbol : string) (agg : Enhanced.TradeAggregator.t)
    : Enhanced.SymbolState.t :=
  match Enhanced.TradeAggregator.states agg !! symbol with
  | Some st => st
  | None => Enhanced.SymbolState.new (Enhanced.TradeAggregator.windowSeconds agg)
  end.

(** The trades of one symbol that are still in the window. *)
Definition survivors (symbol : string) (agg : Enhanced.TradeAggregator.t)
    : list Enhanced.SymbolState.Trade :=
  Enhanced.SymbolState.trades (stateOf symbol agg).

(** The trade object [SymbolState.addTrade] builds from a message. *)
Definition tradeOf (e : TradeEvent) : Enhanced.SymbolState.Trade :=
  {| Enhanced.SymbolState.timestamp := ev_T e;
     Enhanced.SymbolState.price := ev_p e;
     Enhanced.SymbolState.buyVol := if ev_m e then 0 else ev_p e * ev_q e;
     Enhanced.SymbolState.sellVol := if ev_m e then ev_p e * ev_q e else 0 |}.

Definition feedState (evs : list TradeEvent) (st : Enhanced.SymbolState.t)
    : Enhanced.SymbolState.t :=
  fold_left
    (fun s e => Enhanced.SymbolState.addTrade (ev_T e) (ev_p e) (ev_q e)
                  (ev_m e) s)
    evs st.

(** The sum the stable aggregator reports: price times quantity over the
    events whose time is after [now - windowMs] on the wall clock. *)
Definition wallSum (windowMs now : Q) (evs : list TradeEvent) : Q :=
  Js.sumBy notional
    (List.filter (fun e => Js.gtb (ev_T e) (now - windowMs)) evs).

(** The wall clock never runs ahead of [now]. *)
Definition arrivedBy (now : Q) (arrivals : list (Q * TradeEvent)) : bool :=
  forallb (fun ne => Qle_bool (fst ne) now) arrivals.

(** The stored item [TradeAggregator.addTrade] builds from a message. *)
Definition itemOf (e : TradeEvent) : Stable.TradeAggregator.Item :=
  {| Stable.TradeAggregator.price := ev_p e;
     Stable.TradeAggregator.qty := ev_q e;
     Stable.TradeAggregator.time := ev_T e |}.

(** The stored buys and sells of one symbol; none when the symbol has no
    entry. *)
Definition buysOf (symbol : string) (agg : Stable.TradeAggregator.t)
    : list Stable.TradeAggregator.Item :=
  match Stable.TradeAggregator.trades agg !! symbol with
  | Some d => Stable.TradeAggregator.buys d
  | None => []
  end.

Definition sellsOf (symbol : string) (agg : Stable.TradeAggregator.t)
    : list Stable.TradeAggregator.Item :=
  match Stable.TradeAggregator.trades agg !! symbol with
  | Some d => Stable.TradeAggregator.sells d
  | None => []
  end.

(** The taker-buy and the taker-sell messages of a list. *)
Definition takerBuys (evs : list TradeEvent) : list TradeEvent :=
  List.filter (fun e => negb (ev_m e)) evs.

Definition takerSells (evs : list TradeEvent) : list TradeEvent :=
  List.filter ev_m evs.

(** ** Lives of an aggregator

    What happens to an aggregator between its construction and a query:
    trades are added and, after each alert, a symbol is reset. *)

Inductive EnhancedOp : Type :=
  | EAdd (e : TradeEvent)
  | EReset (symbol : string).

Definition enhancedStep (agg : Enhanced.TradeAggregator.t) (op : EnhancedOp)
    : Enhanced.TradeAggregator.t :=
  match op with
  | EAdd e =>
      Enhanced.TradeAggregator.addTrade (ev_symbol e) (ev_T e) (ev_p e)
        (ev_q e) (ev_m e) agg
  | EReset symbol => Enhanced.TradeAggregator.resetSymbol symbol agg
  end.

Definition enhancedRun (ops : list EnhancedOp) (agg : Enhanced.TradeAggregator.t)
    : Enhanced.TradeAggregator.t :=
  fold_left enhancedStep ops agg.

Definition enhancedOpOk (op : EnhancedOp) : bool :=
  match op with
  | EAdd e => positiveb e
  | EReset _ => true
  end.

Inductive StableOp : Type :=
  | SAdd (now : Q) (e : TradeEvent)
  | SReset (symbol : string).

Definition stableStep (agg : Stable.TradeAggregator.t) (op : StableOp)
    : Stable.TradeAggregator.t :=
  match op with
  | SAdd now e => Stable.TradeAggregator.addTrade now (ev_symbol e) e agg
  | SReset symbol => Stable.TradeAggregator.resetSymbol symbol agg
  end.

Definition stableRun (ops : list StableOp) (agg : Stable.TradeAggregator.t)
    : Stable.TradeAggregator.t :=
  fold_left stableStep ops agg.

Definition stableOpOk (op : StableOp) : bool :=
  match op with
  | SAdd _ e => positiveb e
  | SReset _ => true
  end.

(** The trades the stable snapshot is computed from. *)
Definition stableActive (now : Q) (symbol : string)
    (agg : Stable.TradeAggregator.t) : list Stable.TradeAggregator.Item :=
  let cutoff := now - Stable.TradeAggregator.windowSeconds agg * 1000 in
  Stable.TradeAggregator.active cutoff (buysOf symbol agg)
  ++ Stable.TradeAggregator.active cutoff (sellsOf symbol agg).

(** The dominance the stable signal engine reads off a snapshot. *)
Definition stableDominance (s : Stable.TradeAggregator.Stats) : Q :=
  match Stable.TradeAggregator.dominantSide s with
  | buy => Stable.TradeAggregator.buyDominance s
  | sell => Stable.TradeAggregator.sellDominance s
  end.

(** Invariants of the stored trades. *)
Definition volumesOk (tr : Enhanced.SymbolState.Trade) : Prop :=
  0 <= Enhanced.SymbolState.buyVol tr /\ 0 <= Enhanced.SymbolState.sellVol tr.

Definition pricesOk (st : Enhanced.SymbolState.t) : Prop :=
  0 <= Enhanced.SymbolState.windowMs st
  /\ List.Forall (fun tr => 0 < Enhanced.SymbolState.price tr)
       (Enhanced.SymbolState.trades st)
  /\ match Enhanced.SymbolState.trades st with
     | [] => True
     | tr0 :: rest =>
         Enhanced.SymbolState.firstPrice st
         = Some (Enhanced.SymbolState.price tr0)
         /\ Enhanced.SymbolState.lastPrice st
            = Some (Enhanced.SymbolState.price (List.last rest tr0))
     end.

Definition itemOk (it : Stable.TradeAggregator.Item) : Prop :=
  0 < Stable.TradeAggregator.price it /\ 0 < Stable.TradeAggregator.qty it.

(** ** The decision pipeline in the specification's words

    A list of checks evaluated in order, stopping at the first denial.  A
    check names the filter object it consults, if any; its verdict is
    [None] to go on and [Some r] to deny with reason [r], unless the
    filter throws, which ends the evaluation without a decision. *)

Record Check (R : Type) : Type := mkCheck {
  consults : option FilterName;
  verdict : Js.Completion (option R)
}.

Arguments mkCheck {R} consults verdict.
Arguments consults {R} c.
Arguments verdict {R} c.

Fixpoint firstDenial {R : Type} (checks : list (Check R))
    (seen : list FilterName) : list FilterName * Js.Completion (option R) :=
  match checks with
  | [] => (seen, Js.Normal None)
  | c :: rest =>
      let seen1 :=
        match consults c with
        | Some f => seen ++ [f]
        | None => seen
        end in
      match verdict c with
      | Js.Throw e => (seen1, Js.Throw e)
      | Js.Normal (Some r) => (seen1, Js.Normal (Some r))
      | Js.Normal None => firstDenial rest seen1
      end
  end.

(** A threshold of the instrument: no filter object is involved. *)
Definition threshold {R : Type} (failed : bool) (r : R) : Check R :=
  mkCheck None (Js.Normal (if failed then Some r else None)).

(** A filter of the stack. *)
Definition consult {R : Type} (f : FilterName) (allowed : bool) (r : R)
    : Check R :=
  mkCheck (Some f) (Js.Normal (if allowed then None else Some r)).

(** A call returned, and what it returned satisfies [p]. *)
Definition returns {A : Type} (p : A -> bool) (call : Js.Completion A)
    : bool :=
  match call with
  | Js.Normal a => p a
  | Js.Throw _ => false
  end.

(** A filter of the stack whose call may throw. *)
Definition consultThrowing {X R : Type} (f : FilterName)
    (call : Js.Completion X) (allowed : X -> bool) (says : X -> R) : Check R :=
  mkCheck (Some f)
    match call with
    | Js.Throw e => Js.Throw e
    | Js.Normal x => Js.Normal (if allowed x then None else Some (says x))
    end.

(** Enhanced variant: the instrument thresholds, then aggression-decay,
    stop-cluster, time-based and the volatility kill-switch. *)
Definition enhancedChecks (w : Enhanced.SignalEngine.World) (symbol : string)
    (stats : Enhanced.SymbolState.Stats) (config : Cfg.SymbolConfig)
    : list (Check Enhanced.SignalEngine.Reason) :=
  let aggressionCheck :=
    Enhanced.AggressionDecayFilter.shouldAllowEntry
      (Enhanced.SignalEngine.aggressionConfig w) symbol
      (Enhanced.SymbolState.buyVolume stats)
      (Enhanced.SymbolState.sellVolume stats)
      (Enhanced.SymbolState.priceRange stats)
      (Enhanced.SignalEngine.aggressionFilter w) in
  let stopCheck :=
    Enhanced.StopClusterProtection.isTradingAllowed
      (Enhanced.SignalEngine.stopConfig w) (Enhanced.SignalEngine.now w)
      (Enhanced.SignalEngine.stopClusterFilter w) in
  let timeCheck :=
    Enhanced.TimeBasedFilter.isTradingAllowed
      (Enhanced.SignalEngine.timeConfig w) (Enhanced.SignalEngine.dayOfWeek w)
      (Enhanced.SignalEngine.hourUTC w) in
  let btcCheck :=
    Enhanced.BTCVolatilityFilter.isTradingAllowed
      (Enhanced.SignalEngine.btcConfig w) (Enhanced.SignalEngine.now w)
      (Enhanced.SignalEngine.btcFilter w) in
  [ threshold (negb (Cfg.enabled config)) Enhanced.SignalEngine.SymbolDisabled;
    threshold
      (Js.ltb (Enhanced.SymbolState.totalVolume stats) (Cfg.minVolumeUSD config))
      (Enhanced.SignalEngine.VolumeTooLow
         (Enhanced.SymbolState.totalVolume stats) (Cfg.minVolumeUSD config));
    threshold
      (Js.ltb (Enhanced.SymbolState.dominance stats) (Cfg.minDominance config))
      (Enhanced.SignalEngine.DominanceTooLow
         (Enhanced.SymbolState.dominance stats) (Cfg.minDominance config));
    threshold
      (Js.ltb (Qabs (Enhanced.SymbolState.priceChange stats))
         (Cfg.minPriceChange config))
      (Enhanced.SignalEngine.PriceChangeTooSmall
         (Qabs (Enhanced.SymbolState.priceChange stats))
         (Cfg.minPriceChange config));
    threshold
      (Enhanced.SignalEngine.isBuy (Enhanced.SymbolState.dominantSide stats)
       && Js.ltb (Enhanced.SymbolState.priceChange stats) 0)
      Enhanced.SignalEngine.BuyDominanceButPriceDown;
    threshold
      (negb (Enhanced.SignalEngine.isBuy
               (Enhanced.SymbolState.dominantSide stats))
       && Js.gtb (Enhanced.SymbolState.priceChange stats) 0)
      Enhanced.SignalEngine.SellDominanceButPriceUp;
    consult FAggression
      (Enhanced.AggressionDecayFilter.allowed aggressionCheck)
      (Enhanced.SignalEngine.AggressionSays
         (Enhanced.AggressionDecayFilter.reason aggressionCheck));
    consult FStopCluster
      (Enhanced.StopClusterProtection.allowed stopCheck)
      (Enhanced.SignalEngine.StopClusterSays
         (Enhanced.StopClusterProtection.reason stopCheck));
    consultThrowing FTimeBased timeCheck Enhanced.TimeBasedFilter.allowed
      (fun timeCheck =>
         Enhanced.SignalEngine.TimeSays
           (Enhanced.TimeBasedFilter.reason timeCheck));
    consult FBtcVolatility
      (Enhanced.BTCVolatilityFilter.allowed btcCheck)
      (Enhanced.SignalEngine.BtcSays
         (Enhanced.BTCVolatilityFilter.reason btcCheck)) ].

Definition enhancedPipeline (w : Enhanced.SignalEngine.World) (symbol : string)
    (stats : option Enhanced.SymbolState.Stats)
    : Enhanced.SignalEngine.Run :=
  match stats with
  | None =>
      Enhanced.SignalEngine.Decides
        (Enhanced.SignalEngine.mkEvaluation []
           (Enhanced.SignalEngine.mkDecision false
              Enhanced.SignalEngine.NoStats))
  | Some stats =>
      match Cfg.owned (Enhanced.RuntimeConfig.get symbol
                         (Enhanced.SignalEngine.runtimeConfig w)) with
      | None =>
          Enhanced.SignalEngine.Decides
            (Enhanced.SignalEngine.mkEvaluation []
               (Enhanced.SignalEngine.mkDecision false
                  Enhanced.SignalEngine.SymbolDisabled))
      | Some config =>
          match firstDenial (enhancedChecks w symbol stats config) [] with
          | (seen, Js.Throw e) => Enhanced.SignalEngine.Throws seen e
          | (seen, Js.Normal (Some r)) =>
              Enhanced.SignalEngine.Decides
                (Enhanced.SignalEngine.mkEvaluation seen
                   (Enhanced.SignalEngine.mkDecision false r))
          | (seen, Js.Normal None) =>
              Enhanced.SignalEngine.Decides
                (Enhanced.SignalEngine.mkEvaluation seen
                   (Enhanced.SignalEngine.mkDecision true
                      Enhanced.SignalEngine.AllFiltersPassed))
          end
      end
  end.

(** Stable variant: the volatility pause, the stop-cluster pause and the
    time filter come before the volume, dominance and price-change
    thresholds; aggression decay comes last. *)
Definition stableChecks (w : Stable.SignalEngine.World)
    (stats : Stable.TradeAggregator.Stats) (config : Cfg.SymbolConfig)
    : list (Check Stable.SignalEngine.Reason) :=
  let btcPaused :=
    snd (Stable.BTCVolatilityFilter.isPaused (Stable.SignalEngine.btcConfig w)
           (Stable.SignalEngine.now w) (Stable.SignalEngine.btcFilter w)) in
  let stopPaused :=
    snd (Stable.StopClusterProtection.isPaused
           (Stable.SignalEngine.stopConfig w) (Stable.SignalEngine.now w)
           (Stable.SignalEngine.stopClusterFilter w)) in
  let timeCheck :=
    Stable.TimeBasedFilter.isTradingAllowed (Stable.SignalEngine.timeConfig w)
      (Stable.SignalEngine.dayOfWeek w) (Stable.SignalEngine.hour w) in
  let decayCheck :=
    Stable.AggressionDecayFilter.checkDecay
      (Stable.SignalEngine.aggressionConfig w)
      (Stable.TradeAggregator.symbol stats) (stableDominance stats)
      (Stable.SignalEngine.aggressionFilter w) in
  [ threshold (negb (Cfg.enabled config)) Stable.SignalEngine.SymbolDisabled;
    consult FBtcVolatility (negb btcPaused)
      Stable.SignalEngine.BtcVolatilityPause;
    consult FStopCluster (negb stopPaused) Stable.SignalEngine.StopClusterPause;
    consultThrowing FTimeBased timeCheck Stable.TimeBasedFilter.allowed
      (fun timeCheck =>
         Stable.SignalEngine.TimeSays
           (Stable.TimeBasedFilter.reason timeCheck));
    threshold
      (Js.ltb (Stable.TradeAggregator.totalVolumeUSD stats)
         (Cfg.minVolumeUSD config))
      Stable.SignalEngine.VolumeTooLow;
    threshold (Js.ltb (stableDominance stats) (Cfg.minDominance config))
      Stable.SignalEngine.DominanceTooLow;
    threshold
      (Js.ltb (Stable.TradeAggregator.priceChange stats)
         (Cfg.minPriceChange config))
      Stable.SignalEngine.PriceChangeTooLow;
    consult FAggression (Stable.AggressionDecayFilter.passed decayCheck)
      (Stable.SignalEngine.DecaySays
         (Stable.AggressionDecayFilter.reason decayCheck)) ].

Definition stablePipeline (w : Stable.SignalEngine.World)
    (stats : Stable.TradeAggregator.Stats) : Stable.SignalEngine.Run :=
  match Stable.RuntimeState.getSymbolConfig
          (Stable.TradeAggregator.symbol stats)
          (Stable.SignalEngine.runtimeState w) with
  | Cfg.Absent =>
      Stable.SignalEngine.Decides
        (Stable.SignalEngine.mkEvaluation []
           (Stable.SignalEngine.mkDecision false
              Stable.SignalEngine.SymbolNotFound))
  | Cfg.Inherited =>
      Stable.SignalEngine.Decides
        (Stable.SignalEngine.mkEvaluation []
           (Stable.SignalEngine.mkDecision false
              Stable.SignalEngine.SymbolDisabled))
  | Cfg.Own config =>
      match firstDenial (stableChecks w stats config) [] with
      | (seen, Js.Throw e) => Stable.SignalEngine.Throws seen e
      | (seen, Js.Normal (Some r)) =>
          Stable.SignalEngine.Decides
            (Stable.SignalEngine.mkEvaluation seen
               (Stable.SignalEngine.mkDecision false r))
      | (seen, Js.Normal None) =>
          Stable.SignalEngine.Decides
            (Stable.SignalEngine.mkEvaluation seen
               (Stable.SignalEngine.mkDecision true
                  Stable.SignalEngine.AllFiltersPassed))
      end
  end.

(** [xs] is an initial segment of [ys]. *)
Fixpoint prefixb (xs ys : list FilterName) : bool :=
  match xs, ys with
  | [], _ => true
  | x :: xs1, y :: ys1 =>
      match x, y with
      | FAggression, FAggression
      | FStopCluster, FStopCluster
      | FTimeBased, FTimeBased
      | FBtcVolatility, FBtcVolatility => prefixb xs1 ys1
      | _, _ => false
      end
  | _ :: _, [] => false
  end.

(** ** Vocabulary of the volatility kill-switch *)





(** The stable poll loop: each poll is a clock reading, the response of
    the price request and whether the notification was delivered. *)
Fixpoint stablePolls (config : Stable.BTCVolatilityFilter.Config)
    (polls : list (Q * option Q * bool)) (s : Stable.BTCVolatilityFilter.t)
    : Stable.BTCVolatilityFilter.t * list Stable.BTCVolatilityFilter.Message :=
  match polls with
  | [] => (s, [])
  | (now, response, delivered) :: rest =>
      let r1 :=
        Stable.BTCVolatilityFilter.checkVolatility config now response
          delivered s in
      let r2 := stablePolls config rest (fst r1) in
      (fst r2, snd r1 ++ snd r2)
  end.

(** ** Vocabulary of the configuration setters *)

Definition paramName (p : Cfg.Param) : string :=
  match p with
  | Cfg.PMinVolumeUSD => "minVolumeUSD"
  | Cfg.PMinDominance => "minDominance"
  | Cfg.PMinPriceChange => "minPriceChange"
  | Cfg.PCooldownMinutes => "cooldownMinutes"
  end.

(** The invariant of an instrument parameter: [minDominance] lies in
    [[50, 100]], the others are not negative. *)
Definition inRangeb (p : Cfg.Param) (v : Q) : bool :=
  match p with
  | Cfg.PMinDominance => Js.geb v 50 && Qle_bool v 100
  | _ => Js.geb v 0
  end.

Definition rangeError (p : Cfg.Param) : Cfg.ConfigError :=
  match p with
  | Cfg.PMinDominance => Cfg.MustBeBetween50And100 "minDominance"
  | _ => Cfg.MustBeNonNegative (paramName p)
  end.


(** The decimal prefix [parseFloat] reads off a command argument: blanks,
    a sign, digits and a fraction.  Exponents and [Infinity] are left
    out; the examples do not use them. *)
Definition digitOf (c : Ascii.ascii) : option Z :=
  let n := Z.of_nat (Ascii.nat_of_ascii c) in
  if ((48 <=? n) && (n <=? 57))%Z then Some (n - 48)%Z else None.

Fixpoint readDigits (s : string) (acc : Z) (count : nat) : Z * nat * string :=
  match s with
  | String c rest =>
      match digitOf c with
      | Some d => readDigits rest (acc * 10 + d)%Z (S count)
      | None => (acc, count, s)
      end
  | EmptyString => (acc, count, s)
  end.

Fixpoint skipBlanks (s : string) : string :=
  match s with
  | String c rest =>
      if Ascii.eqb c " "%char then skipBlanks rest else s
  | EmptyString => s
  end.

Definition parseDecimalString (s : string) : option Q :=
  let s0 := skipBlanks s in
  let '(negative, s1) :=
    match s0 with
    | String c rest =>
        if Ascii.eqb c "-"%char then (true, rest)
        else if Ascii.eqb c "+"%char then (false, rest)
        else (false, s0)
    | EmptyString => (false, s0)
    end in
  let '(whole, nWhole, s2) := readDigits s1 0%Z 0%nat in
  let '(frac, nFrac, _) :=
    match s2 with
    | String c rest =>
        if Ascii.eqb c "."%char then readDigits rest 0%Z 0%nat
        else (0%Z, 0%nat, s2)
    | EmptyString => (0%Z, 0%nat, s2)
    end in
  if (nWhole + nFrac =? 0)%nat then None
  else
    let magnitude :=
      if (nFrac =? 0)%nat then inject_Z whole
      else Qred (inject_Z whole + (frac # Z.to_pos (10 ^ Z.of_nat nFrac))) in
    Some (if negative then - magnitude else magnitude).

Definition parseDecimal (value : Cfg.JsValue) : option Q :=
  match value with
  | Cfg.VNum q => Some q
  | Cfg.VStr s => parseDecimalString s
  | Cfg.VBool _ => None
  | Cfg.VArr (q :: _) => Some q
  | Cfg.VArr [] => None
  end.

(** ** Inputs of the worked examples *)

(** Two taker buys on one stream; the second reaches the process one
    second after its trade time. *)
Definition lateArrivals : list (Q * TradeEvent) :=
  [ (9600, mkEvent "ADAUSDT" 9500 2 3 false);
    (190000, mkEvent "ADAUSDT" 189000 1 1 false) ].

(** Three taker buys of notional 1 whose third carries an older timestamp
    than the second. *)
Definition shuffledTrades : list TradeEvent :=
  [ mkEvent "ADAUSDT" 50000 1 1 false;
    mkEvent "ADAUSDT" 100000 1 1 false;
    mkEvent "ADAUSDT" 55000 1 1 false ].

(** A price falling from 100 to 99 over three trades. *)
Definition fallingTrades : list TradeEvent :=
  [ mkEvent "ADAUSDT" 1000 100 2 true;
    mkEvent "ADAUSDT" 2000 (199 # 2) 4 false;
    mkEvent "ADAUSDT" 3000 99 3 true ].

Definition fallingOps : list EnhancedOp := map EAdd fallingTrades.

Definition arrivalOps (arrivals : list (Q * TradeEvent)) : list StableOp :=
  map (fun ne => SAdd (fst ne) (snd ne)) arrivals.

Definition lateOps : list StableOp := arrivalOps lateArrivals.

(** The falling trades, each reaching the process at its trade time. *)
Definition fallingArrivals : list (Q * TradeEvent) :=
  map (fun e => (ev_T e, e)) fallingTrades.

(** One taker buy and one taker sell of the same notional value. *)
Definition tiedTrades : list TradeEvent :=
  [ mkEvent "ADAUSDT" 1000 10 5 false;
    mkEvent "ADAUSDT" 2000 25 2 true ].

(** The configuration both files ship for ADAUSDT. *)
Definition adaConfig : Cfg.SymbolConfig :=
  Cfg.mkSymbolConfig 1000000 65 (6 # 10) 5 true.

Definition sampleSymbols : gmap string Cfg.SymbolConfig :=
  {[ "ADAUSDT"%string := adaConfig ]}.

(** [CONFIG.ADVANCED_FILTERS] as each file ships it; the two differ in
    the volatility filter. *)
Definition shippedDecayBag : gmap string Cfg.JsValue :=
  list_to_map
    [ ("enabled", Cfg.VBool true); ("lookbackMinutes", Cfg.VNum 3);
      ("decayThreshold", Cfg.VNum (85 # 100)); ("minCandles", Cfg.VNum 2)
    ]%string.

Definition shippedStopBag : gmap string Cfg.JsValue :=
  list_to_map
    [ ("enabled", Cfg.VBool true); ("maxStops", Cfg.VNum 2);
      ("timeWindowMinutes", Cfg.VNum 30); ("pauseMinutes", Cfg.VNum 30)
    ]%string.

Definition shippedTimeBag : gmap string Cfg.JsValue :=
  list_to_map
    [ ("enabled", Cfg.VBool true); ("blockedDays", Cfg.VArr []);
      ("blockedHours", Cfg.VArr []); ("allowedHoursStart", Cfg.VNum 6);
      ("allowedHoursEnd", Cfg.VNum 18) ]%string.

Definition enhancedShippedFilters : gmap string (gmap string Cfg.JsValue) :=
  list_to_map
    [ ("aggressionDecay", shippedDecayBag); ("stopCluster", shippedStopBag);
      ("timeBased", shippedTimeBag);
      ("btcVolatility",
       list_to_map
         [ ("enabled", Cfg.VBool true); ("checkIntervalMinutes", Cfg.VNum 1);
           ("timeframeMinutes", Cfg.VNum 10);
           ("thresholdPercent", Cfg.VNum 2); ("pauseMinutes", Cfg.VNum 15) ])
    ]%string.

Definition stableShippedFilters : gmap string (gmap string Cfg.JsValue) :=
  list_to_map
    [ ("aggressionDecay", shippedDecayBag); ("stopCluster", shippedStopBag);
      ("timeBased", shippedTimeBag);
      ("btcVolatility",
       list_to_map
         [ ("enabled", Cfg.VBool true); ("checkIntervalMinutes", Cfg.VNum 5);
           ("thresholdPercent", Cfg.VNum 2); ("pauseMinutes", Cfg.VNum 15) ])
    ]%string.

(** The stores the examples start from: the shipped filters and, of the
    shipped instruments, ADAUSDT. *)
Definition shippedStableState : Stable.RuntimeState.t :=
  {| Stable.RuntimeState.symbols := sampleSymbols;
     Stable.RuntimeState.filters := stableShippedFilters |}.

Definition shippedEnhancedConfig : Enhanced.RuntimeConfig.t :=
  {| Enhanced.RuntimeConfig.symbolConfigs := sampleSymbols;
     Enhanced.RuntimeConfig.advancedFilters := enhancedShippedFilters |}.

(** A stable world with every filter at its shipped configuration, an
    empty decay history and no pause. *)
Definition calmStableWorld : Stable.SignalEngine.World :=
  {| Stable.SignalEngine.runtimeState := shippedStableState;
     Stable.SignalEngine.aggressionConfig :=
       Stable.AggressionDecayFilter.mkConfig true 3 (85 # 100) 2;
     Stable.SignalEngine.stopConfig :=
       Stable.StopClusterProtection.mkConfig true 2 30 30;
     Stable.SignalEngine.timeConfig :=
       Stable.TimeBasedFilter.mkConfig true (Cfg.BArray []) (Cfg.BArray [])
         6 18;
     Stable.SignalEngine.btcConfig :=
       Stable.BTCVolatilityFilter.mkConfig true 5 2 15;
     Stable.SignalEngine.aggressionFilter := Stable.AggressionDecayFilter.new;
     Stable.SignalEngine.stopClusterFilter := Stable.StopClusterProtection.new;
     Stable.SignalEngine.btcFilter := Stable.BTCVolatilityFilter.new;
     Stable.SignalEngine.now := 2000;
     Stable.SignalEngine.dayOfWeek := 3;
     Stable.SignalEngine.hour := 10 |}.

(** The same world while a volatility pause runs until 900000. *)
Definition pausedStableWorld : Stable.SignalEngine.World :=
  Stable.SignalEngine.withBtc calmStableWorld
    {| Stable.BTCVolatilityFilter.paused := true;
       Stable.BTCVolatilityFilter.pauseUntil := 900000;
       Stable.BTCVolatilityFilter.alertCount := 1%nat;
       Stable.BTCVolatilityFilter.lastPrice := Some 103;
       Stable.BTCVolatilityFilter.currentPrice := Some 103 |}.

(** A snapshot far below the volume threshold. *)
Definition thinStats : Stable.TradeAggregator.Stats :=
  {| Stable.TradeAggregator.symbol := "ADAUSDT";
     Stable.TradeAggregator.totalVolumeUSD := 10;
     Stable.TradeAggregator.buyVolumeUSD := 10;
     Stable.TradeAggregator.sellVolumeUSD := 0;
     Stable.TradeAggregator.buyDominance := 100;
     Stable.TradeAggregator.sellDominance := 0;
     Stable.TradeAggregator.dominantSide := buy;
     Stable.TradeAggregator.priceChange := 0;
     Stable.TradeAggregator.tradeCount := 1%nat;
     Stable.TradeAggregator.stWindowSeconds := 180 |}.

(** Heavy taker selling at 1.00 followed by lighter taker buying at 1.01:
    sell-dominant while the price rises by one percent. *)
Definition risingSellTrades : list TradeEvent :=
  [ mkEvent "ADAUSDT" 1000 1 1600000 true;
    mkEvent "ADAUSDT" 2000 (101 # 100) 400000 false ].

(** An enhanced world with every filter at its shipped configuration and
    fresh filter objects, at ten o'clock UTC on a Wednesday. *)
Definition calmEnhancedWorld : Enhanced.SignalEngine.World :=
  {| Enhanced.SignalEngine.runtimeConfig := shippedEnhancedConfig;
     Enhanced.SignalEngine.aggressionConfig :=
       Enhanced.AggressionDecayFilter.mkConfig true 3 (85 # 100) 2;
     Enhanced.SignalEngine.stopConfig :=
       Enhanced.StopClusterProtection.mkConfig true 2 30 30;
     Enhanced.SignalEngine.timeConfig :=
       Enhanced.TimeBasedFilter.mkConfig true (Cfg.BArray []) (Cfg.BArray [])
         (Some 6) (Some 18);
     Enhanced.SignalEngine.btcConfig :=
       Enhanced.BTCVolatilityFilter.mkConfig true 1 10 2 15;
     Enhanced.SignalEngine.aggressionFilter := Enhanced.AggressionDecayFilter.new;
     Enhanced.SignalEngine.stopClusterFilter :=
       Enhanced.StopClusterProtection.new;
     Enhanced.SignalEngine.btcFilter := Enhanced.BTCVolatilityFilter.new;
     Enhanced.SignalEngine.now := 2000;
     Enhanced.SignalEngine.dayOfWeek := 3;
     Enhanced.SignalEngine.hourUTC := 10 |}.

(** The stable store after the operator shortened the ADAUSDT cooldown
    from five minutes to one. *)
Definition shortCooldownConfig : Cfg.SymbolConfig :=
  Cfg.mkSymbolConfig 1000000 65 (6 # 10) 1 true.

Definition shortCooldownStableState : Stable.RuntimeState.t :=
  {| Stable.RuntimeState.symbols :=
       {[ "ADAUSDT"%string := shortCooldownConfig ]};
     Stable.RuntimeState.filters := stableShippedFilters |}.

(** The stores after the operator sent [/filter timeBased blockedDays 3],
    and the worlds the filters read off them at ten o'clock on a
    Wednesday, the filter objects fresh. *)
Definition numberDaysEnhancedConfig : Enhanced.RuntimeConfig.t :=
  fst (Enhanced.RuntimeConfig.setFilterParam parseDecimal "timeBased"
         "blockedDays" (Cfg.VStr "3") shippedEnhancedConfig).

Definition numberDaysStableState : Stable.RuntimeState.t :=
  fst (Stable.RuntimeState.setFilterParam parseDecimal "timeBased"
         "blockedDays" (Cfg.VStr "3") shippedStableState).

Definition numberDaysEnhancedWorld : Enhanced.SignalEngine.World :=
  {| Enhanced.SignalEngine.runtimeConfig := numberDaysEnhancedConfig;
     Enhanced.SignalEngine.aggressionConfig :=
       Enhanced.SignalEngine.aggressionConfig calmEnhancedWorld;
     Enhanced.SignalEngine.stopConfig :=
       Enhanced.SignalEngine.stopConfig calmEnhancedWorld;
     Enhanced.SignalEngine.timeConfig :=
       Enhanced.TimeBasedFilter.mkConfig true (Cfg.BNumber 3) (Cfg.BArray [])
         (Some 6) (Some 18);
     Enhanced.SignalEngine.btcConfig :=
       Enhanced.SignalEngine.btcConfig calmEnhancedWorld;
     Enhanced.SignalEngine.aggressionFilter := Enhanced.AggressionDecayFilter.new;
     Enhanced.SignalEngine.stopClusterFilter :=
       Enhanced.StopClusterProtection.new;
     Enhanced.SignalEngine.btcFilter := Enhanced.BTCVolatilityFilter.new;
     Enhanced.SignalEngine.now := 2000;
     Enhanced.SignalEngine.dayOfWeek := 3;
     Enhanced.SignalEngine.hourUTC := 10 |}.

Definition numberDaysStableWorld : Stable.SignalEngine.World :=
  {| Stable.SignalEngine.runtimeState := numberDaysStableState;
     Stable.SignalEngine.aggressionConfig :=
       Stable.SignalEngine.aggressionConfig calmStableWorld;
     Stable.SignalEngine.stopConfig :=
       Stable.SignalEngine.stopConfig calmStableWorld;
     Stable.SignalEngine.timeConfig :=
       Stable.TimeBasedFilter.mkConfig true (Cfg.BNumber 3) (Cfg.BArray [])
         6 18;
     Stable.SignalEngine.btcConfig :=
       Stable.SignalEngine.btcConfig calmStableWorld;
     Stable.SignalEngine.aggressionFilter := Stable.AggressionDecayFilter.new;
     Stable.SignalEngine.stopClusterFilter := Stable.StopClusterProtection.new;
     Stable.SignalEngine.btcFilter := Stable.BTCVolatilityFilter.new;
     Stable.SignalEngine.now := 2000;
     Stable.SignalEngine.dayOfWeek := 3;
     Stable.SignalEngine.hour := 10 |}.

(** A buy-dominant enhanced snapshot and a buy-dominant stable one. *)
Definition buyStats : Enhanced.SymbolState.Stats :=
  Enhanced.SymbolState.mkStats 1200000 200000 1400000 buy (600 # 7) (8 # 10)
    (4 # 1000) 60 2%nat (Some (504 # 1000)) (Some (504 # 1000))
    (Some (5 # 10)).

Definition stableBuyStats : Stable.TradeAggregator.Stats :=
  {| Stable.TradeAggregator.symbol := "ADAUSDT";
     Stable.TradeAggregator.totalVolumeUSD := 1400000;
     Stable.TradeAggregator.buyVolumeUSD := 1200000;
     Stable.TradeAggregator.sellVolumeUSD := 200000;
     Stable.TradeAggregator.buyDominance := 600 # 7;
     Stable.TradeAggregator.sellDominance := 100 # 7;
     Stable.TradeAggregator.dominantSide := buy;
     Stable.TradeAggregator.priceChange := 8 # 10;
     Stable.TradeAggregator.tradeCount := 2%nat;
     Stable.TradeAggregator.stWindowSeconds := 180 |}.

(** The shipped aggression-decay knobs. *)
Definition decayConfig : Enhanced.AggressionDecayFilter.Config :=
  Enhanced.AggressionDecayFilter.mkConfig true 3 (85 # 100) 2.


(** Two past readings of normalized aggression, 1000 each. *)
Definition aggressionHistory : Enhanced.AggressionDecayFilter.t :=
  {[ "ADAUSDT"%string :=
       [ Enhanced.AggressionDecayFilter.mkEntry 1000 1000;
         Enhanced.AggressionDecayFilter.mkEntry 2000 1000 ] ]}.


(** The shipped kill-switch knobs: a ten-minute timeframe (enhanced), a
    threshold of two percent and a pause of fifteen minutes. *)
Definition btcConfig : Enhanced.BTCVolatilityFilter.Config :=
  Enhanced.BTCVolatilityFilter.mkConfig true 1 10 2 15.


(** Reference prices 100, 100 and 103, one minute apart. *)
Definition referencePolls : list (Q * option Q) :=
  [ (60000, Some 100); (120000, Some 100); (180000, Some 103) ].


(** A taker buy of notional 3 followed by a taker sell whose message
    carries the quantity [-1]: a message no exchange sends and no handler
    refuses. *)
Definition negativeQuantityTrades : list TradeEvent :=
  [ mkEvent "ADAUSDT" 1000 1 3 false;
    mkEvent "ADAUSDT" 2000 1 (-1) true ].

(** * Vocabulary of the further properties *)

(** The running extremes of a state are the extremes of its trades. *)
Definition extremesOk (st : Enhanced.SymbolState.t) : Prop :=
  match Enhanced.SymbolState.trades st with
  | [] => True
  | tr0 :: rest =>
      Enhanced.SymbolState.highPrice st
      = Some (Js.maxOf (Enhanced.SymbolState.price tr0)
                (map Enhanced.SymbolState.price rest))
      /\ Enhanced.SymbolState.lowPrice st
         = Some (Js.minOf (Enhanced.SymbolState.price tr0)
                   (map Enhanced.SymbolState.price rest))
  end.

(** No trade of a state is older than the window that ends at its last
    trade. *)
Definition spanOk (st : Enhanced.SymbolState.t) : Prop :=
  match lastOf (Enhanced.SymbolState.trades st) with
  | None => True
  | Some newest =>
      List.Forall
        (fun tr =>
           Enhanced.SymbolState.timestamp newest - Enhanced.SymbolState.windowMs st
           <= Enhanced.SymbolState.timestamp tr)
        (Enhanced.SymbolState.trades st)
  end.

(** Stop-losses reported one after the other, each with the clock reading
    of its report. *)
Definition recordStops (config : Enhanced.StopClusterProtection.Config)
    (stops : list (Q * string)) (s : Enhanced.StopClusterProtection.t)
    : Enhanced.StopClusterProtection.t :=
  fold_left
    (fun acc e =>
       Enhanced.StopClusterProtection.recordStopLoss config (fst e) (snd e) acc)
    stops s.

Definition stableRecordStops (config : Stable.StopClusterProtection.Config)
    (stops : list (Q * string)) (s : Stable.StopClusterProtection.t)
    : Stable.StopClusterProtection.t :=
  fold_left
    (fun acc e =>
       Stable.StopClusterProtection.recordStop config (fst e) (snd e) acc)
    stops s.

Definition stopConfig3 : Enhanced.StopClusterProtection.Config :=
  Enhanced.StopClusterProtection.mkConfig true 3 30 60.

Definition stableStopConfig3 : Stable.StopClusterProtection.Config :=
  Stable.StopClusterProtection.mkConfig true 3 30 60.

Definition threeStops : list (Q * string) :=
  [(1000, "ADAUSDT"); (61000, "XRPUSDT"); (121000, "ADAUSDT")].

(** A schedule meant to run overnight, from 22:00 to 6:00. *)
Definition overnightConfig : Enhanced.TimeBasedFilter.Config :=
  Enhanced.TimeBasedFilter.mkConfig true (Cfg.BArray []) (Cfg.BArray [])
    (Some 22) (Some 6).

Definition stableOvernightConfig : Stable.TimeBasedFilter.Config :=
  Stable.TimeBasedFilter.mkConfig true (Cfg.BArray []) (Cfg.BArray []) 22 6.

(** A sell-dominant enhanced snapshot. *)
Definition sellStats : Enhanced.SymbolState.Stats :=
  Enhanced.SymbolState.mkStats 200000 1200000 1400000 sell (600 # 7)
    (- (8 # 10)) (4 # 1000) 60 2%nat (Some (5 # 10)) (Some (504 # 1000))
    (Some (5 # 10)).

(** Times of which each is at least [gap] after every earlier one. *)
Fixpoint spaced (gap : Q) (ts : list Q) : Prop :=
  match ts with
  | [] => True
  | t :: rest => List.Forall (fun u => t + gap <= u) rest /\ spaced gap rest
  end.

Definition twoAlertPolls : list (Q * option Q) :=
  [ (60000, Some 100); (120000, Some 103); (1080000, Some 103);
    (1140000, Some 106) ].

(** One call of [recordAggression]. *)
Record AggressionReport : Type := mkAggressionReport {
  rep_symbol : string;
  rep_timestamp : Q;
  rep_buyVolume : Q;
  rep_sellVolume : Q;
  rep_priceRange : Q
}.

Definition recordAggressions (config : Enhanced.AggressionDecayFilter.Config)
    (reports : list AggressionReport) (h : Enhanced.AggressionDecayFilter.t)
    : Enhanced.AggressionDecayFilter.t :=
  fold_left
    (fun acc r =>
       Enhanced.AggressionDecayFilter.recordAggression config (rep_symbol r)
         (rep_timestamp r) (rep_buyVolume r) (rep_sellVolume r)
         (rep_priceRange r) acc)
    reports h.

(** Every stored entry of an aggression history is positive. *)
Definition entriesPositive (h : Enhanced.AggressionDecayFilter.t) : Prop :=
  forall symbol history,
    h !! symbol = Some history ->
    List.Forall
      (fun e => 0 < Enhanced.AggressionDecayFilter.normalizedAggression e)
      history.

Definition twoReports : list AggressionReport :=
  [ mkAggressionReport "ADAUSDT" 60000 1200000 200000 (4 # 1000);
    mkAggressionReport "ADAUSDT" 120000 300000 900000 0 ].



(** The limits the instrument setter enforces, as a property of a
    configuration and of a store. *)
Definition withinLimits (c : Cfg.SymbolConfig) : Prop :=
  0 <= Cfg.minVolumeUSD c
  /\ 50 <= Cfg.minDominance c
  /\ Cfg.minDominance c <= 100
  /\ 0 <= Cfg.minPriceChange c
  /\ 0 <= Cfg.cooldownMinutes c.

Definition limitsHold (rc : Enhanced.RuntimeConfig.t) : Prop :=
  forall symbol c,
    Enhanced.RuntimeConfig.get symbol rc = Cfg.Own c -> withinLimits c.

(** The four filters can read their configuration objects off the store. *)
Definition filtersReadable (rc : Enhanced.RuntimeConfig.t) : Prop :=
  is_Some (Cfg.owned (Enhanced.RuntimeConfig.getFilter "aggressionDecay" rc)
             ≫= Enhanced.AggressionDecayFilter.ofBag)
  /\ is_Some (Cfg.owned (Enhanced.RuntimeConfig.getFilter "stopCluster" rc)
                ≫= Enhanced.StopClusterProtection.ofBag)
  /\ is_Some (Cfg.owned (Enhanced.RuntimeConfig.getFilter "timeBased" rc)
                ≫= Enhanced.TimeBasedFilter.ofBag)
  /\ is_Some (Cfg.owned (Enhanced.RuntimeConfig.getFilter "btcVolatility" rc)
                ≫= Enhanced.BTCVolatilityFilter.ofBag).

Definition stableFiltersReadable (rs : Stable.RuntimeState.t) : Prop :=
  is_Some (Cfg.owned (Stable.RuntimeState.getFilter "aggressionDecay" rs)
             ≫= Stable.AggressionDecayFilter.ofBag)
  /\ is_Some (Cfg.owned (Stable.RuntimeState.getFilter "stopCluster" rs)
                ≫= Stable.StopClusterProtection.ofBag)
  /\ is_Some (Cfg.owned (Stable.RuntimeState.getFilter "timeBased" rs)
                ≫= Stable.TimeBasedFilter.ofBag)
  /\ is_Some (Cfg.owned (Stable.RuntimeState.getFilter "btcVolatility" rs)
                ≫= Stable.BTCVolatilityFilter.ofBag).

(** Every field a reader finds in [bag] it finds in [bag1], with a type
    it covers. *)
Definition keepsTypes (bag bag1 : gmap string Cfg.JsValue) : Prop :=
  (is_Some (Cfg.boolField bag "enabled")
   -> is_Some (Cfg.boolField bag1 "enabled"))
  /\ forall name,
       name <> "enabled"%string ->
       (is_Some (Cfg.numField bag name) -> is_Some (Cfg.numField bag1 name))
       /\ (is_Some (Cfg.optNumField bag name)
           -> is_Some (Cfg.optNumField bag1 name))
       /\ (is_Some (Cfg.blockedField bag name)
           -> is_Some (Cfg.blockedField bag1 name)).

(** The calls the command handlers make on the store; a handler catches
    the error a call throws and the next command finds the store as the
    call left it. *)
Inductive ConfigCommand : Type :=
  | CmdSet (symbol param : string) (value : Cfg.JsValue)
  | CmdEnable (symbol : string)
  | CmdDisable (symbol : string)
  | CmdSetFilter (filterName param : string) (value : Cfg.JsValue).

(** The store a call leaves, whether it returned or threw; [None] when
    the call went on with a built-in object ([Cfg.Outside]). *)
Definition inside {A : Type} (r : Enhanced.RuntimeConfig.t * Cfg.Outcome A)
    : option Enhanced.RuntimeConfig.t :=
  match r with
  | (_, Cfg.Outside _) => None
  | (rc1, _) => Some rc1
  end.

Definition runCommand (parseFloat : Cfg.JsValue -> option Q)
    (cmd : ConfigCommand) (rc : Enhanced.RuntimeConfig.t)
    : option Enhanced.RuntimeConfig.t :=
  match cmd with
  | CmdSet symbol param value =>
      inside (Enhanced.RuntimeConfig.set parseFloat symbol param value rc)
  | CmdEnable symbol => inside (Enhanced.RuntimeConfig.enable symbol rc)
  | CmdDisable symbol => inside (Enhanced.RuntimeConfig.disable symbol rc)
  | CmdSetFilter filterName param value =>
      inside (Enhanced.RuntimeConfig.setFilterParam parseFloat filterName
                param value rc)
  end.

(** A run of commands, as far as every call stays inside the store. *)
Fixpoint runCommands (parseFloat : Cfg.JsValue -> option Q)
    (cmds : list ConfigCommand) (rc : Enhanced.RuntimeConfig.t)
    : option Enhanced.RuntimeConfig.t :=
  match cmds with
  | [] => Some rc
  | cmd :: rest =>
      match runCommand parseFloat cmd rc with
      | Some rc1 => runCommands parseFloat rest rc1
      | None => None
      end
  end.

(** Accepted and rejected calls of each setter; the last but one turns
    the array [blockedDays] into a number. *)
Definition sampleCommands : list ConfigCommand :=
  [ CmdSet "ADAUSDT" "minDominance" (Cfg.VStr "70");
    CmdSet "ADAUSDT" "minDominance" (Cfg.VStr "30");
    CmdSet "ADAUSDT" "cooldownMinutes" (Cfg.VStr "-5");
    CmdDisable "ADAUSDT";
    CmdEnable "XRPUSDT";
    CmdEnable "ADAUSDT";
    CmdSetFilter "btcVolatility" "thresholdPercent" (Cfg.VStr "3");
    CmdSetFilter "volume" "thresholdPercent" (Cfg.VStr "3");
    CmdSetFilter "timeBased" "blockedDays" (Cfg.VStr "3");
    CmdSet "ADAUSDT" "minVolumeUSD" (Cfg.VStr "250000") ].

(** The calm world after the operator disabled ADAUSDT. *)
Definition disabledAdaWorld : Enhanced.SignalEngine.World :=
  {| Enhanced.SignalEngine.runtimeConfig :=
       fst (Enhanced.RuntimeConfig.disable "ADAUSDT" shippedEnhancedConfig);
     Enhanced.SignalEngine.aggressionConfig :=
       Enhanced.SignalEngine.aggressionConfig calmEnhancedWorld;
     Enhanced.SignalEngine.stopConfig :=
       Enhanced.SignalEngine.stopConfig calmEnhancedWorld;
     Enhanced.SignalEngine.timeConfig :=
       Enhanced.SignalEngine.timeConfig calmEnhancedWorld;
     Enhanced.SignalEngine.btcConfig :=
       Enhanced.SignalEngine.btcConfig calmEnhancedWorld;
     Enhanced.SignalEngine.aggressionFilter :=
       Enhanced.SignalEngine.aggressionFilter calmEnhancedWorld;
     Enhanced.SignalEngine.stopClusterFilter :=
       Enhanced.SignalEngine.stopClusterFilter calmEnhancedWorld;
     Enhanced.SignalEngine.btcFilter :=
       Enhanced.SignalEngine.btcFilter calmEnhancedWorld;
     Enhanced.SignalEngine.now := Enhanced.SignalEngine.now calmEnhancedWorld;
     Enhanced.SignalEngine.dayOfWeek :=
       Enhanced.SignalEngine.dayOfWeek calmEnhancedWorld;
     Enhanced.SignalEngine.hourUTC :=
       Enhanced.SignalEngine.hourUTC calmEnhancedWorld |}.

(** What reaches the enhanced stream manager: a trade message, with the
    world it finds, or the callback of an alert timer. *)
Inductive ManagerInput : Type :=
  | Message (w : Enhanced.SignalEngine.World) (trade : TradeEvent)
  | TimerFires (delivered : bool) (timer : Enhanced.AlertManager.Timer).

(** One input; the timers set are logged with the clock reading at which
    they were set. *)
Definition managerStep (statsLogInterval : Q) (i : ManagerInput)
    (m : Enhanced.MultiWebSocketManager.t)
    : Enhanced.MultiWebSocketManager.t
      * list (Q * Enhanced.AlertManager.Timer) :=
  match i with
  | Message w trade =>
      let r :=
        Enhanced.MultiWebSocketManager.handleMessage statsLogInterval w trade
          m in
      (fst r, map (fun timer => (Enhanced.SignalEngine.now w, timer)) (snd r))
  | TimerFires delivered timer =>
      ({| Enhanced.MultiWebSocketManager.tradeAggregator :=
            Enhanced.MultiWebSocketManager.tradeAggregator m;
          Enhanced.MultiWebSocketManager.cooldownManager :=
            Enhanced.MultiWebSocketManager.cooldownManager m;
          Enhanced.MultiWebSocketManager.alertManager :=
            Enhanced.AlertManager.fire delivered timer
              (Enhanced.MultiWebSocketManager.alertManager m);
          Enhanced.MultiWebSocketManager.aggressionFilter :=
            Enhanced.MultiWebSocketManager.aggressionFilter m;
          Enhanced.MultiWebSocketManager.tradeCount :=
            Enhanced.MultiWebSocketManager.tradeCount m;
          Enhanced.MultiWebSocketManager.lastStatsLog :=
            Enhanced.MultiWebSocketManager.lastStatsLog m |},
       [])
  end.

Fixpoint managerRun (statsLogInterval : Q) (inputs : list ManagerInput)
    (m : Enhanced.MultiWebSocketManager.t)
    : Enhanced.MultiWebSocketManager.t
      * list (Q * Enhanced.AlertManager.Timer) :=
  match inputs with
  | [] => (m, [])
  | i :: rest =>
      let r1 := managerStep statsLogInterval i m in
      let r2 := managerRun statsLogInterval rest (fst r1) in
      (fst r2, snd r1 ++ snd r2)
  end.

(** The times at which the timers of one symbol and side were set. *)
Definition alertTimes (symbol : string) (side : Side)
    (log : list (Q * Enhanced.AlertManager.Timer)) : list Q :=
  map fst
    (List.filter
       (fun x =>
          String.eqb (Enhanced.AlertManager.timerKey (snd x))
            (Enhanced.CooldownManager.key symbol side))
       log).

(** A message handled under the store [rc] at a clock reading other than
    zero. *)
Definition inputUnder (rc : Enhanced.RuntimeConfig.t) (i : ManagerInput)
    : Prop :=
  match i with
  | Message w _ =>
      Enhanced.SignalEngine.runtimeConfig w = rc
      /\ ~ Enhanced.SignalEngine.now w == 0
  | TimerFires _ _ => True
  end.

Definition calmAt (now : Q) : Enhanced.SignalEngine.World :=
  {| Enhanced.SignalEngine.runtimeConfig :=
       Enhanced.SignalEngine.runtimeConfig calmEnhancedWorld;
     Enhanced.SignalEngine.aggressionConfig :=
       Enhanced.SignalEngine.aggressionConfig calmEnhancedWorld;
     Enhanced.SignalEngine.stopConfig :=
       Enhanced.SignalEngine.stopConfig calmEnhancedWorld;
     Enhanced.SignalEngine.timeConfig :=
       Enhanced.SignalEngine.timeConfig calmEnhancedWorld;
     Enhanced.SignalEngine.btcConfig :=
       Enhanced.SignalEngine.btcConfig calmEnhancedWorld;
     Enhanced.SignalEngine.aggressionFilter :=
       Enhanced.SignalEngine.aggressionFilter calmEnhancedWorld;
     Enhanced.SignalEngine.stopClusterFilter :=
       Enhanced.SignalEngine.stopClusterFilter calmEnhancedWorld;
     Enhanced.SignalEngine.btcFilter :=
       Enhanced.SignalEngine.btcFilter calmEnhancedWorld;
     Enhanced.SignalEngine.now := now;
     Enhanced.SignalEngine.dayOfWeek :=
       Enhanced.SignalEngine.dayOfWeek calmEnhancedWorld;
     Enhanced.SignalEngine.hourUTC :=
       Enhanced.SignalEngine.hourUTC calmEnhancedWorld |}.

Definition freshManager : Enhanced.MultiWebSocketManager.t :=
  {| Enhanced.MultiWebSocketManager.tradeAggregator :=
       Enhanced.TradeAggregator.new 180;
     Enhanced.MultiWebSocketManager.cooldownManager :=
       Enhanced.CooldownManager.new;
     Enhanced.MultiWebSocketManager.alertManager := Enhanced.AlertManager.new;
     Enhanced.MultiWebSocketManager.aggressionFilter :=
       Enhanced.AggressionDecayFilter.new;
     Enhanced.MultiWebSocketManager.tradeCount := 0%nat;
     Enhanced.MultiWebSocketManager.lastStatsLog := 0 |}.

(** Two buys that raise the price by 0.8 % on a notional of 1.256 M. *)
Definition firstBurst : list ManagerInput :=
  [ Message (calmAt 1500) (mkEvent "ADAUSDT" 1000 (5 # 10) 1000000 false);
    Message (calmAt 2500) (mkEvent "ADAUSDT" 2000 (504 # 1000) 1500000 false) ].

(** The same burst again, first three minutes and then some nine minutes
    after the first one, the timer of the first alert having fired. *)
Definition threeBursts : list ManagerInput :=
  firstBurst
  ++ map (fun x => TimerFires true (snd x))
       (snd (managerRun 60 firstBurst freshManager))
  ++ [ Message (calmAt 181500)
         (mkEvent "ADAUSDT" 181000 (5 # 10) 1000000 false);
       Message (calmAt 182500)
         (mkEvent "ADAUSDT" 182000 (504 # 1000) 1500000 false);
       Message (calmAt 561500)
         (mkEvent "ADAUSDT" 561000 (5 # 10) 1000000 false);
       Message (calmAt 562500)
         (mkEvent "ADAUSDT" 562000 (504 # 1000) 1500000 false) ].

(** A trade message reaching the stable stream manager, with the three
    clock readings it finds. *)
Record Arrival : Type := mkArrival {
  arr_now : Q;
  arr_dayOfWeek : Q;
  arr_hour : Q;
  arr_trade : TradeEvent
}.

Definition withClock (w : Stable.SignalEngine.World) (a : Arrival)
    : Stable.SignalEngine.World :=
  {| Stable.SignalEngine.runtimeState := Stable.SignalEngine.runtimeState w;
     Stable.SignalEngine.aggressionConfig :=
       Stable.SignalEngine.aggressionConfig w;
     Stable.SignalEngine.stopConfig := Stable.SignalEngine.stopConfig w;
     Stable.SignalEngine.timeConfig := Stable.SignalEngine.timeConfig w;
     Stable.SignalEngine.btcConfig := Stable.SignalEngine.btcConfig w;
     Stable.SignalEngine.aggressionFilter :=
       Stable.SignalEngine.aggressionFilter w;
     Stable.SignalEngine.stopClusterFilter :=
       Stable.SignalEngine.stopClusterFilter w;
     Stable.SignalEngine.btcFilter := Stable.SignalEngine.btcFilter w;
     Stable.SignalEngine.now := arr_now a;
     Stable.SignalEngine.dayOfWeek := arr_dayOfWeek a;
     Stable.SignalEngine.hour := arr_hour a |}.

(** The messages of [arrivals] in order; each alert sent is logged with
    the symbol of its stream and the minute of its clock reading. *)
Fixpoint stableManagerRun (arrivals : list Arrival)
    (w : Stable.SignalEngine.World) (m : Stable.MultiWebSocketManager.t)
    : Stable.SignalEngine.World * Stable.MultiWebSocketManager.t
      * list (string * Z * Stable.TradeAggregator.Stats) :=
  match arrivals with
  | [] => (w, m, [])
  | a :: rest =>
      let r1 :=
        Stable.MultiWebSocketManager.handleMessage (withClock w a)
          (arr_trade a) m in
      let r2 := stableManagerRun rest (fst (fst r1)) (snd (fst r1)) in
      (fst r2,
       map (fun stats =>
              (ev_symbol (arr_trade a), Qfloor (arr_now a / 60000), stats))
         (snd r1)
       ++ snd r2)
  end.

Definition alertMinutes (symbol : string)
    (log : list (string * Z * Stable.TradeAggregator.Stats)) : list Z :=
  map (fun x => snd (fst x))
    (List.filter (fun x => String.eqb (fst (fst x)) symbol) log).

(** Integers of which each is above every earlier one. *)
Fixpoint ascending (zs : list Z) : Prop :=
  match zs with
  | [] => True
  | z :: rest => List.Forall (fun u => (z < u)%Z) rest /\ ascending rest
  end.

(** [n] [close] events of one connection in a row, none of its reconnects
    reaching [open]; the timers set are listed by their delays, [None]
    where a [close] sets no timer. *)
Fixpoint closes (maxReconnects : Q) (symbol : string) (n : nat)
    (reconnectAttempts : gmap string Q) : gmap string Q * list (option Q) :=
  match n with
  | O => (reconnectAttempts, [])
  | S n1 =>
      let r1 :=
        Enhanced.MultiWebSocketManager.reconnectSymbol maxReconnects symbol
          reconnectAttempts in
      let r2 := closes maxReconnects symbol n1 (fst r1) in
      (fst r2, snd r1 :: snd r2)
  end.

Fixpoint stableCloses (maxReconnects : Q) (symbol : string) (n : nat)
    (reconnectAttempts : gmap string Q) : gmap string Q * list (option Q) :=
  match n with
  | O => (reconnectAttempts, [])
  | S n1 =>
      let r1 :=
        Stable.MultiWebSocketManager.reconnectSymbol maxReconnects symbol
          reconnectAttempts in
      let r2 := stableCloses maxReconnects symbol n1 (fst r1) in
      (fst r2, snd r1 :: snd r2)
  end.

(** The [i]-th of a row of [close] events after [a] attempts, under a
    limit of [N]: a timer of [5 (a + i + 1)] seconds while the limit is
    not reached, none from then on. *)
Definition backoffAt (N a i : nat) (delays : list (option Q)) : Prop :=
  match nth_error delays i with
  | Some (Some d) =>
      (a + i < N)%nat /\ d == 5000 * inject_Z (Z.of_nat (a + i + 1))
  | Some None => (N <= a + i)%nat
  | None => False
  end.

(** * Facts about the number operators *)

Lemma ltb_true (x y : Q) : Js.ltb x y = true <-> x < y.
Proof.
  unfold Js.ltb. rewrite negb_true_iff. split; intros H.
  - apply Qnot_le_lt. intros Hle. apply Qle_bool_iff in Hle. congruence.
  - destruct (Qle_bool y x) eqn:E; [ | reflexivity ].
    apply Qle_bool_iff in E. apply Qle_not_lt in E. contradiction.
Qed.

Lemma ltb_false (x y : Q) : Js.ltb x y = false <-> y <= x.
Proof.
  unfold Js.ltb. rewrite negb_false_iff. apply Qle_bool_iff.
Qed.

Lemma gtb_true (x y : Q) : Js.gtb x y = true <-> y < x.
Proof. unfold Js.gtb. apply ltb_true. Qed.

Lemma gtb_false (x y : Q) : Js.gtb x y = false <-> x <= y.
Proof. unfold Js.gtb. apply ltb_false. Qed.

Lemma geb_true (x y : Q) : Js.geb x y = true <-> y <= x.
Proof. unfold Js.geb. apply Qle_bool_iff. Qed.

Lemma geb_false (x y : Q) : Js.geb x y = false <-> x < y.
Proof.
  unfold Js.geb. split; intros H.
  - apply Qnot_le_lt. intros Hle. apply Qle_bool_iff in Hle. congruence.
  - destruct (Qle_bool y x) eqn:E; [ | reflexivity ].
    apply Qle_bool_iff in E. apply Qle_not_lt in E. contradiction.
Qed.

Lemma eqb_true (x y : Q) : Js.eqb x y = true <-> x == y.
Proof. unfold Js.eqb. apply Qeq_bool_iff. Qed.

Lemma eqb_false (x y : Q) : Js.eqb x y = false <-> ~ x == y.
Proof.
  unfold Js.eqb. split; intros H.
  - intros E. apply Qeq_bool_iff in E. congruence.
  - destruct (Qeq_bool x y) eqn:E; [ | reflexivity ].
    apply Qeq_bool_iff in E. contradiction.
Qed.

(** ** Sums *)

Lemma fold_sum_shift {A : Type} (f : A -> Q) (xs : list A) (a : Q) :
  fold_left (fun acc x => acc + f x) xs a == a + Js.sumBy f xs.
Proof.
  unfold Js.sumBy. revert a.
  induction xs as [ | x xs IH ]; intros a; simpl.
  - ring.
  - rewrite (IH (a + f x)), (IH (0 + f x)). ring.
Qed.

Lemma sumBy_nil {A : Type} (f : A -> Q) : Js.sumBy f [] == 0.
Proof. reflexivity. Qed.

Lemma sumBy_cons {A : Type} (f : A -> Q) (x : A) (xs : list A) :
  Js.sumBy f (x :: xs) == f x + Js.sumBy f xs.
Proof.
  unfold Js.sumBy at 1. simpl. rewrite fold_sum_shift. ring.
Qed.

Lemma sumBy_app {A : Type} (f : A -> Q) (xs ys : list A) :
  Js.sumBy f (xs ++ ys) == Js.sumBy f xs + Js.sumBy f ys.
Proof.
  induction xs as [ | x xs IH ]; simpl.
  - rewrite sumBy_nil. ring.
  - rewrite !sumBy_cons, IH. ring.
Qed.

Lemma sumBy_nonneg {A : Type} (f : A -> Q) (xs : list A) :
  List.Forall (fun x => 0 <= f x) xs -> 0 <= Js.sumBy f xs.
Proof.
  induction 1 as [ | x xs Hx _ IH ].
  - rewrite sumBy_nil. apply Qle_refl.
  - rewrite sumBy_cons. lra.
Qed.

Lemma sumBy_member_le {A : Type} (f : A -> Q) (xs : list A) (x : A) :
  List.Forall (fun y => 0 <= f y) xs -> In x xs -> f x <= Js.sumBy f xs.
Proof.
  induction 1 as [ | y ys Hy Hys IH ]; intros Hin.
  - destruct Hin.
  - rewrite sumBy_cons. destruct Hin as [ -> | Hin ].
    + pose proof (sumBy_nonneg f ys Hys). lra.
    + specialize (IH Hin). lra.
Qed.

(** ** Eviction by a moving cutoff *)

Lemma filter_geb_cutoffs {A : Type} (ts : A -> Q) (c1 c2 : Q) (xs : list A) :
  c1 <= c2 ->
  List.filter (fun x => Js.geb (ts x) c2)
    (List.filter (fun x => Js.geb (ts x) c1) xs)
  = List.filter (fun x => Js.geb (ts x) c2) xs.
Proof.
  intros Hc. induction xs as [ | x xs IH ]; simpl; [ reflexivity | ].
  destruct (Js.geb (ts x) c1) eqn:E1; simpl.
  - rewrite IH. reflexivity.
  - rewrite IH. destruct (Js.geb (ts x) c2) eqn:E2; [ | reflexivity ].
    apply geb_true in E2. apply geb_false in E1. lra.
Qed.

Lemma filter_gtb_cutoffs {A : Type} (ts : A -> Q) (c1 c2 : Q) (xs : list A) :
  c1 <= c2 ->
  List.filter (fun x => Js.gtb (ts x) c2)
    (List.filter (fun x => Js.gtb (ts x) c1) xs)
  = List.filter (fun x => Js.gtb (ts x) c2) xs.
Proof.
  intros Hc. induction xs as [ | x xs IH ]; simpl; [ reflexivity | ].
  destruct (Js.gtb (ts x) c1) eqn:E1; simpl.
  - rewrite IH. reflexivity.
  - rewrite IH. destruct (Js.gtb (ts x) c2) eqn:E2; [ | reflexivity ].
    apply gtb_true in E2. apply gtb_false in E1. lra.
Qed.

Lemma nondecreasingb_snoc (ts : list Q) (t u : Q) :
  nondecreasingb ((ts ++ [t]) ++ [u]) = true ->
  nondecreasingb (ts ++ [t]) = true /\ t <= u.
Proof.
  induction ts as [ | a ts IH ]; simpl.
  - rewrite andb_true_r. intros H. apply Qle_bool_iff in H. auto.
  - destruct ts as [ | b ts ]; simpl in *.
    + rewrite andb_true_r. intros H. apply andb_true_iff in H as [Ha Hb].
      rewrite Ha. apply Qle_bool_iff in Hb. auto.
    + intros H. apply andb_true_iff in H as [Ha Hb].
      rewrite Ha. simpl. apply IH. exact Hb.
Qed.


(** * The enhanced window aggregator *)

Lemma enh_trades_cleanup (c : Q) (st : Enhanced.SymbolState.t) :
  Enhanced.SymbolState.trades (Enhanced.SymbolState.cleanup c st)
  = List.filter
      (fun tr => Js.geb (Enhanced.SymbolState.timestamp tr)
                   (c - Enhanced.SymbolState.windowMs st))
      (Enhanced.SymbolState.trades st).
Proof.
  unfold Enhanced.SymbolState.cleanup. cbv zeta.
  destruct (List.filter _ (Enhanced.SymbolState.trades st)); reflexivity.
Qed.

Lemma enh_windowMs_cleanup (c : Q) (st : Enhanced.SymbolState.t) :
  Enhanced.SymbolState.windowMs (Enhanced.SymbolState.cleanup c st)
  = Enhanced.SymbolState.windowMs st.
Proof.
  unfold Enhanced.SymbolState.cleanup. cbv zeta.
  destruct (List.filter _ (Enhanced.SymbolState.trades st)); reflexivity.
Qed.

Lemma enh_lastPrice_cleanup (c : Q) (st : Enhanced.SymbolState.t) :
  Enhanced.SymbolState.lastPrice (Enhanced.SymbolState.cleanup c st)
  = Enhanced.SymbolState.lastPrice st.
Proof.
  unfold Enhanced.SymbolState.cleanup. cbv zeta.
  destruct (List.filter _ (Enhanced.SymbolState.trades st)); reflexivity.
Qed.

Lemma enh_firstPrice_cleanup (c : Q) (st : Enhanced.SymbolState.t) :
  Enhanced.SymbolState.firstPrice (Enhanced.SymbolState.cleanup c st)
  = match Enhanced.SymbolState.trades (Enhanced.SymbolState.cleanup c st) with
    | [] => None
    | tr0 :: _ => Some (Enhanced.SymbolState.price tr0)
    end.
Proof.
  unfold Enhanced.SymbolState.cleanup. cbv zeta.
  destruct (List.filter _ (Enhanced.SymbolState.trades st)); reflexivity.
Qed.

Lemma enh_trades_addTrade (ts p q : Q) (m : bool) (st : Enhanced.SymbolState.t) :
  Enhanced.SymbolState.trades (Enhanced.SymbolState.addTrade ts p q m st)
  = List.filter
      (fun tr => Js.geb (Enhanced.SymbolState.timestamp tr)
                   (ts - Enhanced.SymbolState.windowMs st))
      (Enhanced.SymbolState.trades st ++ [tradeOf (mkEvent ""%string ts p q m)]).
Proof.
  unfold Enhanced.SymbolState.addTrade. cbv zeta.
  rewrite enh_trades_cleanup.
  destruct (Enhanced.SymbolState.firstPrice st); reflexivity.
Qed.

Lemma enh_windowMs_addTrade (ts p q : Q) (m : bool) (st : Enhanced.SymbolState.t) :
  Enhanced.SymbolState.windowMs (Enhanced.SymbolState.addTrade ts p q m st)
  = Enhanced.SymbolState.windowMs st.
Proof.
  unfold Enhanced.SymbolState.addTrade. cbv zeta.
  rewrite enh_windowMs_cleanup.
  destruct (Enhanced.SymbolState.firstPrice st); reflexivity.
Qed.

Lemma enh_lastPrice_addTrade (ts p q : Q) (m : bool) (st : Enhanced.SymbolState.t) :
  Enhanced.SymbolState.lastPrice (Enhanced.SymbolState.addTrade ts p q m st)
  = Some p.
Proof.
  unfold Enhanced.SymbolState.addTrade. cbv zeta.
  rewrite enh_lastPrice_cleanup.
  destruct (Enhanced.SymbolState.firstPrice st); reflexivity.
Qed.

Lemma enh_firstPrice_addTrade (ts p q : Q) (m : bool) (st : Enhanced.SymbolState.t) :
  Enhanced.SymbolState.firstPrice (Enhanced.SymbolState.addTrade ts p q m st)
  = match Enhanced.SymbolState.trades
            (Enhanced.SymbolState.addTrade ts p q m st) with
    | [] => None
    | tr0 :: _ => Some (Enhanced.SymbolState.price tr0)
    end.
Proof.
  unfold Enhanced.SymbolState.addTrade. cbv zeta.
  apply enh_firstPrice_cleanup.
Qed.

Lemma feedState_snoc (evs : list TradeEvent) (e : TradeEvent)
    (st : Enhanced.SymbolState.t) :
  feedState (evs ++ [e]) st
  = Enhanced.SymbolState.addTrade (ev_T e) (ev_p e) (ev_q e) (ev_m e)
      (feedState evs st).
Proof. unfold feedState. rewrite fold_left_app. reflexivity. Qed.

Lemma enh_windowMs_feedState (evs : list TradeEvent) (st : Enhanced.SymbolState.t) :
  Enhanced.SymbolState.windowMs (feedState evs st)
  = Enhanced.SymbolState.windowMs st.
Proof.
  induction evs as [ | e evs IH ] using rev_ind; [ reflexivity | ].
  rewrite feedState_snoc, enh_windowMs_addTrade. exact IH.
Qed.

Lemma lastOf_snoc {A : Type} (xs : list A) (x : A) : lastOf (xs ++ [x]) = Some x.
Proof.
  destruct xs as [ | y ys ]; [ reflexivity | ].
  cbn [app lastOf]. f_equal. apply List.last_last.
Qed.

Lemma tradeOf_symbol (s : string) (e : TradeEvent) :
  tradeOf (mkEvent s (ev_T e) (ev_p e) (ev_q e) (ev_m e)) = tradeOf e.
Proof. reflexivity. Qed.

(** After a run of trades whose timestamps never decrease, the state holds
    exactly the trades not older than the last timestamp minus the window. *)
Lemma enh_trades_feedState (evs : list TradeEvent) (e : TradeEvent)
    (st : Enhanced.SymbolState.t) :
  Enhanced.SymbolState.trades st = [] ->
  nondecreasingb (map ev_T (evs ++ [e])) = true ->
  Enhanced.SymbolState.trades (feedState (evs ++ [e]) st)
  = List.filter
      (fun tr => Js.geb (Enhanced.SymbolState.timestamp tr)
                   (ev_T e - Enhanced.SymbolState.windowMs st))
      (map tradeOf (evs ++ [e])).
Proof.
  intros Hempty. revert e.
  induction evs as [ | e' evs IH ] using rev_ind; intros e Hsorted.
  - cbn [app]. unfold feedState. cbn [fold_left].
    rewrite enh_trades_addTrade, Hempty, tradeOf_symbol. reflexivity.
  - rewrite feedState_snoc, enh_trades_addTrade, tradeOf_symbol.
    rewrite enh_windowMs_feedState.
    rewrite !map_app in Hsorted. cbn [map] in Hsorted.
    apply nondecreasingb_snoc in Hsorted as [Hsorted Hle].
    change [ev_T e'] with (map ev_T [e']) in Hsorted.
    rewrite <- map_app in Hsorted.
    rewrite (IH e' Hsorted).
    rewrite (map_app tradeOf (evs ++ [e'])).
    rewrite !List.filter_app.
    rewrite filter_geb_cutoffs by lra.
    reflexivity.
Qed.

(** What a non-null snapshot holds, field by field. *)
Lemma enh_getStats_Some (st : Enhanced.SymbolState.t)
    (s : Enhanced.SymbolState.Stats) :
  Enhanced.SymbolState.getStats st = Some s ->
  let B := Js.sumBy Enhanced.SymbolState.buyVol (Enhanced.SymbolState.trades st) in
  let S := Js.sumBy Enhanced.SymbolState.sellVol (Enhanced.SymbolState.trades st) in
  Enhanced.SymbolState.trades st <> []
  /\ ~ B + S == 0
  /\ Enhanced.SymbolState.buyVolume s = B
  /\ Enhanced.SymbolState.sellVolume s = S
  /\ Enhanced.SymbolState.totalVolume s = B + S
  /\ Enhanced.SymbolState.dominantSide s = (if Js.gtb B S then buy else sell)
  /\ Enhanced.SymbolState.dominance s
     = Qmax ((B / (B + S)) * 100) ((S / (B + S)) * 100)
  /\ Enhanced.SymbolState.priceChange s
     = (if Js.truthy (Enhanced.SymbolState.firstPrice st)
        then ((Js.num (Enhanced.SymbolState.lastPrice st)
               - Js.num (Enhanced.SymbolState.firstPrice st))
              / Js.num (Enhanced.SymbolState.firstPrice st)) * 100
        else 0).
Proof.
  unfold Enhanced.SymbolState.getStats. cbv zeta.
  destruct (Enhanced.SymbolState.trades st) as [ | tr0 rest ] eqn:Etr;
    [ discriminate | ].
  destruct (Js.eqb _ 0) eqn:E0; [ discriminate | ].
  intros H. injection H as <-. cbn [Enhanced.SymbolState.buyVolume
    Enhanced.SymbolState.sellVolume Enhanced.SymbolState.totalVolume
    Enhanced.SymbolState.dominantSide Enhanced.SymbolState.dominance
    Enhanced.SymbolState.priceChange].
  apply eqb_false in E0.
  repeat split; try reflexivity; try assumption. discriminate.
Qed.

Lemma enh_getStats_None (st : Enhanced.SymbolState.t) :
  Enhanced.SymbolState.getStats st = None <->
  Enhanced.SymbolState.trades st = []
  \/ Js.sumBy Enhanced.SymbolState.buyVol (Enhanced.SymbolState.trades st)
     + Js.sumBy Enhanced.SymbolState.sellVol (Enhanced.SymbolState.trades st)
     == 0.
Proof.
  unfold Enhanced.SymbolState.getStats. cbv zeta.
  destruct (Enhanced.SymbolState.trades st) as [ | tr0 rest ] eqn:Etr.
  - split; auto.
  - destruct (Js.eqb _ 0) eqn:E0.
    + apply eqb_true in E0. split; auto.
    + apply eqb_false in E0. split; [ discriminate | ].
      intros [ H | H ]; [ discriminate | contradiction ].
Qed.

Lemma sumBy_map {A B : Type} (f : A -> B) (g : B -> Q) (xs : list A) :
  Js.sumBy g (map f xs) == Js.sumBy (fun x => g (f x)) xs.
Proof.
  induction xs as [ | x xs IH ]; [ reflexivity | ].
  cbn [map]. rewrite !sumBy_cons, IH. reflexivity.
Qed.

Lemma filter_map_comm {A B : Type} (f : A -> B) (P : B -> bool) (xs : list A) :
  List.filter P (map f xs) = map f (List.filter (fun x => P (f x)) xs).
Proof.
  induction xs as [ | x xs IH ]; [ reflexivity | ].
  cbn [map List.filter]. destruct (P (f x)); cbn [map]; rewrite IH; reflexivity.
Qed.

Lemma enh_volumes_notional (evs : list TradeEvent) :
  Js.sumBy Enhanced.SymbolState.buyVol (map tradeOf evs)
  + Js.sumBy Enhanced.SymbolState.sellVol (map tradeOf evs)
  == Js.sumBy notional evs.
Proof.
  induction evs as [ | e evs IH ].
  - cbn [map]. rewrite !sumBy_nil. ring.
  - cbn [map]. rewrite !sumBy_cons. rewrite <- IH.
    unfold tradeOf at 1 3, notional.
    cbn [Enhanced.SymbolState.buyVol Enhanced.SymbolState.sellVol].
    destruct (ev_m e); ring.
Qed.

(** ** From one symbol's state to the aggregator's map *)

Lemma enh_getStats_stateOf (symbol : string) (agg : Enhanced.TradeAggregator.t) :
  Enhanced.TradeAggregator.getStats symbol agg
  = Enhanced.SymbolState.getStats (stateOf symbol agg).
Proof.
  unfold Enhanced.TradeAggregator.getStats, stateOf.
  destruct (Enhanced.TradeAggregator.states agg !! symbol); reflexivity.
Qed.

Lemma enh_stateOf_addTrade (symbol : string) (e : TradeEvent)
    (agg : Enhanced.TradeAggregator.t) :
  stateOf symbol
    (Enhanced.TradeAggregator.addTrade (ev_symbol e) (ev_T e) (ev_p e)
       (ev_q e) (ev_m e) agg)
  = if String.eqb (ev_symbol e) symbol
    then Enhanced.SymbolState.addTrade (ev_T e) (ev_p e) (ev_q e) (ev_m e)
           (stateOf symbol agg)
    else stateOf symbol agg.
Proof.
  unfold stateOf, Enhanced.TradeAggregator.addTrade.
  cbn [Enhanced.TradeAggregator.states Enhanced.TradeAggregator.windowSeconds].
  destruct (String.eqb (ev_symbol e) symbol) eqn:E.
  - apply String.eqb_eq in E. subst symbol.
    rewrite lookup_insert_eq. reflexivity.
  - apply String.eqb_neq in E.
    rewrite lookup_insert_ne by exact E. reflexivity.
Qed.

Lemma enh_stateOf_feed (symbol : string) (evs : list TradeEvent)
    (agg : Enhanced.TradeAggregator.t) :
  stateOf symbol (Enhanced.TradeAggregator.feed evs agg)
  = feedState (forSymbol symbol evs) (stateOf symbol agg).
Proof.
  unfold Enhanced.TradeAggregator.feed, feedState, forSymbol.
  revert agg. induction evs as [ | e evs IH ]; intros agg; [ reflexivity | ].
  cbn [fold_left List.filter]. rewrite IH, enh_stateOf_addTrade.
  destruct (String.eqb (ev_symbol e) symbol); reflexivity.
Qed.

Lemma lastOf_inv {A : Type} (xs : list A) (x : A) :
  lastOf xs = Some x -> exists ys, xs = ys ++ [x].
Proof.
  destruct xs as [ | y ys ] using rev_ind; [ discriminate | ].
  rewrite lastOf_snoc. intros [= ->]. eauto.
Qed.

(** The enhanced aggregator keeps the trades inside the window that ends
    at the latest trade's own timestamp. *)
Lemma enhanced_window_total (w : Q) (evs : list TradeEvent) (symbol : string)
    (e : TradeEvent) :
  0 <= w ->
  forallb positiveb (forSymbol symbol evs) = true ->
  nondecreasingb (map ev_T (forSymbol symbol evs)) = true ->
  lastOf (forSymbol symbol evs) = Some e ->
  exists st,
    Enhanced.TradeAggregator.getStats symbol
      (Enhanced.TradeAggregator.feed evs (Enhanced.TradeAggregator.new w))
    = Some st
    /\ Enhanced.SymbolState.totalVolume st
       == windowSum (w * 1000) (ev_T e) (forSymbol symbol evs).
Proof.
  intros Hw Hpos Hsorted Hlast.
  rewrite enh_getStats_stateOf, enh_stateOf_feed.
  destruct (lastOf_inv _ _ Hlast) as [pre Hpre].
  set (st0 := stateOf symbol (Enhanced.TradeAggregator.new w)).
  assert (Hst0 : Enhanced.SymbolState.trades st0 = []) by reflexivity.
  assert (Hw0 : Enhanced.SymbolState.windowMs st0 = w * 1000) by reflexivity.
  rewrite Hpre in *.
  pose proof (enh_trades_feedState pre e st0 Hst0 Hsorted) as Htr.
  rewrite Hw0, filter_map_comm in Htr.
  cbn [tradeOf Enhanced.SymbolState.timestamp] in Htr.
  assert (Hsum :
    Js.sumBy Enhanced.SymbolState.buyVol
      (Enhanced.SymbolState.trades (feedState (pre ++ [e]) st0))
    + Js.sumBy Enhanced.SymbolState.sellVol
      (Enhanced.SymbolState.trades (feedState (pre ++ [e]) st0))
    == windowSum (w * 1000) (ev_T e) (pre ++ [e])).
  { rewrite Htr, enh_volumes_notional. reflexivity. }
  assert (Hposs : 0 < windowSum (w * 1000) (ev_T e) (pre ++ [e])).
  { unfold windowSum.
    apply Qlt_le_trans with (notional e).
    - rewrite forallb_app in Hpos. apply andb_true_iff in Hpos as [_ He].
      cbn [forallb] in He. rewrite andb_true_r in He.
      unfold positiveb in He. apply andb_true_iff in He as [Hp Hq].
      apply ltb_true in Hp, Hq. unfold notional. nra.
    - apply sumBy_member_le.
      + apply List.Forall_forall. intros x Hx. apply List.filter_In in Hx as [Hx _].
        rewrite forallb_forall in Hpos. specialize (Hpos x Hx).
        unfold positiveb in Hpos. apply andb_true_iff in Hpos as [Hp Hq].
        apply ltb_true in Hp, Hq. unfold notional. nra.
      + apply filter_In. split.
        * apply in_or_app. right. left. reflexivity.
        * apply Qle_bool_iff. nra. }
  destruct (Enhanced.SymbolState.getStats (feedState (pre ++ [e]) st0))
    as [ s | ] eqn:Eg.
  - exists s. split; [ reflexivity | ].
    apply enh_getStats_Some in Eg. cbv zeta in Eg.
    destruct Eg as (_ & _ & _ & _ & Htot & _). rewrite Htot. exact Hsum.
  - exfalso. apply enh_getStats_None in Eg. destruct Eg as [ Eg | Eg ].
    + rewrite Htr in Eg. apply map_eq_nil in Eg.
      assert (Hin : In e (List.filter
                            (fun x => Js.geb (ev_T x) (ev_T e - w * 1000))
                            (pre ++ [e]))).
      { apply filter_In. split; [ apply in_or_app; right; left; reflexivity | ].
        apply geb_true. nra. }
      rewrite Eg in Hin. destruct Hin.
    + rewrite Hsum in Eg. lra.
Qed.

(** * The stable window aggregator *)

Lemma stable_getStats_Some (now : Q) (symbol : string)
    (agg : Stable.TradeAggregator.t) (s : Stable.TradeAggregator.Stats) :
  Stable.TradeAggregator.getStats now symbol agg = Some s ->
  let c := now - (Stable.TradeAggregator.windowSeconds agg * 1000) in
  let AB := Stable.TradeAggregator.active c (buysOf symbol agg) in
  let AS := Stable.TradeAggregator.active c (sellsOf symbol agg) in
  let B := Js.sumBy Stable.TradeAggregator.volume AB in
  let S := Js.sumBy Stable.TradeAggregator.volume AS in
  ~ B + S == 0
  /\ Stable.TradeAggregator.buyVolumeUSD s = B
  /\ Stable.TradeAggregator.sellVolumeUSD s = S
  /\ Stable.TradeAggregator.totalVolumeUSD s = B + S
  /\ Stable.TradeAggregator.buyDominance s = (B / (B + S)) * 100
  /\ Stable.TradeAggregator.sellDominance s = (S / (B + S)) * 100
  /\ Stable.TradeAggregator.dominantSide s
     = (if Js.gtb ((B / (B + S)) * 100) ((S / (B + S)) * 100)
        then buy else sell)
  /\ exists it0 rest,
       AB ++ AS = it0 :: rest
       /\ Stable.TradeAggregator.priceChange s
          = ((Js.maxOf (Stable.TradeAggregator.price it0)
                (map Stable.TradeAggregator.price rest)
              - Js.minOf (Stable.TradeAggregator.price it0)
                  (map Stable.TradeAggregator.price rest))
             / Js.minOf (Stable.TradeAggregator.price it0)
                 (map Stable.TradeAggregator.price rest)) * 100.
Proof.
  unfold Stable.TradeAggregator.getStats, buysOf, sellsOf. cbv zeta.
  destruct (Stable.TradeAggregator.trades agg !! symbol) as [ data | ];
    [ | discriminate ].
  destruct (_ ++ _) as [ | it0 rest ] eqn:Eapp; [ discriminate | ].
  destruct (Js.eqb _ 0) eqn:E0; [ discriminate | ].
  intros H. injection H as <-.
  cbn [Stable.TradeAggregator.buyVolumeUSD Stable.TradeAggregator.sellVolumeUSD
       Stable.TradeAggregator.totalVolumeUSD Stable.TradeAggregator.buyDominance
       Stable.TradeAggregator.sellDominance Stable.TradeAggregator.dominantSide
       Stable.TradeAggregator.priceChange].
  apply eqb_false in E0.
  repeat split; try reflexivity; try assumption.
  exists it0, rest. split; reflexivity.
Qed.

Lemma stable_getStats_None (now : Q) (symbol : string)
    (agg : Stable.TradeAggregator.t) :
  Stable.TradeAggregator.getStats now symbol agg = None <->
  let c := now - (Stable.TradeAggregator.windowSeconds agg * 1000) in
  let AB := Stable.TradeAggregator.active c (buysOf symbol agg) in
  let AS := Stable.TradeAggregator.active c (sellsOf symbol agg) in
  AB ++ AS = []
  \/ Js.sumBy Stable.TradeAggregator.volume AB
     + Js.sumBy Stable.TradeAggregator.volume AS == 0.
Proof.
  unfold Stable.TradeAggregator.getStats, buysOf, sellsOf. cbv zeta.
  destruct (Stable.TradeAggregator.trades agg !! symbol) as [ data | ].
  - destruct (_ ++ _) as [ | it0 rest ] eqn:Eapp.
    + split; auto.
    + destruct (Js.eqb _ 0) eqn:E0.
      * apply eqb_true in E0. split; auto.
      * apply eqb_false in E0. split; [ discriminate | ].
        intros [ H | H ]; [ discriminate | contradiction ].
  - split; auto.
Qed.

Lemma stable_feed_snoc (arrivals : list (Q * TradeEvent)) (n : Q)
    (e : TradeEvent) (agg : Stable.TradeAggregator.t) :
  Stable.TradeAggregator.feed (arrivals ++ [(n, e)]) agg
  = Stable.TradeAggregator.addTrade n (ev_symbol e) e
      (Stable.TradeAggregator.feed arrivals agg).
Proof.
  unfold Stable.TradeAggregator.feed. rewrite fold_left_app. reflexivity.
Qed.

Lemma stable_windowSeconds_feed (arrivals : list (Q * TradeEvent))
    (agg : Stable.TradeAggregator.t) :
  Stable.TradeAggregator.windowSeconds (Stable.TradeAggregator.feed arrivals agg)
  = Stable.TradeAggregator.windowSeconds agg.
Proof.
  induction arrivals as [ | [n e] arrivals IH ] using rev_ind;
    [ reflexivity | ].
  rewrite stable_feed_snoc. exact IH.
Qed.

Lemma stable_buysOf_addTrade (symbol : string) (n : Q) (e : TradeEvent)
    (agg : Stable.TradeAggregator.t) :
  buysOf symbol (Stable.TradeAggregator.addTrade n (ev_symbol e) e agg)
  = if String.eqb (ev_symbol e) symbol && negb (ev_m e)
    then Stable.TradeAggregator.active
           (n - Stable.TradeAggregator.windowSeconds agg * 1000)
           (buysOf symbol agg ++ [itemOf e])
    else buysOf symbol agg.
Proof.
  unfold buysOf, Stable.TradeAggregator.addTrade. cbv zeta.
  cbn [Stable.TradeAggregator.trades].
  destruct (String.eqb (ev_symbol e) symbol) eqn:E.
  - apply String.eqb_eq in E. subst symbol. rewrite lookup_insert_eq.
    destruct (Stable.TradeAggregator.trades agg !! ev_symbol e);
      destruct (ev_m e); reflexivity.
  - apply String.eqb_neq in E. rewrite lookup_insert_ne by exact E.
    reflexivity.
Qed.

Lemma stable_sellsOf_addTrade (symbol : string) (n : Q) (e : TradeEvent)
    (agg : Stable.TradeAggregator.t) :
  sellsOf symbol (Stable.TradeAggregator.addTrade n (ev_symbol e) e agg)
  = if String.eqb (ev_symbol e) symbol && ev_m e
    then Stable.TradeAggregator.active
           (n - Stable.TradeAggregator.windowSeconds agg * 1000)
           (sellsOf symbol agg ++ [itemOf e])
    else sellsOf symbol agg.
Proof.
  unfold sellsOf, Stable.TradeAggregator.addTrade. cbv zeta.
  cbn [Stable.TradeAggregator.trades].
  destruct (String.eqb (ev_symbol e) symbol) eqn:E.
  - apply String.eqb_eq in E. subst symbol. rewrite lookup_insert_eq.
    destruct (Stable.TradeAggregator.trades agg !! ev_symbol e);
      destruct (ev_m e); reflexivity.
  - apply String.eqb_neq in E. rewrite lookup_insert_ne by exact E.
    reflexivity.
Qed.

Lemma arrivedBy_snoc (now : Q) (arrivals : list (Q * TradeEvent)) (n : Q)
    (e : TradeEvent) :
  arrivedBy now (arrivals ++ [(n, e)]) = true ->
  arrivedBy now arrivals = true /\ n <= now.
Proof.
  unfold arrivedBy. rewrite forallb_app. cbn [forallb fst].
  rewrite andb_true_r. intros H. apply andb_true_iff in H as [H1 H2].
  apply Qle_bool_iff in H2. auto.
Qed.

(** Whatever the add-time evictions removed is also outside the window of
    any later wall-clock reading. *)
Lemma stable_active_feed (w now : Q) (symbol : string)
    (arrivals : list (Q * TradeEvent)) :
  arrivedBy now arrivals = true ->
  let agg := Stable.TradeAggregator.feed arrivals (Stable.TradeAggregator.new w) in
  let evs := forSymbol symbol (map snd arrivals) in
  Stable.TradeAggregator.active (now - w * 1000) (buysOf symbol agg)
  = Stable.TradeAggregator.active (now - w * 1000) (map itemOf (takerBuys evs))
  /\ Stable.TradeAggregator.active (now - w * 1000) (sellsOf symbol agg)
     = Stable.TradeAggregator.active (now - w * 1000)
         (map itemOf (takerSells evs)).
Proof.
  cbv zeta.
  induction arrivals as [ | [n e] arrivals IH ] using rev_ind; intros Harr.
  - split; reflexivity.
  - apply arrivedBy_snoc in Harr as [Harr Hn].
    destruct (IH Harr) as [IHb IHs]. clear IH.
    rewrite stable_feed_snoc, stable_buysOf_addTrade, stable_sellsOf_addTrade.
    rewrite stable_windowSeconds_feed.
    cbn [Stable.TradeAggregator.windowSeconds Stable.TradeAggregator.new].
    rewrite map_app. cbn [map snd].
    unfold forSymbol, takerBuys, takerSells in *.
    rewrite !List.filter_app. cbn [List.filter].
    unfold Stable.TradeAggregator.active in *.
    destruct (String.eqb (ev_symbol e) symbol); cbn [andb List.filter].
    + destruct (ev_m e); cbn [negb List.filter].
      * rewrite app_nil_r. split; [ exact IHb | ].
        rewrite filter_gtb_cutoffs by lra.
        rewrite map_app, !List.filter_app, IHs. reflexivity.
      * rewrite app_nil_r. split; [ | exact IHs ].
        rewrite filter_gtb_cutoffs by lra.
        rewrite map_app, !List.filter_app, IHb. reflexivity.
    + rewrite !app_nil_r. split; assumption.
Qed.

Lemma stable_volumes_notional (c : Q) (evs : list TradeEvent) :
  Js.sumBy Stable.TradeAggregator.volume
    (Stable.TradeAggregator.active c (map itemOf (takerBuys evs)))
  + Js.sumBy Stable.TradeAggregator.volume
      (Stable.TradeAggregator.active c (map itemOf (takerSells evs)))
  == Js.sumBy notional (List.filter (fun e => Js.gtb (ev_T e) c) evs).
Proof.
  unfold takerBuys, takerSells, Stable.TradeAggregator.active.
  induction evs as [ | e evs IH ].
  - cbn [List.filter map]. rewrite !sumBy_nil. ring.
  - cbn [List.filter].
    destruct (ev_m e) eqn:Em; cbn [negb map List.filter itemOf
                                   Stable.TradeAggregator.time];
      destruct (Js.gtb (ev_T e) c); rewrite ?sumBy_cons, <- ?IH;
      change (Stable.TradeAggregator.volume (itemOf e)) with (notional e);
      ring.
Qed.

(** The stable aggregator keeps the trades inside the window that ends at
    the wall-clock reading of the query. *)
Lemma stable_window_total (w now : Q) (symbol : string)
    (arrivals : list (Q * TradeEvent)) :
  arrivedBy now arrivals = true ->
  let sum := wallSum (w * 1000) now (forSymbol symbol (map snd arrivals)) in
  match Stable.TradeAggregator.getStats now symbol
          (Stable.TradeAggregator.feed arrivals (Stable.TradeAggregator.new w))
  with
  | Some st => Stable.TradeAggregator.totalVolumeUSD st == sum /\ ~ sum == 0
  | None => sum == 0
  end.
Proof.
  intros Harr. cbv zeta. unfold wallSum.
  destruct (stable_active_feed w now symbol arrivals Harr) as [Hb Hs].
  pose proof (stable_volumes_notional (now - w * 1000)
                (forSymbol symbol (map snd arrivals))) as Hsum.
  rewrite <- Hb, <- Hs in Hsum.
  destruct (Stable.TradeAggregator.getStats _ _ _) as [ st | ] eqn:Eg.
  - apply stable_getStats_Some in Eg. cbv zeta in Eg.
    rewrite stable_windowSeconds_feed in Eg.
    cbn [Stable.TradeAggregator.windowSeconds Stable.TradeAggregator.new] in Eg.
    destruct Eg as (Hnz & _ & _ & Htot & _).
    rewrite Htot, <- Hsum. split; [ reflexivity | exact Hnz ].
  - apply stable_getStats_None in Eg. cbv zeta in Eg.
    rewrite stable_windowSeconds_feed in Eg.
    cbn [Stable.TradeAggregator.windowSeconds Stable.TradeAggregator.new] in Eg.
    rewrite <- Hsum. destruct Eg as [ Eg | Eg ]; [ | exact Eg ].
    apply app_eq_nil in Eg as [-> ->]. rewrite sumBy_nil. ring.
Qed.

(** * C1: what [totalVolume] sums *)

(** C1, as amended.  Enhanced variant: for every trade sequence whose
    trades of one symbol carry positive price and quantity and timestamps
    that never decrease, fed to a fresh aggregator with a non-negative
    window, [getStats] returns a snapshot whose [totalVolume] is the sum
    of price times quantity over exactly the trades with
    [timestamp >= latest - windowMs], [latest] being the timestamp of the
    last trade fed.  Stable variant: however the wall clock advanced up to
    the reading [now] of the query, [getStats] returns a snapshot whose
    [totalVolumeUSD] is the sum over exactly the trades with
    [time > now - windowSeconds * 1000], and [null] when that sum is
    zero. *)
Theorem window_total_by_variant (w : Q) (evs : list TradeEvent)
    (symbol : string) (e : TradeEvent) (now : Q)
    (arrivals : list (Q * TradeEvent)) :
  (0 <= w ->
   forallb positiveb (forSymbol symbol evs) = true ->
   nondecreasingb (map ev_T (forSymbol symbol evs)) = true ->
   lastOf (forSymbol symbol evs) = Some e ->
   exists st,
     Enhanced.TradeAggregator.getStats symbol
       (Enhanced.TradeAggregator.feed evs (Enhanced.TradeAggregator.new w))
     = Some st
     /\ Enhanced.SymbolState.totalVolume st
        == windowSum (w * 1000) (ev_T e) (forSymbol symbol evs))
  /\ (arrivedBy now arrivals = true ->
      match Stable.TradeAggregator.getStats now symbol
              (Stable.TradeAggregator.feed arrivals
                 (Stable.TradeAggregator.new w))
      with
      | Some st =>
          Stable.TradeAggregator.totalVolumeUSD st
          == wallSum (w * 1000) now (forSymbol symbol (map snd arrivals))
          /\ ~ wallSum (w * 1000) now (forSymbol symbol (map snd arrivals)) == 0
      | None =>
          wallSum (w * 1000) now (forSymbol symbol (map snd arrivals)) == 0
      end).
Proof.
  split.
  - apply enhanced_window_total.
  - apply stable_window_total.
Qed.

Lemma window_total_by_variant_witness :
  (exists st,
     Enhanced.TradeAggregator.getStats "ADAUSDT"
       (Enhanced.TradeAggregator.feed fallingTrades
          (Enhanced.TradeAggregator.new 180))
     = Some st
     /\ Enhanced.SymbolState.totalVolume st
        == windowSum (180 * 1000) 3000 (forSymbol "ADAUSDT" fallingTrades))
  /\ (exists st,
        Stable.TradeAggregator.getStats 190000 "ADAUSDT"
          (Stable.TradeAggregator.feed lateArrivals
             (Stable.TradeAggregator.new 180))
        = Some st
        /\ Stable.TradeAggregator.totalVolumeUSD st
           == wallSum (180 * 1000) 190000
                (forSymbol "ADAUSDT" (map snd lateArrivals))).
Proof.
  destruct (window_total_by_variant 180 fallingTrades "ADAUSDT"
              (mkEvent "ADAUSDT" 3000 99 3 true) 190000 lateArrivals)
    as [Henh Hst].
  split.
  - apply Henh.
    + apply Qle_bool_iff. reflexivity.
    + reflexivity.
    + reflexivity.
    + reflexivity.
  - specialize (Hst eq_refl).
    destruct (Stable.TradeAggregator.getStats 190000 "ADAUSDT"
                (Stable.TradeAggregator.feed lateArrivals
                   (Stable.TradeAggregator.new 180))) as [ st | ] eqn:Eg.
    + exists st. split; [ reflexivity | apply Hst ].
    + vm_compute in Eg. discriminate Eg.
Defined.

(** The stable aggregator against C1 as stated: the latest trade has
    timestamp 189000, so the window [>= 189000 - 180000] holds both trades
    (notional 6 and 1), yet the snapshot taken as the second trade arrives
    reports 1: the first trade is older than the wall clock minus the
    window. *)
Lemma stable_window_not_by_trade_time :
  nondecreasingb (map ev_T (forSymbol "ADAUSDT" (map snd lateArrivals))) = true
  /\ forallb positiveb (forSymbol "ADAUSDT" (map snd lateArrivals)) = true
  /\ lastOf (forSymbol "ADAUSDT" (map snd lateArrivals))
     = Some (mkEvent "ADAUSDT" 189000 1 1 false)
  /\ windowSum (180 * 1000) 189000 (forSymbol "ADAUSDT" (map snd lateArrivals))
     == 7
  /\ exists st,
       Stable.TradeAggregator.getStats 190000 "ADAUSDT"
         (Stable.TradeAggregator.feed lateArrivals
            (Stable.TradeAggregator.new 180))
       = Some st
       /\ Stable.TradeAggregator.totalVolumeUSD st == 1
       /\ ~ Stable.TradeAggregator.totalVolumeUSD st
            == windowSum (180 * 1000) 189000
                 (forSymbol "ADAUSDT" (map snd lateArrivals)).
Proof.
  split; [ reflexivity | ].
  split; [ reflexivity | ].
  split; [ reflexivity | ].
  split; [ reflexivity | ].
  eexists. split; [ vm_compute; reflexivity | ].
  split; [ reflexivity | ].
  intros H. vm_compute in H. discriminate H.
Qed.

(** Why the timestamps have to be in order: under a ten-second window the
    second trade evicts the first, and the third, stamped earlier, does
    not bring it back; the window that ends at the third trade's
    timestamp would hold all three. *)
Lemma enhanced_window_needs_ordered_timestamps :
  nondecreasingb (map ev_T (forSymbol "ADAUSDT" shuffledTrades)) = false
  /\ windowSum (10 * 1000) 55000 (forSymbol "ADAUSDT" shuffledTrades) == 3
  /\ exists st,
       Enhanced.TradeAggregator.getStats "ADAUSDT"
         (Enhanced.TradeAggregator.feed shuffledTrades
            (Enhanced.TradeAggregator.new 10)) = Some st
       /\ Enhanced.SymbolState.totalVolume st == 2.
Proof.
  split; [ reflexivity | ]. split; [ reflexivity | ].
  eexists. split; [ vm_compute; reflexivity | reflexivity ].
Qed.

(** * Dominance *)

Lemma dominance_bounds (b s : Q) :
  0 <= b -> 0 <= s -> ~ b + s == 0 ->
  0 < b + s
  /\ Qmax ((b / (b + s)) * 100) ((s / (b + s)) * 100)
     == (Qmax b s / (b + s)) * 100
  /\ 50 <= Qmax ((b / (b + s)) * 100) ((s / (b + s)) * 100)
  /\ Qmax ((b / (b + s)) * 100) ((s / (b + s)) * 100) <= 100.
Proof.
  intros Hb Hs Hnz.
  assert (Ht : 0 < b + s).
  { destruct (Qlt_le_dec 0 (b + s)) as [ H | H ]; [ exact H | ].
    exfalso. apply Hnz. lra. }
  split; [ exact Ht | ].
  unfold Qdiv.
  pose proof (Qinv_lt_0_compat _ Ht) as Hi.
  pose proof (Qmult_inv_r (b + s) Hnz) as Hone.
  set (i := / (b + s)) in *.
  destruct (Q.max_spec (b * i * 100) (s * i * 100)) as [ [Hlt ->] | [Hle ->] ].
  - assert (Hbs : b <= s) by nra.
    rewrite (Q.max_r b s Hbs). split; [ reflexivity | ]. split; nra.
  - assert (Hsb : s <= b) by nra.
    rewrite (Q.max_l b s Hsb). split; [ reflexivity | ]. split; nra.
Qed.

Lemma dominance_tie (b s : Q) :
  b == s -> ~ b + s == 0 ->
  Js.gtb b s = false
  /\ (b / (b + s)) * 100 == 50
  /\ (s / (b + s)) * 100 == 50
  /\ Qmax ((b / (b + s)) * 100) ((s / (b + s)) * 100) == 50.
Proof.
  intros Hbs Hnz.
  assert (Hb : (b / (b + s)) * 100 == 50).
  { rewrite Hbs in *. field. intros H. apply Hnz. lra. }
  assert (Hs : (s / (b + s)) * 100 == 50).
  { rewrite Hbs in *. field. intros H. apply Hnz. lra. }
  split; [ apply gtb_false; lra | ].
  split; [ exact Hb | ]. split; [ exact Hs | ].
  destruct (Q.max_spec ((b / (b + s)) * 100) ((s / (b + s)) * 100))
    as [ [_ ->] | [_ ->] ]; assumption.
Qed.

(** * Invariants of the enhanced aggregator *)

Lemma enh_stateOf_resetSymbol (symbol s : string)
    (agg : Enhanced.TradeAggregator.t) :
  stateOf symbol (Enhanced.TradeAggregator.resetSymbol s agg)
  = if String.eqb s symbol
    then match Enhanced.TradeAggregator.states agg !! symbol with
         | Some st => Enhanced.SymbolState.reset st
         | None => stateOf symbol agg
         end
    else stateOf symbol agg.
Proof.
  unfold Enhanced.TradeAggregator.resetSymbol.
  destruct (String.eqb s symbol) eqn:E.
  - apply String.eqb_eq in E. subst s.
    destruct (Enhanced.TradeAggregator.states agg !! symbol) as [ st | ] eqn:El;
      [ | reflexivity ].
    unfold stateOf. cbn [Enhanced.TradeAggregator.states].
    rewrite lookup_insert_eq. reflexivity.
  - apply String.eqb_neq in E.
    destruct (Enhanced.TradeAggregator.states agg !! s) as [ st | ];
      [ | reflexivity ].
    unfold stateOf.
    cbn [Enhanced.TradeAggregator.states Enhanced.TradeAggregator.windowSeconds].
    rewrite lookup_insert_ne by exact E. reflexivity.
Qed.

Section EnhancedInvariant.

Variable P : Enhanced.SymbolState.t -> Prop.

Hypothesis P_addTrade :
  forall (e : TradeEvent) (st : Enhanced.SymbolState.t),
    positiveb e = true -> P st ->
    P (Enhanced.SymbolState.addTrade (ev_T e) (ev_p e) (ev_q e) (ev_m e) st).

Hypothesis P_reset :
  forall st : Enhanced.SymbolState.t, P st -> P (Enhanced.SymbolState.reset st).

Lemma enh_step_preserves (op : EnhancedOp) (agg : Enhanced.TradeAggregator.t) :
  enhancedOpOk op = true ->
  (forall symbol, P (stateOf symbol agg)) ->
  forall symbol, P (stateOf symbol (enhancedStep agg op)).
Proof.
  intros Hok Hinv symbol. destruct op as [ e | s ]; cbn [enhancedStep].
  - rewrite enh_stateOf_addTrade.
    destruct (String.eqb (ev_symbol e) symbol); [ | apply Hinv ].
    apply P_addTrade; [ exact Hok | apply Hinv ].
  - rewrite enh_stateOf_resetSymbol.
    destruct (String.eqb s symbol); [ | apply Hinv ].
    specialize (Hinv symbol). unfold stateOf in Hinv |- *.
    destruct (Enhanced.TradeAggregator.states agg !! symbol);
      [ apply P_reset | ]; exact Hinv.
Qed.

Lemma enh_run_preserves (ops : list EnhancedOp)
    (agg : Enhanced.TradeAggregator.t) :
  forallb enhancedOpOk ops = true ->
  (forall symbol, P (stateOf symbol agg)) ->
  forall symbol, P (stateOf symbol (enhancedRun ops agg)).
Proof.
  unfold enhancedRun. revert agg.
  induction ops as [ | op ops IH ]; intros agg Hok Hinv; [ exact Hinv | ].
  cbn [forallb] in Hok. apply andb_true_iff in Hok as [Hop Hok].
  cbn [fold_left]. apply IH; [ exact Hok | ].
  apply enh_step_preserves; assumption.
Qed.

End EnhancedInvariant.

Lemma positiveb_inv (e : TradeEvent) :
  positiveb e = true -> 0 < ev_p e /\ 0 < ev_q e.
Proof.
  unfold positiveb. intros H. apply andb_true_iff in H as [Hp Hq].
  apply ltb_true in Hp, Hq. auto.
Qed.

Lemma Forall_filter_bool {A : Type} (P : A -> Prop) (f : A -> bool)
    (xs : list A) :
  List.Forall P xs -> List.Forall P (List.filter f xs).
Proof.
  induction 1 as [ | x xs Hx _ IH ]; cbn [List.filter]; [ constructor | ].
  destruct (f x); [ constructor | ]; assumption.
Qed.

Lemma enh_volumesOk_addTrade (e : TradeEvent) (st : Enhanced.SymbolState.t) :
  positiveb e = true ->
  List.Forall volumesOk (Enhanced.SymbolState.trades st) ->
  List.Forall volumesOk
    (Enhanced.SymbolState.trades
       (Enhanced.SymbolState.addTrade (ev_T e) (ev_p e) (ev_q e) (ev_m e) st)).
Proof.
  intros Hpos Hst. rewrite enh_trades_addTrade, tradeOf_symbol.
  apply Forall_filter_bool. apply List.Forall_app. split; [ exact Hst | ].
  constructor; [ | constructor ].
  apply positiveb_inv in Hpos as [Hp Hq].
  unfold volumesOk, tradeOf.
  cbn [Enhanced.SymbolState.buyVol Enhanced.SymbolState.sellVol].
  destruct (ev_m e); split; nra.
Qed.

Lemma enh_volumesOk_run (w : Q) (ops : list EnhancedOp) (symbol : string) :
  forallb enhancedOpOk ops = true ->
  List.Forall volumesOk
    (survivors symbol (enhancedRun ops (Enhanced.TradeAggregator.new w))).
Proof.
  intros Hok. unfold survivors.
  apply (enh_run_preserves
           (fun st => List.Forall volumesOk (Enhanced.SymbolState.trades st))).
  - intros e st. apply enh_volumesOk_addTrade.
  - intros st _. constructor.
  - exact Hok.
  - intros s. constructor.
Qed.

Lemma filter_snoc_kept {A : Type} (f : A -> bool) (xs : list A) (x : A) :
  f x = true -> List.filter f (xs ++ [x]) = List.filter f xs ++ [x].
Proof.
  intros Hx. rewrite List.filter_app. cbn [List.filter]. rewrite Hx.
  reflexivity.
Qed.

Lemma last_of_snoc {A : Type} (x0 : A) (rest pre : list A) (x : A) :
  x0 :: rest = pre ++ [x] -> List.last rest x0 = x.
Proof.
  destruct pre as [ | y pre ]; cbn [app]; intros H; injection H as -> ->.
  - reflexivity.
  - apply List.last_last.
Qed.

Lemma enh_pricesOk_addTrade (e : TradeEvent) (st : Enhanced.SymbolState.t) :
  positiveb e = true -> pricesOk st ->
  pricesOk
    (Enhanced.SymbolState.addTrade (ev_T e) (ev_p e) (ev_q e) (ev_m e) st).
Proof.
  intros Hpos (Hw & Hprices & _). apply positiveb_inv in Hpos as [Hp Hq].
  unfold pricesOk.
  rewrite enh_windowMs_addTrade, enh_firstPrice_addTrade,
    enh_lastPrice_addTrade.
  assert (Hkept :
    Enhanced.SymbolState.trades
      (Enhanced.SymbolState.addTrade (ev_T e) (ev_p e) (ev_q e) (ev_m e) st)
    = List.filter
        (fun tr => Js.geb (Enhanced.SymbolState.timestamp tr)
                     (ev_T e - Enhanced.SymbolState.windowMs st))
        (Enhanced.SymbolState.trades st) ++ [tradeOf e]).
  { rewrite enh_trades_addTrade, tradeOf_symbol.
    apply filter_snoc_kept. apply geb_true.
    cbn [tradeOf Enhanced.SymbolState.timestamp]. lra. }
  split; [ exact Hw | ]. split.
  - rewrite Hkept. apply List.Forall_app. split.
    + apply Forall_filter_bool. exact Hprices.
    + constructor; [ exact Hp | constructor ].
  - destruct (Enhanced.SymbolState.trades
                (Enhanced.SymbolState.addTrade (ev_T e) (ev_p e) (ev_q e)
                   (ev_m e) st)) as [ | tr0 rest ];
      [ exact I | ].
    split; [ reflexivity | ].
    rewrite (last_of_snoc _ _ _ _ Hkept). reflexivity.
Qed.

Lemma enh_stateOf_new (symbol : string) (w : Q) :
  stateOf symbol (Enhanced.TradeAggregator.new w) = Enhanced.SymbolState.new w.
Proof.
  unfold stateOf, Enhanced.TradeAggregator.new.
  cbn [Enhanced.TradeAggregator.states Enhanced.TradeAggregator.windowSeconds].
  rewrite lookup_empty. reflexivity.
Qed.

Lemma enh_pricesOk_run (w : Q) (ops : list EnhancedOp) (symbol : string) :
  0 <= w ->
  forallb enhancedOpOk ops = true ->
  pricesOk (stateOf symbol (enhancedRun ops (Enhanced.TradeAggregator.new w))).
Proof.
  intros Hw Hok.
  apply (enh_run_preserves pricesOk).
  - apply enh_pricesOk_addTrade.
  - intros st (Hwin & _). unfold pricesOk.
    cbn [Enhanced.SymbolState.reset Enhanced.SymbolState.windowMs
         Enhanced.SymbolState.trades].
    split; [ exact Hwin | ]. split; [ constructor | exact I ].
  - exact Hok.
  - intros s. rewrite enh_stateOf_new. unfold pricesOk.
    cbn [Enhanced.SymbolState.new Enhanced.SymbolState.windowMs
         Enhanced.SymbolState.trades].
    split; [ nra | ]. split; [ constructor | exact I ].
Qed.

(** * Invariants of the stable aggregator *)

Lemma stable_buysOf_resetSymbol (symbol s : string)
    (agg : Stable.TradeAggregator.t) :
  buysOf symbol (Stable.TradeAggregator.resetSymbol s agg)
  = if String.eqb s symbol then [] else buysOf symbol agg.
Proof.
  unfold buysOf, Stable.TradeAggregator.resetSymbol.
  cbn [Stable.TradeAggregator.trades].
  destruct (String.eqb s symbol) eqn:E.
  - apply String.eqb_eq in E. subst s. rewrite lookup_delete_eq. reflexivity.
  - apply String.eqb_neq in E. rewrite lookup_delete_ne by exact E.
    reflexivity.
Qed.

Lemma stable_sellsOf_resetSymbol (symbol s : string)
    (agg : Stable.TradeAggregator.t) :
  sellsOf symbol (Stable.TradeAggregator.resetSymbol s agg)
  = if String.eqb s symbol then [] else sellsOf symbol agg.
Proof.
  unfold sellsOf, Stable.TradeAggregator.resetSymbol.
  cbn [Stable.TradeAggregator.trades].
  destruct (String.eqb s symbol) eqn:E.
  - apply String.eqb_eq in E. subst s. rewrite lookup_delete_eq. reflexivity.
  - apply String.eqb_neq in E. rewrite lookup_delete_ne by exact E.
    reflexivity.
Qed.

Lemma stable_itemsOk_step (op : StableOp) (agg : Stable.TradeAggregator.t) :
  stableOpOk op = true ->
  (forall symbol,
     List.Forall itemOk (buysOf symbol agg)
     /\ List.Forall itemOk (sellsOf symbol agg)) ->
  forall symbol,
    List.Forall itemOk (buysOf symbol (stableStep agg op))
    /\ List.Forall itemOk (sellsOf symbol (stableStep agg op)).
Proof.
  intros Hok Hinv symbol. destruct (Hinv symbol) as [Hb Hs].
  destruct op as [ n e | s ]; cbn [stableStep].
  - rewrite stable_buysOf_addTrade, stable_sellsOf_addTrade.
    apply positiveb_inv in Hok.
    assert (He : List.Forall itemOk [itemOf e])
      by (constructor; [ exact Hok | constructor ]).
    destruct (String.eqb (ev_symbol e) symbol); cbn [andb]; [ | auto ].
    destruct (ev_m e); cbn [negb]; split; try assumption;
      apply Forall_filter_bool, List.Forall_app; auto.
  - rewrite stable_buysOf_resetSymbol, stable_sellsOf_resetSymbol.
    destruct (String.eqb s symbol); auto.
Qed.

Lemma stable_itemsOk_run (w : Q) (ops : list StableOp) (symbol : string) :
  forallb stableOpOk ops = true ->
  List.Forall itemOk
    (buysOf symbol (stableRun ops (Stable.TradeAggregator.new w)))
  /\ List.Forall itemOk
       (sellsOf symbol (stableRun ops (Stable.TradeAggregator.new w))).
Proof.
  unfold stableRun.
  assert (Hgen : forall agg,
    forallb stableOpOk ops = true ->
    (forall s, List.Forall itemOk (buysOf s agg)
               /\ List.Forall itemOk (sellsOf s agg)) ->
    forall s, List.Forall itemOk (buysOf s (fold_left stableStep ops agg))
              /\ List.Forall itemOk (sellsOf s (fold_left stableStep ops agg))).
  { induction ops as [ | op ops IH ]; intros agg Hok Hinv; [ exact Hinv | ].
    cbn [forallb] in Hok. apply andb_true_iff in Hok as [Hop Hok].
    cbn [fold_left]. apply IH; [ exact Hok | ].
    apply stable_itemsOk_step; assumption. }
  intros Hok. apply Hgen; [ exact Hok | ].
  intros s. unfold buysOf, sellsOf, Stable.TradeAggregator.new.
  cbn [Stable.TradeAggregator.trades]. rewrite lookup_empty. split; constructor.
Qed.

Lemma stable_volume_nonneg (items : list Stable.TradeAggregator.Item) (c : Q) :
  List.Forall itemOk items ->
  0 <= Js.sumBy Stable.TradeAggregator.volume
         (Stable.TradeAggregator.active c items).
Proof.
  intros H. apply sumBy_nonneg. apply Forall_filter_bool.
  eapply List.Forall_impl; [ | exact H ].
  intros it [Hp Hq]. unfold Stable.TradeAggregator.volume. nra.
Qed.

Lemma enh_volume_nonneg (trs : list Enhanced.SymbolState.Trade) :
  List.Forall volumesOk trs ->
  0 <= Js.sumBy Enhanced.SymbolState.buyVol trs
  /\ 0 <= Js.sumBy Enhanced.SymbolState.sellVol trs.
Proof.
  intros H. split; apply sumBy_nonneg;
    (eapply List.Forall_impl; [ | exact H ]); intros tr [Hb Hs]; assumption.
Qed.

Lemma pick_max (x y : Q) : (if Js.gtb x y then x else y) == Qmax x y.
Proof.
  destruct (Js.gtb x y) eqn:E.
  - apply gtb_true in E. rewrite Q.max_l by lra. reflexivity.
  - apply gtb_false in E. rewrite Q.max_r by lra. reflexivity.
Qed.

(** * C6: dominance lies between 50 and 100 *)

(** C6, as amended.  In both variants, after any life of the aggregator
    whose trades carry positive price and quantity (a condition neither
    aggregator and neither stream handler checks), every non-null
    snapshot has a positive total volume and a dominance that equals
    [max(buyVolume, sellVolume) / totalVolume * 100] and lies in
    [[50, 100]]; and a window with no surviving trade, or whose volumes
    sum to zero, yields [null]. *)
Theorem dominance_between_50_and_100 (w : Q) (ops : list EnhancedOp)
    (sops : list StableOp) (now : Q) (symbol : string) :
  (forallb enhancedOpOk ops = true ->
   let agg := enhancedRun ops (Enhanced.TradeAggregator.new w) in
   (forall st,
      Enhanced.TradeAggregator.getStats symbol agg = Some st ->
      0 < Enhanced.SymbolState.totalVolume st
      /\ Enhanced.SymbolState.dominance st
         == (Qmax (Enhanced.SymbolState.buyVolume st)
               (Enhanced.SymbolState.sellVolume st)
             / Enhanced.SymbolState.totalVolume st) * 100
      /\ 50 <= Enhanced.SymbolState.dominance st
      /\ Enhanced.SymbolState.dominance st <= 100)
   /\ (survivors symbol agg = []
       \/ Js.sumBy Enhanced.SymbolState.buyVol (survivors symbol agg)
          + Js.sumBy Enhanced.SymbolState.sellVol (survivors symbol agg) == 0 ->
       Enhanced.TradeAggregator.getStats symbol agg = None))
  /\ (forallb stableOpOk sops = true ->
      let agg := stableRun sops (Stable.TradeAggregator.new w) in
      let cutoff := now - Stable.TradeAggregator.windowSeconds agg * 1000 in
      (forall st,
         Stable.TradeAggregator.getStats now symbol agg = Some st ->
         0 < Stable.TradeAggregator.totalVolumeUSD st
         /\ stableDominance st
            == (Qmax (Stable.TradeAggregator.buyVolumeUSD st)
                  (Stable.TradeAggregator.sellVolumeUSD st)
                / Stable.TradeAggregator.totalVolumeUSD st) * 100
         /\ 50 <= stableDominance st
         /\ stableDominance st <= 100)
      /\ (stableActive now symbol agg = []
          \/ Js.sumBy Stable.TradeAggregator.volume
               (Stable.TradeAggregator.active cutoff (buysOf symbol agg))
             + Js.sumBy Stable.TradeAggregator.volume
                 (Stable.TradeAggregator.active cutoff (sellsOf symbol agg))
             == 0 ->
          Stable.TradeAggregator.getStats now symbol agg = None)).
Proof.
  split.
  - intros Hok agg. split.
    + intros st Hst. rewrite enh_getStats_stateOf in Hst.
      apply enh_getStats_Some in Hst. cbv zeta in Hst.
      destruct Hst as (_ & Hnz & -> & -> & -> & _ & -> & _).
      destruct (enh_volume_nonneg _ (enh_volumesOk_run w ops symbol Hok))
        as [Hb Hs].
      apply dominance_bounds; assumption.
    + intros H. rewrite enh_getStats_stateOf. apply enh_getStats_None.
      exact H.
  - intros Hok agg cutoff. split.
    + intros st Hst. apply stable_getStats_Some in Hst. cbv zeta in Hst.
      destruct Hst as (Hnz & -> & -> & -> & Hbd & Hsd & Hside & _).
      destruct (stable_itemsOk_run w sops symbol Hok) as [Hb Hs].
      pose proof (stable_volume_nonneg _ cutoff Hb) as Hb0.
      pose proof (stable_volume_nonneg _ cutoff Hs) as Hs0.
      assert (Hdom : stableDominance st
                     == Qmax (Stable.TradeAggregator.buyDominance st)
                          (Stable.TradeAggregator.sellDominance st)).
      { unfold stableDominance. rewrite Hside, Hbd, Hsd.
        rewrite <- pick_max. destruct (Js.gtb _ _); reflexivity. }
      rewrite Hdom, Hbd, Hsd.
      apply dominance_bounds; assumption.
    + intros H. apply stable_getStats_None. exact H.
Qed.

Lemma dominance_between_50_and_100_witness :
  (exists st,
     Enhanced.TradeAggregator.getStats "ADAUSDT"
       (enhancedRun fallingOps (Enhanced.TradeAggregator.new 180)) = Some st
     /\ 50 <= Enhanced.SymbolState.dominance st
     /\ Enhanced.SymbolState.dominance st <= 100)
  /\ (exists st,
        Stable.TradeAggregator.getStats 190000 "ADAUSDT"
          (stableRun lateOps (Stable.TradeAggregator.new 180)) = Some st
        /\ 50 <= stableDominance st
        /\ stableDominance st <= 100).
Proof.
  destruct (dominance_between_50_and_100 180 fallingOps lateOps 190000
              "ADAUSDT") as [Henh Hst].
  specialize (Henh eq_refl). specialize (Hst eq_refl).
  cbv zeta in Henh, Hst. destruct Henh as [Henh _]. destruct Hst as [Hst _].
  split.
  - destruct (Enhanced.TradeAggregator.getStats "ADAUSDT"
                (enhancedRun fallingOps (Enhanced.TradeAggregator.new 180)))
      as [ st | ] eqn:Eg.
    + exists st. split; [ reflexivity | ]. apply (Henh st eq_refl).
    + vm_compute in Eg. discriminate Eg.
  - destruct (Stable.TradeAggregator.getStats 190000 "ADAUSDT"
                (stableRun lateOps (Stable.TradeAggregator.new 180)))
      as [ st | ] eqn:Eg.
    + exists st. split; [ reflexivity | ]. apply (Hst st eq_refl).
    + vm_compute in Eg. discriminate Eg.
Defined.

(** Both aggregators against C6 as stated, which names no condition on
    the trades: after a taker buy of notional 3 and a taker sell whose
    message carries the quantity [-1], the volumes are 3 and -1, the total
    is 2, the snapshot is not null and its dominance is 150. *)
Lemma dominance_150_on_negative_quantity :
  forallb enhancedOpOk (map EAdd negativeQuantityTrades) = false
  /\ (exists st,
        Enhanced.TradeAggregator.getStats "ADAUSDT"
          (enhancedRun (map EAdd negativeQuantityTrades)
             (Enhanced.TradeAggregator.new 180)) = Some st
        /\ Enhanced.SymbolState.buyVolume st == 3
        /\ Enhanced.SymbolState.sellVolume st == - (1)
        /\ Enhanced.SymbolState.dominance st == 150
        /\ ~ Enhanced.SymbolState.dominance st <= 100)
  /\ (exists st,
        Stable.TradeAggregator.getStats 2000 "ADAUSDT"
          (stableRun
             (arrivalOps (map (fun e => (ev_T e, e)) negativeQuantityTrades))
             (Stable.TradeAggregator.new 180)) = Some st
        /\ Stable.TradeAggregator.buyVolumeUSD st == 3
        /\ Stable.TradeAggregator.sellVolumeUSD st == - (1)
        /\ stableDominance st == 150
        /\ ~ stableDominance st <= 100).
Proof.
  split; [ reflexivity | ]. split.
  - eexists. split; [ vm_compute; reflexivity | ].
    split; [ reflexivity | ]. split; [ reflexivity | ].
    split; [ reflexivity | ].
    intros H. apply Qle_bool_iff in H. vm_compute in H. discriminate H.
  - eexists. split; [ vm_compute; reflexivity | ].
    split; [ reflexivity | ]. split; [ reflexivity | ].
    split; [ reflexivity | ].
    intros H. apply Qle_bool_iff in H. vm_compute in H. discriminate H.
Qed.

(** * Price change *)

Lemma truthy_positive (q : Q) : 0 < q -> Js.truthy (Some q) = true.
Proof.
  intros H. unfold Js.truthy. apply negb_true_iff.
  change (Qeq_bool q 0) with (Js.eqb q 0). apply eqb_false. lra.
Qed.

Lemma signed_change (first last : Q) :
  0 < first -> last < first -> ((last - first) / first) * 100 < 0.
Proof.
  intros Hf Hl. unfold Qdiv.
  pose proof (Qinv_lt_0_compat _ Hf) as Hi.
  set (i := / first) in *. nra.
Qed.

Lemma minOf_le (xs : list Q) (x : Q) : Js.minOf x xs <= x.
Proof.
  unfold Js.minOf. revert x.
  induction xs as [ | y ys IH ]; intros x; cbn [fold_left].
  - apply Qle_refl.
  - apply Qle_trans with (Qmin x y); [ apply IH | apply Q.le_min_l ].
Qed.

Lemma maxOf_ge (xs : list Q) (x : Q) : x <= Js.maxOf x xs.
Proof.
  unfold Js.maxOf. revert x.
  induction xs as [ | y ys IH ]; intros x; cbn [fold_left].
  - apply Qle_refl.
  - apply Qle_trans with (Qmax x y); [ apply Q.le_max_l | apply IH ].
Qed.

Lemma minOf_pos (xs : list Q) (x : Q) :
  0 < x -> List.Forall (fun y => 0 < y) xs -> 0 < Js.minOf x xs.
Proof.
  unfold Js.minOf. intros Hx Hxs. revert x Hx.
  induction Hxs as [ | y ys Hy _ IH ]; intros x Hx; cbn [fold_left].
  - exact Hx.
  - apply IH. destruct (Q.min_spec x y) as [ [_ ->] | [_ ->] ]; assumption.
Qed.

Lemma unsigned_change (lo hi : Q) :
  0 < lo -> lo <= hi -> 0 <= ((hi - lo) / lo) * 100.
Proof.
  intros Hlo Hle. unfold Qdiv.
  pose proof (Qinv_lt_0_compat _ Hlo) as Hi.
  set (i := / lo) in *. nra.
Qed.

Lemma enhanced_priceChange (w : Q) (ops : list EnhancedOp) (symbol : string)
    (st : Enhanced.SymbolState.Stats) :
  0 <= w ->
  forallb enhancedOpOk ops = true ->
  Enhanced.TradeAggregator.getStats symbol
    (enhancedRun ops (Enhanced.TradeAggregator.new w)) = Some st ->
  exists oldest rest,
    survivors symbol (enhancedRun ops (Enhanced.TradeAggregator.new w))
    = oldest :: rest
    /\ Enhanced.SymbolState.priceChange st
       == ((Enhanced.SymbolState.price (List.last rest oldest)
            - Enhanced.SymbolState.price oldest)
           / Enhanced.SymbolState.price oldest) * 100
    /\ (Enhanced.SymbolState.price (List.last rest oldest)
        < Enhanced.SymbolState.price oldest ->
        Enhanced.SymbolState.priceChange st < 0).
Proof.
  intros Hw Hok Hst.
  pose proof (enh_pricesOk_run w ops symbol Hw Hok) as (_ & Hprices & Hends).
  rewrite enh_getStats_stateOf in Hst. apply enh_getStats_Some in Hst.
  cbv zeta in Hst. destruct Hst as (Hne & _ & _ & _ & _ & _ & _ & Hpc).
  unfold survivors.
  destruct (Enhanced.SymbolState.trades _) as [ | oldest rest ];
    [ contradiction | ].
  destruct Hends as [Hfirst Hlast].
  apply List.Forall_inv in Hprices.
  rewrite Hfirst, Hlast, truthy_positive in Hpc by exact Hprices.
  cbn [Js.num] in Hpc.
  exists oldest, rest. split; [ reflexivity | ].
  rewrite Hpc. split; [ reflexivity | ].
  apply signed_change. exact Hprices.
Qed.

Lemma stable_priceChange (w : Q) (sops : list StableOp) (now : Q)
    (symbol : string) (st : Stable.TradeAggregator.Stats) :
  forallb stableOpOk sops = true ->
  Stable.TradeAggregator.getStats now symbol
    (stableRun sops (Stable.TradeAggregator.new w)) = Some st ->
  exists it0 rest,
    stableActive now symbol (stableRun sops (Stable.TradeAggregator.new w))
    = it0 :: rest
    /\ Stable.TradeAggregator.priceChange st
       = ((Js.maxOf (Stable.TradeAggregator.price it0)
             (map Stable.TradeAggregator.price rest)
           - Js.minOf (Stable.TradeAggregator.price it0)
               (map Stable.TradeAggregator.price rest))
          / Js.minOf (Stable.TradeAggregator.price it0)
              (map Stable.TradeAggregator.price rest)) * 100
    /\ 0 <= Stable.TradeAggregator.priceChange st.
Proof.
  intros Hok Hst.
  destruct (stable_itemsOk_run w sops symbol Hok) as [Hb Hs].
  apply stable_getStats_Some in Hst. cbv zeta in Hst.
  destruct Hst as (_ & _ & _ & _ & _ & _ & _ & it0 & rest & Hact & Hpc).
  exists it0, rest. unfold stableActive. cbv zeta.
  split; [ exact Hact | ]. split; [ exact Hpc | ].
  assert (Hall : List.Forall itemOk (it0 :: rest)).
  { rewrite <- Hact. apply List.Forall_app.
    split; apply Forall_filter_bool; assumption. }
  rewrite Hpc. apply unsigned_change.
  - apply minOf_pos.
    + apply List.Forall_inv in Hall. apply Hall.
    + apply List.Forall_inv_tail in Hall. apply List.Forall_map.
      eapply List.Forall_impl; [ | exact Hall ]. intros it [Hp _]. exact Hp.
  - apply Qle_trans with (Stable.TradeAggregator.price it0);
      [ apply minOf_le | apply maxOf_ge ].
Qed.

(** * C7: the price change of a snapshot *)

(** C7, as amended.  Enhanced variant: after any life of the aggregator
    with a non-negative window and trades of positive price and quantity,
    a snapshot's [priceChange] is
    [(lastPrice - firstPrice) / firstPrice * 100] with [firstPrice] and
    [lastPrice] the prices of the oldest and newest surviving trades, and
    it is negative when the newest price is below the oldest.  Stable
    variant: [priceChange] is [(max - min) / min * 100] over the prices of
    the surviving trades and is never negative. *)
Theorem price_change_by_variant (w : Q) (ops : list EnhancedOp)
    (sops : list StableOp) (now : Q) (symbol : string) :
  (0 <= w ->
   forallb enhancedOpOk ops = true ->
   forall st,
     Enhanced.TradeAggregator.getStats symbol
       (enhancedRun ops (Enhanced.TradeAggregator.new w)) = Some st ->
     exists oldest rest,
       survivors symbol (enhancedRun ops (Enhanced.TradeAggregator.new w))
       = oldest :: rest
       /\ Enhanced.SymbolState.priceChange st
          == ((Enhanced.SymbolState.price (List.last rest oldest)
               - Enhanced.SymbolState.price oldest)
              / Enhanced.SymbolState.price oldest) * 100
       /\ (Enhanced.SymbolState.price (List.last rest oldest)
           < Enhanced.SymbolState.price oldest ->
           Enhanced.SymbolState.priceChange st < 0))
  /\ (forallb stableOpOk sops = true ->
      forall st,
        Stable.TradeAggregator.getStats now symbol
          (stableRun sops (Stable.TradeAggregator.new w)) = Some st ->
        exists it0 rest,
          stableActive now symbol
            (stableRun sops (Stable.TradeAggregator.new w)) = it0 :: rest
          /\ Stable.TradeAggregator.priceChange st
             = ((Js.maxOf (Stable.TradeAggregator.price it0)
                   (map Stable.TradeAggregator.price rest)
                 - Js.minOf (Stable.TradeAggregator.price it0)
                     (map Stable.TradeAggregator.price rest))
                / Js.minOf (Stable.TradeAggregator.price it0)
                    (map Stable.TradeAggregator.price rest)) * 100
          /\ 0 <= Stable.TradeAggregator.priceChange st).
Proof.
  split.
  - intros Hw Hok st Hst. apply enhanced_priceChange; assumption.
  - intros Hok st Hst. apply stable_priceChange; assumption.
Qed.

Lemma price_change_by_variant_witness :
  (exists st,
     Enhanced.TradeAggregator.getStats "ADAUSDT"
       (enhancedRun fallingOps (Enhanced.TradeAggregator.new 180)) = Some st
     /\ Enhanced.SymbolState.priceChange st < 0)
  /\ (exists st,
        Stable.TradeAggregator.getStats 3000 "ADAUSDT"
          (stableRun (arrivalOps fallingArrivals)
             (Stable.TradeAggregator.new 180)) = Some st
        /\ 0 <= Stable.TradeAggregator.priceChange st).
Proof.
  destruct (price_change_by_variant 180 fallingOps (arrivalOps fallingArrivals)
              3000 "ADAUSDT") as [Henh Hst].
  split.
  - destruct (Enhanced.TradeAggregator.getStats "ADAUSDT"
                (enhancedRun fallingOps (Enhanced.TradeAggregator.new 180)))
      as [ st | ] eqn:Eg.
    + exists st. split; [ reflexivity | ].
      assert (Hw : 0 <= 180) by (apply Qle_bool_iff; reflexivity).
      destruct (Henh Hw eq_refl st eq_refl) as (oldest & rest & Hs & _ & Hneg).
      vm_compute in Hs. injection Hs as <- <-. apply Hneg. reflexivity.
    + vm_compute in Eg. discriminate Eg.
  - destruct (Stable.TradeAggregator.getStats 3000 "ADAUSDT"
                (stableRun (arrivalOps fallingArrivals)
                   (Stable.TradeAggregator.new 180)))
      as [ st | ] eqn:Eg.
    + exists st. split; [ reflexivity | ].
      destruct (Hst eq_refl st eq_refl) as (it0 & rest & _ & _ & Hpos).
      exact Hpos.
    + vm_compute in Eg. discriminate Eg.
Defined.

(** The stable aggregator against C7 as stated: the oldest surviving trade
    has price 100 and the newest 99, so the claimed change is
    [(99 - 100) / 100 * 100 = -1]; the snapshot reports
    [(100 - 99) / 99 * 100], a positive number. *)
Lemma stable_price_change_unsigned :
  exists st,
    Stable.TradeAggregator.getStats 3000 "ADAUSDT"
      (stableRun (arrivalOps fallingArrivals) (Stable.TradeAggregator.new 180))
    = Some st
    /\ Stable.TradeAggregator.priceChange st == 100 # 99
    /\ ~ Stable.TradeAggregator.priceChange st == ((99 - 100) / 100) * 100.
Proof.
  eexists. split; [ vm_compute; reflexivity | ].
  split; [ reflexivity | ].
  intros H. vm_compute in H. discriminate H.
Qed.

(** * C10: the tie *)

Lemma enhanced_tie (symbol : string) (agg : Enhanced.TradeAggregator.t) :
  Js.sumBy Enhanced.SymbolState.buyVol (survivors symbol agg)
  == Js.sumBy Enhanced.SymbolState.sellVol (survivors symbol agg) ->
  0 < Js.sumBy Enhanced.SymbolState.buyVol (survivors symbol agg) ->
  exists st,
    Enhanced.TradeAggregator.getStats symbol agg = Some st
    /\ Enhanced.SymbolState.dominantSide st = sell
    /\ Enhanced.SymbolState.dominance st == 50.
Proof.
  unfold survivors. intros Htie Hpos. rewrite enh_getStats_stateOf.
  assert (Hnz : ~ Js.sumBy Enhanced.SymbolState.buyVol
                    (Enhanced.SymbolState.trades (stateOf symbol agg))
                  + Js.sumBy Enhanced.SymbolState.sellVol
                      (Enhanced.SymbolState.trades (stateOf symbol agg)) == 0)
    by lra.
  destruct (Enhanced.SymbolState.getStats (stateOf symbol agg))
    as [ st | ] eqn:Eg.
  - exists st. split; [ reflexivity | ].
    apply enh_getStats_Some in Eg. cbv zeta in Eg.
    destruct Eg as (_ & _ & _ & _ & _ & -> & -> & _).
    destruct (dominance_tie _ _ Htie Hnz) as (-> & _ & _ & Hd). auto.
  - exfalso. apply enh_getStats_None in Eg. destruct Eg as [ Eg | Eg ].
    + rewrite Eg, sumBy_nil in Hpos. lra.
    + contradiction.
Qed.

Lemma stable_tie (now : Q) (symbol : string) (agg : Stable.TradeAggregator.t) :
  let cutoff := now - Stable.TradeAggregator.windowSeconds agg * 1000 in
  let B := Js.sumBy Stable.TradeAggregator.volume
             (Stable.TradeAggregator.active cutoff (buysOf symbol agg)) in
  let S := Js.sumBy Stable.TradeAggregator.volume
             (Stable.TradeAggregator.active cutoff (sellsOf symbol agg)) in
  B == S -> 0 < B ->
  exists st,
    Stable.TradeAggregator.getStats now symbol agg = Some st
    /\ Stable.TradeAggregator.dominantSide st = sell
    /\ stableDominance st == 50.
Proof.
  cbv zeta. intros Htie Hpos.
  match type of Htie with ?b == ?s => assert (Hnz : ~ b + s == 0) by lra end.
  destruct (Stable.TradeAggregator.getStats now symbol agg) as [ st | ] eqn:Eg.
  - exists st. split; [ reflexivity | ].
    apply stable_getStats_Some in Eg. cbv zeta in Eg.
    destruct Eg as (_ & _ & _ & _ & _ & Hsd & Hside & _).
    destruct (dominance_tie _ _ Htie Hnz) as (_ & Hb & Hs & _).
    assert (Hsell : Stable.TradeAggregator.dominantSide st = sell).
    { rewrite Hside.
      match goal with |- (if ?c then _ else _) = _ => destruct c eqn:E end;
        [ | reflexivity ].
      apply gtb_true in E. lra. }
    split; [ exact Hsell | ].
    unfold stableDominance. rewrite Hsell, Hsd. exact Hs.
  - exfalso. apply stable_getStats_None in Eg. cbv zeta in Eg.
    destruct Eg as [ Eg | Eg ]; [ | contradiction ].
    apply app_eq_nil in Eg as [Eb _]. rewrite Eb, sumBy_nil in Hpos. lra.
Qed.

(** C10.  In both variants, when the surviving buy volume equals the
    surviving sell volume and both are positive, the snapshot exists,
    names the sell side as dominant and reports a dominance of exactly
    50. *)
Theorem tie_is_sell_at_50 (symbol : string) (agg : Enhanced.TradeAggregator.t)
    (now : Q) (sagg : Stable.TradeAggregator.t) :
  (Js.sumBy Enhanced.SymbolState.buyVol (survivors symbol agg)
   == Js.sumBy Enhanced.SymbolState.sellVol (survivors symbol agg) ->
   0 < Js.sumBy Enhanced.SymbolState.buyVol (survivors symbol agg) ->
   exists st,
     Enhanced.TradeAggregator.getStats symbol agg = Some st
     /\ Enhanced.SymbolState.dominantSide st = sell
     /\ Enhanced.SymbolState.dominance st == 50)
  /\ (let cutoff := now - Stable.TradeAggregator.windowSeconds sagg * 1000 in
      let B := Js.sumBy Stable.TradeAggregator.volume
                 (Stable.TradeAggregator.active cutoff (buysOf symbol sagg)) in
      let S := Js.sumBy Stable.TradeAggregator.volume
                 (Stable.TradeAggregator.active cutoff (sellsOf symbol sagg)) in
      B == S -> 0 < B ->
      exists st,
        Stable.TradeAggregator.getStats now symbol sagg = Some st
        /\ Stable.TradeAggregator.dominantSide st = sell
        /\ stableDominance st == 50).
Proof.
  split.
  - apply enhanced_tie.
  - apply stable_tie.
Qed.

Lemma tie_is_sell_at_50_witness :
  (exists st,
     Enhanced.TradeAggregator.getStats "ADAUSDT"
       (enhancedRun (map EAdd tiedTrades) (Enhanced.TradeAggregator.new 180))
     = Some st
     /\ Enhanced.SymbolState.dominantSide st = sell
     /\ Enhanced.SymbolState.dominance st == 50)
  /\ (exists st,
        Stable.TradeAggregator.getStats 2000 "ADAUSDT"
          (stableRun (arrivalOps (map (fun e => (ev_T e, e)) tiedTrades))
             (Stable.TradeAggregator.new 180))
        = Some st
        /\ Stable.TradeAggregator.dominantSide st = sell
        /\ stableDominance st == 50).
Proof.
  destruct (tie_is_sell_at_50 "ADAUSDT"
              (enhancedRun (map EAdd tiedTrades)
                 (Enhanced.TradeAggregator.new 180))
              2000
              (stableRun (arrivalOps (map (fun e => (ev_T e, e)) tiedTrades))
                 (Stable.TradeAggregator.new 180))) as [Henh Hst].
  split.
  - apply Henh; reflexivity.
  - apply Hst; reflexivity.
Defined.

(** * The signal engines *)

Ltac split_if :=
  match goal with
  | |- context [ if negb ?b then _ else _ ] =>
      let E := fresh "E" in
      destruct b eqn:E;
      cbn [firstDenial consults verdict threshold consult consultThrowing
           app negb andb fst snd]
  | |- context [ if ?b then _ else _ ] =>
      let E := fresh "E" in
      destruct b eqn:E;
      cbn [firstDenial consults verdict threshold consult consultThrowing
           app negb andb fst snd]
  end.

Lemma enhanced_shouldAlert_pipeline (w : Enhanced.SignalEngine.World)
    (symbol : string) (stats : option Enhanced.SymbolState.Stats) :
  Enhanced.SignalEngine.shouldAlert w symbol stats
  = enhancedPipeline w symbol stats.
Proof.
  unfold Enhanced.SignalEngine.shouldAlert, enhancedPipeline, enhancedChecks.
  destruct stats as [ stats | ]; [ | reflexivity ].
  destruct (Enhanced.RuntimeConfig.get symbol _) as [ config | | ];
    cbn [Cfg.owned]; [ | reflexivity | reflexivity ].
  cbv zeta.
  destruct (Enhanced.TimeBasedFilter.isTradingAllowed _ _ _)
    as [ timeCheck | e ];
    cbn [firstDenial consults verdict threshold consult consultThrowing app];
    (destruct (Cfg.enabled config);
     cbn [firstDenial consults verdict threshold consult consultThrowing app
          negb andb];
     [ | reflexivity ]);
    repeat (split_if; try reflexivity).
Qed.

Lemma enhanced_shouldAlert_shape (w : Enhanced.SignalEngine.World)
    (symbol : string) (stats : option Enhanced.SymbolState.Stats) :
  match Enhanced.SignalEngine.shouldAlert w symbol stats with
  | Enhanced.SignalEngine.Decides ev =>
      prefixb (Enhanced.SignalEngine.consulted ev)
        [FAggression; FStopCluster; FTimeBased; FBtcVolatility] = true
      /\ (Enhanced.SignalEngine.allow (Enhanced.SignalEngine.decision ev) = true
          <-> Enhanced.SignalEngine.reason (Enhanced.SignalEngine.decision ev)
              = Enhanced.SignalEngine.AllFiltersPassed)
  | Enhanced.SignalEngine.Throws seen e =>
      seen = [FAggression; FStopCluster; FTimeBased]
      /\ Enhanced.TimeBasedFilter.isTradingAllowed
           (Enhanced.SignalEngine.timeConfig w)
           (Enhanced.SignalEngine.dayOfWeek w)
           (Enhanced.SignalEngine.hourUTC w) = Js.Throw e
  end.
Proof.
  unfold Enhanced.SignalEngine.shouldAlert.
  destruct stats as [ stats | ]; [ | split; [ reflexivity | easy ] ].
  destruct (Enhanced.RuntimeConfig.get symbol _) as [ config | | ];
    [ | split; [ reflexivity | easy ] | split; [ reflexivity | easy ] ].
  cbv zeta.
  destruct (Enhanced.TimeBasedFilter.isTradingAllowed _ _ _)
    as [ timeCheck | e ];
    repeat (split_if; try (split; [ reflexivity | easy ]));
    split; reflexivity.
Qed.

Lemma enhanced_time_throws (config : Enhanced.TimeBasedFilter.Config)
    (dayOfWeek hourUTC : Q) (e : Js.TypeError) :
  Enhanced.TimeBasedFilter.isTradingAllowed config dayOfWeek hourUTC
  = Js.Throw e ->
  Enhanced.TimeBasedFilter.enabled config = true
  /\ e = Js.NotAFunction "includes"
  /\ exists n,
       ~ n == 0
       /\ (Enhanced.TimeBasedFilter.blockedDays config = Cfg.BNumber n
           \/ Enhanced.TimeBasedFilter.blockedHours config = Cfg.BNumber n).
Proof.
  unfold Enhanced.TimeBasedFilter.isTradingAllowed.
  destruct (Enhanced.TimeBasedFilter.enabled config); cbn [negb];
    [ | discriminate ].
  assert (Hinc : forall xs x e1,
             Enhanced.TimeBasedFilter.includes xs x = Js.Throw e1 ->
             e1 = Js.NotAFunction "includes"
             /\ exists n, ~ n == 0 /\ xs = Cfg.BNumber n).
  { intros xs x e1. destruct xs as [ | l | n ];
      cbn [Enhanced.TimeBasedFilter.includes]; try discriminate.
    unfold Js.eqb. destruct (Qeq_bool n 0) eqn:En; [ discriminate | ].
    intros [= <-]. split; [ reflexivity | ]. exists n.
    split; [ | reflexivity ].
    intros H. apply Qeq_bool_iff in H. congruence. }
  destruct (Enhanced.TimeBasedFilter.includes
              (Enhanced.TimeBasedFilter.blockedDays config) dayOfWeek)
    as [ [ | ] | e1 ] eqn:Hd.
  - discriminate.
  - destruct (Enhanced.TimeBasedFilter.includes
                (Enhanced.TimeBasedFilter.blockedHours config) hourUTC)
      as [ [ | ] | e2 ] eqn:Hh.
    + discriminate.
    + destruct (Enhanced.TimeBasedFilter.allowedHoursStart config);
        destruct (Enhanced.TimeBasedFilter.allowedHoursEnd config);
        try discriminate.
      destruct (_ || _); discriminate.
    + intros [= <-]. destruct (Hinc _ _ _ Hh) as [-> [n [Hn Hx]]].
      split; [ reflexivity | ]. split; [ reflexivity | ]. eauto.
  - intros [= <-]. destruct (Hinc _ _ _ Hd) as [-> [n [Hn Hx]]].
    split; [ reflexivity | ]. split; [ reflexivity | ]. eauto.
Qed.

Lemma stable_checkSignal_pipeline (w : Stable.SignalEngine.World)
    (stats : Stable.TradeAggregator.Stats) :
  snd (Stable.SignalEngine.checkSignal w stats) = stablePipeline w stats.
Proof.
  unfold Stable.SignalEngine.checkSignal, stablePipeline, stableChecks,
    stableDominance.
  destruct (Stable.RuntimeState.getSymbolConfig _ _) as [ config | | ];
    [ | reflexivity | reflexivity ].
  cbv zeta.
  destruct (Stable.TimeBasedFilter.isTradingAllowed _ _ _)
    as [ timeCheck | e ];
    cbn [firstDenial consults verdict threshold consult consultThrowing app];
    (destruct (Cfg.enabled config);
     cbn [firstDenial consults verdict threshold consult consultThrowing app
          negb andb];
     [ | reflexivity ]);
    destruct (Stable.BTCVolatilityFilter.isPaused _ _ _) as [b1 btcPaused];
    destruct (Stable.StopClusterProtection.isPaused _ _ _) as [s1 stopPaused];
    cbn [snd];
    (destruct btcPaused; cbn [negb firstDenial consults verdict app];
     [ reflexivity | ]);
    (destruct stopPaused; cbn [negb firstDenial consults verdict app];
     [ reflexivity | ]);
    try reflexivity;
    destruct (Stable.TradeAggregator.dominantSide stats);
    cbn [Stable.SignalEngine.isBuy];
    repeat (split_if; try reflexivity).
Qed.

Lemma stable_checkSignal_shape (w : Stable.SignalEngine.World)
    (stats : Stable.TradeAggregator.Stats) :
  match snd (Stable.SignalEngine.checkSignal w stats) with
  | Stable.SignalEngine.Decides ev =>
      prefixb (Stable.SignalEngine.consulted ev)
        [FBtcVolatility; FStopCluster; FTimeBased; FAggression] = true
      /\ (Stable.SignalEngine.signal (Stable.SignalEngine.decision ev) = true
          <-> Stable.SignalEngine.reason (Stable.SignalEngine.decision ev)
              = Stable.SignalEngine.AllFiltersPassed)
  | Stable.SignalEngine.Throws seen e =>
      seen = [FBtcVolatility; FStopCluster; FTimeBased]
      /\ Stable.TimeBasedFilter.isTradingAllowed
           (Stable.SignalEngine.timeConfig w)
           (Stable.SignalEngine.dayOfWeek w)
           (Stable.SignalEngine.hour w) = Js.Throw e
  end.
Proof.
  unfold Stable.SignalEngine.checkSignal.
  destruct (Stable.RuntimeState.getSymbolConfig _ _) as [ config | | ];
    [ | split; [ reflexivity | easy ] | split; [ reflexivity | easy ] ].
  destruct (Cfg.enabled config); cbn [negb];
    [ | split; [ reflexivity | easy ] ].
  destruct (Stable.BTCVolatilityFilter.isPaused _ _ _) as [b1 btcPaused].
  destruct (Stable.StopClusterProtection.isPaused _ _ _) as [s1 stopPaused].
  destruct btcPaused; [ split; [ reflexivity | easy ] | ].
  destruct stopPaused; [ split; [ reflexivity | easy ] | ].
  cbv zeta.
  destruct (Stable.TimeBasedFilter.isTradingAllowed _ _ _)
    as [ timeCheck | e ]; cbn [snd];
    repeat (split_if; try (split; [ reflexivity | easy ]));
    split; reflexivity.
Qed.

Lemma stable_time_throws (config : Stable.TimeBasedFilter.Config)
    (dayOfWeek hour : Q) (e : Js.TypeError) :
  Stable.TimeBasedFilter.isTradingAllowed config dayOfWeek hour = Js.Throw e ->
  Stable.TimeBasedFilter.enabled config = true
  /\ ((forall xs, Stable.TimeBasedFilter.blockedDays config <> Cfg.BArray xs)
      \/ (forall xs,
            Stable.TimeBasedFilter.blockedHours config <> Cfg.BArray xs)).
Proof.
  unfold Stable.TimeBasedFilter.isTradingAllowed.
  destruct (Stable.TimeBasedFilter.enabled config); cbn [negb];
    [ | discriminate ].
  intros H. split; [ reflexivity | ].
  destruct (Stable.TimeBasedFilter.blockedDays config) as [ | l | n ];
    cbn [Stable.TimeBasedFilter.includes] in H;
    [ left; discriminate | | left; discriminate ].
  destruct (existsb _ l); [ discriminate | ].
  destruct (Stable.TimeBasedFilter.blockedHours config) as [ | l1 | n1 ];
    cbn [Stable.TimeBasedFilter.includes] in H;
    [ right; discriminate | | right; discriminate ].
  destruct (existsb _ l1); [ discriminate | ].
  destruct (_ || _); discriminate.
Qed.

(** * C2: the order of the checks *)

(** C2, as amended.  Both engines stop at the first denial and, when they
    return, return one decision with one reason, the reason being "all
    filters passed" exactly when the decision allows.  The enhanced
    engine checks the instrument thresholds (snapshot present, enabled,
    volume, dominance, price change, direction agreement) before any
    filter and then consults aggression-decay, stop-cluster, time-based
    and the volatility kill-switch in that order.  The stable engine
    checks that the instrument is enabled, then consults the volatility
    pause, the stop-cluster pause and the time filter, then checks
    volume, dominance and price change, and consults aggression decay
    last.  An evaluation ends without a decision exactly when it reaches
    the time filter and that filter throws a [TypeError]: the filter is
    enabled and [blockedDays] or [blockedHours] is no array (in the
    enhanced file, a number other than 0), as after
    [setFilterParam('timeBased', 'blockedDays', '3')]; the filters
    consulted are then the ones up to the time filter. *)
Theorem decision_order_by_variant (w : Enhanced.SignalEngine.World)
    (symbol : string) (stats : option Enhanced.SymbolState.Stats)
    (sw : Stable.SignalEngine.World) (sstats : Stable.TradeAggregator.Stats) :
  (Enhanced.SignalEngine.shouldAlert w symbol stats
   = enhancedPipeline w symbol stats
   /\ match Enhanced.SignalEngine.shouldAlert w symbol stats with
      | Enhanced.SignalEngine.Decides ev =>
          prefixb (Enhanced.SignalEngine.consulted ev)
            [FAggression; FStopCluster; FTimeBased; FBtcVolatility] = true
          /\ (Enhanced.SignalEngine.allow (Enhanced.SignalEngine.decision ev)
              = true
              <-> Enhanced.SignalEngine.reason
                    (Enhanced.SignalEngine.decision ev)
                  = Enhanced.SignalEngine.AllFiltersPassed)
      | Enhanced.SignalEngine.Throws seen e =>
          seen = [FAggression; FStopCluster; FTimeBased]
          /\ Enhanced.TimeBasedFilter.isTradingAllowed
               (Enhanced.SignalEngine.timeConfig w)
               (Enhanced.SignalEngine.dayOfWeek w)
               (Enhanced.SignalEngine.hourUTC w) = Js.Throw e
      end
   /\ (forall e,
         Enhanced.TimeBasedFilter.isTradingAllowed
           (Enhanced.SignalEngine.timeConfig w)
           (Enhanced.SignalEngine.dayOfWeek w)
           (Enhanced.SignalEngine.hourUTC w) = Js.Throw e ->
         Enhanced.TimeBasedFilter.enabled (Enhanced.SignalEngine.timeConfig w)
         = true
         /\ e = Js.NotAFunction "includes"
         /\ exists n,
              ~ n == 0
              /\ (Enhanced.TimeBasedFilter.blockedDays
                    (Enhanced.SignalEngine.timeConfig w) = Cfg.BNumber n
                  \/ Enhanced.TimeBasedFilter.blockedHours
                       (Enhanced.SignalEngine.timeConfig w) = Cfg.BNumber n)))
  /\ (snd (Stable.SignalEngine.checkSignal sw sstats)
      = stablePipeline sw sstats
      /\ match snd (Stable.SignalEngine.checkSignal sw sstats) with
         | Stable.SignalEngine.Decides ev =>
             prefixb (Stable.SignalEngine.consulted ev)
               [FBtcVolatility; FStopCluster; FTimeBased; FAggression] = true
             /\ (Stable.SignalEngine.signal (Stable.SignalEngine.decision ev)
                 = true
                 <-> Stable.SignalEngine.reason
                       (Stable.SignalEngine.decision ev)
                     = Stable.SignalEngine.AllFiltersPassed)
         | Stable.SignalEngine.Throws seen e =>
             seen = [FBtcVolatility; FStopCluster; FTimeBased]
             /\ Stable.TimeBasedFilter.isTradingAllowed
                  (Stable.SignalEngine.timeConfig sw)
                  (Stable.SignalEngine.dayOfWeek sw)
                  (Stable.SignalEngine.hour sw) = Js.Throw e
         end
      /\ (forall e,
            Stable.TimeBasedFilter.isTradingAllowed
              (Stable.SignalEngine.timeConfig sw)
              (Stable.SignalEngine.dayOfWeek sw)
              (Stable.SignalEngine.hour sw) = Js.Throw e ->
            Stable.TimeBasedFilter.enabled (Stable.SignalEngine.timeConfig sw)
            = true
            /\ ((forall xs,
                   Stable.TimeBasedFilter.blockedDays
                     (Stable.SignalEngine.timeConfig sw) <> Cfg.BArray xs)
                \/ (forall xs,
                      Stable.TimeBasedFilter.blockedHours
                        (Stable.SignalEngine.timeConfig sw) <> Cfg.BArray xs)))).
Proof.
  split; (split; [ | split ]).
  - apply enhanced_shouldAlert_pipeline.
  - apply enhanced_shouldAlert_shape.
  - intros e. apply enhanced_time_throws.
  - apply stable_checkSignal_pipeline.
  - apply stable_checkSignal_shape.
  - intros e. apply stable_time_throws.
Qed.

(** The operator sends [/filter timeBased blockedDays 3]: the stores then
    hold the number 3 where the shipped configuration has an array, the
    worlds read off them carry that number, and an evaluation of a
    snapshot that passes every threshold ends in the [TypeError] of the
    time filter, after the filters before it were consulted. *)
Lemma decision_order_by_variant_witness :
  (Enhanced.SignalEngine.ofStore numberDaysEnhancedConfig
     Enhanced.AggressionDecayFilter.new Enhanced.StopClusterProtection.new
     Enhanced.BTCVolatilityFilter.new 2000 3 10
   = Some numberDaysEnhancedWorld
   /\ enhancedPipeline numberDaysEnhancedWorld "ADAUSDT" (Some buyStats)
      = Enhanced.SignalEngine.Throws [FAggression; FStopCluster; FTimeBased]
          (Js.NotAFunction "includes"))
  /\ (Stable.SignalEngine.ofStore numberDaysStableState
        Stable.AggressionDecayFilter.new Stable.StopClusterProtection.new
        Stable.BTCVolatilityFilter.new 2000 3 10
      = Some numberDaysStableWorld
      /\ stablePipeline numberDaysStableWorld stableBuyStats
         = Stable.SignalEngine.Throws [FBtcVolatility; FStopCluster; FTimeBased]
             (Js.NotAFunction "includes")).
Proof.
  destruct (decision_order_by_variant numberDaysEnhancedWorld "ADAUSDT"
              (Some buyStats) numberDaysStableWorld stableBuyStats)
    as [[He _] [Hs _]].
  rewrite <- He, <- Hs.
  split; split; vm_compute; reflexivity.
Defined.

(** The stable engine against C2 as stated: the snapshot fails the volume
    threshold, yet the engine consults the volatility filter first and
    denies with that filter's reason. *)
Lemma stable_filter_before_threshold :
  Stable.RuntimeState.getSymbolConfig "ADAUSDT"
    (Stable.SignalEngine.runtimeState pausedStableWorld) = Cfg.Own adaConfig
  /\ Js.ltb (Stable.TradeAggregator.totalVolumeUSD thinStats)
       (Cfg.minVolumeUSD adaConfig) = true
  /\ snd (Stable.SignalEngine.checkSignal pausedStableWorld thinStats)
     = Stable.SignalEngine.Decides
         (Stable.SignalEngine.mkEvaluation [FBtcVolatility]
            (Stable.SignalEngine.mkDecision false
               Stable.SignalEngine.BtcVolatilityPause)).
Proof.
  split; [ vm_compute; reflexivity | ]. split; [ reflexivity | ].
  vm_compute. reflexivity.
Qed.

(** * C8: dominance against the direction of the price *)

Lemma enhanced_direction_mismatch (w : Enhanced.SignalEngine.World)
    (symbol : string) (stats : Enhanced.SymbolState.Stats) :
  (Enhanced.SymbolState.dominantSide stats = buy
   /\ Enhanced.SymbolState.priceChange stats < 0)
  \/ (Enhanced.SymbolState.dominantSide stats = sell
      /\ 0 < Enhanced.SymbolState.priceChange stats) ->
  exists r,
    Enhanced.SignalEngine.shouldAlert w symbol (Some stats)
    = Enhanced.SignalEngine.Decides
        (Enhanced.SignalEngine.mkEvaluation []
           (Enhanced.SignalEngine.mkDecision false r)).
Proof.
  intros Hmis. unfold Enhanced.SignalEngine.shouldAlert.
  destruct (Enhanced.RuntimeConfig.get symbol _) as [ config | | ];
    [ | eexists; reflexivity | eexists; reflexivity ].
  destruct (negb (Cfg.enabled config)); [ eexists; reflexivity | ].
  destruct (Js.ltb (Enhanced.SymbolState.totalVolume stats) _);
    [ eexists; reflexivity | ].
  destruct (Js.ltb (Enhanced.SymbolState.dominance stats) _);
    [ eexists; reflexivity | ].
  destruct (Js.ltb (Qabs _) _); [ eexists; reflexivity | ].
  destruct Hmis as [ [-> Hlt] | [-> Hgt] ]; cbn [Enhanced.SignalEngine.isBuy negb andb].
  - apply ltb_true in Hlt. rewrite Hlt. eexists; reflexivity.
  - apply gtb_true in Hgt. rewrite Hgt. eexists; reflexivity.
Qed.

Lemma stable_no_direction_check (w : Stable.SignalEngine.World)
    (stats : Stable.TradeAggregator.Stats) (config : Cfg.SymbolConfig) :
  Stable.RuntimeState.getSymbolConfig (Stable.TradeAggregator.symbol stats)
    (Stable.SignalEngine.runtimeState w) = Cfg.Own config ->
  Cfg.enabled config = true ->
  snd (Stable.BTCVolatilityFilter.isPaused (Stable.SignalEngine.btcConfig w)
         (Stable.SignalEngine.now w) (Stable.SignalEngine.btcFilter w))
  = false ->
  snd (Stable.StopClusterProtection.isPaused (Stable.SignalEngine.stopConfig w)
         (Stable.SignalEngine.now w) (Stable.SignalEngine.stopClusterFilter w))
  = false ->
  returns Stable.TimeBasedFilter.allowed
    (Stable.TimeBasedFilter.isTradingAllowed (Stable.SignalEngine.timeConfig w)
       (Stable.SignalEngine.dayOfWeek w) (Stable.SignalEngine.hour w)) = true ->
  Js.ltb (Stable.TradeAggregator.totalVolumeUSD stats) (Cfg.minVolumeUSD config)
  = false ->
  Js.ltb (stableDominance stats) (Cfg.minDominance config) = false ->
  Js.ltb (Stable.TradeAggregator.priceChange stats) (Cfg.minPriceChange config)
  = false ->
  Stable.AggressionDecayFilter.passed
    (Stable.AggressionDecayFilter.checkDecay
       (Stable.SignalEngine.aggressionConfig w)
       (Stable.TradeAggregator.symbol stats) (stableDominance stats)
       (Stable.SignalEngine.aggressionFilter w)) = true ->
  snd (Stable.SignalEngine.checkSignal w stats)
  = Stable.SignalEngine.Decides
      (Stable.SignalEngine.mkEvaluation
         [FBtcVolatility; FStopCluster; FTimeBased; FAggression]
         (Stable.SignalEngine.mkDecision true
            Stable.SignalEngine.AllFiltersPassed)).
Proof.
  intros Hcfg Hen Hbtc Hstop Htime Hvol Hdom Hpc Hdecay.
  rewrite stable_checkSignal_pipeline.
  unfold stablePipeline, stableChecks. rewrite Hcfg. cbv zeta.
  destruct (Stable.TimeBasedFilter.isTradingAllowed _ _ _)
    as [ timeCheck | e ]; cbn [returns] in Htime; [ | discriminate ].
  rewrite Hen, Hbtc, Hstop, Hvol, Hdom, Hpc, Hdecay.
  cbn [firstDenial consults verdict threshold consult consultThrowing app
       negb].
  rewrite Htime. reflexivity.
Qed.

(** C8, as amended.  The enhanced engine denies every snapshot whose
    dominant side and price-change sign disagree (buy-dominant with a
    negative change, sell-dominant with a positive one) and consults no
    filter for it.  The stable engine has no such check: whatever the
    dominant side and the sign of the change, a snapshot of an enabled
    instrument that meets the volume, dominance and price-change
    thresholds while no pause is active, the time filter allows and the
    decay filter passes, is allowed. *)
Theorem direction_mismatch_by_variant (w : Enhanced.SignalEngine.World)
    (symbol : string) (stats : Enhanced.SymbolState.Stats)
    (sw : Stable.SignalEngine.World) (sstats : Stable.TradeAggregator.Stats)
    (config : Cfg.SymbolConfig) :
  ((Enhanced.SymbolState.dominantSide stats = buy
    /\ Enhanced.SymbolState.priceChange stats < 0)
   \/ (Enhanced.SymbolState.dominantSide stats = sell
       /\ 0 < Enhanced.SymbolState.priceChange stats) ->
   exists r,
     Enhanced.SignalEngine.shouldAlert w symbol (Some stats)
     = Enhanced.SignalEngine.Decides
         (Enhanced.SignalEngine.mkEvaluation []
            (Enhanced.SignalEngine.mkDecision false r)))
  /\ (Stable.RuntimeState.getSymbolConfig (Stable.TradeAggregator.symbol sstats)
        (Stable.SignalEngine.runtimeState sw) = Cfg.Own config ->
      Cfg.enabled config = true ->
      snd (Stable.BTCVolatilityFilter.isPaused
             (Stable.SignalEngine.btcConfig sw) (Stable.SignalEngine.now sw)
             (Stable.SignalEngine.btcFilter sw)) = false ->
      snd (Stable.StopClusterProtection.isPaused
             (Stable.SignalEngine.stopConfig sw) (Stable.SignalEngine.now sw)
             (Stable.SignalEngine.stopClusterFilter sw)) = false ->
      returns Stable.TimeBasedFilter.allowed
        (Stable.TimeBasedFilter.isTradingAllowed
           (Stable.SignalEngine.timeConfig sw)
           (Stable.SignalEngine.dayOfWeek sw) (Stable.SignalEngine.hour sw))
      = true ->
      Js.ltb (Stable.TradeAggregator.totalVolumeUSD sstats)
        (Cfg.minVolumeUSD config) = false ->
      Js.ltb (stableDominance sstats) (Cfg.minDominance config) = false ->
      Js.ltb (Stable.TradeAggregator.priceChange sstats)
        (Cfg.minPriceChange config) = false ->
      Stable.AggressionDecayFilter.passed
        (Stable.AggressionDecayFilter.checkDecay
           (Stable.SignalEngine.aggressionConfig sw)
           (Stable.TradeAggregator.symbol sstats) (stableDominance sstats)
           (Stable.SignalEngine.aggressionFilter sw)) = true ->
      snd (Stable.SignalEngine.checkSignal sw sstats)
      = Stable.SignalEngine.Decides
          (Stable.SignalEngine.mkEvaluation
             [FBtcVolatility; FStopCluster; FTimeBased; FAggression]
             (Stable.SignalEngine.mkDecision true
                Stable.SignalEngine.AllFiltersPassed))).
Proof.
  split.
  - apply enhanced_direction_mismatch.
  - apply stable_no_direction_check.
Qed.

Lemma direction_mismatch_by_variant_witness :
  (exists st,
     Enhanced.TradeAggregator.getStats "ADAUSDT"
       (Enhanced.TradeAggregator.feed risingSellTrades
          (Enhanced.TradeAggregator.new 180)) = Some st
     /\ exists r,
          Enhanced.SignalEngine.shouldAlert calmEnhancedWorld "ADAUSDT"
            (Some st)
          = Enhanced.SignalEngine.Decides
              (Enhanced.SignalEngine.mkEvaluation []
                 (Enhanced.SignalEngine.mkDecision false r)))
  /\ (exists st,
        Stable.TradeAggregator.getStats 2000 "ADAUSDT"
          (Stable.TradeAggregator.feed
             (map (fun e => (ev_T e, e)) risingSellTrades)
             (Stable.TradeAggregator.new 180)) = Some st
        /\ snd (Stable.SignalEngine.checkSignal calmStableWorld st)
           = Stable.SignalEngine.Decides
               (Stable.SignalEngine.mkEvaluation
                  [FBtcVolatility; FStopCluster; FTimeBased; FAggression]
                  (Stable.SignalEngine.mkDecision true
                     Stable.SignalEngine.AllFiltersPassed))).
Proof.
  split.
  - destruct (Enhanced.TradeAggregator.getStats "ADAUSDT"
                (Enhanced.TradeAggregator.feed risingSellTrades
                   (Enhanced.TradeAggregator.new 180))) as [ st | ] eqn:Eg;
      [ | vm_compute in Eg; discriminate Eg ].
    exists st. split; [ reflexivity | ].
    apply (direction_mismatch_by_variant calmEnhancedWorld "ADAUSDT" st
             calmStableWorld thinStats adaConfig).
    right. vm_compute in Eg. injection Eg as <-. split; reflexivity.
  - destruct (Stable.TradeAggregator.getStats 2000 "ADAUSDT"
                (Stable.TradeAggregator.feed
                   (map (fun e => (ev_T e, e)) risingSellTrades)
                   (Stable.TradeAggregator.new 180))) as [ st | ] eqn:Eg;
      [ | vm_compute in Eg; discriminate Eg ].
    exists st. split; [ reflexivity | ].
    vm_compute in Eg. injection Eg as <-.
    apply (direction_mismatch_by_variant calmEnhancedWorld "ADAUSDT"
             (Enhanced.SymbolState.mkStats 0 0 0 sell 0 0 0 0 0 None None None)
             calmStableWorld _ adaConfig); vm_compute; reflexivity.
Defined.

(** The stable engine against C8 as stated: heavy selling at 1.00 followed
    by lighter buying at 1.01 gives a sell-dominant snapshot with a
    positive price change, and the engine allows it after consulting all
    four filters. *)
Lemma stable_allows_direction_mismatch :
  exists st,
    Stable.TradeAggregator.getStats 2000 "ADAUSDT"
      (Stable.TradeAggregator.feed
         (map (fun e => (ev_T e, e)) risingSellTrades)
         (Stable.TradeAggregator.new 180)) = Some st
    /\ Stable.TradeAggregator.dominantSide st = sell
    /\ 0 < Stable.TradeAggregator.priceChange st
    /\ snd (Stable.SignalEngine.checkSignal calmStableWorld st)
       = Stable.SignalEngine.Decides
           (Stable.SignalEngine.mkEvaluation
              [FBtcVolatility; FStopCluster; FTimeBased; FAggression]
              (Stable.SignalEngine.mkDecision true
                 Stable.SignalEngine.AllFiltersPassed)).
Proof.
  eexists. split; [ vm_compute; reflexivity | ].
  split; [ reflexivity | ]. split; [ reflexivity | ].
  vm_compute. reflexivity.
Qed.

(** * C4: the cooldown *)

Lemma enhanced_cooldown (rc : Enhanced.RuntimeConfig.t) (symbol : string)
    (recorded checked : Enhanced.SymbolState.Stats) (T t : Q)
    (cm : Enhanced.CooldownManager.t) (config : Cfg.SymbolConfig) :
  Enhanced.SymbolState.dominantSide checked
  = Enhanced.SymbolState.dominantSide recorded ->
  Enhanced.RuntimeConfig.get symbol rc = Cfg.Own config ->
  ~ T == 0 ->
  let cm1 := Enhanced.CooldownManager.recordAlert T symbol recorded cm in
  (t < T + Cfg.cooldownMinutes config * 60 * 1000 ->
   Enhanced.CooldownManager.canAlert rc t symbol checked cm1 = false)
  /\ (T + Cfg.cooldownMinutes config * 60 * 1000 <= t ->
      Enhanced.CooldownManager.canAlert rc t symbol checked cm1 = true).
Proof.
  intros Hside Hcfg HT. cbv zeta.
  unfold Enhanced.CooldownManager.canAlert, Enhanced.CooldownManager.recordAlert,
    Enhanced.CooldownManager.t.
  rewrite Hcfg, Hside, lookup_insert_eq.
  apply eqb_false in HT. rewrite HT. cbv zeta.
  split; intros H.
  - apply geb_false. lra.
  - apply geb_true. lra.
Qed.

Lemma stable_cooldown (rs : Stable.RuntimeState.t) (symbol : string)
    (recorded : Stable.TradeAggregator.Stats) (T t : Q)
    (cm : Stable.CooldownManager.t) (config : Cfg.SymbolConfig) :
  Stable.RuntimeState.getSymbolConfig symbol rs = Cfg.Own config ->
  ~ T + Cfg.cooldownMinutes config * 60 * 1000 == 0 ->
  let cm1 := Stable.CooldownManager.recordAlert rs T symbol recorded cm in
  let side := Stable.TradeAggregator.dominantSide recorded in
  (t < T + Cfg.cooldownMinutes config * 60 * 1000 ->
   snd (Stable.CooldownManager.isInCooldown t symbol side cm1) = true)
  /\ (T + Cfg.cooldownMinutes config * 60 * 1000 <= t ->
      snd (Stable.CooldownManager.isInCooldown t symbol side cm1) = false).
Proof.
  intros Hcfg Hnz. cbv zeta.
  unfold Stable.CooldownManager.isInCooldown, Stable.CooldownManager.recordAlert,
    Stable.CooldownManager.t.
  rewrite Hcfg. cbv zeta. rewrite lookup_insert_eq.
  apply eqb_false in Hnz. rewrite Hnz.
  split; intros H.
  - apply ltb_true in H. rewrite H. reflexivity.
  - apply ltb_false in H. rewrite H. reflexivity.
Qed.

(** C4, as amended.  Enhanced variant: after [recordAlert] for a symbol
    and side at a time [T] other than zero, [canAlert] for that symbol and
    side is false at every time before [T + cooldownMinutes] and true at
    or after it, [cooldownMinutes] being the value the configuration holds
    when the check runs.  Stable variant: [recordAlert] stores
    [T + cooldownMinutes] computed from the configuration it reads at
    record time, and [isInCooldown] is true before that stored time and
    false at or after it, whatever the configuration holds when the check
    runs. *)
Theorem cooldown_by_variant (rc : Enhanced.RuntimeConfig.t) (symbol : string)
    (recorded checked : Enhanced.SymbolState.Stats) (T t : Q)
    (cm : Enhanced.CooldownManager.t) (config : Cfg.SymbolConfig)
    (rs : Stable.RuntimeState.t) (srecorded : Stable.TradeAggregator.Stats)
    (scm : Stable.CooldownManager.t) (sconfig : Cfg.SymbolConfig) :
  (Enhanced.SymbolState.dominantSide checked
   = Enhanced.SymbolState.dominantSide recorded ->
   Enhanced.RuntimeConfig.get symbol rc = Cfg.Own config ->
   ~ T == 0 ->
   let cm1 := Enhanced.CooldownManager.recordAlert T symbol recorded cm in
   (t < T + Cfg.cooldownMinutes config * 60 * 1000 ->
    Enhanced.CooldownManager.canAlert rc t symbol checked cm1 = false)
   /\ (T + Cfg.cooldownMinutes config * 60 * 1000 <= t ->
       Enhanced.CooldownManager.canAlert rc t symbol checked cm1 = true))
  /\ (Stable.RuntimeState.getSymbolConfig symbol rs = Cfg.Own sconfig ->
      ~ T + Cfg.cooldownMinutes sconfig * 60 * 1000 == 0 ->
      let cm1 := Stable.CooldownManager.recordAlert rs T symbol srecorded scm in
      let side := Stable.TradeAggregator.dominantSide srecorded in
      (t < T + Cfg.cooldownMinutes sconfig * 60 * 1000 ->
       snd (Stable.CooldownManager.isInCooldown t symbol side cm1) = true)
      /\ (T + Cfg.cooldownMinutes sconfig * 60 * 1000 <= t ->
          snd (Stable.CooldownManager.isInCooldown t symbol side cm1) = false)).
Proof.
  split.
  - apply enhanced_cooldown.
  - apply stable_cooldown.
Qed.

Lemma cooldown_by_variant_witness :
  (Enhanced.CooldownManager.canAlert shippedEnhancedConfig (1000 + 299999)
     "ADAUSDT" buyStats
     (Enhanced.CooldownManager.recordAlert 1000 "ADAUSDT" buyStats
        Enhanced.CooldownManager.new) = false
   /\ Enhanced.CooldownManager.canAlert shippedEnhancedConfig (1000 + 300000)
        "ADAUSDT" buyStats
        (Enhanced.CooldownManager.recordAlert 1000 "ADAUSDT" buyStats
           Enhanced.CooldownManager.new) = true)
  /\ (snd (Stable.CooldownManager.isInCooldown (1000 + 299999) "ADAUSDT" buy
             (Stable.CooldownManager.recordAlert shippedStableState 1000
                "ADAUSDT" stableBuyStats Stable.CooldownManager.new)) = true
      /\ snd (Stable.CooldownManager.isInCooldown (1000 + 300000) "ADAUSDT" buy
                (Stable.CooldownManager.recordAlert shippedStableState 1000
                   "ADAUSDT" stableBuyStats Stable.CooldownManager.new))
         = false).
Proof.
  assert (HT : ~ 1000 == 0) by (intros H; vm_compute in H; discriminate H).
  assert (Hend : ~ 1000 + Cfg.cooldownMinutes adaConfig * 60 * 1000 == 0)
    by (intros H; vm_compute in H; discriminate H).
  destruct (cooldown_by_variant shippedEnhancedConfig "ADAUSDT" buyStats
              buyStats 1000 (1000 + 299999) Enhanced.CooldownManager.new
              adaConfig shippedStableState stableBuyStats
              Stable.CooldownManager.new adaConfig) as [Henh Hst].
  destruct (cooldown_by_variant shippedEnhancedConfig "ADAUSDT" buyStats
              buyStats 1000 (1000 + 300000) Enhanced.CooldownManager.new
              adaConfig shippedStableState stableBuyStats
              Stable.CooldownManager.new adaConfig) as [Henh' Hst'].
  specialize (Henh eq_refl eq_refl HT). specialize (Henh' eq_refl eq_refl HT).
  specialize (Hst eq_refl Hend). specialize (Hst' eq_refl Hend).
  cbv zeta in Henh, Henh', Hst, Hst'.
  split; split.
  - apply Henh. reflexivity.
  - apply Henh'. apply Qle_bool_iff. reflexivity.
  - apply Hst. reflexivity.
  - apply Hst'. apply Qle_bool_iff. reflexivity.
Defined.

(** The stable manager against C4 as stated: the alert is recorded at 1000
    under a five-minute cooldown, the operator then sets the cooldown to
    one minute, and two minutes after the alert, past the live one-minute
    deadline, the key is still in cooldown. *)
Lemma stable_cooldown_not_live :
  Stable.RuntimeState.getSymbolConfig "ADAUSDT" shortCooldownStableState
  = Cfg.Own shortCooldownConfig
  /\ 1000 + Cfg.cooldownMinutes shortCooldownConfig * 60 * 1000 <= 1000 + 120000
  /\ snd (Stable.CooldownManager.isInCooldown (1000 + 120000) "ADAUSDT" buy
            (Stable.CooldownManager.recordAlert shippedStableState 1000
               "ADAUSDT" stableBuyStats Stable.CooldownManager.new)) = true.
Proof.
  split; [ reflexivity | ].
  split; [ apply Qle_bool_iff; reflexivity | ].
  vm_compute. reflexivity.
Qed.

(** * C3: the aggression-decay filter *)








(** The enhanced filter's guard on an empty snapshot: with the minimum
    history in place and both volumes zero the ratio is zero, below any
    positive threshold, and the filter still denies. *)
Lemma enhanced_decay_denies_zero_volume :
  Enhanced.AggressionDecayFilter.shouldAllowEntry decayConfig "ADAUSDT" 0 0 0
    aggressionHistory
  = Enhanced.AggressionDecayFilter.mkResult false
      Enhanced.AggressionDecayFilter.NoVolume None.
Proof. reflexivity. Qed.

(** * C5: the volatility kill-switch *)










(** * C9: the configuration setters *)

Example parseDecimal_samples :
  parseDecimal (Cfg.VStr "30") = Some 30
  /\ parseDecimal (Cfg.VStr "-5") = Some (-5)
  /\ parseDecimal (Cfg.VStr "0.75") = Some (3 # 4)
  /\ parseDecimal (Cfg.VStr "abc") = None.
Proof. repeat split; vm_compute; reflexivity. Qed.

Lemma validParam_name (param : string) (p : Cfg.Param) :
  Cfg.validParam param = Some p -> param = paramName p.
Proof.
  unfold Cfg.validParam.
  destruct (String.eqb param "minVolumeUSD") eqn:E1;
    [ apply String.eqb_eq in E1; intros [= <-]; exact E1 | ].
  destruct (String.eqb param "minDominance") eqn:E2;
    [ apply String.eqb_eq in E2; intros [= <-]; exact E2 | ].
  destruct (String.eqb param "minPriceChange") eqn:E3;
    [ apply String.eqb_eq in E3; intros [= <-]; exact E3 | ].
  destruct (String.eqb param "cooldownMinutes") eqn:E4;
    [ apply String.eqb_eq in E4; intros [= <-]; exact E4 | ].
  discriminate.
Qed.

Lemma inRangeb_spec (p : Cfg.Param) (v : Q) :
  inRangeb p v = true <->
  match p with
  | Cfg.PMinDominance => 50 <= v /\ v <= 100
  | _ => 0 <= v
  end.
Proof.
  destruct p; cbn [inRangeb]; try apply geb_true.
  rewrite andb_true_iff, geb_true, Qle_bool_iff. reflexivity.
Qed.

Section SettersFacts.

Variable parseFloat : Cfg.JsValue -> option Q.

(** [set], its four range tests folded into [inRangeb]. *)
Lemma enhanced_set_unfold (symbol param : string) (value : Cfg.JsValue)
    (rc : Enhanced.RuntimeConfig.t) :
  Enhanced.RuntimeConfig.set parseFloat symbol param value rc
  = match Enhanced.RuntimeConfig.get symbol rc with
    | Cfg.Absent => (rc, Cfg.Thrown (Cfg.SymbolNotFound symbol))
    | found =>
        match Cfg.validParam param with
        | None => (rc, Cfg.Thrown (Cfg.InvalidParameter param))
        | Some p =>
            match parseFloat value with
            | None => (rc, Cfg.Thrown (Cfg.InvalidValue value))
            | Some v =>
                if inRangeb p v
                then
                  match found with
                  | Cfg.Own c =>
                      ({| Enhanced.RuntimeConfig.symbolConfigs :=
                            <[symbol := Cfg.setField p v c]>
                              (Enhanced.RuntimeConfig.symbolConfigs rc);
                          Enhanced.RuntimeConfig.advancedFilters :=
                            Enhanced.RuntimeConfig.advancedFilters rc |},
                       Cfg.Returned (Cfg.mkChange (Cfg.getField p c) v))
                  | _ => (rc, Cfg.Outside (Cfg.mkWrite symbol param (Cfg.VNum v)))
                  end
                else (rc, Cfg.Thrown (rangeError p))
            end
        end
    end.
Proof.
  unfold Enhanced.RuntimeConfig.set, Enhanced.RuntimeConfig.get.
  destruct (Cfg.slot (Enhanced.RuntimeConfig.symbolConfigs rc) symbol)
    as [ c | | ]; [ | | reflexivity ];
    (destruct (Cfg.validParam param) as [ p | ] eqn:Ep; [ | reflexivity ];
     apply validParam_name in Ep; subst param;
     destruct (parseFloat value) as [ v | ]; [ | reflexivity ];
     cbv zeta; unfold Js.geb, Js.gtb, Js.ltb;
     destruct p; cbn [paramName String.eqb Ascii.eqb Bool.eqb andb inRangeb
                      rangeError];
     unfold Js.geb;
     [ destruct (Qle_bool 0 v); reflexivity
     | destruct (Qle_bool 50 v); cbn [negb orb andb]; [ | reflexivity ];
       destruct (Qle_bool v 100); reflexivity
     | destruct (Qle_bool 0 v); reflexivity
     | destruct (Qle_bool 0 v); reflexivity ]).
Qed.

Lemma slot_own {A : Type} (own : gmap string A) (key : string) (a : A) :
  Cfg.slot own key = Cfg.Own a <-> own !! key = Some a.
Proof.
  unfold Cfg.slot. destruct (own !! key) as [ b | ].
  - split; intros [= ->]; reflexivity.
  - destruct (Cfg.inheritedName key); split; discriminate.
Qed.








End SettersFacts.




(** * Further properties of the enhanced window aggregator *)

Lemma enh_getStats_rest (st : Enhanced.SymbolState.t)
    (s : Enhanced.SymbolState.Stats) :
  Enhanced.SymbolState.getStats st = Some s ->
  exists tr0 rest,
    Enhanced.SymbolState.trades st = tr0 :: rest
    /\ Enhanced.SymbolState.priceRange s
       = (if Js.truthy (Enhanced.SymbolState.highPrice st)
             && Js.truthy (Enhanced.SymbolState.lowPrice st)
          then Js.num (Enhanced.SymbolState.highPrice st)
               - Js.num (Enhanced.SymbolState.lowPrice st)
          else 0)
    /\ Enhanced.SymbolState.duration s
       = (Enhanced.SymbolState.timestamp (List.last (tr0 :: rest) tr0)
          - Enhanced.SymbolState.timestamp tr0) / 1000
    /\ Enhanced.SymbolState.tradeCount s = length (tr0 :: rest)
    /\ Enhanced.SymbolState.stLastPrice s = Enhanced.SymbolState.lastPrice st
    /\ Enhanced.SymbolState.stHighPrice s = Enhanced.SymbolState.highPrice st
    /\ Enhanced.SymbolState.stLowPrice s = Enhanced.SymbolState.lowPrice st.
Proof.
  unfold Enhanced.SymbolState.getStats. cbv zeta.
  destruct (Enhanced.SymbolState.trades st) as [ | tr0 rest ] eqn:Etr;
    [ discriminate | ].
  destruct (Js.eqb _ 0); [ discriminate | ].
  intros H. injection H as <-. exists tr0, rest.
  cbn [Enhanced.SymbolState.priceRange Enhanced.SymbolState.duration
       Enhanced.SymbolState.tradeCount Enhanced.SymbolState.stLastPrice
       Enhanced.SymbolState.stHighPrice Enhanced.SymbolState.stLowPrice].
  repeat split; reflexivity.
Qed.

Lemma enh_extremes_cleanup (c : Q) (st : Enhanced.SymbolState.t) :
  extremesOk (Enhanced.SymbolState.cleanup c st).
Proof.
  unfold extremesOk, Enhanced.SymbolState.cleanup. cbv zeta.
  destruct (List.filter _ (Enhanced.SymbolState.trades st)) as [ | tr0 rest ];
    cbn [Enhanced.SymbolState.trades Enhanced.SymbolState.highPrice
         Enhanced.SymbolState.lowPrice];
    [ exact I | split; reflexivity ].
Qed.

Lemma enh_extremes_addTrade (ts p q : Q) (m : bool)
    (st : Enhanced.SymbolState.t) :
  extremesOk (Enhanced.SymbolState.addTrade ts p q m st).
Proof.
  unfold Enhanced.SymbolState.addTrade. cbv zeta. apply enh_extremes_cleanup.
Qed.

Lemma enh_span_addTrade (e : TradeEvent) (st : Enhanced.SymbolState.t) :
  0 <= Enhanced.SymbolState.windowMs st ->
  spanOk (Enhanced.SymbolState.addTrade (ev_T e) (ev_p e) (ev_q e) (ev_m e) st).
Proof.
  intros Hw. unfold spanOk. rewrite enh_windowMs_addTrade.
  assert (Hkept :
    Enhanced.SymbolState.trades
      (Enhanced.SymbolState.addTrade (ev_T e) (ev_p e) (ev_q e) (ev_m e) st)
    = List.filter
        (fun tr => Js.geb (Enhanced.SymbolState.timestamp tr)
                     (ev_T e - Enhanced.SymbolState.windowMs st))
        (Enhanced.SymbolState.trades st) ++ [tradeOf e]).
  { rewrite enh_trades_addTrade, tradeOf_symbol.
    apply filter_snoc_kept. apply geb_true.
    cbn [tradeOf Enhanced.SymbolState.timestamp]. lra. }
  rewrite Hkept, lastOf_snoc.
  unfold tradeOf at 1. cbn [Enhanced.SymbolState.timestamp].
  apply List.Forall_app. split.
  - apply List.Forall_forall. intros tr Hin.
    apply List.filter_In in Hin as [_ Hin]. apply geb_true in Hin. exact Hin.
  - constructor; [ | constructor ].
    unfold tradeOf. cbn [Enhanced.SymbolState.timestamp]. lra.
Qed.

(** What every state of a living aggregator satisfies. *)
Lemma enh_snapshot_invariants (w : Q) (ops : list EnhancedOp)
    (symbol : string) :
  0 <= w ->
  forallb enhancedOpOk ops = true ->
  let st := stateOf symbol (enhancedRun ops (Enhanced.TradeAggregator.new w)) in
  Enhanced.SymbolState.windowMs st = w * 1000
  /\ pricesOk st /\ extremesOk st /\ spanOk st
  /\ List.Forall volumesOk (Enhanced.SymbolState.trades st).
Proof.
  intros Hw Hok. cbv zeta.
  apply (enh_run_preserves
           (fun st =>
              Enhanced.SymbolState.windowMs st = w * 1000
              /\ pricesOk st /\ extremesOk st /\ spanOk st
              /\ List.Forall volumesOk (Enhanced.SymbolState.trades st))).
  - intros e st Hpos (Hwin & Hp & _ & _ & Hv).
    split; [ rewrite enh_windowMs_addTrade; exact Hwin | ].
    split; [ apply enh_pricesOk_addTrade; assumption | ].
    split; [ apply enh_extremes_addTrade | ].
    split; [ apply enh_span_addTrade; rewrite Hwin; nra | ].
    apply enh_volumesOk_addTrade; assumption.
  - intros st (Hwin & (Hw0 & _) & _).
    split; [ exact Hwin | ].
    unfold pricesOk, extremesOk, spanOk.
    cbn [Enhanced.SymbolState.reset Enhanced.SymbolState.windowMs
         Enhanced.SymbolState.trades lastOf].
    repeat split; try exact I; try constructor. exact Hw0.
  - exact Hok.
  - intros s. rewrite enh_stateOf_new.
    unfold pricesOk, extremesOk, spanOk.
    cbn [Enhanced.SymbolState.new Enhanced.SymbolState.windowMs
         Enhanced.SymbolState.trades lastOf].
    repeat split; try exact I; try constructor. nra.
Qed.

Lemma Qmax_choice (x y : Q) : Qmax x y = x \/ Qmax x y = y.
Proof.
  unfold Qmax, GenericMinMax.gmax. destruct (x ?= y); auto.
Qed.

Lemma Qmin_choice (x y : Q) : Qmin x y = x \/ Qmin x y = y.
Proof.
  unfold Qmin, GenericMinMax.gmin. destruct (x ?= y); auto.
Qed.

Lemma maxOf_member (xs : list Q) (x : Q) : In (Js.maxOf x xs) (x :: xs).
Proof.
  unfold Js.maxOf. revert x.
  induction xs as [ | y ys IH ]; intros x; cbn [fold_left].
  - left. reflexivity.
  - destruct (IH (Qmax x y)) as [ H | H ].
    + rewrite <- H. destruct (Qmax_choice x y) as [ -> | -> ];
        [ left | right; left ]; reflexivity.
    + right. right. exact H.
Qed.

Lemma minOf_member (xs : list Q) (x : Q) : In (Js.minOf x xs) (x :: xs).
Proof.
  unfold Js.minOf. revert x.
  induction xs as [ | y ys IH ]; intros x; cbn [fold_left].
  - left. reflexivity.
  - destruct (IH (Qmin x y)) as [ H | H ].
    + rewrite <- H. destruct (Qmin_choice x y) as [ -> | -> ];
        [ left | right; left ]; reflexivity.
    + right. right. exact H.
Qed.

Lemma maxOf_upper (xs : list Q) (x : Q) :
  List.Forall (fun y => y <= Js.maxOf x xs) (x :: xs).
Proof.
  unfold Js.maxOf. revert x.
  induction xs as [ | y ys IH ]; intros x; cbn [fold_left].
  - constructor; [ apply Qle_refl | constructor ].
  - specialize (IH (Qmax x y)). apply List.Forall_cons_iff in IH as [Hm Hys].
    fold (Js.maxOf (Qmax x y) ys) in *.
    constructor; [ | constructor ].
    + apply Qle_trans with (Qmax x y); [ apply Q.le_max_l | exact Hm ].
    + apply Qle_trans with (Qmax x y); [ apply Q.le_max_r | exact Hm ].
    + exact Hys.
Qed.

Lemma minOf_lower (xs : list Q) (x : Q) :
  List.Forall (fun y => Js.minOf x xs <= y) (x :: xs).
Proof.
  unfold Js.minOf. revert x.
  induction xs as [ | y ys IH ]; intros x; cbn [fold_left].
  - constructor; [ apply Qle_refl | constructor ].
  - specialize (IH (Qmin x y)). apply List.Forall_cons_iff in IH as [Hm Hys].
    fold (Js.minOf (Qmin x y) ys) in *.
    constructor; [ | constructor ].
    + apply Qle_trans with (Qmin x y); [ exact Hm | apply Q.le_min_l ].
    + apply Qle_trans with (Qmin x y); [ exact Hm | apply Q.le_min_r ].
    + exact Hys.
Qed.

(** X1.  After any life of the enhanced aggregator (non-negative window,
    trades of positive price and quantity), a snapshot's [highPrice] and
    [lowPrice] are prices of surviving trades, every surviving price lies
    between them, and [priceRange] is their difference, never negative. *)
Theorem enhanced_extremes_exact (w : Q) (ops : list EnhancedOp)
    (symbol : string) (st : Enhanced.SymbolState.Stats) :
  0 <= w ->
  forallb enhancedOpOk ops = true ->
  Enhanced.TradeAggregator.getStats symbol
    (enhancedRun ops (Enhanced.TradeAggregator.new w)) = Some st ->
  let prices :=
    map Enhanced.SymbolState.price
      (survivors symbol (enhancedRun ops (Enhanced.TradeAggregator.new w))) in
  exists hi lo,
    Enhanced.SymbolState.stHighPrice st = Some hi
    /\ Enhanced.SymbolState.stLowPrice st = Some lo
    /\ In hi prices /\ In lo prices
    /\ List.Forall (fun p => lo <= p /\ p <= hi) prices
    /\ Enhanced.SymbolState.priceRange st = hi - lo
    /\ 0 <= Enhanced.SymbolState.priceRange st.
Proof.
  intros Hw Hok Hst. cbv zeta.
  destruct (enh_snapshot_invariants w ops symbol Hw Hok)
    as (_ & (_ & Hprices & _) & Hext & _).
  rewrite enh_getStats_stateOf in Hst. apply enh_getStats_rest in Hst.
  destruct Hst as (tr0 & rest & Etr & Hrange & _ & _ & _ & Hhi & Hlo).
  unfold survivors. unfold extremesOk in Hext.
  rewrite Etr in *. destruct Hext as [Ehi Elo].
  set (hd := Enhanced.SymbolState.price tr0) in *.
  set (tl := map Enhanced.SymbolState.price rest) in *.
  assert (Hpos : List.Forall (fun p => 0 < p) (hd :: tl)).
  { change (hd :: tl) with (map Enhanced.SymbolState.price (tr0 :: rest)).
    apply List.Forall_map. exact Hprices. }
  assert (Hlo0 : 0 < Js.minOf hd tl).
  { apply minOf_pos; [ apply (List.Forall_inv Hpos)
                     | apply (List.Forall_inv_tail Hpos) ]. }
  assert (Hle : Js.minOf hd tl <= Js.maxOf hd tl).
  { apply Qle_trans with hd; [ apply minOf_le | apply maxOf_ge ]. }
  exists (Js.maxOf hd tl), (Js.minOf hd tl).
  cbn [map]. fold hd tl.
  split; [ congruence | ]. split; [ congruence | ].
  split; [ apply maxOf_member | ]. split; [ apply minOf_member | ].
  split.
  - pose proof (maxOf_upper tl hd) as Hup.
    pose proof (minOf_lower tl hd) as Hdn.
    rewrite List.Forall_forall in Hup, Hdn |- *.
    intros p Hp. split; [ apply Hdn | apply Hup ]; exact Hp.
  - rewrite Hrange, Ehi, Elo.
    rewrite !truthy_positive by lra. cbn [andb Js.num].
    split; [ reflexivity | lra ].
Qed.

Lemma enhanced_extremes_exact_witness :
  exists st,
    Enhanced.TradeAggregator.getStats "ADAUSDT"
      (enhancedRun fallingOps (Enhanced.TradeAggregator.new 180)) = Some st
    /\ Enhanced.SymbolState.stHighPrice st = Some 100
    /\ Enhanced.SymbolState.stLowPrice st = Some 99
    /\ 0 <= Enhanced.SymbolState.priceRange st.
Proof.
  destruct (Enhanced.TradeAggregator.getStats "ADAUSDT"
              (enhancedRun fallingOps (Enhanced.TradeAggregator.new 180)))
    as [ st | ] eqn:Eg; [ | vm_compute in Eg; discriminate Eg ].
  assert (Hw : 0 <= 180) by (apply Qle_bool_iff; reflexivity).
  destruct (enhanced_extremes_exact 180 fallingOps "ADAUSDT" st Hw eq_refl Eg)
    as (hi & lo & _ & _ & _ & _ & _ & _ & Hpos).
  exists st. split; [ reflexivity | ].
  vm_compute in Eg. injection Eg as <-.
  split; [ reflexivity | ]. split; [ reflexivity | exact Hpos ].
Defined.

Lemma enh_span_run (w : Q) (ops : list EnhancedOp) :
  0 <= w ->
  forall agg : Enhanced.TradeAggregator.t,
    (forall symbol,
       Enhanced.SymbolState.windowMs (stateOf symbol agg) = w * 1000
       /\ spanOk (stateOf symbol agg)) ->
    forall symbol,
      Enhanced.SymbolState.windowMs (stateOf symbol (enhancedRun ops agg))
      = w * 1000
      /\ spanOk (stateOf symbol (enhancedRun ops agg)).
Proof.
  intros Hw. unfold enhancedRun.
  induction ops as [ | op ops IH ]; intros agg Hinv; [ exact Hinv | ].
  cbn [fold_left]. apply IH. intros symbol.
  destruct op as [ e | s ]; cbn [enhancedStep].
  - rewrite enh_stateOf_addTrade.
    destruct (String.eqb (ev_symbol e) symbol); [ | apply Hinv ].
    destruct (Hinv symbol) as [Hwin _].
    split; [ rewrite enh_windowMs_addTrade; exact Hwin | ].
    apply enh_span_addTrade. rewrite Hwin. nra.
  - rewrite enh_stateOf_resetSymbol.
    destruct (String.eqb s symbol); [ | apply Hinv ].
    specialize (Hinv symbol). unfold stateOf in Hinv |- *.
    destruct (Enhanced.TradeAggregator.states agg !! symbol) as [ st | ];
      [ | exact Hinv ].
    destruct Hinv as [Hwin _]. split; [ exact Hwin | ].
    unfold spanOk.
    cbn [Enhanced.SymbolState.reset Enhanced.SymbolState.trades lastOf].
    exact I.
Qed.

(** X2.  After any sequence of [addTrade] and [reset] calls on an enhanced
    aggregator with a non-negative window, whatever the prices, the
    quantities and the order of the timestamps of the trades, the
    [duration] a snapshot reports never exceeds the window. *)
Theorem enhanced_duration_within_window (w : Q) (ops : list EnhancedOp)
    (symbol : string) (st : Enhanced.SymbolState.Stats) :
  0 <= w ->
  Enhanced.TradeAggregator.getStats symbol
    (enhancedRun ops (Enhanced.TradeAggregator.new w)) = Some st ->
  Enhanced.SymbolState.duration st <= w.
Proof.
  intros Hw Hst.
  assert (H0 : forall s,
             Enhanced.SymbolState.windowMs
               (stateOf s (Enhanced.TradeAggregator.new w)) = w * 1000
             /\ spanOk (stateOf s (Enhanced.TradeAggregator.new w))).
  { intros s. rewrite enh_stateOf_new. split; [ reflexivity | ].
    unfold spanOk.
    cbn [Enhanced.SymbolState.new Enhanced.SymbolState.trades lastOf].
    exact I. }
  destruct (enh_span_run w ops Hw _ H0 symbol) as [Hwin Hspan].
  rewrite enh_getStats_stateOf in Hst. apply enh_getStats_rest in Hst.
  destruct Hst as (tr0 & rest & Etr & _ & Hdur & _).
  unfold spanOk in Hspan. rewrite Etr, Hwin in Hspan.
  cbn [lastOf] in Hspan. apply List.Forall_inv in Hspan.
  rewrite Hdur.
  assert (Hlast : List.last (tr0 :: rest) tr0 = List.last rest tr0).
  { destruct rest; reflexivity. }
  rewrite Hlast. apply Qle_shift_div_r; [ reflexivity | lra ].
Qed.

Lemma enhanced_duration_within_window_witness :
  exists st,
    Enhanced.TradeAggregator.getStats "ADAUSDT"
      (enhancedRun (map EAdd shuffledTrades) (Enhanced.TradeAggregator.new 10))
    = Some st
    /\ Enhanced.SymbolState.duration st <= 10.
Proof.
  destruct (Enhanced.TradeAggregator.getStats "ADAUSDT"
              (enhancedRun (map EAdd shuffledTrades)
                 (Enhanced.TradeAggregator.new 10)))
    as [ st | ] eqn:Eg; [ | vm_compute in Eg; discriminate Eg ].
  exists st. split; [ reflexivity | ].
  apply (enhanced_duration_within_window 10 (map EAdd shuffledTrades)
           "ADAUSDT" st); [ apply Qle_bool_iff; reflexivity | ].
  exact Eg.
Defined.

(** X3.  In an enhanced aggregator with a non-negative window, fed since
    its start only trades of positive price and quantity, a trade is in
    the snapshot taken right after it: the snapshot is not null, counts
    at least one trade, reports the trade's price as [lastPrice] and a
    total volume of at least the trade's notional, and holds no trade
    older than the trade's timestamp minus the window. *)
Theorem enhanced_trade_is_visible (w : Q) (ops : list EnhancedOp)
    (e : TradeEvent) :
  0 <= w ->
  forallb enhancedOpOk ops = true ->
  positiveb e = true ->
  let agg := enhancedRun (ops ++ [EAdd e]) (Enhanced.TradeAggregator.new w) in
  exists st,
    Enhanced.TradeAggregator.getStats (ev_symbol e) agg = Some st
    /\ Enhanced.SymbolState.stLastPrice st = Some (ev_p e)
    /\ (1 <= Enhanced.SymbolState.tradeCount st)%nat
    /\ ev_p e * ev_q e <= Enhanced.SymbolState.totalVolume st
    /\ List.Forall
         (fun tr => ev_T e - w * 1000 <= Enhanced.SymbolState.timestamp tr)
         (survivors (ev_symbol e) agg).
Proof.
  intros Hw Hok Hpos. cbv zeta.
  assert (Hok1 : forallb enhancedOpOk (ops ++ [EAdd e]) = true).
  { rewrite forallb_app, Hok. cbn [forallb enhancedOpOk]. rewrite Hpos.
    reflexivity. }
  destruct (enh_snapshot_invariants w (ops ++ [EAdd e]) (ev_symbol e) Hw Hok1)
    as (_ & _ & _ & _ & Hvol).
  destruct (enh_snapshot_invariants w ops (ev_symbol e) Hw Hok)
    as (Hwin & _).
  unfold survivors in *. rewrite enh_getStats_stateOf.
  unfold enhancedRun in *. rewrite fold_left_app in *. cbn [fold_left] in *.
  cbn [enhancedStep] in *. rewrite enh_stateOf_addTrade in *.
  rewrite String.eqb_refl in *.
  set (st0 := stateOf (ev_symbol e)
                (fold_left enhancedStep ops (Enhanced.TradeAggregator.new w)))
    in *.
  assert (Hkept :
    Enhanced.SymbolState.trades
      (Enhanced.SymbolState.addTrade (ev_T e) (ev_p e) (ev_q e) (ev_m e) st0)
    = List.filter
        (fun tr => Js.geb (Enhanced.SymbolState.timestamp tr)
                     (ev_T e - w * 1000))
        (Enhanced.SymbolState.trades st0) ++ [tradeOf e]).
  { rewrite enh_trades_addTrade, tradeOf_symbol, Hwin.
    apply filter_snoc_kept. apply geb_true.
    unfold tradeOf. cbn [Enhanced.SymbolState.timestamp]. nra. }
  apply positiveb_inv in Hpos as [Hp Hq].
  destruct (enh_volume_nonneg _ Hvol) as [Hb Hs].
  assert (Hin : In (tradeOf e)
                  (Enhanced.SymbolState.trades
                     (Enhanced.SymbolState.addTrade (ev_T e) (ev_p e) (ev_q e)
                        (ev_m e) st0))).
  { rewrite Hkept. apply in_or_app. right. left. reflexivity. }
  assert (Hge :
    ev_p e * ev_q e
    <= Js.sumBy Enhanced.SymbolState.buyVol
         (Enhanced.SymbolState.trades
            (Enhanced.SymbolState.addTrade (ev_T e) (ev_p e) (ev_q e) (ev_m e)
               st0))
       + Js.sumBy Enhanced.SymbolState.sellVol
           (Enhanced.SymbolState.trades
              (Enhanced.SymbolState.addTrade (ev_T e) (ev_p e) (ev_q e)
                 (ev_m e) st0))).
  { pose proof (sumBy_member_le Enhanced.SymbolState.buyVol _ (tradeOf e)
                  (List.Forall_impl _ (fun tr H => proj1 H) Hvol) Hin) as H1.
    pose proof (sumBy_member_le Enhanced.SymbolState.sellVol _ (tradeOf e)
                  (List.Forall_impl _ (fun tr H => proj2 H) Hvol) Hin) as H2.
    unfold tradeOf in H1, H2.
    cbn [Enhanced.SymbolState.buyVol Enhanced.SymbolState.sellVol] in H1, H2.
    destruct (ev_m e); lra. }
  destruct (Enhanced.SymbolState.getStats
              (Enhanced.SymbolState.addTrade (ev_T e) (ev_p e) (ev_q e)
                 (ev_m e) st0)) as [ st | ] eqn:Eg.
  - exists st. split; [ reflexivity | ].
    pose proof (enh_getStats_Some _ _ Eg) as Hs1. cbv zeta in Hs1.
    destruct Hs1 as (_ & _ & _ & _ & Htot & _).
    apply enh_getStats_rest in Eg.
    destruct Eg as (tr0 & rest & Etr & _ & _ & Hcount & Hlast & _).
    split; [ rewrite Hlast; apply enh_lastPrice_addTrade | ].
    split; [ rewrite Hcount; cbn [length]; lia | ].
    split; [ rewrite Htot; exact Hge | ].
    rewrite Hkept. apply List.Forall_app. split.
    + apply List.Forall_forall. intros tr Hin1.
      apply List.filter_In in Hin1 as [_ Hin1]. apply geb_true in Hin1.
      exact Hin1.
    + constructor; [ | constructor ].
      unfold tradeOf. cbn [Enhanced.SymbolState.timestamp]. nra.
  - exfalso. apply enh_getStats_None in Eg. destruct Eg as [ Eg | Eg ].
    + rewrite Eg in Hin. destruct Hin.
    + assert (0 < ev_p e * ev_q e) by nra. lra.
Qed.

Lemma enhanced_trade_is_visible_witness :
  exists st,
    Enhanced.TradeAggregator.getStats "ADAUSDT"
      (enhancedRun (fallingOps ++ [EAdd (mkEvent "ADAUSDT" 4000 98 1 false)])
         (Enhanced.TradeAggregator.new 180)) = Some st
    /\ Enhanced.SymbolState.stLastPrice st = Some 98.
Proof.
  assert (Hw : 0 <= 180) by (apply Qle_bool_iff; reflexivity).
  destruct (enhanced_trade_is_visible 180 fallingOps
              (mkEvent "ADAUSDT" 4000 98 1 false) Hw eq_refl eq_refl)
    as (st & Hst & Hlast & _).
  exists st. split; assumption.
Defined.

(** X4.  In the enhanced aggregator the instruments do not interfere: a
    trade or a reset of one symbol leaves the snapshot of every other
    symbol as it was, and a reset leaves its own symbol without a
    snapshot. *)
Theorem enhanced_symbols_independent (agg : Enhanced.TradeAggregator.t)
    (e : TradeEvent) (s other : string) :
  (ev_symbol e <> other ->
   Enhanced.TradeAggregator.getStats other
     (Enhanced.TradeAggregator.addTrade (ev_symbol e) (ev_T e) (ev_p e)
        (ev_q e) (ev_m e) agg)
   = Enhanced.TradeAggregator.getStats other agg)
  /\ (s <> other ->
      Enhanced.TradeAggregator.getStats other
        (Enhanced.TradeAggregator.resetSymbol s agg)
      = Enhanced.TradeAggregator.getStats other agg)
  /\ Enhanced.TradeAggregator.getStats s
       (Enhanced.TradeAggregator.resetSymbol s agg) = None.
Proof.
  rewrite !enh_getStats_stateOf. split; [ | split ].
  - intros Hne. rewrite enh_stateOf_addTrade.
    apply String.eqb_neq in Hne. rewrite Hne. reflexivity.
  - intros Hne. rewrite enh_stateOf_resetSymbol.
    apply String.eqb_neq in Hne. rewrite Hne. reflexivity.
  - rewrite enh_stateOf_resetSymbol, String.eqb_refl.
    unfold stateOf.
    destruct (Enhanced.TradeAggregator.states agg !! s); reflexivity.
Qed.

Lemma enhanced_symbols_independent_witness :
  Enhanced.TradeAggregator.getStats "XRPUSDT"
    (Enhanced.TradeAggregator.addTrade "ADAUSDT" 5000 1 1 false
       (Enhanced.TradeAggregator.feed
          [ mkEvent "XRPUSDT" 1000 2 3 false ]
          (Enhanced.TradeAggregator.new 180)))
  = Enhanced.TradeAggregator.getStats "XRPUSDT"
      (Enhanced.TradeAggregator.feed
         [ mkEvent "XRPUSDT" 1000 2 3 false ]
         (Enhanced.TradeAggregator.new 180)).
Proof.
  apply (enhanced_symbols_independent
           (Enhanced.TradeAggregator.feed
              [ mkEvent "XRPUSDT" 1000 2 3 false ]
              (Enhanced.TradeAggregator.new 180))
           (mkEvent "ADAUSDT" 5000 1 1 false) "ADAUSDT" "XRPUSDT").
  intros H. discriminate H.
Defined.

(** * Further properties of the stable window aggregator *)

Lemma stable_getStats_ext (now : Q) (symbol : string)
    (a1 a2 : Stable.TradeAggregator.t) :
  Stable.TradeAggregator.windowSeconds a1
  = Stable.TradeAggregator.windowSeconds a2 ->
  buysOf symbol a1 = buysOf symbol a2 ->
  sellsOf symbol a1 = sellsOf symbol a2 ->
  Stable.TradeAggregator.getStats now symbol a1
  = Stable.TradeAggregator.getStats now symbol a2.
Proof.
  unfold Stable.TradeAggregator.getStats, buysOf, sellsOf. cbv zeta.
  intros ->.
  destruct (Stable.TradeAggregator.trades a1 !! symbol) as [ d1 | ];
    destruct (Stable.TradeAggregator.trades a2 !! symbol) as [ d2 | ];
    intros Hb Hs.
  - rewrite Hb, Hs. reflexivity.
  - rewrite Hb, Hs. reflexivity.
  - rewrite <- Hb, <- Hs. reflexivity.
  - reflexivity.
Qed.

(** X5.  In the stable aggregator the instruments do not interfere
    either: a trade or a reset of one symbol leaves the snapshot of every
    other symbol as it was, and a reset leaves its own symbol without a
    snapshot. *)
Theorem stable_symbols_independent (agg : Stable.TradeAggregator.t)
    (arrival now : Q) (e : TradeEvent) (s other : string) :
  (ev_symbol e <> other ->
   Stable.TradeAggregator.getStats now other
     (Stable.TradeAggregator.addTrade arrival (ev_symbol e) e agg)
   = Stable.TradeAggregator.getStats now other agg)
  /\ (s <> other ->
      Stable.TradeAggregator.getStats now other
        (Stable.TradeAggregator.resetSymbol s agg)
      = Stable.TradeAggregator.getStats now other agg)
  /\ Stable.TradeAggregator.getStats now s
       (Stable.TradeAggregator.resetSymbol s agg) = None.
Proof.
  split; [ | split ].
  - intros Hne. apply String.eqb_neq in Hne.
    apply stable_getStats_ext; [ reflexivity | | ].
    + rewrite stable_buysOf_addTrade, Hne. reflexivity.
    + rewrite stable_sellsOf_addTrade, Hne. reflexivity.
  - intros Hne. apply String.eqb_neq in Hne.
    apply stable_getStats_ext; [ reflexivity | | ].
    + rewrite stable_buysOf_resetSymbol, Hne. reflexivity.
    + rewrite stable_sellsOf_resetSymbol, Hne. reflexivity.
  - unfold Stable.TradeAggregator.getStats, Stable.TradeAggregator.resetSymbol.
    cbn [Stable.TradeAggregator.trades]. rewrite lookup_delete_eq.
    reflexivity.
Qed.

Lemma stable_symbols_independent_witness :
  Stable.TradeAggregator.getStats 6000 "XRPUSDT"
    (Stable.TradeAggregator.addTrade 5000 "ADAUSDT"
       (mkEvent "ADAUSDT" 5000 1 1 false)
       (Stable.TradeAggregator.feed
          [ (1000, mkEvent "XRPUSDT" 1000 2 3 false) ]
          (Stable.TradeAggregator.new 180)))
  = Stable.TradeAggregator.getStats 6000 "XRPUSDT"
      (Stable.TradeAggregator.feed
         [ (1000, mkEvent "XRPUSDT" 1000 2 3 false) ]
         (Stable.TradeAggregator.new 180)).
Proof.
  apply (stable_symbols_independent
           (Stable.TradeAggregator.feed
              [ (1000, mkEvent "XRPUSDT" 1000 2 3 false) ]
              (Stable.TradeAggregator.new 180))
           5000 6000 (mkEvent "ADAUSDT" 5000 1 1 false) "ADAUSDT" "XRPUSDT").
  intros H. discriminate H.
Defined.

(** * Further properties of the cooldown managers *)

Lemma string_length_append (s t : string) :
  String.length (s +:+ t) = (String.length s + String.length t)%nat.
Proof.
  induction s as [ | c s IH ]; simpl; [ reflexivity | ].
  f_equal. exact IH.
Qed.

Lemma append_suffix_inj (s s1 t : string) : s +:+ t = s1 +:+ t -> s = s1.
Proof.
  revert s1. induction s as [ | c s IH ]; intros s1 H.
  - apply (f_equal String.length) in H.
    rewrite !string_length_append in H.
    destruct s1; [ reflexivity | simpl in H; lia ].
  - destruct s1 as [ | c1 s1 ].
    + apply (f_equal String.length) in H.
      rewrite !string_length_append in H. simpl in H. lia.
    + simpl in H. injection H as -> H. f_equal. apply IH. exact H.
Qed.

(** A suffix and one that is one character longer, and that it does not
    end, never end the same string. *)
Lemma append_suffix_differs (s s1 t t1 : string) :
  String.length t1 = S (String.length t) ->
  (forall c, String c t <> t1) ->
  s +:+ t <> s1 +:+ t1.
Proof.
  intros Hlen Hne. revert s1. induction s as [ | c s IH ]; intros s1 H.
  - apply (f_equal String.length) in H.
    rewrite !string_length_append in H. simpl in H. lia.
  - destruct s1 as [ | c1 s1 ].
    + destruct s as [ | c2 s ].
      * simpl in H. exact (Hne c H).
      * apply (f_equal String.length) in H.
        rewrite !string_length_append in H. simpl in H. lia.
    + simpl in H. injection H as _ H. exact (IH s1 H).
Qed.

Lemma enhanced_key_inj (s s1 : string) (d d1 : Side) :
  Enhanced.CooldownManager.key s d = Enhanced.CooldownManager.key s1 d1 ->
  s = s1 /\ d = d1.
Proof.
  unfold Enhanced.CooldownManager.key.
  destruct d, d1; cbn [Enhanced.CooldownManager.sideName]; intros H.
  - split; [ | reflexivity ]. apply (append_suffix_inj _ _ _ H).
  - exfalso. revert H. apply append_suffix_differs; [ reflexivity | ].
    intros c Hc. discriminate Hc.
  - exfalso. symmetry in H. revert H.
    apply append_suffix_differs; [ reflexivity | ].
    intros c Hc. discriminate Hc.
  - split; [ | reflexivity ]. apply (append_suffix_inj _ _ _ H).
Qed.

Lemma stable_key_inj (s s1 : string) (d d1 : Side) :
  Stable.CooldownManager.key s d = Stable.CooldownManager.key s1 d1 ->
  s = s1 /\ d = d1.
Proof.
  unfold Stable.CooldownManager.key.
  destruct d, d1; cbn [Stable.CooldownManager.sideName]; intros H.
  - split; [ | reflexivity ]. apply (append_suffix_inj _ _ _ H).
  - exfalso. revert H. apply append_suffix_differs; [ reflexivity | ].
    intros c Hc. discriminate Hc.
  - exfalso. symmetry in H. revert H.
    apply append_suffix_differs; [ reflexivity | ].
    intros c Hc. discriminate Hc.
  - split; [ | reflexivity ]. apply (append_suffix_inj _ _ _ H).
Qed.

(** ** Seconds left, rounded up *)

Lemma per_thousand (m : Q) : m / 1000 == m * (1 # 1000).
Proof. field. Qed.

Lemma ceil_remaining_zero (x : Q) :
  Qceiling (Qmax 0 x / 1000) = 0%Z <-> x <= 0.
Proof.
  split; intros H.
  - pose proof (Qle_ceiling (Qmax 0 x / 1000)) as Hc. rewrite H in Hc.
    pose proof (Q.le_max_r 0 x) as Hm.
    change (inject_Z 0) with 0 in Hc.
    rewrite per_thousand in Hc. lra.
  - assert (Hm : Qmax 0 x == 0) by (apply Q.max_l; exact H).
    rewrite Hm. reflexivity.
Qed.

Lemma ceil_remaining_covers (x : Q) :
  x <= 1000 * inject_Z (Qceiling (Qmax 0 x / 1000)).
Proof.
  pose proof (Qle_ceiling (Qmax 0 x / 1000)) as Hc.
  pose proof (Q.le_max_r 0 x) as Hm.
  rewrite per_thousand in Hc at 1. lra.
Qed.

Lemma ceil_remaining_mono (x y : Q) :
  x <= y -> (Qceiling (Qmax 0 x / 1000) <= Qceiling (Qmax 0 y / 1000))%Z.
Proof.
  intros H. apply Qceiling_resp_le.
  pose proof (Q.max_le_compat_l x y 0 H) as Hm.
  rewrite !per_thousand. lra.
Qed.

(** X6.  Enhanced variant, [CooldownManager]: for a configured symbol,
    [getRemainingCooldown] reports zero seconds for a side exactly when
    [canAlert] lets a snapshot dominated by that side through. *)
Theorem enhanced_remaining_zero_iff_can_alert (rc : Enhanced.RuntimeConfig.t)
    (now : Q) (symbol : string) (stats : Enhanced.SymbolState.Stats)
    (cm : Enhanced.CooldownManager.t) (config : Cfg.SymbolConfig) :
  Enhanced.RuntimeConfig.get symbol rc = Cfg.Own config ->
  Enhanced.CooldownManager.canAlert rc now symbol stats cm = true
  <-> Enhanced.CooldownManager.getRemainingCooldown rc now symbol
        (Enhanced.SymbolState.dominantSide stats) cm = Some 0%Z.
Proof.
  intros Hcfg.
  unfold Enhanced.CooldownManager.canAlert,
    Enhanced.CooldownManager.getRemainingCooldown.
  rewrite Hcfg.
  destruct (cm !! Enhanced.CooldownManager.key symbol
                    (Enhanced.SymbolState.dominantSide stats))
    as [ lastAlert | ]; [ | tauto ].
  destruct (Js.eqb lastAlert 0); [ tauto | ]. cbv zeta.
  rewrite geb_true.
  split; intros H.
  - f_equal. apply ceil_remaining_zero. lra.
  - injection H as H. apply ceil_remaining_zero in H. lra.
Qed.

Lemma enhanced_remaining_zero_iff_can_alert_witness :
  Enhanced.CooldownManager.canAlert shippedEnhancedConfig (1000 + 300000)
    "ADAUSDT" buyStats
    (Enhanced.CooldownManager.recordAlert 1000 "ADAUSDT" buyStats
       Enhanced.CooldownManager.new) = true
  <-> Enhanced.CooldownManager.getRemainingCooldown shippedEnhancedConfig
        (1000 + 300000) "ADAUSDT" (Enhanced.SymbolState.dominantSide buyStats)
        (Enhanced.CooldownManager.recordAlert 1000 "ADAUSDT" buyStats
           Enhanced.CooldownManager.new) = Some 0%Z.
Proof.
  apply (enhanced_remaining_zero_iff_can_alert shippedEnhancedConfig
           (1000 + 300000) "ADAUSDT" buyStats
           (Enhanced.CooldownManager.recordAlert 1000 "ADAUSDT" buyStats
              Enhanced.CooldownManager.new) adaConfig).
  reflexivity.
Defined.

(** X7.  Stable variant, [CooldownManager]: [getRemainingCooldown] reports
    zero seconds for a symbol and side exactly when [isInCooldown] answers
    false for them. *)
Theorem stable_remaining_zero_iff_not_in_cooldown (now : Q) (symbol : string)
    (side : Side) (cm : Stable.CooldownManager.t) :
  snd (Stable.CooldownManager.isInCooldown now symbol side cm) = false
  <-> Stable.CooldownManager.getRemainingCooldown now symbol side cm = 0%Z.
Proof.
  unfold Stable.CooldownManager.isInCooldown,
    Stable.CooldownManager.getRemainingCooldown.
  destruct (cm !! Stable.CooldownManager.key symbol side)
    as [ cooldownUntil | ]; [ | cbn [snd]; tauto ].
  destruct (Js.eqb cooldownUntil 0); [ cbn [snd]; tauto | ]. cbv zeta.
  rewrite ceil_remaining_zero.
  destruct (Js.ltb now cooldownUntil) eqn:E; cbn [snd].
  - apply ltb_true in E. split; intros H; [ discriminate H | lra ].
  - apply ltb_false in E. split; intros H; [ lra | reflexivity ].
Qed.

(** X8.  Enhanced variant, [CooldownManager]: waiting the number of seconds
    [getRemainingCooldown] reports is enough; at that later time [canAlert]
    lets the symbol and side through. *)
Theorem enhanced_wait_remaining_suffices (rc : Enhanced.RuntimeConfig.t)
    (now : Q) (symbol : string) (stats : Enhanced.SymbolState.Stats)
    (cm : Enhanced.CooldownManager.t) (config : Cfg.SymbolConfig) :
  Enhanced.RuntimeConfig.get symbol rc = Cfg.Own config ->
  exists seconds,
    Enhanced.CooldownManager.getRemainingCooldown rc now symbol
      (Enhanced.SymbolState.dominantSide stats) cm = Some seconds
    /\ Enhanced.CooldownManager.canAlert rc (now + 1000 * inject_Z seconds)
         symbol stats cm = true.
Proof.
  intros Hcfg.
  unfold Enhanced.CooldownManager.canAlert,
    Enhanced.CooldownManager.getRemainingCooldown.
  rewrite Hcfg.
  destruct (cm !! Enhanced.CooldownManager.key symbol
                    (Enhanced.SymbolState.dominantSide stats))
    as [ lastAlert | ]; [ | eexists; split; reflexivity ].
  destruct (Js.eqb lastAlert 0); [ eexists; split; reflexivity | ]. cbv zeta.
  eexists. split; [ reflexivity | ].
  apply geb_true.
  pose proof (ceil_remaining_covers
                (Cfg.cooldownMinutes config * 60 * 1000 - (now - lastAlert)))
    as Hc.
  lra.
Qed.

Lemma enhanced_wait_remaining_suffices_witness :
  exists seconds,
    Enhanced.CooldownManager.getRemainingCooldown shippedEnhancedConfig
      1500 "ADAUSDT" (Enhanced.SymbolState.dominantSide buyStats)
      (Enhanced.CooldownManager.recordAlert 1000 "ADAUSDT" buyStats
         Enhanced.CooldownManager.new) = Some seconds
    /\ Enhanced.CooldownManager.canAlert shippedEnhancedConfig
         (1500 + 1000 * inject_Z seconds) "ADAUSDT" buyStats
         (Enhanced.CooldownManager.recordAlert 1000 "ADAUSDT" buyStats
            Enhanced.CooldownManager.new) = true.
Proof.
  apply (enhanced_wait_remaining_suffices shippedEnhancedConfig 1500 "ADAUSDT"
           buyStats
           (Enhanced.CooldownManager.recordAlert 1000 "ADAUSDT" buyStats
              Enhanced.CooldownManager.new) adaConfig).
  reflexivity.
Defined.

(** X9.  Stable variant, [CooldownManager]: waiting the number of seconds
    [getRemainingCooldown] reports is enough; at that later time
    [isInCooldown] answers false for the symbol and side. *)
Theorem stable_wait_remaining_suffices (now : Q) (symbol : string)
    (side : Side) (cm : Stable.CooldownManager.t) :
  snd (Stable.CooldownManager.isInCooldown
         (now + 1000 * inject_Z
            (Stable.CooldownManager.getRemainingCooldown now symbol side cm))
         symbol side cm) = false.
Proof.
  unfold Stable.CooldownManager.isInCooldown,
    Stable.CooldownManager.getRemainingCooldown.
  destruct (cm !! Stable.CooldownManager.key symbol side)
    as [ cooldownUntil | ]; [ | reflexivity ].
  destruct (Js.eqb cooldownUntil 0); [ reflexivity | ]. cbv zeta.
  pose proof (ceil_remaining_covers (cooldownUntil - now)) as Hc.
  match goal with
  | |- context [ Js.ltb ?a ?b ] =>
      assert (E : Js.ltb a b = false) by (apply ltb_false; lra);
      rewrite E
  end.
  reflexivity.
Qed.

(** ** One entry per symbol and side *)

Lemma enhanced_key_ne (s s1 : string) (d d1 : Side) :
  s <> s1 \/ d <> d1 ->
  Enhanced.CooldownManager.key s d <> Enhanced.CooldownManager.key s1 d1.
Proof.
  intros Hne H. apply enhanced_key_inj in H. destruct H as [Hs Hd].
  destruct Hne as [Hne | Hne]; contradiction.
Qed.

Lemma stable_key_ne (s s1 : string) (d d1 : Side) :
  s <> s1 \/ d <> d1 ->
  Stable.CooldownManager.key s d <> Stable.CooldownManager.key s1 d1.
Proof.
  intros Hne H. apply stable_key_inj in H. destruct H as [Hs Hd].
  destruct Hne as [Hne | Hne]; contradiction.
Qed.

(** X10.  Enhanced variant, [CooldownManager]: an alert recorded for one
    symbol and side leaves the cooldown of every other symbol or side as it
    was, both in [canAlert] and in [getRemainingCooldown]. *)
Theorem enhanced_cooldown_keys_independent (rc : Enhanced.RuntimeConfig.t)
    (T t : Q) (symbol symbol1 : string)
    (stats stats1 : Enhanced.SymbolState.Stats)
    (cm : Enhanced.CooldownManager.t) :
  symbol <> symbol1
  \/ Enhanced.SymbolState.dominantSide stats
     <> Enhanced.SymbolState.dominantSide stats1 ->
  let cm1 := Enhanced.CooldownManager.recordAlert T symbol stats cm in
  Enhanced.CooldownManager.canAlert rc t symbol1 stats1 cm1
  = Enhanced.CooldownManager.canAlert rc t symbol1 stats1 cm
  /\ Enhanced.CooldownManager.getRemainingCooldown rc t symbol1
       (Enhanced.SymbolState.dominantSide stats1) cm1
     = Enhanced.CooldownManager.getRemainingCooldown rc t symbol1
         (Enhanced.SymbolState.dominantSide stats1) cm.
Proof.
  intros Hne. cbv zeta. apply enhanced_key_ne in Hne.
  unfold Enhanced.CooldownManager.canAlert,
    Enhanced.CooldownManager.getRemainingCooldown,
    Enhanced.CooldownManager.recordAlert, Enhanced.CooldownManager.t in *.
  rewrite (lookup_insert_ne _ _ _ _ Hne). split; reflexivity.
Qed.

Lemma enhanced_cooldown_keys_independent_witness :
  Enhanced.RuntimeConfig.get "ADAUSDT" shippedEnhancedConfig = Cfg.Own adaConfig
  /\ Enhanced.CooldownManager.canAlert shippedEnhancedConfig 3000 "ADAUSDT"
       sellStats
       (Enhanced.CooldownManager.recordAlert 1000 "ADAUSDT" sellStats
          Enhanced.CooldownManager.new) = false
  /\ Enhanced.CooldownManager.getRemainingCooldown shippedEnhancedConfig 3000
       "ADAUSDT" sell
       (Enhanced.CooldownManager.recordAlert 1000 "ADAUSDT" sellStats
          Enhanced.CooldownManager.new) = Some 298%Z
  /\ Enhanced.CooldownManager.canAlert shippedEnhancedConfig 3000 "ADAUSDT"
       sellStats
       (Enhanced.CooldownManager.recordAlert 2000 "ADAUSDT" buyStats
          (Enhanced.CooldownManager.recordAlert 1000 "ADAUSDT" sellStats
             Enhanced.CooldownManager.new))
     = Enhanced.CooldownManager.canAlert shippedEnhancedConfig 3000 "ADAUSDT"
         sellStats
         (Enhanced.CooldownManager.recordAlert 1000 "ADAUSDT" sellStats
            Enhanced.CooldownManager.new)
  /\ Enhanced.CooldownManager.getRemainingCooldown shippedEnhancedConfig 3000
       "ADAUSDT" (Enhanced.SymbolState.dominantSide sellStats)
       (Enhanced.CooldownManager.recordAlert 2000 "ADAUSDT" buyStats
          (Enhanced.CooldownManager.recordAlert 1000 "ADAUSDT" sellStats
             Enhanced.CooldownManager.new))
     = Enhanced.CooldownManager.getRemainingCooldown shippedEnhancedConfig
         3000 "ADAUSDT" (Enhanced.SymbolState.dominantSide sellStats)
         (Enhanced.CooldownManager.recordAlert 1000 "ADAUSDT" sellStats
            Enhanced.CooldownManager.new).
Proof.
  split; [ reflexivity | ].
  split; [ vm_compute; reflexivity | ].
  split; [ vm_compute; reflexivity | ].
  apply (enhanced_cooldown_keys_independent shippedEnhancedConfig 2000 3000
           "ADAUSDT" "ADAUSDT" buyStats sellStats
           (Enhanced.CooldownManager.recordAlert 1000 "ADAUSDT" sellStats
              Enhanced.CooldownManager.new)).
  right. intros H. discriminate H.
Defined.

(** X11.  Stable variant, [CooldownManager]: an alert recorded for one
    symbol and side leaves the cooldown of every other symbol or side as it
    was, both in [isInCooldown] and in [getRemainingCooldown]. *)
Theorem stable_cooldown_keys_independent (rs : Stable.RuntimeState.t)
    (T t : Q) (symbol symbol1 : string)
    (stats : Stable.TradeAggregator.Stats) (side1 : Side)
    (cm : Stable.CooldownManager.t) :
  symbol <> symbol1 \/ Stable.TradeAggregator.dominantSide stats <> side1 ->
  let cm1 := Stable.CooldownManager.recordAlert rs T symbol stats cm in
  snd (Stable.CooldownManager.isInCooldown t symbol1 side1 cm1)
  = snd (Stable.CooldownManager.isInCooldown t symbol1 side1 cm)
  /\ Stable.CooldownManager.getRemainingCooldown t symbol1 side1 cm1
     = Stable.CooldownManager.getRemainingCooldown t symbol1 side1 cm.
Proof.
  intros Hne. cbv zeta. apply stable_key_ne in Hne.
  unfold Stable.CooldownManager.isInCooldown,
    Stable.CooldownManager.getRemainingCooldown,
    Stable.CooldownManager.recordAlert, Stable.CooldownManager.t in *.
  destruct (Stable.RuntimeState.getSymbolConfig symbol rs) as [ config | | ];
    [ | | split; reflexivity ];
    (cbv zeta; rewrite (lookup_insert_ne _ _ _ _ Hne);
     split; [ | reflexivity ];
     destruct (cm !! Stable.CooldownManager.key symbol1 side1) as [ u | ];
     [ | reflexivity ];
     destruct (Js.eqb u 0); [ reflexivity | ];
     destruct (Js.ltb t u); reflexivity).
Qed.

Lemma stable_cooldown_keys_independent_witness :
  snd (Stable.CooldownManager.isInCooldown 2000 "ADAUSDT" sell
         (Stable.CooldownManager.recordAlert shippedStableState 1000 "ADAUSDT"
            stableBuyStats Stable.CooldownManager.new))
  = snd (Stable.CooldownManager.isInCooldown 2000 "ADAUSDT" sell
           Stable.CooldownManager.new)
  /\ Stable.CooldownManager.getRemainingCooldown 2000 "ADAUSDT" sell
       (Stable.CooldownManager.recordAlert shippedStableState 1000 "ADAUSDT"
          stableBuyStats Stable.CooldownManager.new)
     = Stable.CooldownManager.getRemainingCooldown 2000 "ADAUSDT" sell
         Stable.CooldownManager.new.
Proof.
  apply (stable_cooldown_keys_independent shippedStableState 1000 2000
           "ADAUSDT" "ADAUSDT" stableBuyStats sell
           Stable.CooldownManager.new).
  right. intros H. discriminate H.
Defined.

(** X12.  Stable variant, [CooldownManager.isInCooldown]: the entry a query
    deletes is one that has expired, so as long as the clock does not go
    back the deletion is never seen; every later query and every later
    [getRemainingCooldown], for any symbol and side, answers as it would
    have without the earlier query. *)
Theorem stable_cooldown_query_transparent (now now1 : Q)
    (symbol symbol1 : string) (side side1 : Side)
    (cm : Stable.CooldownManager.t) :
  now <= now1 ->
  let cm1 := fst (Stable.CooldownManager.isInCooldown now symbol side cm) in
  snd (Stable.CooldownManager.isInCooldown now1 symbol1 side1 cm1)
  = snd (Stable.CooldownManager.isInCooldown now1 symbol1 side1 cm)
  /\ Stable.CooldownManager.getRemainingCooldown now1 symbol1 side1 cm1
     = Stable.CooldownManager.getRemainingCooldown now1 symbol1 side1 cm.
Proof.
  intros Hle. cbv zeta.
  unfold Stable.CooldownManager.isInCooldown at 2 4.
  destruct (cm !! Stable.CooldownManager.key symbol side)
    as [ cooldownUntil | ] eqn:Hk; [ | split; reflexivity ].
  destruct (Js.eqb cooldownUntil 0) eqn:Hz; [ split; reflexivity | ].
  destruct (Js.ltb now cooldownUntil) eqn:Hlt; [ split; reflexivity | ].
  cbn [fst]. apply ltb_false in Hlt.
  unfold Stable.CooldownManager.isInCooldown,
    Stable.CooldownManager.getRemainingCooldown,
    Stable.CooldownManager.t in *.
  destruct (decide (Stable.CooldownManager.key symbol side
                    = Stable.CooldownManager.key symbol1 side1)) as [E | E].
  - rewrite <- E, lookup_delete_eq, Hk, Hz.
    assert (Hlt1 : Js.ltb now1 cooldownUntil = false)
      by (apply ltb_false; lra).
    rewrite Hlt1. cbv zeta. split; [ reflexivity | ].
    symmetry. apply ceil_remaining_zero. lra.
  - rewrite (lookup_delete_ne _ _ _ E). split; [ | reflexivity ].
    destruct (cm !! Stable.CooldownManager.key symbol1 side1)
      as [ u | ]; [ | reflexivity ].
    destruct (Js.eqb u 0); [ reflexivity | ].
    destruct (Js.ltb now1 u); reflexivity.
Qed.

Lemma stable_cooldown_query_transparent_witness :
  snd (Stable.CooldownManager.isInCooldown 400000 "ADAUSDT" buy
         (fst (Stable.CooldownManager.isInCooldown 350000 "ADAUSDT" buy
                 (Stable.CooldownManager.recordAlert shippedStableState 1000
                    "ADAUSDT" stableBuyStats Stable.CooldownManager.new))))
  = snd (Stable.CooldownManager.isInCooldown 400000 "ADAUSDT" buy
           (Stable.CooldownManager.recordAlert shippedStableState 1000
              "ADAUSDT" stableBuyStats Stable.CooldownManager.new))
  /\ Stable.CooldownManager.getRemainingCooldown 400000 "ADAUSDT" buy
       (fst (Stable.CooldownManager.isInCooldown 350000 "ADAUSDT" buy
               (Stable.CooldownManager.recordAlert shippedStableState 1000
                  "ADAUSDT" stableBuyStats Stable.CooldownManager.new)))
     = Stable.CooldownManager.getRemainingCooldown 400000 "ADAUSDT" buy
         (Stable.CooldownManager.recordAlert shippedStableState 1000
            "ADAUSDT" stableBuyStats Stable.CooldownManager.new).
Proof.
  apply (stable_cooldown_query_transparent 350000 400000 "ADAUSDT" "ADAUSDT"
           buy buy
           (Stable.CooldownManager.recordAlert shippedStableState 1000
              "ADAUSDT" stableBuyStats Stable.CooldownManager.new)).
  apply Qle_bool_iff. reflexivity.
Defined.

(** * Further properties of the pauses *)

Lemma per_minute (m : Q) : m / 60000 == m * (1 # 60000).
Proof. field. Qed.

Lemma ceil_minutes (x : Q) :
  0 < x ->
  (1 <= Qceiling (x / 60000))%Z
  /\ x <= 60000 * inject_Z (Qceiling (x / 60000))
  /\ 60000 * inject_Z (Qceiling (x / 60000) - 1) < x.
Proof.
  intros Hx.
  pose proof (Qle_ceiling (x / 60000)) as Hup.
  pose proof (Qceiling_lt (x / 60000)) as Hlo.
  rewrite per_minute in Hup at 1. rewrite per_minute in Hlo at 2.
  split; [ | split; lra ].
  destruct (Z_lt_le_dec (Qceiling (x / 60000)) 1) as [Hlt | Hge];
    [ | exact Hge ].
  exfalso.
  assert (Hz : (Qceiling (x / 60000) <= 0)%Z) by lia.
  rewrite Zle_Qle in Hz. change (inject_Z 0) with 0 in Hz. lra.
Qed.

(** X13.  Enhanced variant, [StopClusterProtection.isTradingAllowed]: a
    denial always names a pause with at least one remaining minute; the
    minutes it names are the time to the end of the pause rounded up, and
    once they have passed the protection allows trading again. *)
Theorem enhanced_stop_pause_report
    (config : Enhanced.StopClusterProtection.Config) (now : Q)
    (s : Enhanced.StopClusterProtection.t) :
  Enhanced.StopClusterProtection.allowed
    (Enhanced.StopClusterProtection.isTradingAllowed config now s) = false ->
  exists m : Z,
    Enhanced.StopClusterProtection.reason
      (Enhanced.StopClusterProtection.isTradingAllowed config now s)
    = Enhanced.StopClusterProtection.PauseActive m
    /\ (1 <= m)%Z
    /\ now + 60000 * inject_Z (m - 1)
       < Enhanced.StopClusterProtection.pausedUntil s
    /\ Enhanced.StopClusterProtection.pausedUntil s
       <= now + 60000 * inject_Z m
    /\ Enhanced.StopClusterProtection.allowed
         (Enhanced.StopClusterProtection.isTradingAllowed config
            (now + 60000 * inject_Z m) s) = true.
Proof.
  unfold Enhanced.StopClusterProtection.isTradingAllowed.
  destruct (negb (Enhanced.StopClusterProtection.enabled config));
    [ discriminate | ].
  destruct (Js.ltb now (Enhanced.StopClusterProtection.pausedUntil s)) eqn:E;
    [ | discriminate ].
  intros _. apply ltb_true in E.
  cbn [Enhanced.StopClusterProtection.reason
       Enhanced.StopClusterProtection.allowed].
  destruct (ceil_minutes (Enhanced.StopClusterProtection.pausedUntil s - now))
    as [H1 [Hup Hlo]]; [ lra | ].
  eexists. split; [ reflexivity | ].
  split; [ exact H1 | ]. split; [ lra | ]. split; [ lra | ].
  match goal with
  | |- context [ Js.ltb ?a ?b ] =>
      assert (E1 : Js.ltb a b = false) by (apply ltb_false; lra);
      rewrite E1
  end.
  reflexivity.
Qed.

(** X14.  Enhanced variant, [BTCVolatilityFilter.isTradingAllowed]: a
    denial always names a pause with at least one remaining minute; the
    minutes it names are the time to the end of the pause rounded up, and
    once they have passed the filter allows trading again. *)
Theorem enhanced_btc_pause_report
    (config : Enhanced.BTCVolatilityFilter.Config) (now : Q)
    (s : Enhanced.BTCVolatilityFilter.t) :
  Enhanced.BTCVolatilityFilter.allowed
    (Enhanced.BTCVolatilityFilter.isTradingAllowed config now s) = false ->
  exists m : Z,
    Enhanced.BTCVolatilityFilter.reason
      (Enhanced.BTCVolatilityFilter.isTradingAllowed config now s)
    = Enhanced.BTCVolatilityFilter.VolatilityPause m
    /\ (1 <= m)%Z
    /\ now + 60000 * inject_Z (m - 1)
       < Enhanced.BTCVolatilityFilter.pausedUntil s
    /\ Enhanced.BTCVolatilityFilter.pausedUntil s
       <= now + 60000 * inject_Z m
    /\ Enhanced.BTCVolatilityFilter.allowed
         (Enhanced.BTCVolatilityFilter.isTradingAllowed config
            (now + 60000 * inject_Z m) s) = true.
Proof.
  unfold Enhanced.BTCVolatilityFilter.isTradingAllowed.
  destruct (negb (Enhanced.BTCVolatilityFilter.enabled config));
    [ discriminate | ].
  destruct (Js.ltb now (Enhanced.BTCVolatilityFilter.pausedUntil s)) eqn:E;
    [ | discriminate ].
  intros _. apply ltb_true in E.
  cbn [Enhanced.BTCVolatilityFilter.reason
       Enhanced.BTCVolatilityFilter.allowed].
  destruct (ceil_minutes (Enhanced.BTCVolatilityFilter.pausedUntil s - now))
    as [H1 [Hup Hlo]]; [ lra | ].
  eexists. split; [ reflexivity | ].
  split; [ exact H1 | ]. split; [ lra | ]. split; [ lra | ].
  match goal with
  | |- context [ Js.ltb ?a ?b ] =>
      assert (E1 : Js.ltb a b = false) by (apply ltb_false; lra);
      rewrite E1
  end.
  reflexivity.
Qed.

Lemma enhanced_stop_pause_report_witness :
  exists m : Z,
    Enhanced.StopClusterProtection.reason
      (Enhanced.StopClusterProtection.isTradingAllowed stopConfig3 200000
         (recordStops stopConfig3 threeStops Enhanced.StopClusterProtection.new))
    = Enhanced.StopClusterProtection.PauseActive m
    /\ (1 <= m)%Z
    /\ 200000 + 60000 * inject_Z (m - 1)
       < Enhanced.StopClusterProtection.pausedUntil
           (recordStops stopConfig3 threeStops
              Enhanced.StopClusterProtection.new)
    /\ Enhanced.StopClusterProtection.pausedUntil
         (recordStops stopConfig3 threeStops Enhanced.StopClusterProtection.new)
       <= 200000 + 60000 * inject_Z m
    /\ Enhanced.StopClusterProtection.allowed
         (Enhanced.StopClusterProtection.isTradingAllowed stopConfig3
            (200000 + 60000 * inject_Z m)
            (recordStops stopConfig3 threeStops
               Enhanced.StopClusterProtection.new)) = true.
Proof.
  apply (enhanced_stop_pause_report stopConfig3 200000
           (recordStops stopConfig3 threeStops
              Enhanced.StopClusterProtection.new)).
  vm_compute. reflexivity.
Defined.

Lemma enhanced_btc_pause_report_witness :
  exists m : Z,
    Enhanced.BTCVolatilityFilter.reason
      (Enhanced.BTCVolatilityFilter.isTradingAllowed btcConfig 240000
         (fst (Enhanced.BTCVolatilityFilter.run btcConfig referencePolls
                 Enhanced.BTCVolatilityFilter.new)))
    = Enhanced.BTCVolatilityFilter.VolatilityPause m
    /\ (1 <= m)%Z
    /\ 240000 + 60000 * inject_Z (m - 1)
       < Enhanced.BTCVolatilityFilter.pausedUntil
           (fst (Enhanced.BTCVolatilityFilter.run btcConfig referencePolls
                   Enhanced.BTCVolatilityFilter.new))
    /\ Enhanced.BTCVolatilityFilter.pausedUntil
         (fst (Enhanced.BTCVolatilityFilter.run btcConfig referencePolls
                 Enhanced.BTCVolatilityFilter.new))
       <= 240000 + 60000 * inject_Z m
    /\ Enhanced.BTCVolatilityFilter.allowed
         (Enhanced.BTCVolatilityFilter.isTradingAllowed btcConfig
            (240000 + 60000 * inject_Z m)
            (fst (Enhanced.BTCVolatilityFilter.run btcConfig referencePolls
                    Enhanced.BTCVolatilityFilter.new))) = true.
Proof.
  apply (enhanced_btc_pause_report btcConfig 240000
           (fst (Enhanced.BTCVolatilityFilter.run btcConfig referencePolls
                   Enhanced.BTCVolatilityFilter.new))).
  vm_compute. reflexivity.
Defined.

(** * Further properties of the stop-cluster protections *)

Lemma filter_all_true {A : Type} (f : A -> bool) (xs : list A) :
  List.Forall (fun x => f x = true) xs -> List.filter f xs = xs.
Proof.
  induction 1 as [ | x xs Hx _ IH ]; [ reflexivity | ].
  cbn [List.filter]. rewrite Hx, IH. reflexivity.
Qed.

Lemma len_app_ge {A : Type} (xs ys : list A) : Js.len ys <= Js.len (xs ++ ys).
Proof.
  unfold Js.len. rewrite <- Zle_Qle. rewrite length_app. lia.
Qed.

Lemma enh_recordStopLoss_events
    (config : Enhanced.StopClusterProtection.Config) (now : Q) (sym : string)
    (s : Enhanced.StopClusterProtection.t) :
  Enhanced.StopClusterProtection.enabled config = true ->
  Enhanced.StopClusterProtection.stopLossEvents
    (Enhanced.StopClusterProtection.recordStopLoss config now sym s)
  = List.filter
      (fun e =>
         Js.geb (Enhanced.StopClusterProtection.timestamp e)
           (now - Enhanced.StopClusterProtection.timeWindowMinutes config
                  * 60 * 1000))
      (Enhanced.StopClusterProtection.stopLossEvents s
       ++ [Enhanced.StopClusterProtection.mkStopEvent now sym]).
Proof.
  intros Hen. unfold Enhanced.StopClusterProtection.recordStopLoss.
  rewrite Hen. cbn [negb]. cbv zeta.
  destruct (Js.geb (Js.len _) _); reflexivity.
Qed.

(** Stops that all lie in the window ending at [L] survive every eviction
    made by a report at or before [L]. *)
Lemma enh_recordStops_keeps (config : Enhanced.StopClusterProtection.Config)
    (L : Q) (stops : list (Q * string)) :
  Enhanced.StopClusterProtection.enabled config = true ->
  List.Forall
    (fun e =>
       L - Enhanced.StopClusterProtection.timeWindowMinutes config * 60 * 1000
       <= fst e /\ fst e <= L) stops ->
  forall (s : Enhanced.StopClusterProtection.t)
         (old recent : list Enhanced.StopClusterProtection.StopEvent),
    Enhanced.StopClusterProtection.stopLossEvents s = old ++ recent ->
    List.Forall
      (fun e =>
         L - Enhanced.StopClusterProtection.timeWindowMinutes config * 60 * 1000
         <= Enhanced.StopClusterProtection.timestamp e) recent ->
    exists old1,
      Enhanced.StopClusterProtection.stopLossEvents (recordStops config stops s)
      = old1 ++ recent
        ++ map (fun e =>
                  Enhanced.StopClusterProtection.mkStopEvent (fst e) (snd e))
             stops.
Proof.
  intros Hen Hin. induction Hin as [ | [t sym] stops [Hlo Hhi] _ IH ];
    intros s old recent Hs Hrec.
  - exists old. cbn [recordStops fold_left map]. rewrite app_nil_r. exact Hs.
  - cbn [fst snd] in Hlo, Hhi.
    change (recordStops config ((t, sym) :: stops) s)
      with (recordStops config stops
              (Enhanced.StopClusterProtection.recordStopLoss config t sym s)).
    destruct (IH (Enhanced.StopClusterProtection.recordStopLoss config t sym s)
                (List.filter
                   (fun e =>
                      Js.geb (Enhanced.StopClusterProtection.timestamp e)
                        (t - Enhanced.StopClusterProtection.timeWindowMinutes
                               config * 60 * 1000)) old)
                (recent ++ [Enhanced.StopClusterProtection.mkStopEvent t sym]))
      as [old1 Hold1].
    + rewrite enh_recordStopLoss_events by exact Hen.
      rewrite Hs, <- app_assoc, List.filter_app. f_equal.
      apply filter_all_true. apply List.Forall_app. split.
      * revert Hrec. apply List.Forall_impl. intros e He.
        apply geb_true. lra.
      * constructor; [ | constructor ].
        cbn [Enhanced.StopClusterProtection.timestamp]. apply geb_true. lra.
    + apply List.Forall_app. split; [ exact Hrec | ].
      constructor; [ | constructor ].
      cbn [Enhanced.StopClusterProtection.timestamp]. exact Hlo.
    + exists old1. rewrite Hold1, <- app_assoc. reflexivity.
Qed.

(** X15.  Enhanced variant, [StopClusterProtection]: when the protection is
    enabled and at least [maxStops] stop-losses are reported within one
    time window, the last of them at [L], the pause runs to
    [L + pauseMinutes] whatever the protection held before, and trading is
    denied at every time before that. *)
Theorem enhanced_stop_cluster_pauses
    (config : Enhanced.StopClusterProtection.Config)
    (earlier : list (Q * string)) (L : Q) (sym : string)
    (s : Enhanced.StopClusterProtection.t) (t : Q) :
  Enhanced.StopClusterProtection.enabled config = true ->
  List.Forall
    (fun e =>
       L - Enhanced.StopClusterProtection.timeWindowMinutes config * 60 * 1000
       <= fst e /\ fst e <= L) (earlier ++ [(L, sym)]) ->
  Enhanced.StopClusterProtection.maxStops config
  <= Js.len (earlier ++ [(L, sym)]) ->
  let s1 := recordStops config (earlier ++ [(L, sym)]) s in
  Enhanced.StopClusterProtection.pausedUntil s1
  = L + Enhanced.StopClusterProtection.pauseMinutes config * 60 * 1000
  /\ (t < L + Enhanced.StopClusterProtection.pauseMinutes config * 60 * 1000 ->
      Enhanced.StopClusterProtection.allowed
        (Enhanced.StopClusterProtection.isTradingAllowed config t s1) = false).
Proof.
  intros Hen Hin Hmax. cbv zeta.
  assert (Hp : Enhanced.StopClusterProtection.pausedUntil
                 (recordStops config (earlier ++ [(L, sym)]) s)
               = L + Enhanced.StopClusterProtection.pauseMinutes config
                     * 60 * 1000).
  { destruct (enh_recordStops_keeps config L (earlier ++ [(L, sym)]) Hen Hin s
                (Enhanced.StopClusterProtection.stopLossEvents s) []
                (eq_sym (app_nil_r _)) (List.Forall_nil _)) as [old1 Hev].
    cbn [app] in Hev.
    unfold recordStops in Hev |- *. rewrite fold_left_app in Hev |- *.
    cbn [fold_left fst snd] in Hev |- *.
    fold (recordStops config earlier s) in Hev |- *.
    unfold Enhanced.StopClusterProtection.recordStopLoss in Hev |- *.
    rewrite Hen in Hev |- *. cbn [negb] in Hev |- *. cbv zeta in Hev |- *.
    match goal with
    | |- context [ Js.geb (Js.len ?k) ?m ] =>
        assert (Hk : Js.geb (Js.len k) m = true)
    end.
    { match type of Hev with
      | context [ Js.geb (Js.len ?k) ?m ] =>
          destruct (Js.geb (Js.len k) m) eqn:Eg
      end; [ reflexivity | ].
      cbn [Enhanced.StopClusterProtection.stopLossEvents] in Hev.
      apply geb_false in Eg. rewrite Hev in Eg.
      pose proof (len_app_ge old1
                    (map (fun e =>
                            Enhanced.StopClusterProtection.mkStopEvent
                              (fst e) (snd e)) (earlier ++ [(L, sym)])))
        as Hlen.
      unfold Js.len in Hlen at 1. rewrite length_map in Hlen.
      fold (Js.len (earlier ++ [(L, sym)])) in Hlen. lra. }
    rewrite Hk. reflexivity. }
  split; [ exact Hp | ].
  intros Ht. unfold Enhanced.StopClusterProtection.isTradingAllowed.
  rewrite Hen, Hp. cbn [negb].
  apply ltb_true in Ht. rewrite Ht. reflexivity.
Qed.

Lemma enhanced_stop_cluster_pauses_witness :
  Enhanced.StopClusterProtection.pausedUntil
    (recordStops stopConfig3 threeStops Enhanced.StopClusterProtection.new)
  = 121000 + Enhanced.StopClusterProtection.pauseMinutes stopConfig3 * 60 * 1000
  /\ (200000
      < 121000
        + Enhanced.StopClusterProtection.pauseMinutes stopConfig3 * 60 * 1000 ->
      Enhanced.StopClusterProtection.allowed
        (Enhanced.StopClusterProtection.isTradingAllowed stopConfig3 200000
           (recordStops stopConfig3 threeStops
              Enhanced.StopClusterProtection.new)) = false).
Proof.
  apply (enhanced_stop_cluster_pauses stopConfig3
           [(1000, "ADAUSDT"); (61000, "XRPUSDT")] 121000 "ADAUSDT"
           Enhanced.StopClusterProtection.new 200000).
  - reflexivity.
  - repeat constructor; cbn [fst]; apply Qle_bool_iff; reflexivity.
  - apply Qle_bool_iff. reflexivity.
Defined.

Lemma stable_recordStop_events
    (config : Stable.StopClusterProtection.Config) (now : Q) (sym : string)
    (s : Stable.StopClusterProtection.t) :
  Stable.StopClusterProtection.enabled config = true ->
  Stable.StopClusterProtection.stopEvents
    (Stable.StopClusterProtection.recordStop config now sym s)
  = List.filter
      (fun e =>
         Js.ltb (now - Stable.StopClusterProtection.timestamp e)
           (Stable.StopClusterProtection.timeWindowMinutes config * 60 * 1000))
      (Stable.StopClusterProtection.stopEvents s
       ++ [Stable.StopClusterProtection.mkStopEvent sym now]).
Proof.
  intros Hen. unfold Stable.StopClusterProtection.recordStop.
  rewrite Hen. cbn [negb]. cbv zeta.
  destruct (Js.geb (Js.len _) _); reflexivity.
Qed.

Lemma stable_recordStops_keeps (config : Stable.StopClusterProtection.Config)
    (L : Q) (stops : list (Q * string)) :
  Stable.StopClusterProtection.enabled config = true ->
  List.Forall
    (fun e =>
       L - Stable.StopClusterProtection.timeWindowMinutes config * 60 * 1000
       < fst e /\ fst e <= L) stops ->
  forall (s : Stable.StopClusterProtection.t)
         (old recent : list Stable.StopClusterProtection.StopEvent),
    Stable.StopClusterProtection.stopEvents s = old ++ recent ->
    List.Forall
      (fun e =>
         L - Stable.StopClusterProtection.timeWindowMinutes config * 60 * 1000
         < Stable.StopClusterProtection.timestamp e) recent ->
    exists old1,
      Stable.StopClusterProtection.stopEvents
        (stableRecordStops config stops s)
      = old1 ++ recent
        ++ map (fun e =>
                  Stable.StopClusterProtection.mkStopEvent (snd e) (fst e))
             stops.
Proof.
  intros Hen Hin. induction Hin as [ | [t sym] stops [Hlo Hhi] _ IH ];
    intros s old recent Hs Hrec.
  - exists old. cbn [stableRecordStops fold_left map]. rewrite app_nil_r.
    exact Hs.
  - cbn [fst snd] in Hlo, Hhi.
    change (stableRecordStops config ((t, sym) :: stops) s)
      with (stableRecordStops config stops
              (Stable.StopClusterProtection.recordStop config t sym s)).
    destruct (IH (Stable.StopClusterProtection.recordStop config t sym s)
                (List.filter
                   (fun e =>
                      Js.ltb (t - Stable.StopClusterProtection.timestamp e)
                        (Stable.StopClusterProtection.timeWindowMinutes config
                         * 60 * 1000)) old)
                (recent ++ [Stable.StopClusterProtection.mkStopEvent sym t]))
      as [old1 Hold1].
    + rewrite stable_recordStop_events by exact Hen.
      rewrite Hs, <- app_assoc, List.filter_app. f_equal.
      apply filter_all_true. apply List.Forall_app. split.
      * revert Hrec. apply List.Forall_impl. intros e He.
        apply ltb_true. lra.
      * constructor; [ | constructor ].
        cbn [Stable.StopClusterProtection.timestamp]. apply ltb_true. lra.
    + apply List.Forall_app. split; [ exact Hrec | ].
      constructor; [ | constructor ].
      cbn [Stable.StopClusterProtection.timestamp]. exact Hlo.
    + exists old1. rewrite Hold1, <- app_assoc. reflexivity.
Qed.

(** X16.  Stable variant, [StopClusterProtection]: when the protection is
    enabled and at least [maxStops] stops are recorded strictly within one
    time window, the last of them at [L], the protection is paused until
    [L + pauseMinutes] whatever it held before, and [isPaused] answers true
    at every time before that. *)
Theorem stable_stop_cluster_pauses
    (config : Stable.StopClusterProtection.Config)
    (earlier : list (Q * string)) (L : Q) (sym : string)
    (s : Stable.StopClusterProtection.t) (t : Q) :
  Stable.StopClusterProtection.enabled config = true ->
  List.Forall
    (fun e =>
       L - Stable.StopClusterProtection.timeWindowMinutes config * 60 * 1000
       < fst e /\ fst e <= L) (earlier ++ [(L, sym)]) ->
  Stable.StopClusterProtection.maxStops config
  <= Js.len (earlier ++ [(L, sym)]) ->
  let s1 := stableRecordStops config (earlier ++ [(L, sym)]) s in
  Stable.StopClusterProtection.paused s1 = true
  /\ Stable.StopClusterProtection.pauseUntil s1
     = L + Stable.StopClusterProtection.pauseMinutes config * 60 * 1000
  /\ (t < L + Stable.StopClusterProtection.pauseMinutes config * 60 * 1000 ->
      snd (Stable.StopClusterProtection.isPaused config t s1) = true).
Proof.
  intros Hen Hin Hmax. cbv zeta.
  assert (Hp : Stable.StopClusterProtection.paused
                 (stableRecordStops config (earlier ++ [(L, sym)]) s) = true
               /\ Stable.StopClusterProtection.pauseUntil
                    (stableRecordStops config (earlier ++ [(L, sym)]) s)
                  = L + Stable.StopClusterProtection.pauseMinutes config
                        * 60 * 1000).
  { destruct (stable_recordStops_keeps config L (earlier ++ [(L, sym)]) Hen
                Hin s (Stable.StopClusterProtection.stopEvents s) []
                (eq_sym (app_nil_r _)) (List.Forall_nil _)) as [old1 Hev].
    cbn [app] in Hev.
    unfold stableRecordStops in Hev |- *. rewrite fold_left_app in Hev |- *.
    cbn [fold_left fst snd] in Hev |- *.
    fold (stableRecordStops config earlier s) in Hev |- *.
    unfold Stable.StopClusterProtection.recordStop in Hev |- *.
    rewrite Hen in Hev |- *. cbn [negb] in Hev |- *. cbv zeta in Hev |- *.
    match goal with
    | |- context [ Js.geb (Js.len ?k) ?m ] =>
        assert (Hk : Js.geb (Js.len k) m = true)
    end.
    { match type of Hev with
      | context [ Js.geb (Js.len ?k) ?m ] =>
          destruct (Js.geb (Js.len k) m) eqn:Eg
      end; [ reflexivity | ].
      cbn [Stable.StopClusterProtection.stopEvents] in Hev.
      apply geb_false in Eg. rewrite Hev in Eg.
      pose proof (len_app_ge old1
                    (map (fun e =>
                            Stable.StopClusterProtection.mkStopEvent
                              (snd e) (fst e)) (earlier ++ [(L, sym)])))
        as Hlen.
      unfold Js.len in Hlen at 1. rewrite length_map in Hlen.
      fold (Js.len (earlier ++ [(L, sym)])) in Hlen. lra. }
    rewrite Hk. split; reflexivity. }
  destruct Hp as [Hpa Hpu].
  split; [ exact Hpa | ]. split; [ exact Hpu | ].
  intros Ht. unfold Stable.StopClusterProtection.isPaused.
  rewrite Hen, Hpa, Hpu. cbn [negb andb].
  apply geb_false in Ht. rewrite Ht. reflexivity.
Qed.

Lemma stable_stop_cluster_pauses_witness :
  Stable.StopClusterProtection.paused
    (stableRecordStops stableStopConfig3 threeStops
       Stable.StopClusterProtection.new) = true
  /\ Stable.StopClusterProtection.pauseUntil
       (stableRecordStops stableStopConfig3 threeStops
          Stable.StopClusterProtection.new)
     = 121000
       + Stable.StopClusterProtection.pauseMinutes stableStopConfig3 * 60 * 1000
  /\ (200000
      < 121000
        + Stable.StopClusterProtection.pauseMinutes stableStopConfig3
          * 60 * 1000 ->
      snd (Stable.StopClusterProtection.isPaused stableStopConfig3 200000
             (stableRecordStops stableStopConfig3 threeStops
                Stable.StopClusterProtection.new)) = true).
Proof.
  apply (stable_stop_cluster_pauses stableStopConfig3
           [(1000, "ADAUSDT"); (61000, "XRPUSDT")] 121000 "ADAUSDT"
           Stable.StopClusterProtection.new 200000).
  - reflexivity.
  - repeat (apply List.Forall_cons;
              [ split; cbn [fst];
                [ reflexivity | apply Qle_bool_iff; reflexivity ] | ]).
    apply List.Forall_nil.
  - apply Qle_bool_iff. reflexivity.
Defined.

(** X17.  Stable variant, [StopClusterProtection.isPaused]: with the
    protection enabled the answer is true exactly while the pause flag is
    set and the deadline lies ahead; the first query at or after the
    deadline drops the flag and forgets the recorded stops, and from then
    on every query answers false, whatever its time. *)
Theorem stable_stop_pause_expires
    (config : Stable.StopClusterProtection.Config) (now : Q)
    (s : Stable.StopClusterProtection.t) :
  Stable.StopClusterProtection.enabled config = true ->
  (snd (Stable.StopClusterProtection.isPaused config now s) = true
   <-> Stable.StopClusterProtection.paused s = true
       /\ now < Stable.StopClusterProtection.pauseUntil s)
  /\ (Stable.StopClusterProtection.paused s = true ->
      Stable.StopClusterProtection.pauseUntil s <= now ->
      let s1 := fst (Stable.StopClusterProtection.isPaused config now s) in
      Stable.StopClusterProtection.stopEvents s1 = []
      /\ forall t, Stable.StopClusterProtection.isPaused config t s1
                   = (s1, false)).
Proof.
  intros Hen. unfold Stable.StopClusterProtection.isPaused.
  rewrite Hen. cbn [negb]. split.
  - destruct (Stable.StopClusterProtection.paused s) eqn:Hp; cbn [andb snd].
    + destruct (Js.geb now (Stable.StopClusterProtection.pauseUntil s)) eqn:Hg;
        cbn [snd].
      * apply geb_true in Hg. split; [ discriminate | ].
        intros [_ Hlt]. lra.
      * apply geb_false in Hg. tauto.
    + split; [ discriminate | intros [H _]; discriminate H ].
  - intros Hp Hdue. cbv zeta. rewrite Hp.
    apply geb_true in Hdue. rewrite Hdue. cbn [andb fst].
    split; [ reflexivity | ].
    intros t. cbn [Stable.StopClusterProtection.paused andb]. reflexivity.
Qed.

Lemma stable_stop_pause_expires_witness :
  (snd (Stable.StopClusterProtection.isPaused stableStopConfig3 4000000
          (stableRecordStops stableStopConfig3 threeStops
             Stable.StopClusterProtection.new)) = true
   <-> Stable.StopClusterProtection.paused
         (stableRecordStops stableStopConfig3 threeStops
            Stable.StopClusterProtection.new) = true
       /\ 4000000
          < Stable.StopClusterProtection.pauseUntil
              (stableRecordStops stableStopConfig3 threeStops
                 Stable.StopClusterProtection.new))
  /\ (Stable.StopClusterProtection.paused
        (stableRecordStops stableStopConfig3 threeStops
           Stable.StopClusterProtection.new) = true ->
      Stable.StopClusterProtection.pauseUntil
        (stableRecordStops stableStopConfig3 threeStops
           Stable.StopClusterProtection.new) <= 4000000 ->
      let s1 :=
        fst (Stable.StopClusterProtection.isPaused stableStopConfig3 4000000
               (stableRecordStops stableStopConfig3 threeStops
                  Stable.StopClusterProtection.new)) in
      Stable.StopClusterProtection.stopEvents s1 = []
      /\ forall t, Stable.StopClusterProtection.isPaused stableStopConfig3 t s1
                   = (s1, false)).
Proof.
  apply (stable_stop_pause_expires stableStopConfig3 4000000
           (stableRecordStops stableStopConfig3 threeStops
              Stable.StopClusterProtection.new)).
  reflexivity.
Defined.

(** * Further properties of the time filters *)

(** X18.  Enhanced variant, [TimeBasedFilter.isTradingAllowed]: the allowed
    hours never wrap past midnight.  When the filter is enabled, both
    bounds are defined and the end of the allowed hours is not after
    their start, no call allows trading, on any day at any hour: a call
    that returns denies.  A call returns unless [blockedDays] or
    [blockedHours] holds a number other than 0 (it then may throw a
    [TypeError]); so with no such number in the two fields the filter
    denies on every day at every hour. *)
Theorem enhanced_overnight_hours_deny_all
    (config : Enhanced.TimeBasedFilter.Config) (startHour endHour : Q)
    (dayOfWeek hourUTC : Q) :
  Enhanced.TimeBasedFilter.enabled config = true ->
  Enhanced.TimeBasedFilter.allowedHoursStart config = Some startHour ->
  Enhanced.TimeBasedFilter.allowedHoursEnd config = Some endHour ->
  endHour <= startHour ->
  returns Enhanced.TimeBasedFilter.allowed
    (Enhanced.TimeBasedFilter.isTradingAllowed config dayOfWeek hourUTC)
  = false
  /\ ((forall n,
         Enhanced.TimeBasedFilter.blockedDays config = Cfg.BNumber n
         \/ Enhanced.TimeBasedFilter.blockedHours config = Cfg.BNumber n ->
         n == 0) ->
      exists r,
        Enhanced.TimeBasedFilter.isTradingAllowed config dayOfWeek hourUTC
        = Js.Normal (Enhanced.TimeBasedFilter.mkResult false r)).
Proof.
  intros Hen Hs He Hwrap.
  assert (Hret : forall r,
             Enhanced.TimeBasedFilter.isTradingAllowed config dayOfWeek hourUTC
             = Js.Normal r ->
             Enhanced.TimeBasedFilter.allowed r = false).
  { unfold Enhanced.TimeBasedFilter.isTradingAllowed.
    rewrite Hen, Hs, He. cbn [negb]. intros r.
    destruct (Enhanced.TimeBasedFilter.includes _ dayOfWeek) as [ [ | ] | e ];
      [ intros [= <-]; reflexivity | | discriminate ].
    destruct (Enhanced.TimeBasedFilter.includes _ hourUTC) as [ [ | ] | e ];
      [ intros [= <-]; reflexivity | | discriminate ].
    destruct (Js.ltb hourUTC startHour) eqn:E1;
      [ intros [= <-]; reflexivity | ].
    apply ltb_false in E1.
    assert (E2 : Js.geb hourUTC endHour = true) by (apply geb_true; lra).
    rewrite E2. intros [= <-]. reflexivity. }
  split.
  - destruct (Enhanced.TimeBasedFilter.isTradingAllowed config dayOfWeek
                hourUTC) as [ r | e ]; cbn [returns]; [ | reflexivity ].
    apply Hret. reflexivity.
  - intros Hnum.
    destruct (Enhanced.TimeBasedFilter.isTradingAllowed config dayOfWeek
                hourUTC) as [ r | e ] eqn:Hcall.
    + specialize (Hret r eq_refl). destruct r as [ a r ].
      cbn [Enhanced.TimeBasedFilter.allowed] in Hret. subst a.
      exists r. reflexivity.
    + apply enhanced_time_throws in Hcall.
      destruct Hcall as (_ & _ & n & Hn & Hor).
      exfalso. apply Hn. apply Hnum. exact Hor.
Qed.

Lemma enhanced_overnight_hours_deny_all_witness :
  returns Enhanced.TimeBasedFilter.allowed
    (Enhanced.TimeBasedFilter.isTradingAllowed overnightConfig 3 23) = false
  /\ exists r,
       Enhanced.TimeBasedFilter.isTradingAllowed overnightConfig 3 23
       = Js.Normal (Enhanced.TimeBasedFilter.mkResult false r).
Proof.
  destruct (enhanced_overnight_hours_deny_all overnightConfig 22 6 3 23)
    as [Hdeny Hreturns].
  - reflexivity.
  - reflexivity.
  - reflexivity.
  - apply Qle_bool_iff. reflexivity.
  - split; [ exact Hdeny | ]. apply Hreturns.
    intros n [H | H]; discriminate H.
Defined.

(** X19.  Stable variant, [TimeBasedFilter.isTradingAllowed]: the allowed
    hours never wrap past midnight.  When the filter is enabled and the
    end of the allowed hours is not after their start, no call allows
    trading, on any day at any hour: a call that returns denies.  A call
    returns when [blockedDays] and [blockedHours] are arrays (otherwise
    it throws a [TypeError]); so with the two fields arrays the filter
    denies on every day at every hour. *)
Theorem stable_overnight_hours_deny_all
    (config : Stable.TimeBasedFilter.Config) (dayOfWeek hour : Q) :
  Stable.TimeBasedFilter.enabled config = true ->
  Stable.TimeBasedFilter.allowedHoursEnd config
  <= Stable.TimeBasedFilter.allowedHoursStart config ->
  returns Stable.TimeBasedFilter.allowed
    (Stable.TimeBasedFilter.isTradingAllowed config dayOfWeek hour) = false
  /\ (forall days hours,
        Stable.TimeBasedFilter.blockedDays config = Cfg.BArray days ->
        Stable.TimeBasedFilter.blockedHours config = Cfg.BArray hours ->
        exists r,
          Stable.TimeBasedFilter.isTradingAllowed config dayOfWeek hour
          = Js.Normal (Stable.TimeBasedFilter.mkResult false r)).
Proof.
  intros Hen Hwrap.
  assert (Hret : forall r,
             Stable.TimeBasedFilter.isTradingAllowed config dayOfWeek hour
             = Js.Normal r ->
             Stable.TimeBasedFilter.allowed r = false).
  { unfold Stable.TimeBasedFilter.isTradingAllowed.
    rewrite Hen. cbn [negb]. intros r.
    destruct (Stable.TimeBasedFilter.includes _ dayOfWeek) as [ [ | ] | e ];
      [ intros [= <-]; reflexivity | | discriminate ].
    destruct (Stable.TimeBasedFilter.includes _ hour) as [ [ | ] | e ];
      [ intros [= <-]; reflexivity | | discriminate ].
    destruct (Js.ltb hour (Stable.TimeBasedFilter.allowedHoursStart config))
      eqn:E1; [ intros [= <-]; reflexivity | ].
    apply ltb_false in E1.
    assert (E2 : Js.geb hour (Stable.TimeBasedFilter.allowedHoursEnd config)
                 = true) by (apply geb_true; lra).
    rewrite E2. intros [= <-]. reflexivity. }
  split.
  - destruct (Stable.TimeBasedFilter.isTradingAllowed config dayOfWeek hour)
      as [ r | e ]; cbn [returns]; [ | reflexivity ].
    apply Hret. reflexivity.
  - intros days hours Hd Hh.
    destruct (Stable.TimeBasedFilter.isTradingAllowed config dayOfWeek hour)
      as [ r | e ] eqn:Hcall.
    + specialize (Hret r eq_refl). destruct r as [ a r ].
      cbn [Stable.TimeBasedFilter.allowed] in Hret. subst a.
      exists r. reflexivity.
    + apply stable_time_throws in Hcall.
      destruct Hcall as (_ & [Hno | Hno]); exfalso; eapply Hno; eassumption.
Qed.

Lemma stable_overnight_hours_deny_all_witness :
  returns Stable.TimeBasedFilter.allowed
    (Stable.TimeBasedFilter.isTradingAllowed stableOvernightConfig 3 23)
  = false
  /\ exists r,
       Stable.TimeBasedFilter.isTradingAllowed stableOvernightConfig 3 23
       = Js.Normal (Stable.TimeBasedFilter.mkResult false r).
Proof.
  destruct (stable_overnight_hours_deny_all stableOvernightConfig 3 23)
    as [Hdeny Hreturns].
  - reflexivity.
  - apply Qle_bool_iff. reflexivity.
  - split; [ exact Hdeny | ]. apply (Hreturns [] []); reflexivity.
Defined.

(** * Further properties of the volatility filters *)

Lemma enh_checkBTC_cases (config : Enhanced.BTCVolatilityFilter.Config)
    (now : Q) (response : option Q) (s : Enhanced.BTCVolatilityFilter.t) :
  let r := Enhanced.BTCVolatilityFilter.checkBTC config now response s in
  (snd r = []
   /\ Enhanced.BTCVolatilityFilter.pausedUntil (fst r)
      = Enhanced.BTCVolatilityFilter.pausedUntil s
   /\ Enhanced.BTCVolatilityFilter.btcAlerts (fst r)
      = Enhanced.BTCVolatilityFilter.btcAlerts s)
  \/ (exists a,
        snd r = [a]
        /\ Enhanced.BTCVolatilityFilter.alertTimestamp a = now
        /\ Enhanced.BTCVolatilityFilter.pausedUntil s <= now
        /\ Enhanced.BTCVolatilityFilter.pausedUntil (fst r)
           = now + Enhanced.BTCVolatilityFilter.pauseMinutes config * 60 * 1000
        /\ Enhanced.BTCVolatilityFilter.btcAlerts (fst r)
           = Enhanced.BTCVolatilityFilter.btcAlerts s ++ [a]
        /\ Enhanced.BTCVolatilityFilter.thresholdPercent config
           <= Enhanced.BTCVolatilityFilter.absChangePercent a
        /\ Enhanced.BTCVolatilityFilter.absChangePercent a
           = Qabs (Enhanced.BTCVolatilityFilter.changePercent a)).
Proof.
  cbv zeta. unfold Enhanced.BTCVolatilityFilter.checkBTC.
  destruct (negb (Enhanced.BTCVolatilityFilter.enabled config));
    [ left; repeat split | ].
  destruct response as [ cur | ]; [ | left; repeat split ].
  cbv zeta.
  destruct (List.filter _ _) as [ | oldest [ | second rest ] ];
    [ left; repeat split | left; repeat split | ].
  destruct (Js.geb (Qabs _) _) eqn:Eth; [ | left; repeat split ].
  cbn [Enhanced.BTCVolatilityFilter.pausedUntil].
  destruct (Js.geb now (Enhanced.BTCVolatilityFilter.pausedUntil s)) eqn:Ep;
    [ | left; repeat split ].
  right. unfold Enhanced.BTCVolatilityFilter.generateBTCAlert.
  cbn [fst snd Enhanced.BTCVolatilityFilter.pausedUntil
       Enhanced.BTCVolatilityFilter.btcAlerts].
  eexists. split; [ reflexivity | ].
  cbn [Enhanced.BTCVolatilityFilter.alertTimestamp
       Enhanced.BTCVolatilityFilter.absChangePercent
       Enhanced.BTCVolatilityFilter.changePercent].
  apply geb_true in Eth. apply geb_true in Ep.
  repeat split; try reflexivity; assumption.
Qed.

(** X20.  Enhanced variant, [BTCVolatilityFilter]: over any sequence of
    polls the alert log [btcAlerts] grows by exactly the alerts sent, in
    the order sent, and every alert sent reports a move whose absolute
    value is at or above the threshold. *)
Theorem enhanced_btc_alert_log (config : Enhanced.BTCVolatilityFilter.Config)
    (polls : list (Q * option Q)) (s : Enhanced.BTCVolatilityFilter.t) :
  let r := Enhanced.BTCVolatilityFilter.run config polls s in
  Enhanced.BTCVolatilityFilter.btcAlerts (fst r)
  = Enhanced.BTCVolatilityFilter.btcAlerts s ++ snd r
  /\ List.Forall
       (fun a =>
          Enhanced.BTCVolatilityFilter.thresholdPercent config
          <= Enhanced.BTCVolatilityFilter.absChangePercent a
          /\ Enhanced.BTCVolatilityFilter.absChangePercent a
             = Qabs (Enhanced.BTCVolatilityFilter.changePercent a))
       (snd r).
Proof.
  cbv zeta. revert s.
  induction polls as [ | [now response] polls IH ]; intros s.
  - cbn [Enhanced.BTCVolatilityFilter.run fst snd]. rewrite app_nil_r.
    split; [ reflexivity | constructor ].
  - cbn [Enhanced.BTCVolatilityFilter.run].
    pose proof (enh_checkBTC_cases config now response s) as Hstep.
    cbv zeta in Hstep.
    destruct (Enhanced.BTCVolatilityFilter.checkBTC config now response s)
      as [s1 sent1].
    specialize (IH s1).
    destruct (Enhanced.BTCVolatilityFilter.run config polls s1) as [s2 sent2].
    cbn [fst snd] in *. destruct IH as [IHlog IHall].
    destruct Hstep as [ [-> [_ Hlog]] | [a [-> [_ [_ [_ [Hlog [Hth Habs]]]]]]] ].
    + cbn [app]. rewrite IHlog, Hlog. split; [ reflexivity | exact IHall ].
    + rewrite IHlog, Hlog, <- app_assoc. split; [ reflexivity | ].
      cbn [app]. constructor; [ split; assumption | exact IHall ].
Qed.

Lemma enh_btc_run_after_pause (config : Enhanced.BTCVolatilityFilter.Config)
    (polls : list (Q * option Q)) :
  0 <= Enhanced.BTCVolatilityFilter.pauseMinutes config ->
  forall s,
    let r := Enhanced.BTCVolatilityFilter.run config polls s in
    Enhanced.BTCVolatilityFilter.pausedUntil s
    <= Enhanced.BTCVolatilityFilter.pausedUntil (fst r)
    /\ List.Forall
         (fun t => Enhanced.BTCVolatilityFilter.pausedUntil s <= t)
         (map Enhanced.BTCVolatilityFilter.alertTimestamp (snd r))
    /\ spaced (Enhanced.BTCVolatilityFilter.pauseMinutes config * 60 * 1000)
         (map Enhanced.BTCVolatilityFilter.alertTimestamp (snd r)).
Proof.
  intros Hpause. cbv zeta.
  induction polls as [ | [now response] polls IH ]; intros s.
  - cbn [Enhanced.BTCVolatilityFilter.run fst snd map spaced].
    split; [ lra | ]. split; [ constructor | exact I ].
  - cbn [Enhanced.BTCVolatilityFilter.run].
    pose proof (enh_checkBTC_cases config now response s) as Hstep.
    cbv zeta in Hstep.
    destruct (Enhanced.BTCVolatilityFilter.checkBTC config now response s)
      as [s1 sent1].
    specialize (IH s1).
    destruct (Enhanced.BTCVolatilityFilter.run config polls s1) as [s2 sent2].
    cbn [fst snd] in *. destruct IH as [IHp [IHall IHsp]].
    destruct Hstep as [ [-> [Hp _]] | [a [-> [Hts [Hdue [Hp _]]]]] ].
    + cbn [app]. rewrite Hp in IHp, IHall.
      split; [ exact IHp | ]. split; [ exact IHall | exact IHsp ].
    + cbn [app map spaced]. rewrite Hts. rewrite Hp in IHp, IHall.
      split; [ lra | ]. split.
      * constructor; [ exact Hdue | ].
        revert IHall. apply List.Forall_impl. intros t Ht. lra.
      * split; [ exact IHall | exact IHsp ].
Qed.

(** X21.  Enhanced variant, [BTCVolatilityFilter]: with a pause that is not
    negative, no alert of a sequence of polls is sent before the pause the
    filter started with has ended, and each alert is sent at least
    [pauseMinutes] after every alert before it, whatever the clock
    readings and the prices of the polls. *)
Theorem enhanced_btc_alerts_spaced
    (config : Enhanced.BTCVolatilityFilter.Config)
    (polls : list (Q * option Q)) (s : Enhanced.BTCVolatilityFilter.t) :
  0 <= Enhanced.BTCVolatilityFilter.pauseMinutes config ->
  let times :=
    map Enhanced.BTCVolatilityFilter.alertTimestamp
      (snd (Enhanced.BTCVolatilityFilter.run config polls s)) in
  List.Forall (fun t => Enhanced.BTCVolatilityFilter.pausedUntil s <= t) times
  /\ spaced (Enhanced.BTCVolatilityFilter.pauseMinutes config * 60 * 1000)
       times.
Proof.
  intros Hpause. cbv zeta.
  destruct (enh_btc_run_after_pause config polls Hpause s) as [_ H].
  exact H.
Qed.

Lemma enhanced_btc_alerts_spaced_witness :
  length (snd (Enhanced.BTCVolatilityFilter.run btcConfig twoAlertPolls
                 Enhanced.BTCVolatilityFilter.new)) = 2%nat
  /\ (let times :=
        map Enhanced.BTCVolatilityFilter.alertTimestamp
          (snd (Enhanced.BTCVolatilityFilter.run btcConfig twoAlertPolls
                  Enhanced.BTCVolatilityFilter.new)) in
      List.Forall
        (fun t =>
           Enhanced.BTCVolatilityFilter.pausedUntil
             Enhanced.BTCVolatilityFilter.new <= t) times
      /\ spaced (Enhanced.BTCVolatilityFilter.pauseMinutes btcConfig * 60 * 1000)
           times).
Proof.
  split; [ vm_compute; reflexivity | ].
  apply (enhanced_btc_alerts_spaced btcConfig twoAlertPolls
           Enhanced.BTCVolatilityFilter.new).
  apply Qle_bool_iff. reflexivity.
Defined.

(** X22.  Stable variant, [BTCVolatilityFilter.checkVolatility]: over any
    sequence of polls [alertCount] grows by exactly the number of messages
    handed to the messenger, delivered or not, and every such message
    reports a change at or above the threshold. *)
Theorem stable_btc_alert_count (config : Stable.BTCVolatilityFilter.Config)
    (polls : list (Q * option Q * bool)) (s : Stable.BTCVolatilityFilter.t) :
  let r := stablePolls config polls s in
  Stable.BTCVolatilityFilter.alertCount (fst r)
  = (Stable.BTCVolatilityFilter.alertCount s + length (snd r))%nat
  /\ List.Forall
       (fun m =>
          Stable.BTCVolatilityFilter.thresholdPercent config
          <= Stable.BTCVolatilityFilter.msgChangePercent m)
       (snd r).
Proof.
  cbv zeta. revert s.
  induction polls as [ | [[now response] delivered] polls IH ]; intros s.
  - cbn [stablePolls fst snd length]. split; [ lia | constructor ].
  - cbn [stablePolls]. cbv zeta. cbn [fst snd].
    destruct (IH (fst (Stable.BTCVolatilityFilter.checkVolatility config now
                         response delivered s))) as [IHc IHall].
    rewrite IHc, length_app.
    assert (Hstep :
              Stable.BTCVolatilityFilter.alertCount
                (fst (Stable.BTCVolatilityFilter.checkVolatility config now
                        response delivered s))
              = (Stable.BTCVolatilityFilter.alertCount s
                 + length (snd (Stable.BTCVolatilityFilter.checkVolatility
                                  config now response delivered s)))%nat
              /\ List.Forall
                   (fun m =>
                      Stable.BTCVolatilityFilter.thresholdPercent config
                      <= Stable.BTCVolatilityFilter.msgChangePercent m)
                   (snd (Stable.BTCVolatilityFilter.checkVolatility config now
                           response delivered s))).
    { unfold Stable.BTCVolatilityFilter.checkVolatility.
      destruct (negb (Stable.BTCVolatilityFilter.enabled config));
        [ cbn [fst snd length]; split; [ lia | constructor ] | ].
      destruct response as [ cur | ];
        [ | cbn [fst snd length]; split; [ lia | constructor ] ].
      destruct (Stable.BTCVolatilityFilter.lastPrice s) as [ last | ];
        [ | cbn [fst snd length Stable.BTCVolatilityFilter.alertCount];
            split; [ lia | constructor ] ].
      cbv zeta. destruct (Js.geb (Qabs _) _) eqn:Eth;
        cbn [fst snd length Stable.BTCVolatilityFilter.alertCount].
      - split; [ lia | ]. constructor; [ | constructor ].
        cbn [Stable.BTCVolatilityFilter.msgChangePercent].
        apply geb_true in Eth. exact Eth.
      - split; [ lia | constructor ]. }
    destruct Hstep as [Hc Hall]. rewrite Hc.
    split; [ lia | ]. apply List.Forall_app. split; assumption.
Qed.

(** * Further properties of the aggression-decay filters *)

Lemma normalize_positive (buyVolume sellVolume priceRange : Q) :
  0 <= buyVolume -> 0 <= sellVolume -> ~ buyVolume + sellVolume == 0 ->
  0 < Enhanced.AggressionDecayFilter.normalize (Qmax buyVolume sellVolume)
        priceRange.
Proof.
  intros Hb Hs Hnz.
  assert (Hd : 0 < Qmax buyVolume sellVolume).
  { pose proof (Q.le_max_l buyVolume sellVolume).
    pose proof (Q.le_max_r buyVolume sellVolume).
    destruct (Qlt_le_dec 0 (Qmax buyVolume sellVolume)) as [ H1 | H1 ];
      [ exact H1 | ].
    exfalso. apply Hnz. lra. }
  unfold Enhanced.AggressionDecayFilter.normalize.
  destruct (Js.gtb priceRange 0) eqn:E; [ | exact Hd ].
  apply gtb_true in E. apply Qlt_shift_div_l; [ exact E | lra ].
Qed.

Lemma enh_positive_recordAggression
    (config : Enhanced.AggressionDecayFilter.Config) (r : AggressionReport)
    (h : Enhanced.AggressionDecayFilter.t) :
  0 <= rep_buyVolume r -> 0 <= rep_sellVolume r ->
  entriesPositive h ->
  entriesPositive
    (Enhanced.AggressionDecayFilter.recordAggression config (rep_symbol r)
       (rep_timestamp r) (rep_buyVolume r) (rep_sellVolume r)
       (rep_priceRange r) h).
Proof.
  intros Hb Hs Hinv.
  unfold Enhanced.AggressionDecayFilter.recordAggression. cbv zeta.
  unfold entriesPositive, Enhanced.AggressionDecayFilter.t in *.
  set (h1 := match h !! rep_symbol r with
             | Some _ => h
             | None => <[rep_symbol r := []]> h
             end).
  assert (Hinv1 : forall symbol history,
             h1 !! symbol = Some history ->
             List.Forall
               (fun e =>
                  0 < Enhanced.AggressionDecayFilter.normalizedAggression e)
               history).
  { intros symbol history. subst h1.
    destruct (h !! rep_symbol r) eqn:Hl; [ apply Hinv | ].
    destruct (decide (rep_symbol r = symbol)) as [ <- | Hne ].
    - rewrite lookup_insert_eq. intros [= <-]. constructor.
    - rewrite (lookup_insert_ne _ _ _ _ Hne). apply Hinv. }
  destruct (Js.eqb (rep_buyVolume r + rep_sellVolume r) 0) eqn:Ez;
    [ exact Hinv1 | ].
  apply eqb_false in Ez.
  intros symbol history.
  destruct (decide (rep_symbol r = symbol)) as [ <- | Hne ].
  - rewrite lookup_insert_eq. intros [= <-].
    apply Forall_filter_bool. apply List.Forall_app. split.
    + destruct (h1 !! rep_symbol r) as [ l | ] eqn:Hl;
        [ exact (Hinv1 _ _ Hl) | constructor ].
    + constructor; [ | constructor ].
      cbn [Enhanced.AggressionDecayFilter.normalizedAggression].
      apply normalize_positive; assumption.
  - rewrite (lookup_insert_ne _ _ _ _ Hne). apply Hinv1.
Qed.

Lemma average_positive
    (history : list Enhanced.AggressionDecayFilter.Entry) :
  history <> [] ->
  List.Forall
    (fun e => 0 < Enhanced.AggressionDecayFilter.normalizedAggression e)
    history ->
  0 < Enhanced.AggressionDecayFilter.average history.
Proof.
  intros Hne Hpos. unfold Enhanced.AggressionDecayFilter.average.
  destruct history as [ | e rest ]; [ contradiction | ].
  apply Qlt_shift_div_l.
  - unfold Js.len. change 0 with (inject_Z 0). rewrite <- Zlt_Qlt.
    cbn [length]. lia.
  - rewrite sumBy_cons. inversion Hpos as [ | ? ? He Hrest ]; subst.
    assert (Hsum : 0 <= Js.sumBy
                          Enhanced.AggressionDecayFilter.normalizedAggression
                          rest).
    { apply sumBy_nonneg. revert Hrest. apply List.Forall_impl.
      intros a Ha. lra. }
    lra.
Qed.

Lemma enh_positive_recordAggressions
    (config : Enhanced.AggressionDecayFilter.Config)
    (reports : list AggressionReport) :
  List.Forall (fun r => 0 <= rep_buyVolume r /\ 0 <= rep_sellVolume r)
    reports ->
  forall h, entriesPositive h ->
            entriesPositive (recordAggressions config reports h).
Proof.
  unfold recordAggressions.
  induction 1 as [ | r reports [Hb Hs] _ IH ]; intros h H0; [ exact H0 | ].
  cbn [fold_left]. apply IH.
  apply enh_positive_recordAggression; assumption.
Qed.

(** X23.  Enhanced variant, [AggressionDecayFilter]: when every recorded
    volume is non-negative, every entry [recordAggression] has stored since
    the start is positive, so the average of a history that is not empty is
    positive and [shouldAllowEntry] never falls back to the ratio 1; the
    ratio it reports is the current aggression over that average. *)
Theorem enhanced_recorded_aggression_positive
    (config cfg : Enhanced.AggressionDecayFilter.Config)
    (reports : list AggressionReport) (symbol : string)
    (history : list Enhanced.AggressionDecayFilter.Entry)
    (buyVol sellVol priceRange : Q) :
  List.Forall (fun r => 0 <= rep_buyVolume r /\ 0 <= rep_sellVolume r)
    reports ->
  recordAggressions config reports Enhanced.AggressionDecayFilter.new
    !! symbol = Some history ->
  history <> [] ->
  List.Forall
    (fun e => 0 < Enhanced.AggressionDecayFilter.normalizedAggression e)
    history
  /\ 0 < Enhanced.AggressionDecayFilter.average history
  /\ (Enhanced.AggressionDecayFilter.enabled cfg = true ->
      Enhanced.AggressionDecayFilter.minCandles cfg <= Js.len history ->
      ~ buyVol + sellVol == 0 ->
      Enhanced.AggressionDecayFilter.ratio
        (Enhanced.AggressionDecayFilter.shouldAllowEntry cfg symbol buyVol
           sellVol priceRange
           (recordAggressions config reports
              Enhanced.AggressionDecayFilter.new))
      = Some
          (Enhanced.AggressionDecayFilter.normalize (Qmax buyVol sellVol)
             priceRange
           / Enhanced.AggressionDecayFilter.average history)).
Proof.
  intros Hrep Hl Hne.
  assert (Hinv : entriesPositive
                   (recordAggressions config reports
                      Enhanced.AggressionDecayFilter.new)).
  { apply enh_positive_recordAggressions; [ exact Hrep | ].
    unfold entriesPositive, Enhanced.AggressionDecayFilter.new,
      Enhanced.AggressionDecayFilter.t.
    intros sym l H. rewrite lookup_empty in H. discriminate H. }
  pose proof (Hinv symbol history Hl) as Hpos.
  pose proof (average_positive history Hne Hpos) as Havg.
  split; [ exact Hpos | ]. split; [ exact Havg | ].
  intros Hen Hmin Hnz.
  unfold Enhanced.AggressionDecayFilter.shouldAllowEntry.
  unfold Enhanced.AggressionDecayFilter.t in *.
  rewrite Hen, Hl. cbn [negb].
  apply ltb_false in Hmin. rewrite Hmin.
  apply eqb_false in Hnz. rewrite Hnz. cbv zeta.
  apply gtb_true in Havg. rewrite Havg.
  reflexivity.
Qed.

Lemma enhanced_recorded_aggression_positive_witness :
  exists history,
    recordAggressions decayConfig twoReports Enhanced.AggressionDecayFilter.new
      !! "ADAUSDT"%string = Some history
    /\ List.Forall
         (fun e => 0 < Enhanced.AggressionDecayFilter.normalizedAggression e)
         history
    /\ 0 < Enhanced.AggressionDecayFilter.average history
    /\ (Enhanced.AggressionDecayFilter.enabled decayConfig = true ->
        Enhanced.AggressionDecayFilter.minCandles decayConfig
        <= Js.len history ->
        ~ 500000 + 100000 == 0 ->
        Enhanced.AggressionDecayFilter.ratio
          (Enhanced.AggressionDecayFilter.shouldAllowEntry decayConfig
             "ADAUSDT" 500000 100000 (2 # 1000)
             (recordAggressions decayConfig twoReports
                Enhanced.AggressionDecayFilter.new))
        = Some
            (Enhanced.AggressionDecayFilter.normalize (Qmax 500000 100000)
               (2 # 1000)
             / Enhanced.AggressionDecayFilter.average history)).
Proof.
  eexists. split; [ vm_compute; reflexivity | ].
  apply (enhanced_recorded_aggression_positive decayConfig decayConfig
           twoReports "ADAUSDT" _ 500000 100000 (2 # 1000)).
  - repeat (apply List.Forall_cons;
              [ split; apply Qle_bool_iff; reflexivity | ]).
    apply List.Forall_nil.
  - vm_compute. reflexivity.
  - discriminate.
Defined.






(** * Further properties of the configuration store *)

Lemma withinLimits_setField (p : Cfg.Param) (v : Q) (c : Cfg.SymbolConfig) :
  inRangeb p v = true -> withinLimits c -> withinLimits (Cfg.setField p v c).
Proof.
  intros Hr (Hv & Hd1 & Hd2 & Hp & Hc). apply inRangeb_spec in Hr.
  unfold withinLimits.
  destruct p;
    cbn [Cfg.setField Cfg.minVolumeUSD Cfg.minDominance Cfg.minPriceChange
         Cfg.cooldownMinutes];
    tauto.
Qed.

Lemma withinLimits_setEnabled (b : bool) (c : Cfg.SymbolConfig) :
  withinLimits c -> withinLimits (Cfg.setEnabled b c).
Proof. intros H. exact H. Qed.

Lemma limitsHold_insert (symbol : string) (c c1 : Cfg.SymbolConfig)
    (rc : Enhanced.RuntimeConfig.t) :
  Enhanced.RuntimeConfig.symbolConfigs rc !! symbol = Some c ->
  withinLimits c1 ->
  limitsHold rc ->
  limitsHold
    {| Enhanced.RuntimeConfig.symbolConfigs :=
         <[symbol := c1]> (Enhanced.RuntimeConfig.symbolConfigs rc);
       Enhanced.RuntimeConfig.advancedFilters :=
         Enhanced.RuntimeConfig.advancedFilters rc |}
  /\ dom (<[symbol := c1]> (Enhanced.RuntimeConfig.symbolConfigs rc))
     = dom (Enhanced.RuntimeConfig.symbolConfigs rc).
Proof.
  intros Hc Hw Hinv. split.
  - intros sym c2. unfold Enhanced.RuntimeConfig.get.
    cbn [Enhanced.RuntimeConfig.symbolConfigs]. rewrite slot_own.
    destruct (decide (symbol = sym)) as [ <- | Hne ].
    + rewrite lookup_insert_eq. intros [= <-]. exact Hw.
    + rewrite (lookup_insert_ne _ _ _ _ Hne). intros H.
      apply (Hinv sym). apply slot_own. exact H.
  - apply dom_insert_lookup_L. rewrite Hc. eauto.
Qed.

Lemma enh_runCommand_keeps (parseFloat : Cfg.JsValue -> option Q)
    (cmd : ConfigCommand) (rc rc1 : Enhanced.RuntimeConfig.t) :
  runCommand parseFloat cmd rc = Some rc1 ->
  (limitsHold rc -> limitsHold rc1)
  /\ dom (Enhanced.RuntimeConfig.symbolConfigs rc1)
     = dom (Enhanced.RuntimeConfig.symbolConfigs rc)
  /\ dom (Enhanced.RuntimeConfig.advancedFilters rc1)
     = dom (Enhanced.RuntimeConfig.advancedFilters rc).
Proof.
  destruct cmd as [ symbol param value | symbol | symbol
                  | filterName param value ];
    cbn [runCommand].
  - rewrite enhanced_set_unfold.
    destruct (Enhanced.RuntimeConfig.get symbol rc) as [ c | | ] eqn:Hc;
      [ | | intros [= <-]; auto ];
      (destruct (Cfg.validParam param) as [ p | ];
       [ | intros [= <-]; auto ];
       destruct (parseFloat value) as [ v | ]; [ | intros [= <-]; auto ];
       destruct (inRangeb p v) eqn:Hr; [ | intros [= <-]; auto ]);
      [ | discriminate ].
    intros [= <-]. apply slot_own in Hc.
    cbn [Enhanced.RuntimeConfig.symbolConfigs
         Enhanced.RuntimeConfig.advancedFilters].
    split; [ | split; [ | reflexivity ] ].
    + intros Hinv. apply (limitsHold_insert symbol c _ rc Hc); [ | exact Hinv ].
      apply withinLimits_setField; [ exact Hr | ].
      apply (Hinv symbol). apply slot_own. exact Hc.
    + apply dom_insert_lookup_L. rewrite Hc. eauto.
  - unfold Enhanced.RuntimeConfig.enable.
    destruct (Cfg.slot _ symbol) as [ c | | ] eqn:Hc;
      [ | discriminate | intros [= <-]; auto ].
    intros [= <-]. apply slot_own in Hc.
    cbn [Enhanced.RuntimeConfig.symbolConfigs
         Enhanced.RuntimeConfig.advancedFilters].
    split; [ | split; [ | reflexivity ] ].
    + intros Hinv. apply (limitsHold_insert symbol c _ rc Hc); [ | exact Hinv ].
      apply withinLimits_setEnabled.
      apply (Hinv symbol). apply slot_own. exact Hc.
    + apply dom_insert_lookup_L. rewrite Hc. eauto.
  - unfold Enhanced.RuntimeConfig.disable.
    destruct (Cfg.slot _ symbol) as [ c | | ] eqn:Hc;
      [ | discriminate | intros [= <-]; auto ].
    intros [= <-]. apply slot_own in Hc.
    cbn [Enhanced.RuntimeConfig.symbolConfigs
         Enhanced.RuntimeConfig.advancedFilters].
    split; [ | split; [ | reflexivity ] ].
    + intros Hinv. apply (limitsHold_insert symbol c _ rc Hc); [ | exact Hinv ].
      apply withinLimits_setEnabled.
      apply (Hinv symbol). apply slot_own. exact Hc.
    + apply dom_insert_lookup_L. rewrite Hc. eauto.
  - unfold Enhanced.RuntimeConfig.setFilterParam.
    destruct (Cfg.slot _ filterName) as [ bag | | ] eqn:Hb;
      [ | | intros [= <-]; auto ];
      (destruct (String.eqb param "enabled");
       [ | destruct (parseFloat value) as [ v | ];
           [ | intros [= <-]; auto ] ]);
      try discriminate;
      (intros [= <-]; apply slot_own in Hb;
       cbn [Enhanced.RuntimeConfig.symbolConfigs
            Enhanced.RuntimeConfig.advancedFilters];
       split; [ intros Hinv; exact Hinv | ];
       split; [ reflexivity | ];
       apply dom_insert_lookup_L; rewrite Hb; eauto).
Qed.

(** X25.  Enhanced variant, [RuntimeConfig]: no sequence of [set],
    [enable], [disable] and [setFilterParam] calls, returned or thrown,
    whose names are names of the store or unknown (no call goes on with a
    built-in object found under an inherited name) takes the store out of
    the limits: if every instrument has [minDominance] within 50 and 100
    and no negative [minVolumeUSD], [minPriceChange] or [cooldownMinutes]
    before, so it has after; and the store has the same instruments and
    the same filters after as before. *)
Theorem enhanced_commands_keep_limits
    (parseFloat : Cfg.JsValue -> option Q) (cmds : list ConfigCommand)
    (rc rc1 : Enhanced.RuntimeConfig.t) :
  limitsHold rc ->
  runCommands parseFloat cmds rc = Some rc1 ->
  limitsHold rc1
  /\ dom (Enhanced.RuntimeConfig.symbolConfigs rc1)
     = dom (Enhanced.RuntimeConfig.symbolConfigs rc)
  /\ dom (Enhanced.RuntimeConfig.advancedFilters rc1)
     = dom (Enhanced.RuntimeConfig.advancedFilters rc).
Proof.
  revert rc.
  induction cmds as [ | cmd cmds IH ]; intros rc Hinv; cbn [runCommands].
  - intros [= <-]. auto.
  - destruct (runCommand parseFloat cmd rc) as [ rc2 | ] eqn:Hcmd;
      [ | discriminate ].
    intros Hrun.
    destruct (enh_runCommand_keeps parseFloat cmd rc rc2 Hcmd)
      as [Hk [Hs Hf]].
    destruct (IH rc2 (Hk Hinv) Hrun) as [IHk [IHs IHf]].
    split; [ exact IHk | ]. split; congruence.
Qed.

Lemma enhanced_commands_keep_limits_witness :
  exists rc1,
    runCommands parseDecimal sampleCommands shippedEnhancedConfig = Some rc1
    /\ Enhanced.RuntimeConfig.get "ADAUSDT" rc1
       = Cfg.Own (Cfg.mkSymbolConfig 250000 70 (6 # 10) 5 true)
    /\ Cfg.owned (Enhanced.RuntimeConfig.getFilter "btcVolatility" rc1)
         ≫= Enhanced.BTCVolatilityFilter.ofBag
       = Some (Enhanced.BTCVolatilityFilter.mkConfig true 1 10 3 15)
    /\ Cfg.owned (Enhanced.RuntimeConfig.getFilter "timeBased" rc1)
         ≫= Enhanced.TimeBasedFilter.ofBag
       = Some
           (Enhanced.TimeBasedFilter.mkConfig true (Cfg.BNumber 3)
              (Cfg.BArray []) (Some 6) (Some 18))
    /\ limitsHold rc1
    /\ dom (Enhanced.RuntimeConfig.symbolConfigs rc1)
       = dom (Enhanced.RuntimeConfig.symbolConfigs shippedEnhancedConfig)
    /\ dom (Enhanced.RuntimeConfig.advancedFilters rc1)
       = dom (Enhanced.RuntimeConfig.advancedFilters shippedEnhancedConfig).
Proof.
  destruct (runCommands parseDecimal sampleCommands shippedEnhancedConfig)
    as [ rc1 | ] eqn:Hrun; [ | vm_compute in Hrun; discriminate Hrun ].
  exists rc1. split; [ reflexivity | ].
  pose proof Hrun as Hval. vm_compute in Hval. injection Hval as Hval.
  split; [ rewrite <- Hval; vm_compute; reflexivity | ].
  split; [ rewrite <- Hval; vm_compute; reflexivity | ].
  split; [ rewrite <- Hval; vm_compute; reflexivity | ].
  apply (enhanced_commands_keep_limits parseDecimal sampleCommands
           shippedEnhancedConfig rc1); [ | exact Hrun ].
  intros symbol c H.
  unfold Enhanced.RuntimeConfig.get in H. apply slot_own in H.
  unfold shippedEnhancedConfig, sampleSymbols in H.
  cbn [Enhanced.RuntimeConfig.symbolConfigs] in H.
  apply lookup_singleton_Some in H as [_ <-].
  unfold withinLimits. repeat split; apply Qle_bool_iff; reflexivity.
Defined.

(** X26.  Enhanced variant, [RuntimeConfig.disable] and
    [SignalEngine.shouldAlert]: once [disable] has returned for a symbol,
    [shouldAlert] denies every snapshot of that symbol without consulting
    any filter, whatever the snapshot and the filters hold. *)
Theorem enhanced_disabled_symbol_never_alerts
    (symbol : string) (rc rc1 : Enhanced.RuntimeConfig.t)
    (w : Enhanced.SignalEngine.World)
    (stats : option Enhanced.SymbolState.Stats) :
  Enhanced.RuntimeConfig.disable symbol rc = (rc1, Cfg.Returned tt) ->
  Enhanced.SignalEngine.runtimeConfig w = rc1 ->
  exists r,
    Enhanced.SignalEngine.shouldAlert w symbol stats
    = Enhanced.SignalEngine.Decides
        (Enhanced.SignalEngine.mkEvaluation []
           (Enhanced.SignalEngine.mkDecision false r)).
Proof.
  unfold Enhanced.RuntimeConfig.disable.
  destruct (Cfg.slot _ symbol) as [ c | | ]; [ | discriminate | discriminate ].
  intros [= <-] Hw. unfold Enhanced.SignalEngine.shouldAlert.
  destruct stats as [ stats | ]; [ | eexists; reflexivity ].
  rewrite Hw. unfold Enhanced.RuntimeConfig.get, Cfg.slot.
  cbn [Enhanced.RuntimeConfig.symbolConfigs]. rewrite lookup_insert_eq.
  cbn [Cfg.setEnabled Cfg.enabled negb]. eexists; reflexivity.
Qed.

Lemma enhanced_disabled_symbol_never_alerts_witness :
  snd (Enhanced.RuntimeConfig.disable "ADAUSDT" shippedEnhancedConfig)
  = Cfg.Returned tt
  /\ exists r,
       Enhanced.SignalEngine.shouldAlert disabledAdaWorld "ADAUSDT"
         (Some buyStats)
       = Enhanced.SignalEngine.Decides
           (Enhanced.SignalEngine.mkEvaluation []
              (Enhanced.SignalEngine.mkDecision false r)).
Proof.
  split; [ vm_compute; reflexivity | ].
  apply (enhanced_disabled_symbol_never_alerts "ADAUSDT" shippedEnhancedConfig
           (fst (Enhanced.RuntimeConfig.disable "ADAUSDT"
                   shippedEnhancedConfig))).
  - vm_compute. reflexivity.
  - reflexivity.
Defined.

(** ** The filters can read their configuration after every command

    [setFilterParam] keeps the type of [enabled] and stores numbers, so a
    configuration object the filters could read stays one they can read:
    the records [Config] cover every store the commands reach from the
    shipped one, the number in place of an array included. *)

Lemma keepsTypes_refl (bag : gmap string Cfg.JsValue) : keepsTypes bag bag.
Proof. split; [ tauto | intros name _; tauto ]. Qed.

Lemma keepsTypes_enabled (bag : gmap string Cfg.JsValue) (b : bool) :
  keepsTypes bag (<["enabled"%string := Cfg.VBool b]> bag).
Proof.
  split.
  - intros _. unfold Cfg.boolField. rewrite lookup_insert_eq. eauto.
  - intros name Hne.
    unfold Cfg.numField, Cfg.optNumField, Cfg.blockedField.
    rewrite lookup_insert_ne by congruence. tauto.
Qed.

Lemma keepsTypes_assign (bag : gmap string Cfg.JsValue) (param : string)
    (v : Q) :
  param <> "enabled"%string ->
  keepsTypes bag (Cfg.assign param (Cfg.VNum v) bag).
Proof.
  intros Hp. unfold Cfg.assign.
  destruct (String.eqb param "__proto__"); [ apply keepsTypes_refl | ].
  split.
  - unfold Cfg.boolField. rewrite lookup_insert_ne by exact Hp. tauto.
  - intros name Hne.
    unfold Cfg.numField, Cfg.optNumField, Cfg.blockedField.
    destruct (decide (param = name)) as [ <- | Hd ].
    + rewrite lookup_insert_eq. eauto.
    + rewrite lookup_insert_ne by exact Hd. tauto.
Qed.

Ltac read_field Hk name :=
  let H := fresh "H" in
  let x := fresh "x" in
  let Hx := fresh "Hx" in
  match goal with
  | |- is_Some (?field ?bag name ≫= _) -> _ =>
      destruct (field bag name) eqn:H;
      [ | intros [x Hx]; discriminate Hx ];
      first
        [ destruct (proj1 (Hk name ltac:(discriminate))
                      (ex_intro _ _ H)) as [? ->]
        | destruct (proj1 (proj2 (Hk name ltac:(discriminate)))
                      (ex_intro _ _ H)) as [? ->]
        | destruct (proj2 (proj2 (Hk name ltac:(discriminate)))
                      (ex_intro _ _ H)) as [? ->] ];
      cbn [mbind option_bind]
  end.

Ltac read_enabled Hb :=
  let H := fresh "H" in
  let x := fresh "x" in
  let Hx := fresh "Hx" in
  match goal with
  | |- is_Some (Cfg.boolField ?bag ?name ≫= _) -> _ =>
      destruct (Cfg.boolField bag name) eqn:H;
      [ | intros [x Hx]; discriminate Hx ];
      destruct (Hb (ex_intro _ _ eq_refl)) as [? ->];
      cbn [mbind option_bind]
  end.

Lemma readers_keep (bag bag1 : gmap string Cfg.JsValue) :
  keepsTypes bag bag1 ->
  ((is_Some (Enhanced.AggressionDecayFilter.ofBag bag)
    -> is_Some (Enhanced.AggressionDecayFilter.ofBag bag1))
   /\ (is_Some (Enhanced.StopClusterProtection.ofBag bag)
       -> is_Some (Enhanced.StopClusterProtection.ofBag bag1))
   /\ (is_Some (Enhanced.TimeBasedFilter.ofBag bag)
       -> is_Some (Enhanced.TimeBasedFilter.ofBag bag1))
   /\ (is_Some (Enhanced.BTCVolatilityFilter.ofBag bag)
       -> is_Some (Enhanced.BTCVolatilityFilter.ofBag bag1)))
  /\ ((is_Some (Stable.AggressionDecayFilter.ofBag bag)
       -> is_Some (Stable.AggressionDecayFilter.ofBag bag1))
      /\ (is_Some (Stable.StopClusterProtection.ofBag bag)
          -> is_Some (Stable.StopClusterProtection.ofBag bag1))
      /\ (is_Some (Stable.TimeBasedFilter.ofBag bag)
          -> is_Some (Stable.TimeBasedFilter.ofBag bag1))
      /\ (is_Some (Stable.BTCVolatilityFilter.ofBag bag)
          -> is_Some (Stable.BTCVolatilityFilter.ofBag bag1))).
Proof.
  intros [Hb Hk].
  unfold Enhanced.AggressionDecayFilter.ofBag,
    Enhanced.StopClusterProtection.ofBag, Enhanced.TimeBasedFilter.ofBag,
    Enhanced.BTCVolatilityFilter.ofBag, Stable.AggressionDecayFilter.ofBag,
    Stable.StopClusterProtection.ofBag, Stable.TimeBasedFilter.ofBag,
    Stable.BTCVolatilityFilter.ofBag.
  repeat split.
  - read_enabled Hb. read_field Hk "lookbackMinutes"%string.
    read_field Hk "decayThreshold"%string. read_field Hk "minCandles"%string.
    eauto.
  - read_enabled Hb. read_field Hk "maxStops"%string.
    read_field Hk "timeWindowMinutes"%string.
    read_field Hk "pauseMinutes"%string. eauto.
  - read_enabled Hb. read_field Hk "blockedDays"%string.
    read_field Hk "blockedHours"%string.
    read_field Hk "allowedHoursStart"%string.
    read_field Hk "allowedHoursEnd"%string. eauto.
  - read_enabled Hb. read_field Hk "checkIntervalMinutes"%string.
    read_field Hk "timeframeMinutes"%string.
    read_field Hk "thresholdPercent"%string.
    read_field Hk "pauseMinutes"%string. eauto.
  - read_enabled Hb. read_field Hk "lookbackMinutes"%string.
    read_field Hk "decayThreshold"%string. read_field Hk "minCandles"%string.
    eauto.
  - read_enabled Hb. read_field Hk "maxStops"%string.
    read_field Hk "timeWindowMinutes"%string.
    read_field Hk "pauseMinutes"%string. eauto.
  - read_enabled Hb. read_field Hk "blockedDays"%string.
    read_field Hk "blockedHours"%string.
    read_field Hk "allowedHoursStart"%string.
    read_field Hk "allowedHoursEnd"%string. eauto.
  - read_enabled Hb. read_field Hk "checkIntervalMinutes"%string.
    read_field Hk "thresholdPercent"%string.
    read_field Hk "pauseMinutes"%string. eauto.
Qed.

Lemma readable_insert {C : Type} (read : gmap string Cfg.JsValue -> option C)
    (fs : gmap string (gmap string Cfg.JsValue)) (filterName name : string)
    (bag bag1 : gmap string Cfg.JsValue) :
  fs !! filterName = Some bag ->
  (is_Some (read bag) -> is_Some (read bag1)) ->
  is_Some (Cfg.owned (Cfg.slot fs name) ≫= read) ->
  is_Some (Cfg.owned (Cfg.slot (<[filterName := bag1]> fs) name) ≫= read).
Proof.
  intros Hb Hr. unfold Cfg.slot.
  destruct (decide (filterName = name)) as [ <- | Hne ].
  - rewrite lookup_insert_eq, Hb. cbn [Cfg.owned mbind option_bind].
    exact Hr.
  - rewrite lookup_insert_ne by exact Hne. tauto.
Qed.

Lemma enhanced_setFilterParam_readable (parseFloat : Cfg.JsValue -> option Q)
    (filterName param : string) (value : Cfg.JsValue)
    (rc : Enhanced.RuntimeConfig.t) :
  filtersReadable rc ->
  filtersReadable
    (fst (Enhanced.RuntimeConfig.setFilterParam parseFloat filterName param
            value rc)).
Proof.
  intros Hr. unfold Enhanced.RuntimeConfig.setFilterParam.
  assert (Hins : forall bag bag1,
             Enhanced.RuntimeConfig.advancedFilters rc !! filterName
             = Some bag ->
             keepsTypes bag bag1 ->
             filtersReadable
               {| Enhanced.RuntimeConfig.symbolConfigs :=
                    Enhanced.RuntimeConfig.symbolConfigs rc;
                  Enhanced.RuntimeConfig.advancedFilters :=
                    <[filterName := bag1]>
                      (Enhanced.RuntimeConfig.advancedFilters rc) |}).
  { intros bag bag1 Hb Hk.
    destruct (readers_keep bag bag1 Hk) as [(H1 & H2 & H3 & H4) _].
    destruct Hr as (R1 & R2 & R3 & R4).
    unfold filtersReadable, Enhanced.RuntimeConfig.getFilter in *.
    cbn [Enhanced.RuntimeConfig.advancedFilters].
    repeat split; eapply readable_insert; eassumption. }
  destruct (Cfg.slot _ filterName) as [ bag | | ] eqn:Hb;
    [ apply slot_own in Hb | | exact Hr ].
  - destruct (String.eqb param "enabled") eqn:Ep.
    + cbn [fst]. apply (Hins bag); [ exact Hb | apply keepsTypes_enabled ].
    + destruct (parseFloat value) as [ v | ]; [ | exact Hr ].
      cbn [fst]. apply (Hins bag); [ exact Hb | ].
      apply keepsTypes_assign. apply String.eqb_neq. exact Ep.
  - destruct (String.eqb param "enabled"); [ exact Hr | ].
    destruct (parseFloat value); exact Hr.
Qed.

Lemma stable_setFilterParam_readable (parseFloat : Cfg.JsValue -> option Q)
    (filterName param : string) (value : Cfg.JsValue)
    (rs : Stable.RuntimeState.t) :
  stableFiltersReadable rs ->
  stableFiltersReadable
    (fst (Stable.RuntimeState.setFilterParam parseFloat filterName param
            value rs)).
Proof.
  intros Hr. unfold Stable.RuntimeState.setFilterParam.
  assert (Hins : forall bag bag1,
             Stable.RuntimeState.filters rs !! filterName = Some bag ->
             keepsTypes bag bag1 ->
             stableFiltersReadable
               {| Stable.RuntimeState.symbols := Stable.RuntimeState.symbols rs;
                  Stable.RuntimeState.filters :=
                    <[filterName := bag1]> (Stable.RuntimeState.filters rs) |}).
  { intros bag bag1 Hb Hk.
    destruct (readers_keep bag bag1 Hk) as [_ (H1 & H2 & H3 & H4)].
    destruct Hr as (R1 & R2 & R3 & R4).
    unfold stableFiltersReadable, Stable.RuntimeState.getFilter in *.
    cbn [Stable.RuntimeState.filters].
    repeat split; eapply readable_insert; eassumption. }
  destruct (Cfg.slot _ filterName) as [ bag | | ] eqn:Hb;
    [ apply slot_own in Hb | | exact Hr ].
  - destruct (String.eqb param "enabled") eqn:Ep.
    + cbn [fst]. apply (Hins bag); [ exact Hb | apply keepsTypes_enabled ].
    + destruct (parseFloat value) as [ v | ]; [ | exact Hr ].
      cbn [fst]. apply (Hins bag); [ exact Hb | ].
      apply keepsTypes_assign. apply String.eqb_neq. exact Ep.
  - destruct (String.eqb param "enabled"); [ exact Hr | ].
    destruct (parseFloat value); exact Hr.
Qed.

Lemma enh_runCommand_filters (parseFloat : Cfg.JsValue -> option Q)
    (cmd : ConfigCommand) (rc rc1 : Enhanced.RuntimeConfig.t) :
  runCommand parseFloat cmd rc = Some rc1 ->
  filtersReadable rc -> filtersReadable rc1.
Proof.
  assert (Hsame : forall rc2,
             Enhanced.RuntimeConfig.advancedFilters rc2
             = Enhanced.RuntimeConfig.advancedFilters rc ->
             filtersReadable rc -> filtersReadable rc2).
  { intros rc2 E. unfold filtersReadable, Enhanced.RuntimeConfig.getFilter.
    rewrite E. tauto. }
  destruct cmd as [ symbol param value | symbol | symbol
                  | filterName param value ];
    cbn [runCommand].
  - rewrite enhanced_set_unfold.
    destruct (Enhanced.RuntimeConfig.get symbol rc) as [ c | | ];
      [ | | intros [= <-]; auto ];
      (destruct (Cfg.validParam param) as [ p | ];
       [ | intros [= <-]; auto ];
       destruct (parseFloat value) as [ v | ]; [ | intros [= <-]; auto ];
       destruct (inRangeb p v); [ | intros [= <-]; auto ]);
      [ | discriminate ].
    intros [= <-]. apply Hsame. reflexivity.
  - unfold Enhanced.RuntimeConfig.enable.
    destruct (Cfg.slot _ symbol) as [ c | | ];
      [ | discriminate | intros [= <-]; auto ].
    intros [= <-]. apply Hsame. reflexivity.
  - unfold Enhanced.RuntimeConfig.disable.
    destruct (Cfg.slot _ symbol) as [ c | | ];
      [ | discriminate | intros [= <-]; auto ].
    intros [= <-]. apply Hsame. reflexivity.
  - pose proof (enhanced_setFilterParam_readable parseFloat filterName param
                  value rc) as Hf.
    destruct (Enhanced.RuntimeConfig.setFilterParam _ _ _ _ _) as [rc2 out].
    cbn [fst] in Hf. destruct out; cbn [inside]; try discriminate;
      intros [= <-]; exact Hf.
Qed.

(** Every store the commands reach from a readable one, the shipped one
    for instance, gives the signal engine a world. *)
Lemma enhanced_commands_keep_readable (parseFloat : Cfg.JsValue -> option Q)
    (cmds : list ConfigCommand) (rc rc1 : Enhanced.RuntimeConfig.t)
    (h : Enhanced.AggressionDecayFilter.t)
    (s : Enhanced.StopClusterProtection.t)
    (b : Enhanced.BTCVolatilityFilter.t) (now dayOfWeek hourUTC : Q) :
  filtersReadable rc ->
  runCommands parseFloat cmds rc = Some rc1 ->
  filtersReadable rc1
  /\ exists w,
       Enhanced.SignalEngine.ofStore rc1 h s b now dayOfWeek hourUTC = Some w
       /\ Enhanced.SignalEngine.reads rc1 w.
Proof.
  intros Hr Hrun.
  assert (Hr1 : filtersReadable rc1).
  { revert rc Hr Hrun.
    induction cmds as [ | cmd cmds IH ]; intros rc Hr; cbn [runCommands].
    - intros [= <-]. exact Hr.
    - destruct (runCommand parseFloat cmd rc) as [ rc2 | ] eqn:Hcmd;
        [ | discriminate ].
      apply IH. exact (enh_runCommand_filters parseFloat cmd rc rc2 Hcmd Hr). }
  split; [ exact Hr1 | ].
  destruct Hr1 as ([ac Ha] & [sc Hs] & [tc Ht] & [bc Hb]).
  unfold Enhanced.SignalEngine.ofStore, Enhanced.SignalEngine.reads.
  rewrite Ha, Hs, Ht, Hb. cbn [mbind option_bind].
  eexists. split; [ reflexivity | ].
  cbn [Enhanced.SignalEngine.runtimeConfig
       Enhanced.SignalEngine.aggressionConfig Enhanced.SignalEngine.stopConfig
       Enhanced.SignalEngine.timeConfig Enhanced.SignalEngine.btcConfig].
  auto.
Qed.

Example shipped_worlds_read :
  Enhanced.SignalEngine.reads shippedEnhancedConfig calmEnhancedWorld
  /\ filtersReadable shippedEnhancedConfig
  /\ Stable.SignalEngine.reads shippedStableState calmStableWorld
  /\ stableFiltersReadable shippedStableState.
Proof.
  unfold Enhanced.SignalEngine.reads, Stable.SignalEngine.reads,
    filtersReadable, stableFiltersReadable.
  repeat split; try (vm_compute; reflexivity); vm_compute; eauto.
Qed.

(** * Further properties of the enhanced alert path *)

Lemma enh_sendAlert_timers (config : Enhanced.AggressionDecayFilter.Config)
    (now : Q) (symbol : string) (stats : Enhanced.SymbolState.Stats)
    (interpretation : Enhanced.SignalEngine.Interpretation)
    (h : Enhanced.AggressionDecayFilter.t) (am : Enhanced.AlertManager.t) :
  let r :=
    Enhanced.AlertManager.sendAlert config now symbol stats interpretation h
      am in
  snd r = []
  \/ exists timer,
       snd r = [timer]
       /\ Enhanced.AlertManager.timerKey timer
          = Enhanced.CooldownManager.key symbol
              (Enhanced.SymbolState.dominantSide stats)
       /\ Enhanced.AlertManager.delay timer
          = Enhanced.AlertManager.nextMinute now - now.
Proof.
  cbv zeta. unfold Enhanced.AlertManager.sendAlert. cbv zeta.
  destruct (bool_decide _); [ left; reflexivity | ].
  right. eexists. split; [ reflexivity | ]. split; reflexivity.
Qed.

Lemma enh_logStats_cooldown (statsLogInterval now : Q)
    (m : Enhanced.MultiWebSocketManager.t) :
  Enhanced.MultiWebSocketManager.cooldownManager
    (Enhanced.MultiWebSocketManager.logStats statsLogInterval now m)
  = Enhanced.MultiWebSocketManager.cooldownManager m.
Proof.
  unfold Enhanced.MultiWebSocketManager.logStats.
  destruct (Js.ltb _ _); reflexivity.
Qed.

(** A message either leaves the cooldowns alone and sets no timer, or
    passes [canAlert], records its time and sets at most one timer, for
    the key recorded. *)
Lemma enh_handleMessage_cases (statsLogInterval : Q)
    (w : Enhanced.SignalEngine.World) (trade : TradeEvent)
    (m : Enhanced.MultiWebSocketManager.t) :
  let r :=
    Enhanced.MultiWebSocketManager.handleMessage statsLogInterval w trade m in
  (Enhanced.MultiWebSocketManager.cooldownManager (fst r)
   = Enhanced.MultiWebSocketManager.cooldownManager m
   /\ snd r = [])
  \/ (exists stats,
        Enhanced.CooldownManager.canAlert
          (Enhanced.SignalEngine.runtimeConfig w) (Enhanced.SignalEngine.now w)
          (ev_symbol trade) stats
          (Enhanced.MultiWebSocketManager.cooldownManager m) = true
        /\ Enhanced.MultiWebSocketManager.cooldownManager (fst r)
           = Enhanced.CooldownManager.recordAlert (Enhanced.SignalEngine.now w)
               (ev_symbol trade) stats
               (Enhanced.MultiWebSocketManager.cooldownManager m)
        /\ (snd r = []
            \/ exists timer,
                 snd r = [timer]
                 /\ Enhanced.AlertManager.timerKey timer
                    = Enhanced.CooldownManager.key (ev_symbol trade)
                        (Enhanced.SymbolState.dominantSide stats))).
Proof.
  cbv zeta. unfold Enhanced.MultiWebSocketManager.handleMessage. cbv zeta.
  destruct (Enhanced.TradeAggregator.getStats _ _) as [ stats | ];
    [ | left; cbv beta iota; cbn [fst snd];
      rewrite enh_logStats_cooldown; split; reflexivity ].
  cbv beta iota.
  destruct (Enhanced.RuntimeConfig.get _ _) as [ config | | ];
    [ | left; cbv beta iota; cbn [fst snd];
        rewrite enh_logStats_cooldown; split; reflexivity
      | left; cbv beta iota; cbn [fst snd];
        rewrite enh_logStats_cooldown; split; reflexivity ].
  cbv beta iota.
  destruct (Js.geb _ _);
    [ | left; cbv beta iota; cbn [fst snd];
      rewrite enh_logStats_cooldown; split; reflexivity ].
  destruct (Enhanced.SignalEngine.shouldAlert _ _ _) as [ signalCheck | seen e ];
    [ | left; cbn [fst snd Enhanced.MultiWebSocketManager.cooldownManager];
        split; reflexivity ].
  destruct (Enhanced.SignalEngine.allow _);
    [ | left; cbv beta iota; cbn [fst snd];
      rewrite enh_logStats_cooldown; split; reflexivity ].
  cbn [Enhanced.MultiWebSocketManager.cooldownManager
       Enhanced.MultiWebSocketManager.alertManager
       Enhanced.MultiWebSocketManager.aggressionFilter].
  destruct (Enhanced.CooldownManager.canAlert _ _ _ _ _) eqn:Hcan;
    [ | left; cbv beta iota; cbn [fst snd];
      rewrite enh_logStats_cooldown; split; reflexivity ].
  right. exists stats. split; [ exact Hcan | ].
  pose proof (enh_sendAlert_timers (Enhanced.SignalEngine.aggressionConfig w)
                (Enhanced.SignalEngine.now w) (ev_symbol trade) stats
                (Enhanced.SignalEngine.interpretSignal stats)
                (Enhanced.MultiWebSocketManager.aggressionFilter m)
                (Enhanced.MultiWebSocketManager.alertManager m)) as Htm.
  cbv zeta in Htm.
  destruct (Enhanced.AlertManager.sendAlert _ _ _ _ _ _ _)
    as [[am1 h1] timers].
  cbn [fst snd] in *. rewrite enh_logStats_cooldown.
  split; [ reflexivity | ].
  destruct Htm as [ -> | [timer [-> [Hkey _]]] ]; [ left; reflexivity | ].
  right. exists timer. split; [ reflexivity | exact Hkey ].
Qed.

Lemma alertTimes_app (symbol : string) (side : Side)
    (l1 l2 : list (Q * Enhanced.AlertManager.Timer)) :
  alertTimes symbol side (l1 ++ l2)
  = alertTimes symbol side l1 ++ alertTimes symbol side l2.
Proof.
  unfold alertTimes. rewrite List.filter_app, map_app. reflexivity.
Qed.

(** The times logged by one input, for one key, and the cooldowns it
    leaves: nothing and the entry as it was, or one recorded time [t] that
    passed [canAlert] and at most that one time logged. *)
Lemma enh_managerStep_key (statsLogInterval : Q)
    (rc : Enhanced.RuntimeConfig.t) (symbol : string) (side : Side)
    (i : ManagerInput) (m : Enhanced.MultiWebSocketManager.t) :
  inputUnder rc i ->
  let r := managerStep statsLogInterval i m in
  let k := Enhanced.CooldownManager.key symbol side in
  (Enhanced.MultiWebSocketManager.cooldownManager (fst r) !! k
   = Enhanced.MultiWebSocketManager.cooldownManager m !! k
   /\ alertTimes symbol side (snd r) = [])
  \/ (exists (t : Q) (stats : Enhanced.SymbolState.Stats),
        ~ t == 0
        /\ Enhanced.SymbolState.dominantSide stats = side
        /\ Enhanced.CooldownManager.canAlert rc t symbol stats
             (Enhanced.MultiWebSocketManager.cooldownManager m) = true
        /\ Enhanced.MultiWebSocketManager.cooldownManager (fst r) !! k
           = Some t
        /\ (alertTimes symbol side (snd r) = []
            \/ alertTimes symbol side (snd r) = [t])).
Proof.
  intros Hin. cbv zeta. destruct i as [ w trade | delivered timer ].
  - destruct Hin as [Hrc Hnow]. cbn [managerStep fst snd].
    pose proof (enh_handleMessage_cases statsLogInterval w trade m) as Hc.
    cbv zeta in Hc.
    destruct (Enhanced.MultiWebSocketManager.handleMessage _ _ _ _)
      as [m1 timers].
    cbn [fst snd] in *.
    destruct Hc as [ [Hcm ->] | [stats [Hcan [Hcm Htm]]] ].
    + left. rewrite Hcm. split; reflexivity.
    + destruct (decide (Enhanced.CooldownManager.key (ev_symbol trade)
                          (Enhanced.SymbolState.dominantSide stats)
                        = Enhanced.CooldownManager.key symbol side))
        as [ E | E ].
      * right. exists (Enhanced.SignalEngine.now w), stats.
        destruct (enhanced_key_inj _ _ _ _ E) as [Hs Hd].
        rewrite Hs, Hrc in Hcan.
        split; [ exact Hnow | ]. split; [ exact Hd | ].
        split; [ exact Hcan | ].
        rewrite Hcm. unfold Enhanced.CooldownManager.recordAlert,
                       Enhanced.CooldownManager.t.
        rewrite E, lookup_insert_eq. split; [ reflexivity | ].
        destruct Htm as [ -> | [timer [-> Hk]] ]; [ left; reflexivity | ].
        right. unfold alertTimes. cbn [map List.filter snd].
        rewrite Hk, E, String.eqb_refl. reflexivity.
      * left. rewrite Hcm.
        unfold Enhanced.CooldownManager.recordAlert,
          Enhanced.CooldownManager.t.
        rewrite (lookup_insert_ne _ _ _ _ E). split; [ reflexivity | ].
        destruct Htm as [ -> | [timer [-> Hk]] ]; [ reflexivity | ].
        unfold alertTimes. cbn [map List.filter snd].
        rewrite Hk. apply String.eqb_neq in E. rewrite E. reflexivity.
  - left. cbn [managerStep fst snd
               Enhanced.MultiWebSocketManager.cooldownManager].
    split; reflexivity.
Qed.

Lemma enh_canAlert_after (rc : Enhanced.RuntimeConfig.t) (t T : Q)
    (symbol : string) (stats : Enhanced.SymbolState.Stats)
    (cm : Enhanced.CooldownManager.t) (config : Cfg.SymbolConfig) :
  Enhanced.RuntimeConfig.get symbol rc = Cfg.Own config ->
  cm !! Enhanced.CooldownManager.key symbol
          (Enhanced.SymbolState.dominantSide stats) = Some T ->
  ~ T == 0 ->
  Enhanced.CooldownManager.canAlert rc t symbol stats cm = true ->
  T + Cfg.cooldownMinutes config * 60 * 1000 <= t.
Proof.
  intros Hcfg Hl HT. unfold Enhanced.CooldownManager.canAlert.
  unfold Enhanced.CooldownManager.t in *.
  rewrite Hcfg, Hl. apply eqb_false in HT. rewrite HT. cbv zeta.
  intros H. apply geb_true in H. lra.
Qed.

(** While a key holds a recorded time [T], every timer set for it comes
    at least one cooldown after [T]; and the timers are that far apart. *)
Lemma enh_managerRun_after (statsLogInterval : Q)
    (rc : Enhanced.RuntimeConfig.t) (symbol : string) (side : Side)
    (config : Cfg.SymbolConfig) (inputs : list ManagerInput) :
  Enhanced.RuntimeConfig.get symbol rc = Cfg.Own config ->
  0 <= Cfg.cooldownMinutes config ->
  List.Forall (inputUnder rc) inputs ->
  forall (m : Enhanced.MultiWebSocketManager.t) (T : Q),
    Enhanced.MultiWebSocketManager.cooldownManager m
      !! Enhanced.CooldownManager.key symbol side = Some T ->
    ~ T == 0 ->
    let times :=
      alertTimes symbol side (snd (managerRun statsLogInterval inputs m)) in
    List.Forall (fun u => T + Cfg.cooldownMinutes config * 60 * 1000 <= u)
      times
    /\ spaced (Cfg.cooldownMinutes config * 60 * 1000) times.
Proof.
  intros Hcfg Hcd Hin. cbv zeta.
  induction Hin as [ | i inputs Hi _ IH ]; intros m T Hl HT.
  - cbn [managerRun snd]. split; [ constructor | exact I ].
  - cbn [managerRun]. cbv zeta. cbn [fst snd]. rewrite alertTimes_app.
    pose proof (enh_managerStep_key statsLogInterval rc symbol side i m Hi)
      as Hstep.
    cbv zeta in Hstep.
    destruct Hstep as [ [Hk ->] | (t & stats & Ht & Hside & Hcan & Hk & Hout) ].
    + cbn [app]. apply (IH _ T); [ rewrite Hk; exact Hl | exact HT ].
    + subst side.
      pose proof (enh_canAlert_after rc t T symbol stats _ config Hcfg Hl HT
                    Hcan) as Hge.
      destruct (IH _ t Hk Ht) as [IHall IHsp].
      assert (Hrest :
                List.Forall
                  (fun u => T + Cfg.cooldownMinutes config * 60 * 1000 <= u)
                  (alertTimes symbol (Enhanced.SymbolState.dominantSide stats)
                     (snd (managerRun statsLogInterval inputs
                             (fst (managerStep statsLogInterval i m)))))).
      { revert IHall. apply List.Forall_impl. intros u Hu. lra. }
      destruct Hout as [ -> | -> ]; cbn [app].
      * split; assumption.
      * split; [ constructor; assumption | ].
        cbn [spaced]. split; assumption.
Qed.

(** X27.  Enhanced variant, [MultiWebSocketManager.handleMessage] with
    [AlertManager.sendAlert]: under one configuration store with a
    cooldown that is not negative, and clock readings other than zero, the
    alert timers set for one symbol and side are at least
    [cooldownMinutes] apart, whatever the trades, the filters, the order
    of the clock readings and the firing of the timers in between. *)
Theorem enhanced_alerts_respect_cooldown (statsLogInterval : Q)
    (rc : Enhanced.RuntimeConfig.t) (symbol : string) (side : Side)
    (config : Cfg.SymbolConfig) (inputs : list ManagerInput)
    (m : Enhanced.MultiWebSocketManager.t) :
  Enhanced.RuntimeConfig.get symbol rc = Cfg.Own config ->
  0 <= Cfg.cooldownMinutes config ->
  List.Forall (inputUnder rc) inputs ->
  spaced (Cfg.cooldownMinutes config * 60 * 1000)
    (alertTimes symbol side (snd (managerRun statsLogInterval inputs m))).
Proof.
  intros Hcfg Hcd Hin. revert m.
  induction Hin as [ | i inputs Hi Hin IH ]; intros m.
  - exact I.
  - cbn [managerRun]. cbv zeta. cbn [fst snd]. rewrite alertTimes_app.
    pose proof (enh_managerStep_key statsLogInterval rc symbol side i m Hi)
      as Hstep.
    cbv zeta in Hstep.
    destruct Hstep as [ [_ ->] | (t & stats & Ht & Hside & _ & Hk & Hout) ].
    + cbn [app]. apply IH.
    + destruct (enh_managerRun_after statsLogInterval rc symbol side config
                  inputs Hcfg Hcd Hin _ t Hk Ht) as [Hall Hsp].
      destruct Hout as [ -> | -> ]; cbn [app]; [ exact Hsp | ].
      cbn [spaced]. split; assumption.
Qed.

Lemma timerFires_under (rc : Enhanced.RuntimeConfig.t) (delivered : bool)
    (log : list (Q * Enhanced.AlertManager.Timer)) :
  List.Forall (inputUnder rc) (map (fun x => TimerFires delivered (snd x)) log).
Proof.
  induction log as [ | x log IH ]; cbn [map]; constructor;
    [ exact I | exact IH ].
Qed.

Lemma enhanced_alerts_respect_cooldown_witness :
  alertTimes "ADAUSDT" buy (snd (managerRun 60 threeBursts freshManager))
  = [2500; 562500]
  /\ spaced (Cfg.cooldownMinutes adaConfig * 60 * 1000)
       (alertTimes "ADAUSDT" buy (snd (managerRun 60 threeBursts freshManager))).
Proof.
  split; [ vm_compute; reflexivity | ].
  apply (enhanced_alerts_respect_cooldown 60
           (Enhanced.SignalEngine.runtimeConfig calmEnhancedWorld) "ADAUSDT"
           buy adaConfig threeBursts freshManager).
  - reflexivity.
  - apply Qle_bool_iff. reflexivity.
  - unfold threeBursts. apply List.Forall_app. split.
    + unfold firstBurst.
      do 2 (apply List.Forall_cons;
              [ split; [ reflexivity
                       | intros H; vm_compute in H; discriminate H ]
              | ]).
      apply List.Forall_nil.
    + apply List.Forall_app. split; [ apply timerFires_under | ].
      do 4 (apply List.Forall_cons;
              [ split; [ reflexivity
                       | intros H; vm_compute in H; discriminate H ]
              | ]).
      apply List.Forall_nil.
Defined.

Lemma nextMinute_bounds (now : Q) :
  now <= Enhanced.AlertManager.nextMinute now
  /\ Enhanced.AlertManager.nextMinute now < now + 60000.
Proof.
  unfold Enhanced.AlertManager.nextMinute.
  pose proof (Qle_ceiling (now / 60000)) as Hup.
  pose proof (Qceiling_lt (now / 60000)) as Hlo.
  rewrite per_minute in Hup at 1. rewrite per_minute in Hlo at 2.
  unfold Z.sub in Hlo. rewrite inject_Z_plus in Hlo.
  assert (E : inject_Z (-1)%Z == - (1)) by reflexivity.
  rewrite E in Hlo.
  split; lra.
Qed.

(** X28.  Enhanced variant, [AlertManager.sendAlert]: a timer it sets ends
    on a whole minute, less than a minute ahead; after the call the symbol
    and side are pending, so a further call for them changes nothing,
    records no aggression and sets no timer, until the timer's callback
    has run, delivered or not. *)
Theorem enhanced_alert_timer_on_minute
    (config : Enhanced.AggressionDecayFilter.Config) (now : Q)
    (symbol : string) (stats : Enhanced.SymbolState.Stats)
    (interpretation : Enhanced.SignalEngine.Interpretation)
    (h : Enhanced.AggressionDecayFilter.t) (am : Enhanced.AlertManager.t) :
  let r :=
    Enhanced.AlertManager.sendAlert config now symbol stats interpretation h
      am in
  let key :=
    Enhanced.CooldownManager.key symbol
      (Enhanced.SymbolState.dominantSide stats) in
  List.Forall
    (fun timer =>
       0 <= Enhanced.AlertManager.delay timer
       /\ Enhanced.AlertManager.delay timer < 60000
       /\ now + Enhanced.AlertManager.delay timer
          == inject_Z (Qceiling (now / 60000)) * 60000)
    (snd r)
  /\ key ∈ Enhanced.AlertManager.pendingAlerts (fst (fst r))
  /\ (forall now2 stats2 interpretation2,
        Enhanced.SymbolState.dominantSide stats2
        = Enhanced.SymbolState.dominantSide stats ->
        Enhanced.AlertManager.sendAlert config now2 symbol stats2
          interpretation2 (snd (fst r)) (fst (fst r))
        = (fst (fst r), snd (fst r), []))
  /\ (forall delivered timer,
        In timer (snd r) ->
        key ∉ Enhanced.AlertManager.pendingAlerts
                (Enhanced.AlertManager.fire delivered timer (fst (fst r)))).
Proof.
  cbv zeta.
  remember (Enhanced.AlertManager.sendAlert config now symbol stats
              interpretation h am) as r eqn:Hr.
  unfold Enhanced.AlertManager.sendAlert in Hr. cbv zeta in Hr.
  destruct (bool_decide
              (Enhanced.CooldownManager.key symbol
                 (Enhanced.SymbolState.dominantSide stats)
               ∈ Enhanced.AlertManager.pendingAlerts am)) eqn:Hp;
    subst r; cbn [fst snd].
  - apply bool_decide_eq_true_1 in Hp.
    split; [ constructor | ]. split; [ exact Hp | ]. split.
    + intros now2 stats2 interpretation2 Hside.
      unfold Enhanced.AlertManager.sendAlert. cbv zeta. rewrite Hside.
      rewrite (bool_decide_eq_true_2 _ Hp). reflexivity.
    + intros delivered timer Hin. cbn [In] in Hin. destruct Hin.
  - split.
    { constructor; [ | constructor ].
      cbn [Enhanced.AlertManager.delay].
      destruct (nextMinute_bounds now) as [Hlo Hhi].
      split; [ lra | ]. split; [ lra | ].
      unfold Enhanced.AlertManager.nextMinute. ring. }
    split; [ cbn [Enhanced.AlertManager.pendingAlerts]; set_solver | ].
    split.
    + intros now2 stats2 interpretation2 Hside.
      unfold Enhanced.AlertManager.sendAlert. cbv zeta. rewrite Hside.
      cbn [Enhanced.AlertManager.pendingAlerts].
      rewrite bool_decide_eq_true_2 by set_solver. reflexivity.
    + intros delivered timer Hin. cbn [In] in Hin.
      destruct Hin as [ <- | [] ].
      unfold Enhanced.AlertManager.fire.
      cbn [Enhanced.AlertManager.pendingAlerts
           Enhanced.AlertManager.timerKey].
      intros Hk. apply elem_of_difference in Hk as [_ Hn].
      apply Hn. apply elem_of_singleton. reflexivity.
Qed.

(** * Further properties of the stable alert path *)

Lemma alertMinutes_app (symbol : string)
    (l1 l2 : list (string * Z * Stable.TradeAggregator.Stats)) :
  alertMinutes symbol (l1 ++ l2)
  = alertMinutes symbol l1 ++ alertMinutes symbol l2.
Proof.
  unfold alertMinutes. rewrite List.filter_app, map_app. reflexivity.
Qed.

(** One message, seen from one symbol: either its last checked minute
    stays and no alert of the symbol is sent, or the message is of that
    symbol, its minute is above the last checked one and becomes the last
    checked one, and at most one alert is sent. *)
Lemma stable_handleMessage_minute (w : Stable.SignalEngine.World)
    (trade : TradeEvent) (m : Stable.MultiWebSocketManager.t)
    (symbol : string) :
  let r := Stable.MultiWebSocketManager.handleMessage w trade m in
  let minute := Qfloor (Stable.SignalEngine.now w / 60000) in
  (Stable.MultiWebSocketManager.lastMinuteCheck (snd (fst r)) !! symbol
   = Stable.MultiWebSocketManager.lastMinuteCheck m !! symbol
   /\ (snd r = [] \/ ev_symbol trade <> symbol))
  \/ (ev_symbol trade = symbol
      /\ (default 0 (Stable.MultiWebSocketManager.lastMinuteCheck m !! symbol)
          < minute)%Z
      /\ Stable.MultiWebSocketManager.lastMinuteCheck (snd (fst r)) !! symbol
         = Some minute
      /\ (snd r = [] \/ exists stats, snd r = [stats])).
Proof.
  cbv zeta. unfold Stable.MultiWebSocketManager.handleMessage. cbv zeta.
  destruct (_ <? _)%Z eqn:Hgate;
    [ | left; cbn [fst snd Stable.MultiWebSocketManager.lastMinuteCheck];
        split; [ reflexivity | left; reflexivity ] ].
  apply Z.ltb_lt in Hgate.
  assert (Hlm : forall P : Prop,
             (ev_symbol trade = symbol -> P) ->
             (<[ev_symbol trade :=
                  Qfloor (Stable.SignalEngine.now w / 60000)]>
                (Stable.MultiWebSocketManager.lastMinuteCheck m) !! symbol
              = Stable.MultiWebSocketManager.lastMinuteCheck m !! symbol
              /\ ev_symbol trade <> symbol)
             \/ (P /\ <[ev_symbol trade :=
                          Qfloor (Stable.SignalEngine.now w / 60000)]>
                        (Stable.MultiWebSocketManager.lastMinuteCheck m)
                      !! symbol
                      = Some (Qfloor (Stable.SignalEngine.now w / 60000)))).
  { intros P HP. destruct (decide (ev_symbol trade = symbol)) as [ E | E ].
    - right. split; [ exact (HP E) | ]. rewrite E. apply lookup_insert_eq.
    - left. split; [ apply lookup_insert_ne; exact E | exact E ]. }
  destruct (Hlm (ev_symbol trade = symbol
                 /\ (default 0
                       (Stable.MultiWebSocketManager.lastMinuteCheck m
                          !! symbol)
                     < Qfloor (Stable.SignalEngine.now w / 60000))%Z))
    as [ [Hsame Hne] | [[Hs Hlt] Hnew] ].
  { intros E. split; [ exact E | ]. rewrite <- E. exact Hgate. }
  - left.
    destruct (Stable.TradeAggregator.getStats _ _ _) as [ stats | ];
      [ | cbn [fst snd Stable.MultiWebSocketManager.lastMinuteCheck];
          split; [ exact Hsame | right; exact Hne ] ].
    destruct (Stable.SignalEngine.checkSignal w stats)
      as [w1 [ signalCheck | seen e ]];
      [ | cbn [fst snd Stable.MultiWebSocketManager.lastMinuteCheck];
          split; [ exact Hsame | right; exact Hne ] ].
    destruct (Stable.SignalEngine.signal _);
      [ | cbn [fst snd Stable.MultiWebSocketManager.lastMinuteCheck];
          split; [ exact Hsame | right; exact Hne ] ].
    destruct (Stable.CooldownManager.isInCooldown _ _ _ _)
      as [cm1 inCooldown].
    destruct (negb inCooldown);
      [ | cbn [fst snd Stable.MultiWebSocketManager.lastMinuteCheck];
          split; [ exact Hsame | right; exact Hne ] ].
    destruct (Stable.AlertManager.sendAlert _ _) as [am1 sent].
    cbn [fst snd Stable.MultiWebSocketManager.lastMinuteCheck].
    split; [ exact Hsame | right; exact Hne ].
  - right. split; [ exact Hs | ]. split; [ exact Hlt | ].
    destruct (Stable.TradeAggregator.getStats _ _ _) as [ stats | ];
      [ | cbn [fst snd Stable.MultiWebSocketManager.lastMinuteCheck];
          split; [ exact Hnew | left; reflexivity ] ].
    destruct (Stable.SignalEngine.checkSignal w stats)
      as [w1 [ signalCheck | seen e ]];
      [ | cbn [fst snd Stable.MultiWebSocketManager.lastMinuteCheck];
          split; [ exact Hnew | left; reflexivity ] ].
    destruct (Stable.SignalEngine.signal _);
      [ | cbn [fst snd Stable.MultiWebSocketManager.lastMinuteCheck];
          split; [ exact Hnew | left; reflexivity ] ].
    destruct (Stable.CooldownManager.isInCooldown _ _ _ _)
      as [cm1 inCooldown].
    destruct (negb inCooldown);
      [ | cbn [fst snd Stable.MultiWebSocketManager.lastMinuteCheck];
          split; [ exact Hnew | left; reflexivity ] ].
    unfold Stable.AlertManager.sendAlert.
    cbn [fst snd Stable.MultiWebSocketManager.lastMinuteCheck].
    split; [ exact Hnew | right; eexists; reflexivity ].
Qed.

(** X29.  Stable variant, [MultiWebSocketManager.handleMessage]: a symbol
    is checked at most once per wall-clock minute, and only in a minute
    above the last one checked; so the minutes of the alerts sent for one
    symbol are strictly increasing and above the last minute checked at
    the start, whatever the trades, the filters and the order of the
    clock readings. *)
Theorem stable_one_alert_per_minute (arrivals : list Arrival)
    (w : Stable.SignalEngine.World) (m : Stable.MultiWebSocketManager.t)
    (symbol : string) :
  let minutes :=
    alertMinutes symbol (snd (stableManagerRun arrivals w m)) in
  List.Forall
    (fun u =>
       (default 0 (Stable.MultiWebSocketManager.lastMinuteCheck m !! symbol)
        < u)%Z)
    minutes
  /\ ascending minutes.
Proof.
  cbv zeta. revert w m.
  induction arrivals as [ | a arrivals IH ]; intros w m.
  - cbn [stableManagerRun snd]. split; [ constructor | exact I ].
  - cbn [stableManagerRun]. cbv zeta. cbn [fst snd].
    rewrite alertMinutes_app.
    pose proof (stable_handleMessage_minute (withClock w a) (arr_trade a) m
                  symbol) as Hstep.
    cbv zeta in Hstep. cbn [withClock Stable.SignalEngine.now] in Hstep.
    destruct (IH (fst (fst (Stable.MultiWebSocketManager.handleMessage
                              (withClock w a) (arr_trade a) m)))
                (snd (fst (Stable.MultiWebSocketManager.handleMessage
                             (withClock w a) (arr_trade a) m))))
      as [IHall IHasc].
    destruct Hstep as [ [Hlm Hout] | (Hs & Hlt & Hlm & Hout) ].
    + rewrite Hlm in IHall.
      assert (Hnone :
                alertMinutes symbol
                  (map (fun stats =>
                          (ev_symbol (arr_trade a),
                           Qfloor (arr_now a / 60000), stats))
                     (snd (Stable.MultiWebSocketManager.handleMessage
                             (withClock w a) (arr_trade a) m))) = []).
      { destruct Hout as [ -> | Hne ]; [ reflexivity | ].
        unfold alertMinutes.
        apply String.eqb_neq in Hne.
        induction (snd (Stable.MultiWebSocketManager.handleMessage
                          (withClock w a) (arr_trade a) m))
          as [ | st sts IHs ]; [ reflexivity | ].
        cbn [map List.filter fst]. rewrite Hne. exact IHs. }
      rewrite Hnone. cbn [app]. split; assumption.
    + rewrite Hlm in IHall. cbn [default] in IHall.
      assert (Hrest :
                List.Forall
                  (fun u =>
                     (default 0
                        (Stable.MultiWebSocketManager.lastMinuteCheck m
                           !! symbol) < u)%Z)
                  (alertMinutes symbol
                     (snd (stableManagerRun arrivals
                             (fst (fst (Stable.MultiWebSocketManager.handleMessage
                                          (withClock w a) (arr_trade a) m)))
                             (snd (fst (Stable.MultiWebSocketManager.handleMessage
                                          (withClock w a) (arr_trade a)
                                          m))))))).
      { revert IHall. apply List.Forall_impl. intros u Hu.
        unfold id in Hu. lia. }
      unfold id in IHall.
      destruct Hout as [ -> | [stats ->] ].
      * cbn [map app]. unfold alertMinutes at 1 3. cbn [List.filter map app].
        split; assumption.
      * unfold alertMinutes at 1 3. cbn [map List.filter fst snd].
        rewrite Hs, String.eqb_refl. cbn [map fst snd app].
        split; [ constructor; assumption | ].
        cbn [ascending]. split; assumption.
Qed.

(** * Further properties of the reconnection *)

Lemma closes_backoff (N : nat) (symbol : string) (n : nat) :
  forall (a : nat) (ra : gmap string Q) (i : nat),
    default 0 (ra !! symbol) == inject_Z (Z.of_nat a) ->
    (i < n)%nat ->
    backoffAt N a i (snd (closes (inject_Z (Z.of_nat N)) symbol n ra)).
Proof.
  induction n as [ | n IH ]; intros a ra i Ha Hi; [ lia | ].
  cbn [closes]. cbv zeta. cbn [snd].
  unfold Enhanced.MultiWebSocketManager.reconnectSymbol. cbv zeta.
  destruct (Js.geb (default 0 (ra !! symbol)) (inject_Z (Z.of_nat N)))
    eqn:Hcap; cbn [fst snd].
  - apply geb_true in Hcap. rewrite Ha, <- Zle_Qle in Hcap.
    destruct i as [ | j ]; unfold backoffAt; cbn [nth_error]; [ lia | ].
    assert (Hj : (j < n)%nat) by lia.
    specialize (IH a ra j Ha Hj). unfold backoffAt in IH.
    destruct (nth_error _ j) as [ [ d | ] | ]; [ lia | lia | exact IH ].
  - apply geb_false in Hcap. rewrite Ha, <- Zlt_Qlt in Hcap.
    destruct i as [ | j ]; unfold backoffAt; cbn [nth_error].
    + split; [ lia | ]. rewrite Ha.
      replace (Z.of_nat (a + 0 + 1)) with (Z.of_nat a + 1)%Z by lia.
      rewrite inject_Z_plus. reflexivity.
    + assert (Hj : (j < n)%nat) by lia.
      assert (Ha1 : default 0
                      (<[symbol := default 0 (ra !! symbol) + 1]> ra !! symbol)
                    == inject_Z (Z.of_nat (S a))).
      { rewrite lookup_insert_eq. cbn [default from_option]. unfold id.
        rewrite Ha, Nat2Z.inj_succ, <- Z.add_1_r, inject_Z_plus.
        reflexivity. }
      specialize (IH (S a) _ j Ha1 Hj). unfold backoffAt in IH.
      replace (a + S j)%nat with (S a + j)%nat by lia.
      exact IH.
Qed.

(** X30.  Both variants, [MultiWebSocketManager.reconnectSymbol] with the
    [open] handler: after a connection has opened, a row of [close]
    events schedules reconnects after 5, 10, 15, ... seconds, five
    seconds more each time, and once [MAX_RECONNECTS] reconnects have
    been scheduled a [close] schedules none. *)
Theorem reconnect_backoff (N : nat) (symbol : string) (n i : nat)
    (ra : gmap string Q) :
  (i < n)%nat ->
  backoffAt N 0 i
    (snd (closes (inject_Z (Z.of_nat N)) symbol n
            (Enhanced.MultiWebSocketManager.onOpen symbol ra)))
  /\ backoffAt N 0 i
       (snd (stableCloses (inject_Z (Z.of_nat N)) symbol n
               (Stable.MultiWebSocketManager.onOpen symbol ra))).
Proof.
  intros Hi.
  assert (H : backoffAt N 0 i
                (snd (closes (inject_Z (Z.of_nat N)) symbol n
                        (Enhanced.MultiWebSocketManager.onOpen symbol ra)))).
  { apply closes_backoff; [ | exact Hi ].
    unfold Enhanced.MultiWebSocketManager.onOpen.
    rewrite lookup_insert_eq. reflexivity. }
  split; [ exact H | ].
  assert (E : forall k r,
             stableCloses (inject_Z (Z.of_nat N)) symbol k r
             = closes (inject_Z (Z.of_nat N)) symbol k r).
  { induction k as [ | k IHk ]; intros r; [ reflexivity | ].
    cbn [stableCloses closes]. cbv zeta.
    change (Stable.MultiWebSocketManager.reconnectSymbol
              (inject_Z (Z.of_nat N)) symbol r)
      with (Enhanced.MultiWebSocketManager.reconnectSymbol
              (inject_Z (Z.of_nat N)) symbol r).
    rewrite IHk. reflexivity. }
  rewrite E. exact H.
Qed.

Lemma reconnect_backoff_witness :
  snd (closes 3 "ADAUSDT" 5
         (Enhanced.MultiWebSocketManager.onOpen "ADAUSDT" ∅))
  = [Some 5000; Some 10000; Some 15000; None; None]
  /\ backoffAt 3 0 2
       (snd (closes (inject_Z (Z.of_nat 3)) "ADAUSDT" 5
               (Enhanced.MultiWebSocketManager.onOpen "ADAUSDT" ∅)))
  /\ backoffAt 3 0 2
       (snd (stableCloses (inject_Z (Z.of_nat 3)) "ADAUSDT" 5
               (Stable.MultiWebSocketManager.onOpen "ADAUSDT" ∅))).
Proof.
  split; [ vm_compute; reflexivity | ].
  apply (reconnect_backoff 3 "ADAUSDT" 5 2 ∅). lia.
Defined.
